(** * The Onion virtual file driver (H5FDonion.c): a shallow embedding

    The development follows the layout of [H5FDonion.c] and
    [H5FDonion_priv.h]: the index structures, the binary codecs, the
    page-granular read and write paths and the open orchestrator.  Machine
    integers are [Z] with their wrap-around written out, buffers are lists of
    bytes, and every function that can fail returns the (major, minor) error
    pair it pushes with [HGOTO_ERROR]. *)

From Stdlib Require Import ZArith Lia.
From stdpp Require Import base list strings gmap.

Local Open Scope Z_scope.

(** ** Machine integers and bytes *)

Definition u8 (x : Z) : Z := x mod 2 ^ 8.
Definition u32 (x : Z) : Z := x mod 2 ^ 32.
Definition u64 (x : Z) : Z := x mod 2 ^ 64.

(** A byte is a [Z] in [0, 256). *)
Definition is_byte (b : Z) : Prop := 0 <= b < 256.

(** [POWER_OF_TWO(n)] of H5private.h: [(!(n & (n - 1)) && n)]. *)
Definition POWER_OF_TWO (n : Z) : bool :=
  (Z.land n (n - 1) =? 0) && negb (n =? 0).

(** [U64_EXP2(n)]: [(uint64_t)1 << n]. *)
Definition U64_EXP2 (n : Z) : Z := u64 (Z.shiftl 1 n).

(** The loop [for (k = 0; ((1 << k) & page_size) == 0; k++);] that stores
    log2(page_size); it runs at most 32 times on a nonzero 32-bit value. *)
Fixpoint log2_loop (fuel : nat) (k page_size : Z) : Z :=
  match fuel with
  | O => k
  | S fuel' =>
      if Z.land (u32 (Z.shiftl 1 k)) page_size =? 0
      then log2_loop fuel' (k + 1) page_size
      else k
  end.

Definition page_size_to_log2 (page_size : Z) : Z := log2_loop 32 0 page_size.

(** ** Error codes pushed by [HGOTO_ERROR] *)

Inductive H5E_major : Set :=
| H5E_ARGS | H5E_VFL | H5E_RESOURCE | H5E_FILE.

Inductive H5E_minor : Set :=
| H5E_BADVALUE | H5E_BADRANGE | H5E_UNSUPPORTED | H5E_CANTOPENFILE
| H5E_CANTCREATE | H5E_CANTDECODE | H5E_CANTALLOC | H5E_CANTSET
| H5E_CANTINIT | H5E_CANTINSERT | H5E_READERROR | H5E_WRITEERROR
| H5E_INTERNAL | H5E_NONE_MINOR.

Definition H5E : Set := (H5E_major * H5E_minor)%type.

(** [herr_t]: SUCCEED, or FAIL together with the error of the failing
    function. *)
Inductive herr_t : Set :=
| SUCCEED
| FAIL (e : H5E).

(** ** Little-endian integer macros

    Modelled from the spec: the macros UINT32ENCODE, UINT64ENCODE,
    UINT32DECODE and UINT64DECODE live in H5Fprivate.h, which is not among
    the sources; section 4.1 fixes them: all multi-byte integers are
    little-endian.  A decode reads exactly as many bytes as the macro names
    (4 or 8), whatever the width of the destination. *)

Fixpoint le_encode (n : nat) (x : Z) : list Z :=
  match n with
  | O => []
  | S n' => x mod 256 :: le_encode n' (x / 256)
  end.

Fixpoint le_decode (bs : list Z) : Z :=
  match bs with
  | [] => 0
  | b :: bs' => b + 256 * le_decode bs'
  end.

Definition UINT32ENCODE (i : Z) : list Z := le_encode 4 i.
Definition UINT64ENCODE (n : Z) : list Z := le_encode 8 n.
Definition UINT32DECODE (p : list Z) : Z := le_decode (take 4 p).
Definition UINT64DECODE (p : list Z) : Z := le_decode (take 8 p).

(** [memcpy(&ui, ptr, n)] out of a buffer: the [n] bytes at offset [off]. *)
Definition bytes_at (buf : list Z) (off : Z) (n : nat) : list Z :=
  take n (drop (Z.to_nat off) buf).

(** [HDstrncmp(buf, signature, 4) == 0] on the four signature bytes (none
    of them is NUL). *)
Fixpoint bytes_eqb (a b : list Z) : bool :=
  match a, b with
  | [], [] => true
  | x :: a', y :: b' => (x =? y) && bytes_eqb a' b'
  | _, _ => false
  end.

(** [NULL == p] *)
Definition is_null {A : Type} (p : option A) : bool :=
  match p with
  | None => true
  | Some _ => false
  end.

(** ** Constants of H5FDonion_priv.h *)

Definition H5FD__ONION_ARCHIVAL_INDEX_MAGIC : Z := 0x11111111.
Definition H5FD__ONION_ARCHIVAL_INDEX_VERSION_CURR : Z := 1.

Definition H5FD__ONION_ENCODED_SIZE_HEADER : Z := 40.
Definition H5FD__ONION_ENCODED_SIZE_INDEX_ENTRY : Z := 20.
Definition H5FD__ONION_ENCODED_SIZE_RECORD_POINTER : Z := 20.
Definition H5FD__ONION_ENCODED_SIZE_REVISION_RECORD : Z := 76.
Definition H5FD__ONION_ENCODED_SIZE_WHOLE_HISTORY : Z := 20.

Definition H5FD__ONION_HEADER_FLAG_WRITE_LOCK : Z := 0x1.
Definition H5FD__ONION_HEADER_FLAG_DIVERGENT_HISTORY : Z := 0x2.
Definition H5FD__ONION_HEADER_FLAG_PAGE_ALIGNMENT : Z := 0x4.
Definition H5FD__ONION_HEADER_MAGIC : Z := 0x433421fa.
(** "OHDH" *)
Definition H5FD__ONION_HEADER_SIGNATURE : list Z := [79; 72; 68; 72].
Definition H5FD__ONION_HEADER_VERSION_CURR : Z := 1.

Definition H5FD__ONION_REVISION_INDEX_MAGIC : Z := 0x22222222.
Definition H5FD__ONION_REVISION_INDEX_STARTING_SIZE_LOG2 : Z := 10.
Definition H5FD__ONION_REVISION_INDEX_VERSION_CURR : Z := 1.

Definition H5FD__ONION_REVISION_RECORD_MAGIC : Z := 0x54672381.
(** "ORRS" *)
Definition H5FD__ONION_REVISION_RECORD_SIGNATURE : list Z := [79; 82; 82; 83].
Definition H5FD__ONION_REVISION_RECORD_VERSION_CURR : Z := 1.

Definition H5FD__ONION_WHOLE_HISTORY_MAGIC : Z := 0xb38a0921.
(** "OWHS" *)
Definition H5FD__ONION_WHOLE_HISTORY_SIGNATURE : list Z := [79; 87; 72; 83].
Definition H5FD__ONION_WHOLE_HISTORY_VERSION_CURR : Z := 1.

(** ** Structures of H5FDonion_priv.h *)

Record H5FD__onion_index_entry : Set := {
  logi_page : Z;
  phys_addr : Z
}.

(** [list] is a pointer: [None] is NULL.  Reading [list[i]] past the
    allocation is undefined in C; [aix_at] yields a zero entry there and
    every statement below keeps [n_entries] equal to the allocated length. *)
Record H5FD__onion_archival_index : Set := {
  aix_magic : Z;
  aix_version : Z;
  aix_page_size_log2 : Z;
  aix_n_entries : Z;
  aix_list : option (list H5FD__onion_index_entry)
}.

Definition entry_zero : H5FD__onion_index_entry :=
  {| logi_page := 0; phys_addr := 0 |}.

Definition aix_at (aix : H5FD__onion_archival_index) (i : Z)
  : H5FD__onion_index_entry :=
  default entry_zero (default [] (aix_list aix) !! Z.to_nat i).

(** The hash table is an array of [_hash_table_size] buckets; a bucket is
    its chain of nodes from the head on (NULL is the empty chain).  The
    nodes' own magic and version are only asserted, they are left out. *)
Record H5FD__onion_revision_index_t : Set := {
  rix_magic : Z;
  rix_version : Z;
  rix_page_size_log2 : Z;
  rix_n_entries : Z;
  _hash_table_size : Z;
  _hash_table_size_log2 : Z;
  _hash_table_n_keys_populated : Z;
  _hash_table : list (list H5FD__onion_index_entry)
}.

Definition bucket (table : list (list H5FD__onion_index_entry)) (key : Z)
  : list H5FD__onion_index_entry :=
  default [] (table !! Z.to_nat key).

(** ** Archival index *)

(** H5FD_onion_archival_index_is_valid *)
Fixpoint strictly_ascending (prev : Z) (l : list H5FD__onion_index_entry)
  : bool :=
  match l with
  | [] => true
  | e :: l' => (prev <? logi_page e) && strictly_ascending (logi_page e) l'
  end.

Definition H5FD_onion_archival_index_is_valid
  (aix : H5FD__onion_archival_index) : bool :=
  if negb (aix_magic aix =? H5FD__ONION_ARCHIVAL_INDEX_MAGIC) then false
  else if negb (aix_version aix =? H5FD__ONION_ARCHIVAL_INDEX_VERSION_CURR)
  then false
  else match aix_list aix with
       | None => false
       | Some l =>
           match take (Z.to_nat (aix_n_entries aix)) l with
           | [] => true
           | e :: l' => strictly_ascending (logi_page e) l'
           end
       end.

(** The [while (range > 0)] loop of H5FD_onion_archival_index_find.  The
    result is [inl x] when the loop leaves through [goto done] with the
    element found at the fence, [inr (low, high, n)] when it runs out.  The
    range shrinks at every turn, so [fuel] = the first range suffices. *)
Fixpoint archival_find_loop (fuel : nat) (aix : H5FD__onion_archival_index)
  (logi : Z) (low high n range : Z)
  : H5FD__onion_index_entry + (Z * Z * Z) :=
  if range >? 0 then
    match fuel with
    | O => inr (low, high, n)
    | S fuel' =>
        let n := u64 (low + range / 2) in
        let x := aix_at aix n in
        if logi_page x =? logi then inl x
        else
          let '(low, high) :=
            if logi_page x <? logi
            then ((if n =? high then high else u64 (n + 1)), high)
            else (low, (if n =? low then low else u64 (n - 1))) in
          archival_find_loop fuel' aix logi low high n (u64 (high - low))
    end
  else inr (low, high, n).

(** H5FD_onion_archival_index_find: [None] is the return value 0 (entry
    out pointer untouched), [Some x] is 1 with the entry pointed at. *)
Definition H5FD_onion_archival_index_find (aix : H5FD__onion_archival_index)
  (logi : Z) : option H5FD__onion_index_entry :=
  let high := u64 (aix_n_entries aix - 1) in
  let range := high in
  if aix_n_entries aix =? 0 then None
  else if logi >? logi_page (aix_at aix high) then None
  else if logi <? logi_page (aix_at aix 0) then None
  else
    match archival_find_loop (Z.to_nat range) aix logi 0 high 0 range with
    | inl x => Some x
    | inr (low, high, n) =>
        if (negb (n =? low) || negb (n =? high))
           && (logi_page (aix_at aix low) =? logi)
        then Some (aix_at aix low)
        else None
    end.

(** ** Revision index *)

(** H5FD_onion_revision_index_init: [None] is the NULL return (page size
    zero or not a power of two); allocation is taken to succeed. *)
Definition H5FD_onion_revision_index_init (page_size : Z)
  : option H5FD__onion_revision_index_t :=
  let table_size := U64_EXP2 H5FD__ONION_REVISION_INDEX_STARTING_SIZE_LOG2 in
  if page_size =? 0 then None
  else if negb (POWER_OF_TWO page_size) then None
  else Some {|
    rix_magic := H5FD__ONION_REVISION_INDEX_MAGIC;
    rix_version := H5FD__ONION_REVISION_INDEX_VERSION_CURR;
    rix_page_size_log2 := page_size_to_log2 page_size;
    rix_n_entries := 0;
    _hash_table_size := table_size;
    _hash_table_size_log2 := H5FD__ONION_REVISION_INDEX_STARTING_SIZE_LOG2;
    _hash_table_n_keys_populated := 0;
    _hash_table := replicate (Z.to_nat table_size) []
  |}.

(** One turn of the inner [while (rix->_hash_table[i] != NULL)] loop of
    H5FD__onion_revision_index_resize: [node] has been popped off bucket
    [i] of the old table. *)
Definition resize_rehash_node (new_size i : Z)
  (acc : list (list H5FD__onion_index_entry) * Z)
  (node : H5FD__onion_index_entry)
  : list (list H5FD__onion_index_entry) * Z :=
  let '(new_table, new_n_keys_populated) := acc in
  let key := Z.land (logi_page node) (new_size - 1) in
  match bucket new_table key with
  | [] => (<[Z.to_nat key := [node]]> new_table, new_n_keys_populated + 1)
  | _ :: _ =>
      (<[Z.to_nat i := node :: bucket new_table i]> new_table,
       new_n_keys_populated)
  end.

(** The outer [for (i = 0; i < rix->_hash_table_size; i++)] loop. *)
Fixpoint resize_rehash_table (new_size i : Z)
  (old_table : list (list H5FD__onion_index_entry))
  (acc : list (list H5FD__onion_index_entry) * Z)
  : list (list H5FD__onion_index_entry) * Z :=
  match old_table with
  | [] => acc
  | chain :: rest =>
      resize_rehash_table new_size (i + 1) rest
        (foldl (resize_rehash_node new_size i) acc chain)
  end.

(** H5FD__onion_revision_index_resize (allocation taken to succeed). *)
Definition H5FD__onion_revision_index_resize
  (rix : H5FD__onion_revision_index_t) : H5FD__onion_revision_index_t :=
  let new_size_log2 := u64 (_hash_table_size_log2 rix + 1) in
  let new_size := U64_EXP2 new_size_log2 in
  let '(new_table, new_n_keys_populated) :=
    resize_rehash_table new_size 0
      (take (Z.to_nat (_hash_table_size rix)) (_hash_table rix))
      (replicate (Z.to_nat new_size) [], 0) in
  {| rix_magic := rix_magic rix;
     rix_version := rix_version rix;
     rix_page_size_log2 := rix_page_size_log2 rix;
     rix_n_entries := rix_n_entries rix;
     _hash_table_size := new_size;
     _hash_table_size_log2 := new_size_log2;
     _hash_table_n_keys_populated := new_n_keys_populated;
     _hash_table := new_table |}.

(** The chain walk of H5FD_onion_revision_index_insert: [inl e] is the
    physical address mismatch, [inr (chain', appended)] the chain after the
    walk, with the node updated in place or appended at the tail. *)
Fixpoint insert_chain (entry : H5FD__onion_index_entry)
  (chain : list H5FD__onion_index_entry)
  : H5E + (list H5FD__onion_index_entry * bool) :=
  match chain with
  | [] => inr ([entry], true)
  | node :: rest =>
      if logi_page entry =? logi_page node then
        if negb (phys_addr entry =? phys_addr node)
        then inl (H5E_ARGS, H5E_BADVALUE)
        else inr (entry :: rest, false)
      else
        match insert_chain entry rest with
        | inl e => inl e
        | inr (rest', appended) => inr (node :: rest', appended)
        end
  end.

Definition rix_set_table (rix : H5FD__onion_revision_index_t)
  (n_entries n_keys_populated : Z)
  (table : list (list H5FD__onion_index_entry))
  : H5FD__onion_revision_index_t :=
  {| rix_magic := rix_magic rix;
     rix_version := rix_version rix;
     rix_page_size_log2 := rix_page_size_log2 rix;
     rix_n_entries := n_entries;
     _hash_table_size := _hash_table_size rix;
     _hash_table_size_log2 := _hash_table_size_log2 rix;
     _hash_table_n_keys_populated := n_keys_populated;
     _hash_table := table |}.

(** H5FD_onion_revision_index_insert.  The index is updated through the
    pointer, so the index as it stands is returned on failure as well (a
    resize is not undone by a later mismatch). *)
Definition H5FD_onion_revision_index_insert
  (rix : H5FD__onion_revision_index_t) (entry : H5FD__onion_index_entry)
  : herr_t * H5FD__onion_revision_index_t :=
  if negb (rix_magic rix =? H5FD__ONION_REVISION_INDEX_MAGIC)
  then (FAIL (H5E_ARGS, H5E_BADVALUE), rix)
  else if negb (rix_version rix =? H5FD__ONION_REVISION_INDEX_VERSION_CURR)
  then (FAIL (H5E_ARGS, H5E_BADVALUE), rix)
  else
    let rix :=
      if (rix_n_entries rix >=? u64 (_hash_table_size rix * 2))
         || (_hash_table_n_keys_populated rix >=? _hash_table_size rix / 2)
      then H5FD__onion_revision_index_resize rix
      else rix in
    let key := Z.land (logi_page entry) (u64 (_hash_table_size rix - 1)) in
    match bucket (_hash_table rix) key with
    | [] =>
        (SUCCEED,
         rix_set_table rix (u64 (rix_n_entries rix + 1))
           (u64 (_hash_table_n_keys_populated rix + 1))
           (<[Z.to_nat key := [entry]]> (_hash_table rix)))
    | chain =>
        match insert_chain entry chain with
        | inl e => (FAIL e, rix)
        | inr (chain', appended) =>
            (SUCCEED,
             rix_set_table rix
               (if appended then u64 (rix_n_entries rix + 1)
                else rix_n_entries rix)
               (_hash_table_n_keys_populated rix)
               (<[Z.to_nat key := chain']> (_hash_table rix)))
        end
    end.

(** H5FD_onion_revision_index_find *)
Definition H5FD_onion_revision_index_find
  (rix_p : H5FD__onion_revision_index_t) (logi : Z)
  : option H5FD__onion_index_entry :=
  let key := Z.land logi (u64 (_hash_table_size rix_p - 1)) in
  List.find (fun node => logi =? logi_page node)
    (bucket (_hash_table rix_p) key).

(** ** Merge of the revision index into the archival index *)

(** [HDqsort] with H5FD__onion_archival_index_list_sort_compar: ascending
    by [logi_page].  The C library leaves the order of entries that compare
    equal open; here they keep the order in which they stand in the array
    (a stable insertion sort: an entry is put in front of the first entry
    whose page is not smaller). *)
Fixpoint sort_insert (e : H5FD__onion_index_entry)
  (l : list H5FD__onion_index_entry) : list H5FD__onion_index_entry :=
  match l with
  | [] => [e]
  | x :: l' =>
      if logi_page x <? logi_page e then x :: sort_insert e l'
      else e :: l
  end.

Definition HDqsort (l : list H5FD__onion_index_entry)
  : list H5FD__onion_index_entry :=
  foldr sort_insert [] l.

(** H5FD_onion_merge_revision_index_into_archival_index (allocations taken
    to succeed); the archival index is updated through its pointer. *)
Definition H5FD_onion_merge_revision_index_into_archival_index
  (rix : H5FD__onion_revision_index_t) (aix : H5FD__onion_archival_index)
  : herr_t * H5FD__onion_archival_index :=
  if negb (rix_magic rix =? H5FD__ONION_REVISION_INDEX_MAGIC)
  then (FAIL (H5E_ARGS, H5E_BADVALUE), aix)
  else if negb (aix_magic aix =? H5FD__ONION_ARCHIVAL_INDEX_MAGIC)
  then (FAIL (H5E_ARGS, H5E_BADVALUE), aix)
  else if negb (rix_version rix =? H5FD__ONION_REVISION_INDEX_VERSION_CURR)
  then (FAIL (H5E_ARGS, H5E_BADVALUE), aix)
  else if negb (aix_version aix =? H5FD__ONION_ARCHIVAL_INDEX_VERSION_CURR)
  then (FAIL (H5E_ARGS, H5E_BADVALUE), aix)
  else match aix_list aix with
  | None => (FAIL (H5E_ARGS, H5E_BADVALUE), aix)
  | Some old_list =>
  if negb (aix_page_size_log2 aix =? rix_page_size_log2 rix)
  then (FAIL (H5E_ARGS, H5E_BADVALUE), aix)
  else if rix_n_entries rix =? 0 then (SUCCEED, aix)
  else
    (* all 'live' entries, bucket by bucket, then sorted *)
    let live :=
      HDqsort (concat (take (Z.to_nat (_hash_table_size rix))
                         (_hash_table rix))) in
    let new_aix :=
      {| aix_magic := H5FD__ONION_ARCHIVAL_INDEX_MAGIC;
         aix_version := H5FD__ONION_ARCHIVAL_INDEX_VERSION_CURR;
         aix_page_size_log2 := aix_page_size_log2 aix;
         aix_n_entries := Z.of_nat (length live);
         aix_list := Some live |} in
    (* 'dead' entries whose page was not added from the live index *)
    let kept_list :=
      List.filter
        (fun e =>
           is_null (H5FD_onion_archival_index_find new_aix (logi_page e)))
        (take (Z.to_nat (aix_n_entries aix)) old_list) in
    let merged := HDqsort (live ++ kept_list) in
    (SUCCEED,
     {| aix_magic := aix_magic aix;
        aix_version := aix_version aix;
        aix_page_size_log2 := aix_page_size_log2 aix;
        aix_n_entries := Z.of_nat (length live + length kept_list);
        aix_list := Some merged |})
  end.

(** ** Checksum

    Modelled from the spec: [H5_checksum_fletcher32] is defined in
    H5checksum.c, which is not among the sources.  The codecs below take it
    as a parameter; [fletcher32] is the textbook Fletcher-32 (16-bit words,
    both sums modulo 65535), used where a concrete checksum is needed. *)

Fixpoint fletcher32_sums (data : list Z) (sum1 sum2 : Z) : Z * Z :=
  match data with
  | [] => (sum1, sum2)
  | [b] =>
      let sum1 := (sum1 + b * 256) mod 65535 in
      (sum1, (sum2 + sum1) mod 65535)
  | b0 :: b1 :: rest =>
      let sum1 := (sum1 + (b0 * 256 + b1)) mod 65535 in
      fletcher32_sums rest sum1 ((sum2 + sum1) mod 65535)
  end.

Definition fletcher32 (data : list Z) : Z :=
  let '(sum1, sum2) := fletcher32_sums data 0 0 in
  sum2 * 65536 + sum1.

(** ** On-store records (H5FDonion_priv.h) *)

Record H5FD__onion_history_header : Set := {
  hdr_magic : Z;
  hdr_version : Z;
  hdr_flags : Z;
  hdr_page_size : Z;
  hdr_origin_eof : Z;
  hdr_whole_history_addr : Z;
  hdr_whole_history_size : Z;
  hdr_checksum : Z
}.

Record H5FD__onion_record_pointer : Set := {
  rp_phys_addr : Z;
  rp_record_size : Z;
  rp_checksum : Z
}.

Record H5FD__onion_whole_history : Set := {
  whs_magic : Z;
  whs_version : Z;
  whs_n_revisions : Z;
  whs_record_pointer_list : option (list H5FD__onion_record_pointer);
  whs_checksum : Z
}.

Record H5FD__onion_revision_record : Set := {
  rec_magic : Z;
  rec_version : Z;
  revision_id : Z;
  parent_revision_id : Z;
  time_of_creation : list Z;
  rec_logi_eof : Z;
  user_id : Z;
  username_size : Z;
  comment_size : Z;
  archival_index : H5FD__onion_archival_index;
  username : option (list Z);
  comment : option (list Z);
  rec_checksum : Z
}.

Definition record_pointer_zero : H5FD__onion_record_pointer :=
  {| rp_phys_addr := 0; rp_record_size := 0; rp_checksum := 0 |}.

Definition whs_at (whs : H5FD__onion_whole_history) (i : Z)
  : H5FD__onion_record_pointer :=
  default record_pointer_zero
    (default [] (whs_record_pointer_list whs) !! Z.to_nat i).

(** Field updates through a pointer to the structure. *)

Definition hdr_set_flags (h : H5FD__onion_history_header) (flags : Z) :=
  let 'Build_H5FD__onion_history_header m v _ ps oe wa ws c := h in
  Build_H5FD__onion_history_header m v flags ps oe wa ws c.

Definition hdr_set_origin_eof (h : H5FD__onion_history_header) (oe : Z) :=
  let 'Build_H5FD__onion_history_header m v f ps _ wa ws c := h in
  Build_H5FD__onion_history_header m v f ps oe wa ws c.

Definition hdr_set_whole_history_addr (h : H5FD__onion_history_header)
  (addr : Z) :=
  let 'Build_H5FD__onion_history_header m v f ps oe _ ws c := h in
  Build_H5FD__onion_history_header m v f ps oe addr ws c.

Definition hdr_set_whole_history_size (h : H5FD__onion_history_header)
  (size : Z) :=
  let 'Build_H5FD__onion_history_header m v f ps oe wa _ c := h in
  Build_H5FD__onion_history_header m v f ps oe wa size c.

Definition hdr_set_checksum (h : H5FD__onion_history_header) (sum : Z) :=
  let 'Build_H5FD__onion_history_header m v f ps oe wa ws _ := h in
  Build_H5FD__onion_history_header m v f ps oe wa ws sum.

Definition whs_set_n_revisions (s : H5FD__onion_whole_history) (n : Z) :=
  let 'Build_H5FD__onion_whole_history m v _ l c := s in
  Build_H5FD__onion_whole_history m v n l c.

Definition whs_set_list (s : H5FD__onion_whole_history)
  (l : option (list H5FD__onion_record_pointer)) :=
  let 'Build_H5FD__onion_whole_history m v n _ c := s in
  Build_H5FD__onion_whole_history m v n l c.

Definition whs_set_checksum (s : H5FD__onion_whole_history) (sum : Z) :=
  let 'Build_H5FD__onion_whole_history m v n l _ := s in
  Build_H5FD__onion_whole_history m v n l sum.

Definition aix_set_page_size_log2 (a : H5FD__onion_archival_index) (k : Z) :=
  let 'Build_H5FD__onion_archival_index m v _ n l := a in
  Build_H5FD__onion_archival_index m v k n l.

Definition aix_set_n_entries (a : H5FD__onion_archival_index) (n : Z) :=
  let 'Build_H5FD__onion_archival_index m v k _ l := a in
  Build_H5FD__onion_archival_index m v k n l.

Definition aix_set_list (a : H5FD__onion_archival_index)
  (l : option (list H5FD__onion_index_entry)) :=
  let 'Build_H5FD__onion_archival_index m v k n _ := a in
  Build_H5FD__onion_archival_index m v k n l.

Definition rec_set_ids (r : H5FD__onion_revision_record) (id parent : Z) :=
  let 'Build_H5FD__onion_revision_record m v _ _ t le u us cs a un c s := r in
  Build_H5FD__onion_revision_record m v id parent t le u us cs a un c s.

Definition rec_set_time_logi_eof (r : H5FD__onion_revision_record)
  (t : list Z) (le : Z) :=
  let 'Build_H5FD__onion_revision_record m v i p _ _ u us cs a un c s := r in
  Build_H5FD__onion_revision_record m v i p t le u us cs a un c s.

Definition rec_set_user_id (r : H5FD__onion_revision_record) (u : Z) :=
  let 'Build_H5FD__onion_revision_record m v i p t le _ us cs a un c s := r in
  Build_H5FD__onion_revision_record m v i p t le u us cs a un c s.

Definition rec_set_username (r : H5FD__onion_revision_record) (us : Z)
  (un : option (list Z)) :=
  let 'Build_H5FD__onion_revision_record m v i p t le u _ cs a _ c s := r in
  Build_H5FD__onion_revision_record m v i p t le u us cs a un c s.

Definition rec_set_comment (r : H5FD__onion_revision_record) (cs : Z)
  (c : option (list Z)) :=
  let 'Build_H5FD__onion_revision_record m v i p t le u us _ a un _ s := r in
  Build_H5FD__onion_revision_record m v i p t le u us cs a un c s.

Definition rec_set_archival_index (r : H5FD__onion_revision_record)
  (a : H5FD__onion_archival_index) :=
  let 'Build_H5FD__onion_revision_record m v i p t le u us cs _ un c s := r in
  Build_H5FD__onion_revision_record m v i p t le u us cs a un c s.

Definition rec_set_checksum (r : H5FD__onion_revision_record) (s : Z) :=
  let 'Build_H5FD__onion_revision_record m v i p t le u us cs a un c _ := r in
  Build_H5FD__onion_revision_record m v i p t le u us cs a un c s.

(** ** Raw-I/O backend

    Modelled from the spec: the backend behind [H5FD_open], [H5FD_close],
    [H5FDread], [H5FDwrite], [H5FD_get_eof], [H5FD_get_eoa] and
    [H5FD_set_eoa] is the external raw-I/O interface of section 6 and is not
    among the sources.  A backing store maps a path to the bytes of the file
    there; a handle names its file and carries its end-of-addressable mark.
    Opening fails on a missing file unless the create flag is given, and the
    truncate flag empties the file.  Reads and writes are refused past the
    end-of-addressable mark (which is why the driver extends it before every
    write); bytes between the end of the file and that mark read as zero.
    Closing a handle has no effect on the store, so it is not written. *)

Abbreviation filesystem := (gmap string (list Z)).

Record H5FD_t : Set := {
  fd_name : string;
  fd_eoa : Z
}.

(** Modelled from the spec: the access flags of H5Fpublic.h (section 4.8:
    read-only, read/write, create, truncate), which is not among the
    sources. *)
Definition H5F_ACC_RDONLY : Z := 0x0000.
Definition H5F_ACC_RDWR : Z := 0x0001.
Definition H5F_ACC_TRUNC : Z := 0x0002.
Definition H5F_ACC_CREAT : Z := 0x0010.

Definition has_flag (flags mask : Z) : bool :=
  negb (Z.land flags mask =? 0).

Definition H5FD_open (name : string) (flags : Z) (fs : filesystem)
  : option H5FD_t * filesystem :=
  let h := {| fd_name := name; fd_eoa := 0 |} in
  match fs !! name with
  | None =>
      if has_flag flags H5F_ACC_CREAT then (Some h, <[name := []]> fs)
      else (None, fs)
  | Some _ =>
      if has_flag flags H5F_ACC_TRUNC then (Some h, <[name := []]> fs)
      else (Some h, fs)
  end.

Definition H5FD_get_eof (h : H5FD_t) (fs : filesystem) : Z :=
  Z.of_nat (length (default [] (fs !! fd_name h))).

Definition H5FD_get_eoa (h : H5FD_t) : Z := fd_eoa h.

Definition H5FD_set_eoa (h : H5FD_t) (addr : Z) : H5FD_t :=
  {| fd_name := fd_name h; fd_eoa := addr |}.

Definition H5FDread (h : H5FD_t) (addr size : Z) (fs : filesystem)
  : option (list Z) :=
  if size =? 0 then Some []
  else if addr + size >? fd_eoa h then None
  else
    match fs !! fd_name h with
    | None => None
    | Some data =>
        Some (take (Z.to_nat size)
                (drop (Z.to_nat addr) data ++ replicate (Z.to_nat size) 0))
    end.

Definition H5FDwrite (h : H5FD_t) (addr size : Z) (buf : list Z)
  (fs : filesystem) : option filesystem :=
  if size =? 0 then Some fs
  else if addr + size >? fd_eoa h then None
  else
    match fs !! fd_name h with
    | None => None
    | Some data =>
        Some (<[fd_name h :=
                  take (Z.to_nat addr) (data ++ replicate (Z.to_nat addr) 0)
                  ++ take (Z.to_nat size) buf
                  ++ drop (Z.to_nat (addr + size)) data]> fs)
    end.

(** [HDremove(name)] *)
Definition HDremove (name : string) (fs : filesystem) : filesystem :=
  delete name fs.

(** ** Configuration

    Modelled from the spec: [H5FD_onion_fapl_info_t] and its constants are
    declared in the public header H5FDonion.h, which is not among the
    sources; the fields are the options of section 6.  The comment is the
    string before its terminating NUL. *)

Inductive hid_t : Set :=
| H5P_DEFAULT
| H5P_FILE_ACCESS_DEFAULT
| file_access_plist (id : Z)
| other_id (id : Z).

Inductive H5FD_onion_target_t : Set :=
| H5FD_ONION_STORE_TARGET_H5
| H5FD_ONION_STORE_TARGET_ONION
| store_target_invalid (n : Z).

Record H5FD_onion_fapl_info_t : Set := {
  fa_magic : Z;
  fa_version : Z;
  backing_fapl_id : hid_t;
  fa_page_size : Z;
  store_target : H5FD_onion_target_t;
  fa_revision_id : Z;
  creation_flags : Z;
  fa_comment : list Z
}.

Definition H5FD_ONION_FAPL_INFO_MAGIC : Z := 0x10101010.
Definition H5FD_ONION_FAPL_INFO_VERSION_CURR : Z := 1.
Definition H5FD_ONION_FAPL_INFO_CREATE_FLAG_ENABLE_DIVERGENT_HISTORY : Z :=
  0x0001.
Definition H5FD_ONION_FAPL_INFO_CREATE_FLAG_ENABLE_PAGE_ALIGNMENT : Z :=
  0x0002.
(** The sentinel "latest": [(uint64_t)(-1)]. *)
Definition H5FD_ONION_FAPL_INFO_REVISION_ID_LATEST : Z := 2 ^ 64 - 1.

(** The FAPL of a [calloc]ed file structure. *)
Definition fapl_info_zero : H5FD_onion_fapl_info_t :=
  {| fa_magic := 0; fa_version := 0; backing_fapl_id := H5P_DEFAULT;
     fa_page_size := 0; store_target := H5FD_ONION_STORE_TARGET_H5;
     fa_revision_id := 0; creation_flags := 0; fa_comment := [] |}.

(** H5Pget_fapl_onion: the property list either carries the driver
    information of the onion driver ([Some]) or does not. *)
Definition H5Pget_fapl_onion (fapl : option H5FD_onion_fapl_info_t)
  : option H5FD_onion_fapl_info_t :=
  match fapl with
  | None => None
  | Some info_ptr =>
      if negb (H5FD_ONION_FAPL_INFO_MAGIC =? fa_magic info_ptr) then None
      else Some info_ptr
  end.

(** get_legit_fapl_id: [None] is H5I_INVALID_HID. *)
Definition get_legit_fapl_id (fapl_id : hid_t) : option hid_t :=
  match fapl_id with
  | H5P_DEFAULT => Some H5P_FILE_ACCESS_DEFAULT
  | H5P_FILE_ACCESS_DEFAULT | file_access_plist _ => Some fapl_id
  | other_id _ => None
  end.

(** What [HDgetuid] and [HDgetpwuid] answer: the user id and the login
    name ([None] when there is no entry for the user). *)
Record environment : Set := {
  env_uid : Z;
  env_pw_name : option (list Z)
}.

(** ** The file handle (H5FD_onion_t) *)

Record H5FD_onion_t : Set := {
  fa : H5FD_onion_fapl_info_t;
  backing_canon : option H5FD_t;
  backing_onion : option H5FD_t;
  backing_recov : option H5FD_t;
  name_recov : option string;
  is_open_rw : bool;
  page_align_history : bool;
  header : H5FD__onion_history_header;
  summary : H5FD__onion_whole_history;
  rev_record : H5FD__onion_revision_record;
  rev_index : option H5FD__onion_revision_index_t;
  history_eof : Z;
  origin_eof : Z;
  logi_eoa : Z;
  logi_eof : Z
}.

Definition set_fa (f : H5FD_onion_t) (x : H5FD_onion_fapl_info_t) :=
  let 'Build_H5FD_onion_t _ bc bo br nr rw pa h s r ri he oe la le := f in
  Build_H5FD_onion_t x bc bo br nr rw pa h s r ri he oe la le.

Definition set_backing_canon (f : H5FD_onion_t) (x : option H5FD_t) :=
  let 'Build_H5FD_onion_t a _ bo br nr rw pa h s r ri he oe la le := f in
  Build_H5FD_onion_t a x bo br nr rw pa h s r ri he oe la le.

Definition set_backing_onion (f : H5FD_onion_t) (x : option H5FD_t) :=
  let 'Build_H5FD_onion_t a bc _ br nr rw pa h s r ri he oe la le := f in
  Build_H5FD_onion_t a bc x br nr rw pa h s r ri he oe la le.

Definition set_backing_recov (f : H5FD_onion_t) (x : option H5FD_t) :=
  let 'Build_H5FD_onion_t a bc bo _ nr rw pa h s r ri he oe la le := f in
  Build_H5FD_onion_t a bc bo x nr rw pa h s r ri he oe la le.

Definition set_name_recov (f : H5FD_onion_t) (x : option string) :=
  let 'Build_H5FD_onion_t a bc bo br _ rw pa h s r ri he oe la le := f in
  Build_H5FD_onion_t a bc bo br x rw pa h s r ri he oe la le.

Definition set_is_open_rw (f : H5FD_onion_t) (x : bool) :=
  let 'Build_H5FD_onion_t a bc bo br nr _ pa h s r ri he oe la le := f in
  Build_H5FD_onion_t a bc bo br nr x pa h s r ri he oe la le.

Definition set_page_align_history (f : H5FD_onion_t) (x : bool) :=
  let 'Build_H5FD_onion_t a bc bo br nr rw _ h s r ri he oe la le := f in
  Build_H5FD_onion_t a bc bo br nr rw x h s r ri he oe la le.

Definition set_header (f : H5FD_onion_t) (x : H5FD__onion_history_header) :=
  let 'Build_H5FD_onion_t a bc bo br nr rw pa _ s r ri he oe la le := f in
  Build_H5FD_onion_t a bc bo br nr rw pa x s r ri he oe la le.

Definition set_summary (f : H5FD_onion_t) (x : H5FD__onion_whole_history) :=
  let 'Build_H5FD_onion_t a bc bo br nr rw pa h _ r ri he oe la le := f in
  Build_H5FD_onion_t a bc bo br nr rw pa h x r ri he oe la le.

Definition set_rev_record (f : H5FD_onion_t)
  (x : H5FD__onion_revision_record) :=
  let 'Build_H5FD_onion_t a bc bo br nr rw pa h s _ ri he oe la le := f in
  Build_H5FD_onion_t a bc bo br nr rw pa h s x ri he oe la le.

Definition set_rev_index (f : H5FD_onion_t)
  (x : option H5FD__onion_revision_index_t) :=
  let 'Build_H5FD_onion_t a bc bo br nr rw pa h s r _ he oe la le := f in
  Build_H5FD_onion_t a bc bo br nr rw pa h s r x he oe la le.

Definition set_history_eof (f : H5FD_onion_t) (x : Z) :=
  let 'Build_H5FD_onion_t a bc bo br nr rw pa h s r ri _ oe la le := f in
  Build_H5FD_onion_t a bc bo br nr rw pa h s r ri x oe la le.

Definition set_origin_eof (f : H5FD_onion_t) (x : Z) :=
  let 'Build_H5FD_onion_t a bc bo br nr rw pa h s r ri he _ la le := f in
  Build_H5FD_onion_t a bc bo br nr rw pa h s r ri he x la le.

Definition set_logi_eoa (f : H5FD_onion_t) (x : Z) :=
  let 'Build_H5FD_onion_t a bc bo br nr rw pa h s r ri he oe _ le := f in
  Build_H5FD_onion_t a bc bo br nr rw pa h s r ri he oe x le.

Definition set_logi_eof (f : H5FD_onion_t) (x : Z) :=
  let 'Build_H5FD_onion_t a bc bo br nr rw pa h s r ri he oe la _ := f in
  Build_H5FD_onion_t a bc bo br nr rw pa h s r ri he oe la x.

(** [H5FL_CALLOC(H5FD_onion_t)] *)
Definition file_calloc : H5FD_onion_t :=
  {| fa := fapl_info_zero;
     backing_canon := None; backing_onion := None; backing_recov := None;
     name_recov := None; is_open_rw := false; page_align_history := false;
     header := Build_H5FD__onion_history_header 0 0 0 0 0 0 0 0;
     summary := Build_H5FD__onion_whole_history 0 0 0 None 0;
     rev_record :=
       Build_H5FD__onion_revision_record 0 0 0 0 (replicate 16 0) 0 0 0 0
         (Build_H5FD__onion_archival_index 0 0 0 0 None) None None 0;
     rev_index := None;
     history_eof := 0; origin_eof := 0; logi_eoa := 0; logi_eof := 0 |}.

(** Rounding [history_eof] up to a page boundary:
    [(eof + (page_size - 1)) & (~(page_size - 1))], where the mask is
    computed on the 32-bit page size. *)
Definition page_align (eof page_size : Z) : Z :=
  Z.land (u64 (eof + u32 (page_size - 1)))
    (u32 (Z.lnot (u32 (page_size - 1)))).

Section Onion.

(** [H5_checksum_fletcher32(buf, len)], returning a [uint32_t]. *)
Variable H5_checksum_fletcher32 : list Z -> Z.

Definition checksum (buf : list Z) (len : Z) : Z :=
  u32 (H5_checksum_fletcher32 (take (Z.to_nat len) buf)).

(** ** Binary codecs *)

(** H5FD_onion_history_header_encode: the number of bytes written, the
    buffer and [*sum_out].  The flags are written as four bytes and the
    write position is moved back by one, so that the page size overwrites
    the fourth. *)
Definition H5FD_onion_history_header_encode
  (header : H5FD__onion_history_header) : Z * list Z * Z :=
  let buf :=
    H5FD__ONION_HEADER_SIGNATURE
    ++ [u8 (hdr_version header)]
    ++ take 3 (UINT32ENCODE (hdr_flags header))
    ++ UINT32ENCODE (hdr_page_size header)
    ++ UINT64ENCODE (hdr_origin_eof header)
    ++ UINT64ENCODE (hdr_whole_history_addr header)
    ++ UINT64ENCODE (hdr_whole_history_size header) in
  let sum_out := checksum buf (Z.of_nat (length buf)) in
  let buf := buf ++ UINT32ENCODE sum_out in
  (Z.of_nat (length buf), buf, sum_out).

(** H5FD_onion_history_header_decode: the return value (0 on failure) and
    the header as the function leaves it.  The three 64-bit fields are
    copied out with [HDmemcpy(&ui64, ptr, 8)] and then read with
    UINT32DECODE, as in the source. *)
Definition H5FD_onion_history_header_decode (buf : list Z)
  (header : H5FD__onion_history_header)
  : Z * H5FD__onion_history_header :=
  if negb (bytes_eqb (bytes_at buf 0 4) H5FD__ONION_HEADER_SIGNATURE)
  then (0, header)
  else if negb (default 0 (buf !! 4%nat) =? H5FD__ONION_HEADER_VERSION_CURR)
  then (0, header)
  else
    let ptr := 5 in
    let flags := UINT32DECODE (bytes_at buf ptr 3 ++ [0]) in
    let ptr := ptr + 3 in
    let page_size := UINT32DECODE (bytes_at buf ptr 4) in
    let ptr := ptr + 4 in
    let origin_eof := UINT32DECODE (bytes_at buf ptr 8) in
    let ptr := ptr + 8 in
    let whole_history_addr := UINT32DECODE (bytes_at buf ptr 8) in
    let ptr := ptr + 8 in
    let whole_history_size := UINT32DECODE (bytes_at buf ptr 8) in
    let ptr := ptr + 8 in
    let sum := checksum buf ptr in
    let stored := UINT32DECODE (bytes_at buf ptr 4) in
    let ptr := ptr + 4 in
    let header :=
      {| hdr_magic := hdr_magic header;
         hdr_version := hdr_version header;
         hdr_flags := flags;
         hdr_page_size := page_size;
         hdr_origin_eof := origin_eof;
         hdr_whole_history_addr := whole_history_addr;
         hdr_whole_history_size := whole_history_size;
         hdr_checksum := stored |} in
    if negb (sum =? stored) then (0, header) else (ptr, header).

(** The record-pointer block written by H5FD_onion_whole_history_encode. *)
Definition encode_record_pointer (rp : H5FD__onion_record_pointer)
  : list Z :=
  UINT64ENCODE (rp_phys_addr rp)
  ++ UINT64ENCODE (rp_record_size rp)
  ++ UINT32ENCODE (rp_checksum rp).

(** H5FD_onion_whole_history_encode *)
Definition H5FD_onion_whole_history_encode
  (summary : H5FD__onion_whole_history) : Z * list Z * Z :=
  let vers_u32 := u32 (whs_version summary) in
  let buf :=
    H5FD__ONION_WHOLE_HISTORY_SIGNATURE
    ++ UINT32ENCODE vers_u32
    ++ UINT64ENCODE (whs_n_revisions summary)
    ++ (if whs_n_revisions summary >? 0
        then concat (map (fun i => encode_record_pointer (whs_at summary i))
                       (seqZ 0 (whs_n_revisions summary)))
        else []) in
  let sum_out := checksum buf (Z.of_nat (length buf)) in
  let buf := buf ++ UINT32ENCODE sum_out in
  (Z.of_nat (length buf), buf, sum_out).

(** [ptr += entry_size * n] of a first decoding pass; [ptr] is kept as the
    offset from [buf].  The product is a [uint64_t] and wraps modulo 2^64.
    When the entries stepped over lie inside the buffer, the product has
    not wrapped, a buffer in memory being shorter than 2^64 bytes; the
    model has lists of any length and says the same of them. *)
Definition skip_entries (buf : list Z) (ptr entry_size n : Z) : Z :=
  if ptr + entry_size * n <=? Z.of_nat (length buf)
  then ptr + entry_size * n
  else ptr + u64 (entry_size * n).
Arguments skip_entries : simpl never.

(** The [for (i = 0; i < n_revisions; i++)] loop of the second pass of
    H5FD_onion_whole_history_decode: every record pointer is read and
    stored, its checksum field included (read with UINT64DECODE into the
    32-bit field, which keeps the low four bytes). *)
Fixpoint decode_record_pointers (n : nat) (i : Z) (buf : list Z) (ptr : Z)
  (rpl : list H5FD__onion_record_pointer)
  : list H5FD__onion_record_pointer * Z :=
  match n with
  | O => (rpl, ptr)
  | S n' =>
      let rpp :=
        {| rp_phys_addr := UINT64DECODE (bytes_at buf ptr 8);
           rp_record_size := UINT64DECODE (bytes_at buf (ptr + 8) 8);
           rp_checksum := u32 (UINT64DECODE (bytes_at buf (ptr + 16) 4)) |} in
      decode_record_pointers n' (i + 1) buf (ptr + 20)
        (<[Z.to_nat i := rpp]> rpl)
  end.

(** H5FD_onion_whole_history_decode: the return value (0 on failure) and
    the summary as the function leaves it.  The first pass steps over the
    record pointers with [skip_entries]: a revision count of 2^63 makes it
    step over nothing. *)
Definition H5FD_onion_whole_history_decode (buf : list Z)
  (summary : H5FD__onion_whole_history)
  : Z * H5FD__onion_whole_history :=
  if negb (bytes_eqb (bytes_at buf 0 4) H5FD__ONION_WHOLE_HISTORY_SIGNATURE)
  then (0, summary)
  else if negb (H5FD__ONION_WHOLE_HISTORY_VERSION_CURR
                =? default 0 (buf !! 4%nat))
  then (0, summary)
  else
    let ptr := 8 in
    let n_revisions := UINT64DECODE (bytes_at buf ptr 8) in
    let ptr := ptr + 8 in
    let finish (summary : H5FD__onion_whole_history) (ptr : Z) :=
      let sum := checksum buf ptr in
      let summary :=
        whs_set_checksum summary (UINT32DECODE (bytes_at buf ptr 4)) in
      let ptr := ptr + 4 in
      if negb (sum =? whs_checksum summary) then (0, summary)
      else (ptr, summary) in
    if whs_n_revisions summary =? 0 then
      finish (whs_set_n_revisions summary n_revisions)
        (skip_entries buf ptr H5FD__ONION_ENCODED_SIZE_RECORD_POINTER
           n_revisions)
    else if negb (whs_n_revisions summary =? n_revisions)
    then (0, summary)
    else
      match whs_record_pointer_list summary with
      | None => (0, summary)
      | Some rpl =>
          let '(rpl, ptr) :=
            decode_record_pointers (Z.to_nat n_revisions) 0 buf ptr rpl in
          finish (whs_set_list summary (Some rpl)) ptr
      end.

(** The [for (i = 0; i < n_entries; i++)] loop of the second pass of
    H5FD_onion_revision_record_decode; the flag is false when an entry is
    refused (address not aligned to the page, or checksum mismatch). *)
Fixpoint decode_index_entries (n : nat) (i : Z) (buf : list Z) (ptr : Z)
  (page_size page_size_log2 : Z) (l : list H5FD__onion_index_entry)
  : bool * list H5FD__onion_index_entry * Z :=
  match n with
  | O => (true, l, ptr)
  | S n' =>
      let old := default entry_zero (l !! Z.to_nat i) in
      let logi_addr := UINT64DECODE (bytes_at buf ptr 8) in
      if negb (Z.land logi_addr (page_size - 1) =? 0) then
        (false,
         <[Z.to_nat i := {| logi_page := logi_addr;
                            phys_addr := phys_addr old |}]> l,
         ptr + 8)
      else
        let entry :=
          {| logi_page := Z.shiftr logi_addr page_size_log2;
             phys_addr := UINT64DECODE (bytes_at buf (ptr + 8) 8) |} in
        let sum := UINT32DECODE (bytes_at buf (ptr + 16) 4) in
        let l := <[Z.to_nat i := entry]> l in
        if negb (checksum (drop (Z.to_nat ptr) buf) 16 =? sum)
        then (false, l, ptr + 20)
        else decode_index_entries n' (i + 1) buf (ptr + 20)
               page_size page_size_log2 l
  end.

(** [HDmemcpy(dst, src, n)] onto the start of an allocated buffer. *)
Definition memcpy_into (dst src : list Z) (n : Z) : list Z :=
  take (Z.to_nat n) src ++ drop (Z.to_nat n) dst.

(** H5FD_onion_revision_record_decode: the return value (0 on failure) and
    the record as the function leaves it.  The first pass steps over the
    index entries with [skip_entries]. *)
Definition H5FD_onion_revision_record_decode (buf : list Z)
  (record : H5FD__onion_revision_record)
  : Z * H5FD__onion_revision_record :=
  if negb (bytes_eqb (bytes_at buf 0 4) H5FD__ONION_REVISION_RECORD_SIGNATURE)
  then (0, record)
  else if negb (H5FD__ONION_REVISION_RECORD_VERSION_CURR
                =? default 0 (buf !! 4%nat))
  then (0, record)
  else
    let record :=
      rec_set_ids record (UINT64DECODE (bytes_at buf 8 8))
        (UINT64DECODE (bytes_at buf 16 8)) in
    let record :=
      rec_set_time_logi_eof record (bytes_at buf 24 16)
        (UINT64DECODE (bytes_at buf 40 8)) in
    let page_size := UINT32DECODE (bytes_at buf 48 4) in
    if page_size =? 0 then (0, record)
    else if negb (POWER_OF_TWO page_size) then (0, record)
    else
      let page_size_log2 := page_size_to_log2 page_size in
      let record :=
        rec_set_archival_index record
          (aix_set_page_size_log2 (archival_index record) page_size_log2) in
      let record := rec_set_user_id record (UINT32DECODE (bytes_at buf 52 4)) in
      let n_entries := UINT64DECODE (bytes_at buf 56 8) in
      let username_size_ := UINT32DECODE (bytes_at buf 64 4) in
      let comment_size_ := UINT32DECODE (bytes_at buf 68 4) in
      let ptr := 72 in
      (* the tail: username, comment and the overall checksum *)
      let tail (record : H5FD__onion_revision_record) (ptr : Z) :=
        let after_username (record : H5FD__onion_revision_record) :=
          let ptr := ptr + username_size_ in
          let after_comment (record : H5FD__onion_revision_record) :=
            let ptr := ptr + comment_size_ in
            let sum := checksum buf ptr in
            let record :=
              rec_set_checksum record (UINT32DECODE (bytes_at buf ptr 4)) in
            let ptr := ptr + 4 in
            if negb (sum =? rec_checksum record) then (0, record)
            else (ptr, record) in
          if comment_size record =? 0 then
            match comment record with
            | Some _ => (0, record)
            | None =>
                after_comment
                  (rec_set_comment record comment_size_ (comment record))
            end
          else
            match comment record with
            | None => (0, record)
            | Some c =>
                after_comment
                  (rec_set_comment record (comment_size record)
                     (Some (memcpy_into c (drop (Z.to_nat ptr) buf)
                              comment_size_)))
            end in
        if username_size record =? 0 then
          match username record with
          | Some _ => (0, record)
          | None =>
              after_username
                (rec_set_username record username_size_ (username record))
          end
        else
          match username record with
          | None => (0, record)
          | Some u =>
              after_username
                (rec_set_username record (username_size record)
                   (Some (memcpy_into u (drop (Z.to_nat ptr) buf)
                            username_size_)))
          end in
      if aix_n_entries (archival_index record) =? 0 then
        tail
          (rec_set_archival_index record
             (aix_set_n_entries (archival_index record) n_entries))
          (skip_entries buf ptr H5FD__ONION_ENCODED_SIZE_INDEX_ENTRY
             n_entries)
      else if negb (n_entries =? aix_n_entries (archival_index record))
      then (0, record)
      else
        match aix_list (archival_index record) with
        | None => (0, record)
        | Some l =>
            let '(ok, l, ptr) :=
              decode_index_entries (Z.to_nat n_entries) 0 buf ptr
                page_size page_size_log2 l in
            let record :=
              rec_set_archival_index record
                (aix_set_list (archival_index record) (Some l)) in
            if ok then tail record ptr else (0, record)
        end.

(** ** A state-and-error monad for the open orchestrator

    The state is the file structure under construction together with the
    backing store; [HGOTO_ERROR] leaves with the error and the state as it
    stands. *)

Definition open_state : Type := (H5FD_onion_t * filesystem)%type.
Definition M (A : Type) : Type := open_state -> (H5E + A) * open_state.

Definition M_ret {A} (a : A) : M A := fun s => (inr a, s).
Definition M_bind {A B} (c : M A) (k : A -> M B) : M B :=
  fun s =>
    match c s with
    | (inl e, s') => (inl e, s')
    | (inr a, s') => k a s'
    end.
Definition HGOTO_ERROR {A} (maj : H5E_major) (min : H5E_minor) : M A :=
  fun s => (inl (maj, min), s).
Definition get_file : M H5FD_onion_t := fun s => (inr (fst s), s).
Definition get_fs : M filesystem := fun s => (inr (snd s), s).
Definition put_file (f : H5FD_onion_t) : M unit :=
  fun s => (inr tt, (f, snd s)).
Definition put_fs (fs : filesystem) : M unit :=
  fun s => (inr tt, (fst s, fs)).
Definition update (g : H5FD_onion_t -> H5FD_onion_t) : M unit :=
  fun s => (inr tt, (g (fst s), snd s)).

#[local] Instance M_mret : MRet M := @M_ret.
#[local] Instance M_mbind : MBind M := fun A B k c => M_bind c k.

(** [if (cond) HGOTO_ERROR(maj, min, ...)] *)
Definition fail_if (cond : bool) (maj : H5E_major) (min : H5E_minor)
  : M unit :=
  if cond then HGOTO_ERROR maj min else M_ret tt.

(** A backend answer that is NULL or negative becomes the caller's error. *)
Definition or_fail {A} (o : option A) (maj : H5E_major) (min : H5E_minor)
  : M A :=
  match o with
  | Some a => M_ret a
  | None => HGOTO_ERROR maj min
  end.

(** A callee's failure is answered with the caller's own [HGOTO_ERROR]. *)
Definition reraise {A} (c : M A) (maj : H5E_major) (min : H5E_minor)
  : M A :=
  fun s =>
    match c s with
    | (inl _, s') => (inl (maj, min), s')
    | r => r
    end.

(** [H5FD_open] on the store of the state. *)
Definition open_backing (name : string) (flags : Z) : M (option H5FD_t) :=
  fun s =>
    let '(h, fs) := H5FD_open name flags (snd s) in
    (inr h, (fst s, fs)).

(** [H5FDwrite] on the store of the state. *)
Definition write_backing (h : H5FD_t) (addr size : Z) (buf : list Z)
  (maj : H5E_major) (min : H5E_minor) : M unit :=
  fs ← get_fs;
  fs' ← or_fail (H5FDwrite h addr size buf fs) maj min;
  put_fs fs'.

(** ** Onion-file I/O *)

(** H5FD__onion_set_userinfo_in_record *)
Definition H5FD__onion_set_userinfo_in_record (env : environment)
  (rec_p : H5FD__onion_revision_record)
  : herr_t * H5FD__onion_revision_record :=
  let rec_p := rec_set_user_id rec_p (u32 (env_uid env)) in
  match env_pw_name env with
  | None => (FAIL (H5E_ARGS, H5E_BADVALUE), rec_p)
  | Some pw_name =>
      (SUCCEED,
       rec_set_username rec_p (u32 (Z.of_nat (length pw_name) + 1))
         (Some (pw_name ++ [0])))
  end.

(** H5FD__onion_whole_history_write: the size written (0 on failure), the
    destination handle and the store. *)
Definition H5FD__onion_whole_history_write
  (whs : H5FD__onion_whole_history) (file_dest : H5FD_t)
  (off_start filesize_curr : Z) (fs : filesystem)
  : Z * H5FD_t * filesystem :=
  let '(size, buf, _sum) := H5FD_onion_whole_history_encode whs in
  if size =? 0 then (0, file_dest, fs)
  else
    let file_dest :=
      if size + off_start >? filesize_curr
      then H5FD_set_eoa file_dest (off_start + size)
      else file_dest in
    match H5FDwrite file_dest off_start size buf fs with
    | None => (0, file_dest, fs)
    | Some fs' => (size, file_dest, fs')
    end.

(** H5FD__onion_injest_history_header *)
Definition H5FD__onion_injest_history_header
  (hdr_out : H5FD__onion_history_header) (raw_file : H5FD_t) (addr : Z)
  (fs : filesystem) : herr_t * H5FD__onion_history_header * H5FD_t :=
  let size := H5FD__ONION_ENCODED_SIZE_HEADER in
  if H5FD_get_eof raw_file fs <? addr + size
  then (FAIL (H5E_ARGS, H5E_BADVALUE), hdr_out, raw_file)
  else
    let raw_file := H5FD_set_eoa raw_file (addr + size) in
    match H5FDread raw_file addr size fs with
    | None => (FAIL (H5E_VFL, H5E_READERROR), hdr_out, raw_file)
    | Some buf =>
        let '(ret, hdr_out) :=
          H5FD_onion_history_header_decode buf hdr_out in
        if ret =? 0
        then (FAIL (H5E_VFL, H5E_CANTDECODE), hdr_out, raw_file)
        else
          let sum := checksum buf (size - 4) in
          if negb (hdr_checksum hdr_out =? sum)
          then (FAIL (H5E_VFL, H5E_BADVALUE), hdr_out, raw_file)
          else (SUCCEED, hdr_out, raw_file)
    end.

(** H5FD__onion_injest_whole_history; allocation taken to succeed, also
    for zero revisions. *)
Definition H5FD__onion_injest_whole_history
  (whs_out : H5FD__onion_whole_history) (raw_file : H5FD_t)
  (addr size : Z) (fs : filesystem)
  : herr_t * H5FD__onion_whole_history * H5FD_t :=
  if H5FD_get_eof raw_file fs <? addr + size
  then (FAIL (H5E_ARGS, H5E_BADVALUE), whs_out, raw_file)
  else
    let raw_file := H5FD_set_eoa raw_file (addr + size) in
    match H5FDread raw_file addr size fs with
    | None => (FAIL (H5E_VFL, H5E_READERROR), whs_out, raw_file)
    | Some buf =>
        let '(ret, whs_out) := H5FD_onion_whole_history_decode buf whs_out in
        if negb (ret =? size)
        then (FAIL (H5E_VFL, H5E_CANTDECODE), whs_out, raw_file)
        else
          let sum := checksum buf (size - 4) in
          if negb (whs_checksum whs_out =? sum)
          then (FAIL (H5E_VFL, H5E_BADVALUE), whs_out, raw_file)
          else
            let whs_out :=
              whs_set_list whs_out
                (Some (replicate (Z.to_nat (whs_n_revisions whs_out))
                         record_pointer_zero)) in
            let '(ret, whs_out) :=
              H5FD_onion_whole_history_decode buf whs_out in
            if negb (ret =? size)
            then (FAIL (H5E_VFL, H5E_CANTDECODE), whs_out, raw_file)
            else (SUCCEED, whs_out, raw_file)
    end.

(** Reading and first-pass decoding of the record at position [n] of the
    whole-history, as done in both places of
    H5FD__onion_injest_revision_record. *)
Definition injest_read_record (r_out : H5FD__onion_revision_record)
  (raw_file : H5FD_t) (whs : H5FD__onion_whole_history) (n : Z)
  (fs : filesystem)
  : H5E + (list Z * Z * H5FD__onion_revision_record) :=
  let addr := rp_phys_addr (whs_at whs n) in
  let size := rp_record_size (whs_at whs n) in
  match H5FDread raw_file addr size fs with
  | None => inl (H5E_VFL, H5E_READERROR)
  | Some buf =>
      let '(ret, r_out) := H5FD_onion_revision_record_decode buf r_out in
      if negb (ret =? size) then inl (H5E_VFL, H5E_CANTDECODE)
      else
        let sum := checksum buf (size - 4) in
        if negb (rec_checksum r_out =? sum) then inl (H5E_VFL, H5E_BADVALUE)
        else inr (buf, size, r_out)
  end.

(** The [while (range > 0)] binary search over the record pointers.
    [inr (Some buf, ...)] is the [break] with the record found. *)
Fixpoint injest_search_loop (fuel : nat)
  (r_out : H5FD__onion_revision_record) (raw_file : H5FD_t)
  (whs : H5FD__onion_whole_history) (rev_id : Z) (fs : filesystem)
  (low high range : Z)
  : H5E + (option (list Z * Z) * H5FD__onion_revision_record * Z * Z) :=
  if range >? 0 then
    match fuel with
    | O => inr (None, r_out, low, range)
    | S fuel' =>
        let n := u64 (range / 2 + low) in
        match injest_read_record r_out raw_file whs n fs with
        | inl e => inl e
        | inr (buf, size, r_out) =>
            if rev_id =? revision_id r_out
            then inr (Some (buf, size), r_out, low, range)
            else
              let r_out :=
                rec_set_comment
                  (rec_set_username
                     (rec_set_archival_index r_out
                        (aix_set_n_entries (archival_index r_out) 0))
                     0 (username r_out))
                  0 (comment r_out) in
              let '(low, high) :=
                if revision_id r_out <? rev_id
                then ((if n =? high then high else u64 (n + 1)), high)
                else (low, (if n =? low then low else u64 (n - 1))) in
              injest_search_loop fuel' r_out raw_file whs rev_id fs
                low high (u64 (high - low))
        end
    end
  else inr (None, r_out, low, range).

(** H5FD__onion_injest_revision_record; allocations taken to succeed,
    also for zero sizes. *)
Definition H5FD__onion_injest_revision_record
  (r_out : H5FD__onion_revision_record) (raw_file : H5FD_t)
  (whs : H5FD__onion_whole_history) (rev_id : Z) (fs : filesystem)
  : herr_t * H5FD__onion_revision_record :=
  let high := u64 (whs_n_revisions whs - 1) in
  let range := high in
  let addr := rp_phys_addr (whs_at whs high) in
  let size := rp_record_size (whs_at whs high) in
  if H5FD_get_eof raw_file fs <? addr + size
  then (FAIL (H5E_ARGS, H5E_BADVALUE), r_out)
  else
    match injest_search_loop (Z.to_nat range) r_out raw_file whs
            rev_id fs 0 high range with
    | inl e => (FAIL e, r_out)
    | inr (found, r_out, low, range) =>
        let leaf :=
          if range =? 0 then
            match injest_read_record r_out raw_file whs low fs with
            | inl e => inl e
            | inr (buf, size, r_out) =>
                if negb (rev_id =? revision_id r_out)
                then inl (H5E_ARGS, H5E_BADRANGE)
                else inr (Some (buf, size), r_out)
            end
          else inr (found, r_out) in
        match leaf with
        | inl e => (FAIL e, r_out)
        | inr (found, r_out) =>
            let '(buf, size) := default ([], 0) found in
            let r_out :=
              rec_set_username r_out (username_size r_out)
                (Some (replicate (Z.to_nat (username_size r_out)) 0)) in
            let r_out :=
              if comment_size r_out >? 0
              then rec_set_comment r_out (comment_size r_out)
                     (Some (replicate (Z.to_nat (comment_size r_out)) 0))
              else r_out in
            let r_out :=
              rec_set_archival_index r_out
                (aix_set_list (archival_index r_out)
                   (Some (replicate
                            (Z.to_nat (aix_n_entries (archival_index r_out)))
                            entry_zero))) in
            let '(ret, r_out) :=
              H5FD_onion_revision_record_decode buf r_out in
            if negb (ret =? size)
            then (FAIL (H5E_VFL, H5E_CANTDECODE), r_out)
            else (SUCCEED, r_out)
        end
    end.

(** ** Open *)

(** "ONIONEOF" *)
Definition ONIONEOF : list Z := [79; 78; 73; 79; 78; 69; 79; 70].

Definition is_fail (r : herr_t) : bool :=
  match r with SUCCEED => false | FAIL _ => true end.

(** The header flags chosen from the creation flags of the FAPL, starting
    from [flags0]. *)
Definition header_flags_of_creation (flags0 creation : Z) : Z :=
  let flags1 :=
    if has_flag creation
         H5FD_ONION_FAPL_INFO_CREATE_FLAG_ENABLE_DIVERGENT_HISTORY
    then Z.lor flags0 H5FD__ONION_HEADER_FLAG_DIVERGENT_HISTORY
    else flags0 in
  if has_flag creation H5FD_ONION_FAPL_INFO_CREATE_FLAG_ENABLE_PAGE_ALIGNMENT
  then Z.lor flags1 H5FD__ONION_HEADER_FLAG_PAGE_ALIGNMENT
  else flags1.

(** [rec_p->archival_index.list = HDmalloc(0)] *)
Definition alloc_empty_archival_list (f : H5FD_onion_t) : H5FD_onion_t :=
  set_rev_record f
    (rec_set_archival_index (rev_record f)
       (aix_set_list (archival_index (rev_record f)) (Some []))).

(** [file->rev_index = H5FD_onion_revision_index_init(file->fa.page_size)]
    with its NULL check. *)
Definition init_rev_index : M unit :=
  f ← get_file;
  let ri := H5FD_onion_revision_index_init (fa_page_size (fa f)) in
  update (fun f => set_rev_index f ri);;
  fail_if (is_null ri) H5E_VFL H5E_CANTINIT.

(** [H5FD__onion_set_userinfo_in_record(rec_p)] on the record of the
    file. *)
Definition set_userinfo (env : environment) : M unit :=
  f ← get_file;
  let '(ret, rec_p) :=
    H5FD__onion_set_userinfo_in_record env (rev_record f) in
  update (fun f => set_rev_record f rec_p);;
  fail_if (is_fail ret) H5E_ARGS H5E_BADVALUE.

(** The body of H5FD__onion_create_truncate_onion up to [done:]. *)
Definition create_truncate_body (env : environment)
  (filename name_onion name_recovery : string) (flags : Z) : M unit :=
  update (fun f =>
    set_header f
      (hdr_set_origin_eof
         (hdr_set_flags (header f)
            (header_flags_of_creation H5FD__ONION_HEADER_FLAG_WRITE_LOCK
               (creation_flags (fa f))))
         0));;
  set_userinfo env;;
  f ← get_file;
  _ ← or_fail (get_legit_fapl_id (backing_fapl_id (fa f)))
        H5E_ARGS H5E_BADVALUE;
  (* create the backing files *)
  canon ← open_backing filename flags;
  update (fun f => set_backing_canon f canon);;
  canon ← or_fail canon H5E_FILE H5E_CANTOPENFILE;
  onion ← open_backing name_onion flags;
  update (fun f => set_backing_onion f onion);;
  onion ← or_fail onion H5E_FILE H5E_CANTOPENFILE;
  recov ← open_backing name_recovery flags;
  update (fun f => set_backing_recov f recov);;
  recov ← or_fail recov H5E_FILE H5E_CANTOPENFILE;
  (* "empty" canonical file *)
  let canon := H5FD_set_eoa canon 8 in
  update (fun f => set_backing_canon f (Some canon));;
  write_backing canon 0 8 ONIONEOF H5E_FILE H5E_WRITEERROR;;
  (* nascent whole-history, to the recovery file *)
  f ← get_file;
  let '(size, buf, sum) := H5FD_onion_whole_history_encode (summary f) in
  update (fun f => set_summary f (whs_set_checksum (summary f) sum));;
  fail_if (negb (H5FD__ONION_ENCODED_SIZE_WHOLE_HISTORY =? size))
    H5E_VFL H5E_BADVALUE;;
  let recov := H5FD_set_eoa recov size in
  update (fun f => set_backing_recov f (Some recov));;
  write_backing recov 0 size buf H5E_FILE H5E_WRITEERROR;;
  update (fun f =>
    set_header f (hdr_set_whole_history_size (header f) size));;
  (* history header, to the onion file *)
  f ← get_file;
  let '(size, buf, sum) := H5FD_onion_history_header_encode (header f) in
  update (fun f => set_header f (hdr_set_checksum (header f) sum));;
  fail_if (negb (H5FD__ONION_ENCODED_SIZE_HEADER =? size))
    H5E_VFL H5E_BADVALUE;;
  let onion := H5FD_set_eoa onion size in
  update (fun f => set_backing_onion f (Some onion));;
  write_backing onion 0 size buf H5E_FILE H5E_WRITEERROR;;
  update (fun f =>
    let f := set_history_eof f size in
    if page_align_history f
    then set_history_eof f
           (page_align (history_eof f) (hdr_page_size (header f)))
    else f);;
  update alloc_empty_archival_list;;
  init_rev_index.

(** H5FD__onion_create_truncate_onion: on failure the recovery file is
    removed. *)
Definition H5FD__onion_create_truncate_onion (env : environment)
  (filename name_onion name_recovery : string) (flags : Z) : M unit :=
  fun s =>
    match create_truncate_body env filename name_onion name_recovery
            flags s with
    | (inl e, (f, fs)) => (inl e, (f, HDremove name_recovery fs))
    | r => r
    end.

(** The body of H5FD__onion_open_rw up to [done:]. *)
Definition open_rw_body (flags : Z) : M unit :=
  f ← get_file;
  fail_if (has_flag (hdr_flags (header f)) H5FD__ONION_HEADER_FLAG_WRITE_LOCK)
    H5E_VFL H5E_UNSUPPORTED;;
  (* copy the whole-history to the recovery file *)
  name ← or_fail (name_recov f) H5E_VFL H5E_CANTOPENFILE;
  recov ← open_backing name (Z.lor flags (Z.lor H5F_ACC_CREAT H5F_ACC_TRUNC));
  update (fun f => set_backing_recov f recov);;
  recov ← or_fail recov H5E_VFL H5E_CANTOPENFILE;
  fs ← get_fs;
  let '(size, recov, fs) :=
    H5FD__onion_whole_history_write (summary f) recov 0 0 fs in
  update (fun f => set_backing_recov f (Some recov));;
  put_fs fs;;
  fail_if (size =? 0) H5E_VFL H5E_WRITEERROR;;
  fail_if (negb (size =? hdr_whole_history_size (header f)))
    H5E_VFL H5E_WRITEERROR;;
  (* set the write-lock flag in the onion header *)
  update (fun f =>
    set_header f
      (hdr_set_flags (header f)
         (Z.lor (hdr_flags (header f)) H5FD__ONION_HEADER_FLAG_WRITE_LOCK)));;
  f ← get_file;
  let '(size, buf, _sum) := H5FD_onion_history_header_encode (header f) in
  fail_if (size =? 0) H5E_VFL H5E_BADVALUE;;
  onion ← or_fail (backing_onion f) H5E_VFL H5E_WRITEERROR;
  write_backing onion 0 size buf H5E_VFL H5E_WRITEERROR;;
  (* revision index, revision ids *)
  init_rev_index;;
  update (fun f =>
    set_is_open_rw
      (set_rev_record f
         (rec_set_ids (rev_record f)
            (u64 (revision_id (rev_record f) + 1))
            (revision_id (rev_record f))))
      true).

(** H5FD__onion_open_rw: on failure the recovery file is closed and the
    revision index destroyed. *)
Definition H5FD__onion_open_rw (flags : Z) : M unit :=
  fun s =>
    match open_rw_body flags s with
    | (inl e, (f, fs)) =>
        (inl e, (set_rev_index (set_backing_recov f None) None, fs))
    | r => r
    end.

(** The block of H5FD__onion_open entered when the onion file cannot be
    opened and the flags ask for read/write access: the onion and recovery
    files are created and a header and an empty whole-history are written
    to the onion file. *)
Definition open_missing_onion_rw (env : environment)
  (name_onion name_recovery : string) : M unit :=
  update (fun f =>
    set_header f
      (hdr_set_flags (header f)
         (header_flags_of_creation (hdr_flags (header f))
            (creation_flags (fa f)))));;
  set_userinfo env;;
  f ← get_file;
  _ ← or_fail (get_legit_fapl_id (backing_fapl_id (fa f)))
        H5E_ARGS H5E_BADVALUE;
  let create := Z.lor H5F_ACC_RDWR (Z.lor H5F_ACC_CREAT H5F_ACC_TRUNC) in
  onion ← open_backing name_onion create;
  update (fun f => set_backing_onion f onion);;
  onion ← or_fail onion H5E_FILE H5E_CANTOPENFILE;
  recov ← open_backing name_recovery create;
  update (fun f => set_backing_recov f recov);;
  _ ← or_fail recov H5E_FILE H5E_CANTOPENFILE;
  (* the header *)
  update (fun f =>
    set_header f
      (hdr_set_whole_history_addr
         (hdr_set_whole_history_size (header f)
            H5FD__ONION_ENCODED_SIZE_WHOLE_HISTORY)
         (H5FD__ONION_ENCODED_SIZE_HEADER + 1)));;
  f ← get_file;
  let '(size, head_buf, sum) :=
    H5FD_onion_history_header_encode (header f) in
  update (fun f => set_header f (hdr_set_checksum (header f) sum));;
  fail_if (negb (H5FD__ONION_ENCODED_SIZE_HEADER =? size))
    H5E_VFL H5E_BADVALUE;;
  let saved_size := size in
  (* the empty whole-history *)
  update (fun f => set_summary f (whs_set_n_revisions (summary f) 0));;
  f ← get_file;
  let '(size, wh_buf, sum) := H5FD_onion_whole_history_encode (summary f) in
  update (fun f =>
    set_header
      (set_summary f (whs_set_checksum (summary f) sum))
      (hdr_set_whole_history_size (header f) size));;
  fail_if (negb (H5FD__ONION_ENCODED_SIZE_WHOLE_HISTORY =? size))
    H5E_VFL H5E_BADVALUE;;
  let onion := H5FD_set_eoa onion (saved_size + size + 1) in
  update (fun f => set_backing_onion f (Some onion));;
  write_backing onion 0 saved_size head_buf H5E_FILE H5E_WRITEERROR;;
  update (fun f =>
    let f := set_history_eof f saved_size in
    if page_align_history f
    then set_history_eof f
           (page_align (history_eof f) (hdr_page_size (header f)))
    else f);;
  update alloc_empty_archival_list;;
  init_rev_index;;
  update (fun f =>
    set_header f (hdr_set_whole_history_addr (header f) (history_eof f)));;
  write_backing onion (saved_size + 1) size wh_buf H5E_FILE H5E_WRITEERROR.

(** The branch of H5FD__onion_open for an existing file (no create or
    truncate flag). *)
Definition open_existing (env : environment)
  (filename name_onion name_recovery : string) (flags : Z) : M unit :=
  (* the backing FAPL is read off the file structure before the FAPL
     information is copied into it, so it is always the default one *)
  _ ← M_ret H5P_FILE_ACCESS_DEFAULT;
  canon ← open_backing filename flags;
  update (fun f => set_backing_canon f canon);;
  _ ← or_fail canon H5E_VFL H5E_CANTOPENFILE;
  onion ← open_backing name_onion flags;
  update (fun f => set_backing_onion f onion);;
  (if is_null onion then
     if has_flag flags H5F_ACC_RDWR
     then open_missing_onion_rw env name_onion name_recovery
     else HGOTO_ERROR H5E_VFL H5E_CANTOPENFILE
   else M_ret tt);;
  (* history header *)
  f ← get_file;
  fs ← get_fs;
  onion ← or_fail (backing_onion f) H5E_VFL H5E_CANTDECODE;
  let '(ret, hdr, onion) :=
    H5FD__onion_injest_history_header (header f) onion 0 fs in
  update (fun f => set_backing_onion (set_header f hdr) (Some onion));;
  fail_if (is_fail ret) H5E_VFL H5E_CANTDECODE;;
  update (fun f =>
    set_page_align_history f
      (has_flag (hdr_flags (header f))
         H5FD__ONION_HEADER_FLAG_PAGE_ALIGNMENT));;
  fail_if (has_flag (hdr_flags hdr) H5FD__ONION_HEADER_FLAG_WRITE_LOCK)
    H5E_VFL H5E_UNSUPPORTED;;
  (* whole-history *)
  f ← get_file;
  let '(ret, whs, onion) :=
    H5FD__onion_injest_whole_history (summary f) onion
      (hdr_whole_history_addr (header f))
      (hdr_whole_history_size (header f)) fs in
  update (fun f => set_backing_onion (set_summary f whs) (Some onion));;
  fail_if (is_fail ret) H5E_VFL H5E_CANTDECODE;;
  fail_if ((fa_revision_id (fa f) >=? whs_n_revisions whs)
           && negb (fa_revision_id (fa f)
                    =? H5FD_ONION_FAPL_INFO_REVISION_ID_LATEST))
    H5E_ARGS H5E_BADVALUE;;
  (* revision record *)
  (if whs_n_revisions whs >? 0 then
     let '(ret, rec) :=
       H5FD__onion_injest_revision_record (rev_record f) onion whs
         (Z.min (fa_revision_id (fa f)) (u64 (whs_n_revisions whs - 1)))
         fs in
     update (fun f => set_rev_record f rec);;
     fail_if (is_fail ret) H5E_VFL H5E_CANTDECODE
   else M_ret tt);;
  if has_flag flags H5F_ACC_RDWR
  then reraise (H5FD__onion_open_rw flags) H5E_VFL H5E_CANTOPENFILE
  else M_ret tt.

(** The comment of the FAPL information, when it is not empty, is copied
    into the revision record with its terminating NUL. *)
Definition copy_comment (c : list Z) : M unit :=
  match c with
  | [] => M_ret tt
  | _ =>
      update (fun f =>
        set_rev_record f
          (rec_set_comment (rev_record f)
             (u32 (Z.of_nat (length c) + 1)) (Some (c ++ [0]))))
  end.

(** The body of H5FD__onion_open once the file structure is allocated. *)
Definition open_body (env : environment) (filename : string) (flags : Z)
  (fa_ : H5FD_onion_fapl_info_t) : M unit :=
  let name_onion := (filename +:+ ".onion")%string in
  let name_recovery := (name_onion +:+ ".recovery")%string in
  update (fun f => set_name_recov f (Some name_recovery));;
  (* initialise the internal components *)
  update (fun f =>
    let f := set_is_open_rw (set_fa f fa_) false in
    let f :=
      set_header f
        {| hdr_magic := H5FD__ONION_HEADER_MAGIC;
           hdr_version := H5FD__ONION_HEADER_VERSION_CURR;
           hdr_flags := hdr_flags (header f);
           hdr_page_size := fa_page_size (fa f);
           hdr_origin_eof := hdr_origin_eof (header f);
           hdr_whole_history_addr := hdr_whole_history_addr (header f);
           hdr_whole_history_size := hdr_whole_history_size (header f);
           hdr_checksum := hdr_checksum (header f) |} in
    let f :=
      set_summary f
        {| whs_magic := H5FD__ONION_WHOLE_HISTORY_MAGIC;
           whs_version := H5FD__ONION_WHOLE_HISTORY_VERSION_CURR;
           whs_n_revisions := whs_n_revisions (summary f);
           whs_record_pointer_list := whs_record_pointer_list (summary f);
           whs_checksum := whs_checksum (summary f) |} in
    let r := rev_record f in
    set_rev_record f
      {| rec_magic := H5FD__ONION_REVISION_RECORD_MAGIC;
         rec_version := H5FD__ONION_REVISION_RECORD_VERSION_CURR;
         revision_id := revision_id r;
         parent_revision_id := parent_revision_id r;
         time_of_creation := time_of_creation r;
         rec_logi_eof := rec_logi_eof r;
         user_id := user_id r;
         username_size := username_size r;
         comment_size := comment_size r;
         archival_index :=
           {| aix_magic := H5FD__ONION_ARCHIVAL_INDEX_MAGIC;
              aix_version := H5FD__ONION_ARCHIVAL_INDEX_VERSION_CURR;
              aix_page_size_log2 := page_size_to_log2 (fa_page_size fa_);
              aix_n_entries := aix_n_entries (archival_index r);
              aix_list := aix_list (archival_index r) |};
         username := username r;
         comment := comment r;
         rec_checksum := rec_checksum r |});;
  (* proceed with the open *)
  (if has_flag flags (Z.lor H5F_ACC_CREAT H5F_ACC_TRUNC) then
     (if has_flag (creation_flags fa_)
           H5FD_ONION_FAPL_INFO_CREATE_FLAG_ENABLE_PAGE_ALIGNMENT
      then
        update (fun f =>
          set_page_align_history
            (set_header f
               (hdr_set_flags (header f)
                  (Z.lor (hdr_flags (header f))
                     H5FD__ONION_HEADER_FLAG_PAGE_ALIGNMENT)))
            true)
      else M_ret tt);;
     reraise
       (H5FD__onion_create_truncate_onion env filename name_onion
          name_recovery flags)
       H5E_VFL H5E_CANTCREATE;;
     update (fun f => set_is_open_rw f true)
   else open_existing env filename name_onion name_recovery flags);;
  (* copy the comment from the FAPL information, if one is given *)
  (if has_flag flags
        (Z.lor H5F_ACC_RDWR (Z.lor H5F_ACC_CREAT H5F_ACC_TRUNC))
   then copy_comment (fa_comment fa_)
   else M_ret tt);;
  f ← get_file;
  onion ← or_fail (backing_onion f) H5E_VFL H5E_CANTOPENFILE;
  update (fun f =>
    let f :=
      set_logi_eoa
        (set_logi_eof (set_origin_eof f (hdr_origin_eof (header f)))
           (rec_logi_eof (rev_record f)))
        0 in
    let f := set_history_eof f (H5FD_get_eoa onion) in
    if page_align_history f
    then set_history_eof f
           (page_align (history_eof f) (hdr_page_size (header f)))
    else f).

(** H5FD__onion_open: the file handle, or the error with which the open
    fails (the return value is then NULL and the file structure is freed);
    in both cases the backing store as the open leaves it.

    The three failures that come before the file structure is allocated
    (no FAPL information of the onion driver, store target H5, invalid
    store target) are given with the error that HGOTO_ERROR pushes and the
    store untouched.  The C function does not get as far as returning it:
    behind its [done:] label it reads [file->backing_canon] while [file] is
    still NULL, for which C defines no behaviour.  The theorems on
    H5FD__onion_open below that say which error an open fails with are
    stated for FAPL information of the onion driver with the store target
    ONION, where the structure is allocated. *)
Definition H5FD__onion_open (env : environment) (filename : string)
  (flags : Z) (fapl : option H5FD_onion_fapl_info_t) (fs : filesystem)
  : (H5E + H5FD_onion_t) * filesystem :=
  match H5Pget_fapl_onion fapl with
  | None => (inl (H5E_ARGS, H5E_BADVALUE), fs)
  | Some fa_ =>
      match store_target fa_ with
      | H5FD_ONION_STORE_TARGET_H5 => (inl (H5E_ARGS, H5E_UNSUPPORTED), fs)
      | store_target_invalid _ => (inl (H5E_ARGS, H5E_BADVALUE), fs)
      | H5FD_ONION_STORE_TARGET_ONION =>
          match open_body env filename flags fa_ (file_calloc, fs) with
          | (inl e, (_, fs')) => (inl e, fs')
          | (inr _, (file, fs')) => (inr file, fs')
          end
      end
  end.

(** ** Read path *)

(** The bytes of the canonical file for a page that is in neither index:
    [read_size] bytes from [addr_start], then zeroes up to [n] bytes. *)
Definition read_canonical (file : H5FD_onion_t) (fs : filesystem)
  (addr_start n : Z) : H5E + list Z :=
  let overlap_size :=
    if addr_start >? origin_eof file then 0
    else origin_eof file - addr_start in
  let read_size := Z.min overlap_size n in
  let original :=
    if read_size >? 0 then
      match backing_canon file with
      | None => None
      | Some canon => H5FDread canon addr_start read_size fs
      end
    else Some [] in
  match original with
  | None => inl (H5E_VFL, H5E_READERROR)
  | Some bytes => inr (bytes ++ replicate (Z.to_nat (n - read_size)) 0)
  end.

(** [H5FDread] from the onion file. *)
Definition read_onion (file : H5FD_onion_t) (fs : filesystem)
  (addr size : Z) : H5E + list Z :=
  match backing_onion file with
  | None => inl (H5E_VFL, H5E_READERROR)
  | Some onion =>
      match H5FDread onion addr size fs with
      | None => inl (H5E_VFL, H5E_READERROR)
      | Some bytes => inr bytes
      end
  end.

(** The lookup [TRUE == file->is_open_rw &&
    H5FD_onion_revision_index_find(file->rev_index, page_i, ...)]. *)
Definition live_find (file : H5FD_onion_t) (page_i : Z)
  : option H5FD__onion_index_entry :=
  if is_open_rw file then
    match rev_index file with
    | None => None
    | Some rix => H5FD_onion_revision_index_find rix page_i
    end
  else None.

(** The gaps of the page loops of H5FD__onion_read and H5FD__onion_write:
    [page_gap_head] from the start of the first page to the start of the
    range, [page_gap_tail] from the end of the range to the end of the last
    page; [bytes_left] is [bytes_to_read] or [bytes_to_write]. *)
Definition page_gap_head (offset page_size_log2 i : Z) : Z :=
  if i =? 0
  then Z.land offset (u32 (u32 (Z.shiftl 1 page_size_log2) - 1))
  else 0.

Definition page_gap_tail (n_pages page_size bytes_left gap_head i : Z)
  : Z :=
  if u64 (n_pages - 1) =? i
  then u64 (page_size - bytes_left - gap_head)
  else 0.

(** One turn of the page loop of H5FD__onion_read: the bytes stored into
    the output buffer and their count [page_readsize]. *)
Definition read_page (file : H5FD_onion_t) (fs : filesystem)
  (offset n_pages page_size page_size_log2 page_0 i bytes_to_read : Z)
  : H5E + (list Z * Z) :=
  let page_i := u64 (page_0 + i) in
  let page_gap_head := page_gap_head offset page_size_log2 i in
  let page_gap_tail :=
    page_gap_tail n_pages page_size bytes_to_read page_gap_head i in
  let page_readsize := u64 (page_size - page_gap_head - page_gap_tail) in
  let bytes :=
    match live_find file page_i with
    | Some entry_out_p =>
        read_onion file fs (u64 (phys_addr entry_out_p + page_gap_head))
          page_readsize
    | None =>
        match H5FD_onion_archival_index_find
                (archival_index (rev_record file)) page_i with
        | Some entry_out_p =>
            read_onion file fs (u64 (phys_addr entry_out_p + page_gap_head))
              page_readsize
        | None =>
            read_canonical file fs
              (u64 (page_i * page_size + page_gap_head)) page_readsize
        end
    end in
  match bytes with
  | inl e => inl e
  | inr bytes => inr (bytes, page_readsize)
  end.

(** The loop [for (i = 0; i < n_pages; i++)] of H5FD__onion_read;
    [count] is the number of turns left and [buf_out] what has been stored
    so far. *)
Fixpoint read_pages (count : nat) (file : H5FD_onion_t) (fs : filesystem)
  (offset n_pages page_size page_size_log2 page_0 i bytes_to_read : Z)
  (buf_out : list Z) : H5E + list Z :=
  match count with
  | O => inr buf_out
  | S count' =>
      match read_page file fs offset n_pages page_size page_size_log2
              page_0 i bytes_to_read with
      | inl e => inl e
      | inr (bytes, page_readsize) =>
          read_pages count' file fs offset n_pages page_size page_size_log2
            page_0 (i + 1) (u64 (bytes_to_read - page_readsize))
            (buf_out ++ bytes)
      end
  end.

(** H5FD__onion_read: the bytes stored into [_buf_out], in order. *)
Definition H5FD__onion_read (file : H5FD_onion_t) (fs : filesystem)
  (offset len : Z) : H5E + list Z :=
  if u64 (offset + len) >? logi_eoa file then inl (H5E_ARGS, H5E_BADVALUE)
  else if len =? 0 then inr []
  else
    let page_size := hdr_page_size (header file) in
    let page_size_log2 :=
      aix_page_size_log2 (archival_index (rev_record file)) in
    let page_0 := Z.shiftr offset page_size_log2 in
    let n_pages := Z.shiftr (u64 (len + page_size - 1)) page_size_log2 in
    read_pages (Z.to_nat n_pages) file fs offset n_pages page_size
      page_size_log2 page_0 0 len [].

(** H5FD__onion_set_eoa *)
Definition H5FD__onion_set_eoa (file : H5FD_onion_t) (addr : Z)
  : H5FD_onion_t :=
  set_logi_eoa file addr.

(** ** Write path *)

(** [HDmemcpy(dst + off, src, n)] *)
Definition memcpy_at (dst : list Z) (off : Z) (src : list Z) (n : Z)
  : list Z :=
  take (Z.to_nat off) dst ++ take (Z.to_nat n) src
  ++ drop (Z.to_nat (off + n)) dst.

(** [for (j = from; j < to; j++) page_buf[j] = 0;] *)
Definition zero_fill (page_buf : list Z) (from to : Z) : list Z :=
  if from <? to
  then take (Z.to_nat from) page_buf
       ++ replicate (Z.to_nat (to - from)) 0
       ++ drop (Z.to_nat to) page_buf
  else page_buf.

(** What the page loop of H5FD__onion_write carries from turn to turn. *)
Record write_state : Type := {
  w_file : H5FD_onion_t;
  w_fs : filesystem;
  w_buf : list Z;
  w_bytes_to_write : Z;
  w_page_buf : list Z
}.

(** The page buffer for a page that is not in the revision index and is
    written in part: the archived page, or the canonical bytes with zeroes
    around them. *)
Definition seed_page_buf (file : H5FD_onion_t) (fs : filesystem)
  (page_i page_size page_gap_head page_gap_tail : Z) (page_buf : list Z)
  : H5E + list Z :=
  match H5FD_onion_archival_index_find (archival_index (rev_record file))
          page_i with
  | Some entry_out_p =>
      match read_onion file fs (phys_addr entry_out_p) page_size with
      | inl e => inl e
      | inr bytes => inr (memcpy_at page_buf 0 bytes page_size)
      end
  | None =>
      let addr_start := u64 (page_i * page_size) in
      let overlap_size :=
        if addr_start >? origin_eof file then 0
        else origin_eof file - addr_start in
      let read_size := Z.min overlap_size page_size in
      let original :=
        if read_size >? 0 then
          match backing_canon file with
          | None => None
          | Some canon => H5FDread canon addr_start read_size fs
          end
        else Some [] in
      match original with
      | None => inl (H5E_VFL, H5E_READERROR)
      | Some bytes =>
          let page_buf := memcpy_at page_buf 0 bytes read_size in
          let page_buf := zero_fill page_buf read_size page_gap_head in
          inr (zero_fill page_buf
                 (Z.max read_size (u64 (page_size - page_gap_tail)))
                 page_size)
      end
  end.

(** One turn of the page loop of H5FD__onion_write.  The file structure
    and the store are changed in place, so the state is returned with a
    failure as well.  The revision index and the onion handle are there in
    a file open for writing (the source asserts the former); the turn is
    refused without them.

    The page buffer has [page_size] bytes.  For a range that starts inside
    a page and runs into the next one, [page_gap_head + page_n_used]
    exceeds [page_size]: the C memcpy into the page buffer then writes past
    its end, for which C defines no behaviour.  Here [memcpy_at] gives the
    longer list and the [H5FDwrite] that follows takes its first
    [page_size] bytes.  The turns of a write of whole pages, and of a
    write that stays within one page, copy within the buffer. *)
Definition write_page
  (offset n_pages page_size page_size_log2 page_0 i : Z) (st : write_state)
  : herr_t * write_state :=
  let file := w_file st in
  let fs := w_fs st in
  let buf := w_buf st in
  let page_buf := w_page_buf st in
  let page_i := u64 (page_0 + i) in
  let page_gap_head := page_gap_head offset page_size_log2 i in
  let page_gap_tail :=
    page_gap_tail n_pages page_size (w_bytes_to_write st) page_gap_head i in
  let page_n_used := u64 (page_size - page_gap_head - page_gap_tail) in
  let advance (file : H5FD_onion_t) (fs : filesystem) (page_buf : list Z) :=
    {| w_file := file; w_fs := fs;
       w_buf := drop (Z.to_nat page_n_used) buf;
       w_bytes_to_write := u64 (w_bytes_to_write st - page_n_used);
       w_page_buf := page_buf |} in
  let stay (file : H5FD_onion_t) (fs : filesystem) (page_buf : list Z) :=
    {| w_file := file; w_fs := fs; w_buf := buf;
       w_bytes_to_write := w_bytes_to_write st;
       w_page_buf := page_buf |} in
  match rev_index file, backing_onion file with
  | Some rix, Some onion =>
      match H5FD_onion_revision_index_find rix page_i with
      | Some entry_out_p =>
          (* modify the page in the revision index *)
          let seeded :=
            if negb (Z.lor page_gap_head page_gap_tail =? 0) then
              match read_onion file fs (phys_addr entry_out_p) page_size with
              | inl e => inl e
              | inr bytes =>
                  let page_buf := memcpy_at page_buf 0 bytes page_size in
                  let page_buf := memcpy_at page_buf 0 buf page_n_used in
                  inr (page_buf, page_buf)
              end
            else inr (page_buf, buf) in
          match seeded with
          | inl e => (FAIL e, st)
          | inr (page_buf, write_buf) =>
              match H5FDwrite onion (phys_addr entry_out_p) page_size
                      write_buf fs with
              | None =>
                  (FAIL (H5E_VFL, H5E_WRITEERROR), stay file fs page_buf)
              | Some fs' => (SUCCEED, advance file fs' page_buf)
              end
          end
      | None =>
          let seeded :=
            if negb (page_gap_head =? 0) || negb (page_gap_tail =? 0) then
              match seed_page_buf file fs page_i page_size page_gap_head
                      page_gap_tail page_buf with
              | inl e => inl e
              | inr page_buf =>
                  let page_buf :=
                    memcpy_at page_buf page_gap_head buf page_n_used in
                  inr (page_buf, page_buf)
              end
            else inr (page_buf, buf) in
          match seeded with
          | inl e => (FAIL e, st)
          | inr (page_buf, write_buf) =>
              let new_entry :=
                {| logi_page := page_i; phys_addr := history_eof file |} in
              let onion :=
                H5FD_set_eoa onion (u64 (history_eof file + page_size)) in
              let file := set_backing_onion file (Some onion) in
              match H5FDwrite onion (history_eof file) page_size write_buf
                      fs with
              | None =>
                  (FAIL (H5E_VFL, H5E_WRITEERROR), stay file fs page_buf)
              | Some fs' =>
                  let '(ret, rix') :=
                    H5FD_onion_revision_index_insert rix new_entry in
                  let file := set_rev_index file (Some rix') in
                  if is_fail ret
                  then (FAIL (H5E_VFL, H5E_CANTINSERT),
                        stay file fs' page_buf)
                  else
                    (SUCCEED,
                     advance
                       (set_history_eof file
                          (u64 (history_eof file + page_size)))
                       fs' page_buf)
              end
          end
      end
  | _, _ => (FAIL (H5E_ARGS, H5E_BADVALUE), st)
  end.

(** The loop [for (i = 0; i < n_pages; i++)] of H5FD__onion_write. *)
Fixpoint write_pages (count : nat)
  (offset n_pages page_size page_size_log2 page_0 i : Z) (st : write_state)
  : herr_t * write_state :=
  match count with
  | O => (SUCCEED, st)
  | S count' =>
      match write_page offset n_pages page_size page_size_log2 page_0 i
              st with
      | (SUCCEED, st') =>
          write_pages count' offset n_pages page_size page_size_log2 page_0
            (i + 1) st'
      | failed => failed
      end
  end.

(** H5FD__onion_write.  The source asserts that the revision index is
    there and that the range lies within [logi_eoa]; the file structure and
    the store are returned as the call leaves them. *)
Definition H5FD__onion_write (file : H5FD_onion_t) (fs : filesystem)
  (offset len : Z) (buf : list Z) : herr_t * H5FD_onion_t * filesystem :=
  if negb (is_open_rw file) then (FAIL (H5E_ARGS, H5E_BADVALUE), file, fs)
  else if len =? 0 then (SUCCEED, file, fs)
  else
    let page_size := hdr_page_size (header file) in
    let page_size_log2 :=
      aix_page_size_log2 (archival_index (rev_record file)) in
    let page_0 := Z.shiftr offset page_size_log2 in
    let n_pages := Z.shiftr (u64 (len + page_size - 1)) page_size_log2 in
    let page_buf := replicate (Z.to_nat page_size) 0 in
    let '(ret, st) :=
      write_pages (Z.to_nat n_pages) offset n_pages page_size page_size_log2
        page_0 0
        {| w_file := file; w_fs := fs; w_buf := buf;
           w_bytes_to_write := len; w_page_buf := page_buf |} in
    match ret with
    | FAIL e => (FAIL e, w_file st, w_fs st)
    | SUCCEED =>
        (SUCCEED,
         set_logi_eof (w_file st)
           (Z.max (logi_eof (w_file st)) (u64 (offset + len))),
         w_fs st)
    end.

End Onion.

(** ** What an onion file holds *)

(** The header structure as H5FD__onion_open hands it to the decoder. *)
Definition header_blank : H5FD__onion_history_header :=
  {| hdr_magic := H5FD__ONION_HEADER_MAGIC;
     hdr_version := H5FD__ONION_HEADER_VERSION_CURR;
     hdr_flags := 0; hdr_page_size := 0; hdr_origin_eof := 0;
     hdr_whole_history_addr := 0; hdr_whole_history_size := 0;
     hdr_checksum := 0 |}.

(** The header that the first 40 bytes of an onion file decode to, if
    they do. *)
Definition stored_header (cksum : list Z -> Z) (data : list Z)
  : option H5FD__onion_history_header :=
  if Z.of_nat (length data) <? H5FD__ONION_ENCODED_SIZE_HEADER then None
  else
    let '(ret, hdr) :=
      H5FD_onion_history_header_decode cksum (take 40 data) header_blank in
    if ret =? 0 then None else Some hdr.

(** The whole-history structure as H5FD__onion_open hands it to the
    decoder: no revisions, no pointer list. *)
Definition whs_blank : H5FD__onion_whole_history :=
  {| whs_magic := H5FD__ONION_WHOLE_HISTORY_MAGIC;
     whs_version := H5FD__ONION_WHOLE_HISTORY_VERSION_CURR;
     whs_n_revisions := 0;
     whs_record_pointer_list := None;
     whs_checksum := 0 |}.

(** The revision count of the whole-history stored in [size] bytes at
    [addr] of an onion file, if these bytes decode. *)
Definition stored_revision_count (cksum : list Z -> Z) (data : list Z)
  (addr size : Z) : option Z :=
  if Z.of_nat (length data) <? addr + size then None
  else
    let buf := take (Z.to_nat size) (drop (Z.to_nat addr) data) in
    let '(ret, whs) := H5FD_onion_whole_history_decode cksum buf whs_blank in
    if (ret =? 0) || negb (ret =? size) then None
    else Some (whs_n_revisions whs).

(** The header that H5FD__onion_open encodes when it finds no onion file
    and the flags ask for read/write access. *)
Definition fabricated_header (fa_ : H5FD_onion_fapl_info_t)
  : H5FD__onion_history_header :=
  {| hdr_magic := H5FD__ONION_HEADER_MAGIC;
     hdr_version := H5FD__ONION_HEADER_VERSION_CURR;
     hdr_flags := header_flags_of_creation 0 (creation_flags fa_);
     hdr_page_size := fa_page_size fa_;
     hdr_origin_eof := 0;
     hdr_whole_history_addr := H5FD__ONION_ENCODED_SIZE_HEADER + 1;
     hdr_whole_history_size := H5FD__ONION_ENCODED_SIZE_WHOLE_HISTORY;
     hdr_checksum := 0 |}.

(** The bytes that the two encoders produce. *)
Definition encoded_header (cksum : list Z -> Z)
  (h : H5FD__onion_history_header) : list Z :=
  snd (fst (H5FD_onion_history_header_encode cksum h)).

Definition encoded_whole_history (cksum : list Z -> Z)
  (s : H5FD__onion_whole_history) : list Z :=
  snd (fst (H5FD_onion_whole_history_encode cksum s)).

(** The header with the write-lock flag set, as H5FD__onion_open_rw
    writes it. *)
Definition write_locked (h : H5FD__onion_history_header)
  : H5FD__onion_history_header :=
  hdr_set_flags h (Z.lor (hdr_flags h) H5FD__ONION_HEADER_FLAG_WRITE_LOCK).

(** ** Concrete inputs used by the evaluations below *)

Definition entry (page addr : Z) : H5FD__onion_index_entry :=
  {| logi_page := page; phys_addr := addr |}.

(** An archival index over a given list, with [n_entries] its length. *)
Definition archival_index_of (page_size_log2 : Z)
  (l : list H5FD__onion_index_entry) : H5FD__onion_archival_index :=
  {| aix_magic := H5FD__ONION_ARCHIVAL_INDEX_MAGIC;
     aix_version := H5FD__ONION_ARCHIVAL_INDEX_VERSION_CURR;
     aix_page_size_log2 := page_size_log2;
     aix_n_entries := Z.of_nat (length l);
     aix_list := Some l |}.

(** A sequence of inserts into a revision index; [None] as soon as one of
    them fails. *)
Fixpoint insert_all (rix : H5FD__onion_revision_index_t)
  (l : list H5FD__onion_index_entry)
  : option H5FD__onion_revision_index_t :=
  match l with
  | [] => Some rix
  | e :: l' =>
      match H5FD_onion_revision_index_insert rix e with
      | (SUCCEED, rix') => insert_all rix' l'
      | (FAIL _, _) => None
      end
  end.

(** A fresh revision index for pages of 512 bytes. *)
Definition fresh_index : H5FD__onion_revision_index_t :=
  {| rix_magic := H5FD__ONION_REVISION_INDEX_MAGIC;
     rix_version := H5FD__ONION_REVISION_INDEX_VERSION_CURR;
     rix_page_size_log2 := 9;
     rix_n_entries := 0;
     _hash_table_size := 1024;
     _hash_table_size_log2 := 10;
     _hash_table_n_keys_populated := 0;
     _hash_table := replicate 1024 [] |}.

(** The pages of a session that dirties pages 1024 and 3072 (both in
    bucket 0 of the starting table) and then pages 1 to 512, each at the
    next slot of 512 bytes after the 40-byte header. *)
Definition session_pages : list H5FD__onion_index_entry :=
  entry 1024 40 :: entry 3072 552
  :: map (fun i => entry i (552 + 512 * i)) (seqZ 1 512).

(** All nodes of a revision index that carry a given logical page. *)
Definition nodes_of_page (rix : H5FD__onion_revision_index_t) (page : Z)
  : list H5FD__onion_index_entry :=
  List.filter (fun e => logi_page e =? page) (concat (_hash_table rix)).

(** The environment, configuration and flags of the sample sessions. *)
Definition sample_env : environment :=
  {| env_uid := 1000; env_pw_name := Some [117; 115; 101; 114] |}.

Definition sample_fapl (revision : Z) : H5FD_onion_fapl_info_t :=
  {| fa_magic := H5FD_ONION_FAPL_INFO_MAGIC;
     fa_version := H5FD_ONION_FAPL_INFO_VERSION_CURR;
     backing_fapl_id := H5P_DEFAULT;
     fa_page_size := 512;
     store_target := H5FD_ONION_STORE_TARGET_ONION;
     fa_revision_id := revision;
     creation_flags := 0;
     fa_comment := [] |}.

Definition create_flags : Z :=
  Z.lor H5F_ACC_RDWR (Z.lor H5F_ACC_CREAT H5F_ACC_TRUNC).

(** A new onion file created at "f.h5" on an empty store, with 2048
    addressable bytes. *)
Definition created_session : (H5E + H5FD_onion_t) * filesystem :=
  match H5FD__onion_open fletcher32 sample_env "f.h5" create_flags
          (Some (sample_fapl 0)) ∅ with
  | (inr file, fs) => (inr (H5FD__onion_set_eoa file 2048), fs)
  | failed => failed
  end.

(** A store with a canonical file and no onion file next to it. *)
Definition canonical_only : filesystem := {[ "f.h5"%string := [1; 2; 3] ]}.

(** A history header with a canonical file of 4 GiB behind it. *)
Definition header_4GiB : H5FD__onion_history_header :=
  {| hdr_magic := H5FD__ONION_HEADER_MAGIC;
     hdr_version := H5FD__ONION_HEADER_VERSION_CURR;
     hdr_flags := 0;
     hdr_page_size := 512;
     hdr_origin_eof := 2 ^ 32;
     hdr_whole_history_addr := 40;
     hdr_whole_history_size := 20;
     hdr_checksum := 0 |}.

(** A whole-history of one record pointer whose checksum field is 0. *)
Definition whole_history_bad_entry : H5FD__onion_whole_history :=
  {| whs_magic := H5FD__ONION_WHOLE_HISTORY_MAGIC;
     whs_version := H5FD__ONION_WHOLE_HISTORY_VERSION_CURR;
     whs_n_revisions := 1;
     whs_record_pointer_list :=
       Some [{| rp_phys_addr := 552; rp_record_size := 100;
                rp_checksum := 0 |}];
     whs_checksum := 0 |}.

(** The revision index after the inserts of [session_pages]. *)
Definition session_index : option H5FD__onion_revision_index_t :=
  insert_all fresh_index session_pages.

Definition session_index_final : H5FD__onion_revision_index_t :=
  default fresh_index session_index.

(** The created session after page 1 has been written in full with the
    byte 0xAA. *)
Definition written_session : herr_t * H5FD_onion_t * filesystem :=
  match created_session with
  | (inr file, fs) => H5FD__onion_write file fs 512 512 (replicate 512 170)
  | (inl e, fs) => (FAIL e, file_calloc, fs)
  end.

(** The created session after "hello" has been written at offset 0 and
    then "WORLD" at offset 5. *)
Definition hello_world_session : herr_t * H5FD_onion_t * filesystem :=
  match created_session with
  | (inr file, fs) =>
      match H5FD__onion_write file fs 0 5 [104; 101; 108; 108; 111] with
      | (SUCCEED, file, fs) =>
          H5FD__onion_write file fs 5 5 [87; 79; 82; 76; 68]
      | failed => failed
      end
  | (inl e, fs) => (FAIL e, file_calloc, fs)
  end.

(** The store that the created session leaves behind: its onion header
    carries the write-lock flag. *)
Definition created_store : filesystem := snd created_session.

(** The encoding of [whole_history_bad_entry], and the summary of a
    second decoding pass over it (one revision, list allocated). *)
Definition bad_entry_buffer : list Z :=
  snd (fst (H5FD_onion_whole_history_encode fletcher32
              whole_history_bad_entry)).

Definition second_pass_summary : H5FD__onion_whole_history :=
  {| whs_magic := H5FD__ONION_WHOLE_HISTORY_MAGIC;
     whs_version := H5FD__ONION_WHOLE_HISTORY_VERSION_CURR;
     whs_n_revisions := 1;
     whs_record_pointer_list := Some [record_pointer_zero];
     whs_checksum := 0 |}.

(** The loop state of a write of page 1 in full, on the session in which
    page 1 has been written before. *)
Definition rewrite_state : write_state :=
  {| w_file := snd (fst written_session);
     w_fs := snd written_session;
     w_buf := replicate 512 85;
     w_bytes_to_write := 512;
     w_page_buf := replicate 512 0 |}.

Definition rewrite_index : H5FD__onion_revision_index_t :=
  default fresh_index (rev_index (w_file rewrite_state)).

Definition rewrite_onion : H5FD_t :=
  default {| fd_name := ""; fd_eoa := 0 |}
    (backing_onion (w_file rewrite_state)).

(** An onion file that holds a header and an empty whole-history: no
    revision has been committed to it. *)
Definition unwritten_onion_file : list Z :=
  encoded_header fletcher32 (fabricated_header (sample_fapl 0))
  ++ [0] ++ encoded_whole_history fletcher32 whs_blank.

Definition unwritten_store : filesystem :=
  <["f.h5.onion"%string := unwritten_onion_file]> canonical_only.

Definition unwritten_header : H5FD__onion_history_header :=
  default header_blank (stored_header fletcher32 unwritten_onion_file).

Definition latest_fapl : H5FD_onion_fapl_info_t :=
  sample_fapl H5FD_ONION_FAPL_INFO_REVISION_ID_LATEST.

(** The same with pages of 4096 bytes, where the header of
    [unwritten_onion_file] says 512. *)
Definition large_page_fapl : H5FD_onion_fapl_info_t :=
  {| fa_magic := H5FD_ONION_FAPL_INFO_MAGIC;
     fa_version := H5FD_ONION_FAPL_INFO_VERSION_CURR;
     backing_fapl_id := H5P_DEFAULT;
     fa_page_size := 4096;
     store_target := H5FD_ONION_STORE_TARGET_ONION;
     fa_revision_id := H5FD_ONION_FAPL_INFO_REVISION_ID_LATEST;
     creation_flags := 0;
     fa_comment := [] |}.

(** A session on pages of two bytes: a new file in which pages 1024 and
    3072 and then pages 1 to 512 are written in full, one write each.  The
    last of these 514 writes doubles the hash table of the revision
    index. *)
Definition small_page_fapl : H5FD_onion_fapl_info_t :=
  {| fa_magic := H5FD_ONION_FAPL_INFO_MAGIC;
     fa_version := H5FD_ONION_FAPL_INFO_VERSION_CURR;
     backing_fapl_id := H5P_DEFAULT;
     fa_page_size := 2;
     store_target := H5FD_ONION_STORE_TARGET_ONION;
     fa_revision_id := 0;
     creation_flags := 0;
     fa_comment := [] |}.

Definition write_page_in_full (st : herr_t * H5FD_onion_t * filesystem)
  (page : Z) : herr_t * H5FD_onion_t * filesystem :=
  match st with
  | (SUCCEED, file, fs) =>
      H5FD__onion_write file fs (2 * page) 2 [page mod 256; 1]
  | failed => failed
  end.

Definition crowded_session : herr_t * H5FD_onion_t * filesystem :=
  match H5FD__onion_open fletcher32 sample_env "f.h5" create_flags
          (Some small_page_fapl) ∅ with
  | (inr file, fs) =>
      fold_left write_page_in_full (1024 :: 3072 :: seqZ 1 512)
        (SUCCEED, H5FD__onion_set_eoa file 8192, fs)
  | (inl e, fs) => (FAIL e, file_calloc, fs)
  end.

(** The revision index of a session. *)
Definition session_rev_index (st : herr_t * H5FD_onion_t * filesystem)
  : H5FD__onion_revision_index_t :=
  default fresh_index (rev_index (snd (fst st))).


(** ** Encoding a revision record *)

(** One index entry as H5FD_onion_revision_record_encode writes it: the
    logical address [logi_page << page_size_log2], the physical address and
    the checksum of these 16 bytes. *)
Definition encode_index_entry (cksum : list Z -> Z) (page_size_log2 : Z)
  (entry_p : H5FD__onion_index_entry) : list Z :=
  let logi_addr := u64 (Z.shiftl (logi_page entry_p) page_size_log2) in
  let head := UINT64ENCODE logi_addr ++ UINT64ENCODE (phys_addr entry_p) in
  head ++ UINT32ENCODE (checksum cksum head 16).

(** H5FD_onion_revision_record_encode: the number of bytes written, the
    buffer and [*sum_out].  The page size written is
    [(uint32_t)(1 << page_size_log2)], a shift of an [int] that C defines
    for shifts below 31 only.  The user name and the comment are copied
    from their buffers when their sizes are not zero; the source asserts
    that the buffers are there, and a buffer shorter than its size (a read
    past the allocation in C) gives the bytes it has. *)
Definition H5FD_onion_revision_record_encode (cksum : list Z -> Z)
  (record : H5FD__onion_revision_record) : Z * list Z * Z :=
  let vers_u32 := u32 (rec_version record) in
  let aix := archival_index record in
  let page_size := u32 (Z.shiftl 1 (aix_page_size_log2 aix)) in
  let buf :=
    H5FD__ONION_REVISION_RECORD_SIGNATURE
    ++ UINT32ENCODE vers_u32
    ++ UINT64ENCODE (revision_id record)
    ++ UINT64ENCODE (parent_revision_id record)
    ++ take 16 (time_of_creation record)
    ++ UINT64ENCODE (rec_logi_eof record)
    ++ UINT32ENCODE page_size
    ++ UINT32ENCODE (user_id record)
    ++ UINT64ENCODE (aix_n_entries aix)
    ++ UINT32ENCODE (username_size record)
    ++ UINT32ENCODE (comment_size record)
    ++ (if aix_n_entries aix >? 0
        then concat (map (fun i =>
                            encode_index_entry cksum (aix_page_size_log2 aix)
                              (aix_at aix i))
                       (seqZ 0 (aix_n_entries aix)))
        else [])
    ++ (if username_size record >? 0
        then take (Z.to_nat (username_size record))
               (default [] (username record))
        else [])
    ++ (if comment_size record >? 0
        then take (Z.to_nat (comment_size record))
               (default [] (comment record))
        else []) in
  let sum_out := checksum cksum buf (Z.of_nat (length buf)) in
  let buf := buf ++ UINT32ENCODE sum_out in
  (Z.of_nat (length buf), buf, sum_out).

(** The bytes that the record encoder produces. *)
Definition encoded_revision_record (cksum : list Z -> Z)
  (r : H5FD__onion_revision_record) : list Z :=
  snd (fst (H5FD_onion_revision_record_encode cksum r)).

(** ** Ranges of the C types

    The conditions under which the round trips below are stated: every
    field lies within the width of its C type, and every buffer has the
    size recorded for it. *)

(** An index entry whose page number, shifted to a logical address, still
    fits 64 bits. *)
Definition index_entry_in_range (page_size_log2 : Z)
  (e : H5FD__onion_index_entry) : Prop :=
  0 <= logi_page e /\ logi_page e * 2 ^ page_size_log2 < 2 ^ 64 /\
  0 <= phys_addr e < 2 ^ 64.

(** A revision record with the entries [l] in its archival index and the
    user name [u] (the driver always records one, with its NUL). *)
Definition revision_record_in_range (r : H5FD__onion_revision_record)
  (l : list H5FD__onion_index_entry) (u : list Z) : Prop :=
  rec_version r = H5FD__ONION_REVISION_RECORD_VERSION_CURR /\
  0 <= revision_id r < 2 ^ 64 /\
  0 <= parent_revision_id r < 2 ^ 64 /\
  length (time_of_creation r) = 16%nat /\
  0 <= rec_logi_eof r < 2 ^ 64 /\
  0 <= user_id r < 2 ^ 32 /\
  0 <= aix_page_size_log2 (archival_index r) < 31 /\
  aix_list (archival_index r) = Some l /\
  aix_n_entries (archival_index r) = Z.of_nat (length l) /\
  Z.of_nat (length l) < 2 ^ 64 /\
  Forall (index_entry_in_range (aix_page_size_log2 (archival_index r))) l /\
  username r = Some u /\
  0 < username_size r < 2 ^ 32 /\
  username_size r = Z.of_nat (length u) /\
  0 <= comment_size r < 2 ^ 32 /\
  comment_size r = Z.of_nat (length (default [] (comment r))) /\
  (comment_size r = 0 -> comment r = None).

(** The first 72 bytes of an encoded revision record. *)
Definition record_fixed_part (record : H5FD__onion_revision_record)
  : list Z :=
  H5FD__ONION_REVISION_RECORD_SIGNATURE
  ++ UINT32ENCODE (u32 (rec_version record))
  ++ UINT64ENCODE (revision_id record)
  ++ UINT64ENCODE (parent_revision_id record)
  ++ take 16 (time_of_creation record)
  ++ UINT64ENCODE (rec_logi_eof record)
  ++ UINT32ENCODE
       (u32 (Z.shiftl 1 (aix_page_size_log2 (archival_index record))))
  ++ UINT32ENCODE (user_id record)
  ++ UINT64ENCODE (aix_n_entries (archival_index record))
  ++ UINT32ENCODE (username_size record)
  ++ UINT32ENCODE (comment_size record).


(** The allocations that H5FD__onion_injest_revision_record makes between
    the two decoding passes: the user name, the comment when its size is
    not zero, and the list of the archival index. *)
Definition alloc_for_second_pass (r_out : H5FD__onion_revision_record)
  : H5FD__onion_revision_record :=
  let r_out :=
    rec_set_username r_out (username_size r_out)
      (Some (replicate (Z.to_nat (username_size r_out)) 0)) in
  let r_out :=
    if comment_size r_out >? 0
    then rec_set_comment r_out (comment_size r_out)
           (Some (replicate (Z.to_nat (comment_size r_out)) 0))
    else r_out in
  rec_set_archival_index r_out
    (aix_set_list (archival_index r_out)
       (Some (replicate (Z.to_nat (aix_n_entries (archival_index r_out)))
                entry_zero))).

(** A history header whose fields survive the decoder: the flags fit three
    bytes and the other fields four. *)
Definition header_in_range (h : H5FD__onion_history_header) : Prop :=
  hdr_version h = H5FD__ONION_HEADER_VERSION_CURR /\
  0 <= hdr_flags h < 2 ^ 24 /\
  0 <= hdr_page_size h < 2 ^ 32 /\
  0 <= hdr_origin_eof h < 2 ^ 32 /\
  0 <= hdr_whole_history_addr h < 2 ^ 32 /\
  0 <= hdr_whole_history_size h < 2 ^ 32.

(** ** More concrete inputs *)

(** The revision record of a session on pages of 512 bytes in which pages
    1 and 2 were written. *)
Definition sample_record : H5FD__onion_revision_record :=
  {| rec_magic := H5FD__ONION_REVISION_RECORD_MAGIC;
     rec_version := H5FD__ONION_REVISION_RECORD_VERSION_CURR;
     revision_id := 0;
     parent_revision_id := 0;
     time_of_creation := replicate 16 48;
     rec_logi_eof := 1536;
     user_id := 1000;
     username_size := 5;
     comment_size := 0;
     archival_index := archival_index_of 9 [entry 1 40; entry 2 552];
     username := Some [117; 115; 101; 114; 0];
     comment := None;
     rec_checksum := 0 |}.

(** ** Orderings of index entries *)

(** Strictly ascending page numbers, stated on positions. *)
Definition pages_ascending (l : list H5FD__onion_index_entry) : Prop :=
  forall (i j : nat) e1 e2,
    (i < j)%nat -> l !! i = Some e1 -> l !! j = Some e2 ->
    logi_page e1 < logi_page e2.

(** Ascending page numbers, equal ones allowed. *)
Definition pages_nondecreasing (l : list H5FD__onion_index_entry) : Prop :=
  forall (i j : nat) e1 e2,
    (i <= j)%nat -> l !! i = Some e1 -> l !! j = Some e2 ->
    logi_page e1 <= logi_page e2.

(** The shape that H5FD_onion_revision_index_init gives a revision index
    and that inserts and resizes keep: the table has [_hash_table_size]
    buckets, and that size is two to the power [_hash_table_size_log2]. *)
Definition revision_index_ok (rix : H5FD__onion_revision_index_t) : Prop :=
  0 <= _hash_table_size_log2 rix < 64 /\
  _hash_table_size rix = 2 ^ _hash_table_size_log2 rix /\
  length (_hash_table rix) = Z.to_nat (_hash_table_size rix).

(** A record pointer within the widths of its fields. *)
Definition record_pointer_in_range (rp : H5FD__onion_record_pointer) : Prop :=
  0 <= rp_phys_addr rp < 2 ^ 64 /\
  0 <= rp_record_size rp < 2 ^ 64 /\
  0 <= rp_checksum rp < 2 ^ 32.

(** The layout of an encoded whole-history: signature, version, the eight
    bytes of the revision count, the record pointers and the checksum. *)
Definition whs_bytes (n8 body : list Z) (sum : Z) : list Z :=
  H5FD__ONION_WHOLE_HISTORY_SIGNATURE ++ [1; 0; 0; 0] ++ n8 ++ body
  ++ UINT32ENCODE sum.


(** An archival index of three pages, and a revision index in which pages
    1 and 2 have been inserted. *)
Definition three_page_archive : H5FD__onion_archival_index :=
  archival_index_of 9 [entry 2 1064; entry 5 1576; entry 9 2088].

Definition two_page_index : H5FD__onion_revision_index_t :=
  default fresh_index (insert_all fresh_index [entry 1 40; entry 2 552]).

(** A store whose onion file holds the encoding of
    [whole_history_bad_entry] after 40 other bytes. *)
Definition history_at_40 : filesystem :=
  {[ "f.h5.onion"%string := replicate 40 0 ++ bad_entry_buffer ]}.

Section Close.
#[local] Existing Instance M_mret.
#[local] Existing Instance M_mbind.

(** ** Close *)

(** H5FD__onion_get_eoa and H5FD__onion_get_eof *)
Definition H5FD__onion_get_eoa (file : H5FD_onion_t) : Z := logi_eoa file.
Definition H5FD__onion_get_eof (file : H5FD_onion_t) : Z := logi_eof file.

(** H5FD_onion_revision_index_destroy: the checks made before the index
    is freed. *)
Definition H5FD_onion_revision_index_destroy
  (rix : H5FD__onion_revision_index_t) : herr_t :=
  if negb (H5FD__ONION_REVISION_INDEX_MAGIC =? rix_magic rix)
  then FAIL (H5E_ARGS, H5E_BADVALUE)
  else if negb (H5FD__ONION_REVISION_INDEX_VERSION_CURR =? rix_version rix)
  then FAIL (H5E_ARGS, H5E_BADVALUE)
  else SUCCEED.

(** H5FD__onion_update_and_write_header: the write-lock flag is cleared
    with [flags &= (uint32_t)~H5FD__ONION_HEADER_FLAG_WRITE_LOCK] and the
    header is written at the start of the onion file. *)
Definition H5FD__onion_update_and_write_header (cksum : list Z -> Z)
  : M unit :=
  f ← get_file;
  (if is_open_rw f then
     update (fun f =>
       set_header f
         (hdr_set_flags (header f)
            (Z.land (hdr_flags (header f))
               (u32 (Z.lnot H5FD__ONION_HEADER_FLAG_WRITE_LOCK)))))
   else M_ret tt);;
  f ← get_file;
  let '(size, buf, _sum) :=
    H5FD_onion_history_header_encode cksum (header f) in
  fail_if (size =? 0) H5E_VFL H5E_BADVALUE;;
  onion ← or_fail (backing_onion f) H5E_VFL H5E_WRITEERROR;
  write_backing onion 0 size buf H5E_VFL H5E_WRITEERROR.

(** H5FD__onion_update_and_write_whole_history: the whole-history goes to
    the end of the history, which moves behind it. *)
Definition H5FD__onion_update_and_write_whole_history (cksum : list Z -> Z)
  : M unit :=
  f ← get_file;
  fs ← get_fs;
  onion ← or_fail (backing_onion f) H5E_VFL H5E_WRITEERROR;
  let '(size, onion, fs) :=
    H5FD__onion_whole_history_write cksum (summary f) onion
      (history_eof f) (history_eof f) fs in
  update (fun f => set_backing_onion f (Some onion));;
  put_fs fs;;
  fail_if (size =? 0) H5E_VFL H5E_WRITEERROR;;
  fail_if (negb (size =? hdr_whole_history_size (header f)))
    H5E_VFL H5E_WRITEERROR;;
  update (fun f => set_history_eof f (u64 (history_eof f + size))).

(** The record pointer list after H5FD__onion_commit_new_revision_record
    has added the pointer [rp]: a list of one pointer when there was no
    revision, otherwise a new list of [n_revisions + 1] pointers with the
    old ones copied in front.  The source asserts that the old list is
    there; a list shorter than [n_revisions] (a read past the allocation in
    C) leaves zeroed pointers. *)
Definition append_record_pointer (whs : H5FD__onion_whole_history)
  (rp : H5FD__onion_record_pointer) : H5FD__onion_whole_history :=
  if whs_n_revisions whs =? 0 then
    whs_set_list (whs_set_n_revisions whs 1) (Some [rp])
  else
    let n := Z.to_nat (whs_n_revisions whs) in
    let old := take n (default [] (whs_record_pointer_list whs)) in
    let new_list :=
      <[n := rp]>
        (old ++ replicate (n + 1 - length old) record_pointer_zero) in
    whs_set_n_revisions (whs_set_list whs (Some new_list))
      (u64 (whs_n_revisions whs + 1)).

(** H5FD__onion_commit_new_revision_record.  The time stamp is written
    with [strftime] into the 16 bytes of [time_of_creation] in a format of
    16 characters, for which the array has no room for the terminating NUL:
    what the array holds afterwards is not fixed by the code, and is taken
    here as the argument [now]. *)
Definition H5FD__onion_commit_new_revision_record (cksum : list Z -> Z)
  (now : list Z) : M unit :=
  update (fun f =>
    set_rev_record f (rec_set_time_logi_eof (rev_record f) now (logi_eof f)));;
  f ← get_file;
  (if is_open_rw f then
     match rev_index f with
     | None => HGOTO_ERROR H5E_VFL H5E_INTERNAL
     | Some rix =>
         let '(ret, aix) :=
           H5FD_onion_merge_revision_index_into_archival_index rix
             (archival_index (rev_record f)) in
         update (fun f =>
           set_rev_record f (rec_set_archival_index (rev_record f) aix));;
         fail_if (is_fail ret) H5E_VFL H5E_INTERNAL
     end
   else M_ret tt);;
  f ← get_file;
  let '(size, buf, _sum) :=
    H5FD_onion_revision_record_encode cksum (rev_record f) in
  fail_if (size =? 0) H5E_VFL H5E_BADVALUE;;
  let phys_addr := history_eof f in
  onion ← or_fail (backing_onion f) H5E_VFL H5E_CANTSET;
  let onion := H5FD_set_eoa onion (u64 (phys_addr + size)) in
  update (fun f => set_backing_onion f (Some onion));;
  write_backing onion phys_addr size buf H5E_VFL H5E_WRITEERROR;;
  update (fun f =>
    let f := set_history_eof f (u64 (phys_addr + size)) in
    if page_align_history f
    then set_history_eof f
           (page_align (history_eof f) (hdr_page_size (header f)))
    else f);;
  (* the whole-history takes the new revision *)
  let rp :=
    {| rp_phys_addr := phys_addr;
       rp_record_size := size;
       rp_checksum :=
         checksum cksum (UINT64ENCODE phys_addr ++ UINT64ENCODE size) 16 |} in
  update (fun f =>
    set_header
      (set_summary f (append_record_pointer (summary f) rp))
      (hdr_set_whole_history_size (header f)
         (u64 (hdr_whole_history_size (header f)
               + H5FD__ONION_ENCODED_SIZE_RECORD_POINTER))));;
  update (fun f =>
    set_header f (hdr_set_whole_history_addr (header f) (history_eof f))).

(** What H5FD__onion_close returns: success, a failure with an error that
    the other functions push as well, or the failure with
    (H5E_VFL, H5E_CANTRELEASE) when the revision index cannot be
    destroyed. *)
Inductive close_status : Set :=
| CLOSED
| CLOSE_FAIL (e : H5E)
| CLOSE_FAIL_CANTRELEASE.

(** The three writes of H5FD__onion_close for a file open for writing. *)
Definition close_commit (cksum : list Z -> Z) (now : list Z) : M unit :=
  reraise (H5FD__onion_commit_new_revision_record cksum now)
    H5E_VFL H5E_WRITEERROR;;
  reraise (H5FD__onion_update_and_write_whole_history cksum)
    H5E_VFL H5E_WRITEERROR;;
  reraise (H5FD__onion_update_and_write_header cksum)
    H5E_VFL H5E_WRITEERROR.

(** H5FD__onion_close: the status and the backing store as the close
    leaves it; the file structure is freed in every case.  The source
    asserts that the handles of the backing files are there; closing them
    has no effect on the store. *)
Definition H5FD__onion_close (cksum : list Z -> Z) (now : list Z)
  (file : H5FD_onion_t) (fs : filesystem) : close_status * filesystem :=
  let destroy (fs : filesystem) :=
    match rev_index file with
    | None => (CLOSED, fs)
    | Some rix =>
        if is_fail (H5FD_onion_revision_index_destroy rix)
        then (CLOSE_FAIL_CANTRELEASE, fs)
        else (CLOSED, fs)
    end in
  match store_target (fa file) with
  | H5FD_ONION_STORE_TARGET_H5 => (CLOSE_FAIL (H5E_VFL, H5E_UNSUPPORTED), fs)
  | H5FD_ONION_STORE_TARGET_ONION =>
      if is_open_rw file then
        match close_commit cksum now (file, fs) with
        | (inl e, (_, fs')) => (CLOSE_FAIL e, fs')
        | (inr _, (f', fs')) =>
            destroy (match name_recov f' with
                     | Some name => HDremove name fs'
                     | None => fs'
                     end)
        end
      else destroy fs
  | store_target_invalid _ => (CLOSE_FAIL (H5E_VFL, H5E_BADVALUE), fs)
  end.

End Close.

(** A step of the open that leaves the backing store as it finds it,
    whether it succeeds or fails. *)
Definition keeps_store {A : Type} (c : M A) : Prop :=
  forall s : open_state, snd (snd (c s)) = snd s.

(** The header that H5FD__onion_create_truncate_onion writes to a new
    onion file: write-locked, with no canonical content behind it and the
    address of the whole-history still unset. *)
Definition created_header (fa_ : H5FD_onion_fapl_info_t)
  : H5FD__onion_history_header :=
  {| hdr_magic := H5FD__ONION_HEADER_MAGIC;
     hdr_version := H5FD__ONION_HEADER_VERSION_CURR;
     hdr_flags :=
       header_flags_of_creation H5FD__ONION_HEADER_FLAG_WRITE_LOCK
         (creation_flags fa_);
     hdr_page_size := fa_page_size fa_;
     hdr_origin_eof := 0;
     hdr_whole_history_addr := 0;
     hdr_whole_history_size := H5FD__ONION_ENCODED_SIZE_WHOLE_HISTORY;
     hdr_checksum := 0 |}.

(** The file structure with which H5FD__onion_open returns for a new
    file: [hsum] and [wsum] are the checksums of the encoded header and
    whole-history, [rix] the fresh revision index. *)
Definition created_handle (env : environment) (filename : string)
  (fa_ : H5FD_onion_fapl_info_t) (pw_name : list Z) (hsum wsum : Z)
  (rix : H5FD__onion_revision_index_t) : H5FD_onion_t :=
  let name_onion := (filename +:+ ".onion")%string in
  let name_recovery := (name_onion +:+ ".recovery")%string in
  let align :=
    has_flag (creation_flags fa_)
      H5FD_ONION_FAPL_INFO_CREATE_FLAG_ENABLE_PAGE_ALIGNMENT in
  {| fa := fa_;
     backing_canon := Some {| fd_name := filename; fd_eoa := 8 |};
     backing_onion := Some {| fd_name := name_onion; fd_eoa := 40 |};
     backing_recov := Some {| fd_name := name_recovery; fd_eoa := 20 |};
     name_recov := Some name_recovery;
     is_open_rw := true;
     page_align_history := align;
     header := hdr_set_checksum (created_header fa_) hsum;
     summary := whs_set_checksum whs_blank wsum;
     rev_record :=
       {| rec_magic := H5FD__ONION_REVISION_RECORD_MAGIC;
          rec_version := H5FD__ONION_REVISION_RECORD_VERSION_CURR;
          revision_id := 0;
          parent_revision_id := 0;
          time_of_creation := replicate 16 0;
          rec_logi_eof := 0;
          user_id := u32 (env_uid env);
          username_size := u32 (Z.of_nat (length pw_name) + 1);
          comment_size :=
            match fa_comment fa_ with
            | [] => 0
            | _ => u32 (Z.of_nat (length (fa_comment fa_)) + 1)
            end;
          archival_index :=
            {| aix_magic := H5FD__ONION_ARCHIVAL_INDEX_MAGIC;
               aix_version := H5FD__ONION_ARCHIVAL_INDEX_VERSION_CURR;
               aix_page_size_log2 := page_size_to_log2 (fa_page_size fa_);
               aix_n_entries := 0;
               aix_list := Some [] |};
          username := Some (pw_name ++ [0]);
          comment :=
            match fa_comment fa_ with
            | [] => None
            | _ => Some (fa_comment fa_ ++ [0])
            end;
          rec_checksum := 0 |};
     rev_index := Some rix;
     history_eof :=
       if align then page_align 40 (fa_page_size fa_) else 40;
     origin_eof := 0;
     logi_eoa := 0;
     logi_eof := 0 |}.

(** The file structure of [created_session]. *)
Definition created_file : H5FD_onion_t :=
  match created_session with
  | (inr file, _) => file
  | (inl _, _) => file_calloc
  end.

(** ** Records in the onion file *)

(** The revision record [r] is in the file behind [raw_file] at the place
    and with the size that the record pointer [rp] gives. *)
Definition record_stored (cksum : list Z -> Z) (raw_file : H5FD_t)
  (fs : filesystem) (rp : H5FD__onion_record_pointer)
  (r : H5FD__onion_revision_record) : Prop :=
  (exists l u, revision_record_in_range r l u) /\
  rp_record_size rp = Z.of_nat (length (encoded_revision_record cksum r)) /\
  H5FDread raw_file (rp_phys_addr rp) (rp_record_size rp) fs
  = Some (encoded_revision_record cksum r).

(** A record structure into which a first decoding pass can be made: no
    entries, user name or comment are expected yet. *)
Definition record_unfilled (r : H5FD__onion_revision_record) : Prop :=
  aix_n_entries (archival_index r) = 0 /\
  username_size r = 0 /\ username r = None /\
  comment_size r = 0 /\ comment r = None.

(** What the first decoding pass makes of the structure [r0] on the
    encoding of the record [r] with [n] index entries: the sizes are
    taken, the buffers are not filled yet. *)
Definition first_pass_of (cksum : list Z -> Z)
  (r0 r : H5FD__onion_revision_record) (n : Z)
  : H5FD__onion_revision_record :=
  {| rec_magic := rec_magic r0;
     rec_version := rec_version r0;
     revision_id := revision_id r;
     parent_revision_id := parent_revision_id r;
     time_of_creation := time_of_creation r;
     rec_logi_eof := rec_logi_eof r;
     user_id := user_id r;
     username_size := username_size r;
     comment_size := comment_size r;
     archival_index :=
       {| aix_magic := aix_magic (archival_index r0);
          aix_version := aix_version (archival_index r0);
          aix_page_size_log2 := aix_page_size_log2 (archival_index r);
          aix_n_entries := n;
          aix_list := aix_list (archival_index r0) |};
     username := None;
     comment := None;
     rec_checksum := snd (H5FD_onion_revision_record_encode cksum r) |}.

(** The decoders leave the magic and version of the structure and of its
    archival index as they find them. *)
Definition same_tags (r0 r1 : H5FD__onion_revision_record) : Prop :=
  rec_magic r1 = rec_magic r0 /\ rec_version r1 = rec_version r0 /\
  aix_magic (archival_index r1) = aix_magic (archival_index r0) /\
  aix_version (archival_index r1) = aix_version (archival_index r0).

(** ** An onion file with two revisions *)

(** A record structure as H5FD__onion_open prepares it for the ingest. *)
Definition record_blank : H5FD__onion_revision_record :=
  {| rec_magic := H5FD__ONION_REVISION_RECORD_MAGIC;
     rec_version := H5FD__ONION_REVISION_RECORD_VERSION_CURR;
     revision_id := 0; parent_revision_id := 0;
     time_of_creation := replicate 16 0;
     rec_logi_eof := 0; user_id := 0; username_size := 0; comment_size := 0;
     archival_index :=
       {| aix_magic := H5FD__ONION_ARCHIVAL_INDEX_MAGIC;
          aix_version := H5FD__ONION_ARCHIVAL_INDEX_VERSION_CURR;
          aix_page_size_log2 := 0; aix_n_entries := 0; aix_list := None |};
     username := None; comment := None; rec_checksum := 0 |}.

(** [sample_record] as revision 1, with revision 0 as its parent. *)
Definition second_record : H5FD__onion_revision_record :=
  rec_set_ids sample_record 1 0.

(** Both records, of 121 bytes each, after the 40 bytes of a header. *)
Definition two_record_pointers : list H5FD__onion_record_pointer :=
  [ {| rp_phys_addr := 40; rp_record_size := 121; rp_checksum := 0 |};
    {| rp_phys_addr := 161; rp_record_size := 121; rp_checksum := 0 |} ].

Definition two_record_history : H5FD__onion_whole_history :=
  {| whs_magic := H5FD__ONION_WHOLE_HISTORY_MAGIC;
     whs_version := H5FD__ONION_WHOLE_HISTORY_VERSION_CURR;
     whs_n_revisions := 2;
     whs_record_pointer_list := Some two_record_pointers;
     whs_checksum := 0 |}.

Definition two_record_store : filesystem :=
  {[ "f.h5.onion"%string :=
       replicate 40 0 ++ encoded_revision_record fletcher32 sample_record
       ++ encoded_revision_record fletcher32 second_record ]}.

(** ** What a close leaves in the onion file *)


(** The revision record that H5FD__onion_commit_new_revision_record
    encodes: the record of the file with the time stamp, the logical end
    of file and the merged archival index. *)
Definition committed_record (file : H5FD_onion_t) (now : list Z)
  (aix : H5FD__onion_archival_index) : H5FD__onion_revision_record :=
  rec_set_archival_index
    (rec_set_time_logi_eof (rev_record file) now (logi_eof file)) aix.


(** The record pointer that the commit adds to the whole-history. *)
Definition committed_pointer (cksum : list Z -> Z) (file : H5FD_onion_t)
  (size : Z) : H5FD__onion_record_pointer :=
  {| rp_phys_addr := history_eof file;
     rp_record_size := size;
     rp_checksum :=
       checksum cksum
         (UINT64ENCODE (history_eof file) ++ UINT64ENCODE size) 16 |}.


(** The file structure and the store of [written_session], and a time
    stamp of sixteen characters. *)
Definition written_file : H5FD_onion_t := snd (fst written_session).
Definition written_store : filesystem := snd written_session.
Definition sample_time : list Z := replicate 16 48.

(** The archival index that the close of [written_session] writes. *)
Definition written_index : H5FD__onion_archival_index :=
  snd (H5FD_onion_merge_revision_index_into_archival_index
         (default fresh_index (rev_index written_file))
         (archival_index (rev_record written_file))).

(** ** What an onion file with revisions holds *)

(** The whole-history over a list of record pointers. *)
Definition whole_history_of (pointers : list H5FD__onion_record_pointer)
  : H5FD__onion_whole_history :=
  {| whs_magic := H5FD__ONION_WHOLE_HISTORY_MAGIC;
     whs_version := H5FD__ONION_WHOLE_HISTORY_VERSION_CURR;
     whs_n_revisions := Z.of_nat (length pointers);
     whs_record_pointer_list := Some pointers;
     whs_checksum := 0 |}.

(** The onion file [name] of the store holds the header [hdr], where the
    header says the whole-history over [pointers], and behind each pointer
    its record of [recs], the revision [i] at position [i].  The records
    are read through a handle that ends behind the whole-history, as
    H5FD__onion_open leaves it. *)
Definition onion_file_holds (cksum : list Z -> Z) (name : string)
  (fs : filesystem) (data : list Z) (hdr : H5FD__onion_history_header)
  (pointers : list H5FD__onion_record_pointer)
  (recs : list H5FD__onion_revision_record) : Prop :=
  let addr := hdr_whole_history_addr hdr in
  let size := hdr_whole_history_size hdr in
  fs !! name = Some data /\
  stored_header cksum data = Some hdr /\
  0 <= addr /\
  size = 20 + 20 * Z.of_nat (length pointers) /\
  Z.of_nat (length pointers) < 2 ^ 64 /\
  Forall record_pointer_in_range pointers /\
  take (Z.to_nat size) (drop (Z.to_nat addr) data)
  = encoded_whole_history cksum (whole_history_of pointers) /\
  Forall2 (record_stored cksum {| fd_name := name; fd_eoa := addr + size |} fs)
    pointers recs /\
  (forall i r, recs !! i = Some r ->
     revision_id r = Z.of_nat i /\ same_tags record_blank r) /\
  (forall rp, last pointers = Some rp ->
     rp_phys_addr rp + rp_record_size rp <= Z.of_nat (length data)).

(** ** The store after a session has been closed *)

(** The store that the close of [written_session] leaves, its onion file
    and what that file holds: the header, one record pointer and the
    record of revision 0. *)
Definition closed_store : filesystem :=
  snd (H5FD__onion_close fletcher32 sample_time written_file written_store).

Definition closed_onion_file : list Z :=
  default [] (closed_store !! "f.h5.onion"%string).

Definition closed_header : H5FD__onion_history_header :=
  default header_blank (stored_header fletcher32 closed_onion_file).

Definition closed_record : H5FD__onion_revision_record :=
  committed_record written_file sample_time written_index.

Definition closed_pointers : list H5FD__onion_record_pointer :=
  [committed_pointer fletcher32 written_file
     (Z.of_nat (length (encoded_revision_record fletcher32 closed_record)))].

(** ** Theorems *)

(** Splitting a conjunction of computations into its parts. *)
Ltac split_conj := repeat match goal with |- _ /\ _ => split end.
Ltac by_computation := intros; split_conj; vm_compute; reflexivity.

(** *** Little-endian integers *)

Lemma le_encode_length n x : length (le_encode n x) = n.
Proof.
  revert x; induction n as [|n IH]; intros x; simpl; [done|].
  by rewrite IH.
Qed.

Lemma le_decode_encode n x :
  le_decode (le_encode n x) = x mod 256 ^ Z.of_nat n.
Proof.
  revert x; induction n as [|n IH]; intros x.
  - simpl. by rewrite Z.mod_1_r.
  - cbn [le_encode le_decode]. rewrite IH.
    rewrite Nat2Z.inj_succ, Z.pow_succ_r by lia.
    by rewrite Z.rem_mul_r by lia.
Qed.

Lemma le_encode_take n m x :
  (m <= n)%nat -> take m (le_encode n x) = le_encode m x.
Proof.
  revert m x; induction n as [|n IH]; intros [|m] x Hm; simpl;
    try done; try lia.
  by rewrite IH by lia.
Qed.

Lemma le_decode_snoc_0 l : le_decode (l ++ [0]) = le_decode l.
Proof. induction l as [|b l IH]; simpl; [done|]. by rewrite IH. Qed.

Lemma le_decode_nonneg l : Forall is_byte l -> 0 <= le_decode l.
Proof.
  induction 1 as [|b l Hb _ IH]; simpl; [lia|]. unfold is_byte in Hb. lia.
Qed.

(** [le_encode n x] becomes a list of [n] variables, with the equation
    that ties them to the encoding. *)
Ltac explode_encode n x :=
  let l := fresh "l" in
  let E := fresh "E" in
  let H := fresh "H" in
  remember (le_encode n x) as l eqn:E;
  assert (H : length l = n) by (rewrite E; apply le_encode_length);
  repeat (destruct l as [|? l]; [discriminate H|]; simpl in H);
  destruct l; [clear H|discriminate H].

(** *** Archival index *)

(** C3 (code defect).  The claim: on a valid archival index, find returns
    the entry whose page is asked for whenever there is one, also when the
    list has exactly one entry.  The code: on every valid index of exactly
    one entry, asking for the page of that entry returns not-found (the loop
    is not entered and the closing test [n != low || n != high] is false
    for [n = low = high = 0]). *)
Theorem archival_index_find_misses_single_entry
  (e : H5FD__onion_index_entry) :
  H5FD_onion_archival_index_is_valid (archival_index_of 9 [e]) = true
  /\ H5FD_onion_archival_index_find (archival_index_of 9 [e]) (logi_page e)
     = None.
Proof.
  split; [reflexivity|].
  unfold H5FD_onion_archival_index_find.
  change (aix_n_entries (archival_index_of 9 [e])) with 1.
  change (u64 (1 - 1)) with 0.
  change (aix_at (archival_index_of 9 [e]) 0) with e.
  by rewrite Z.gtb_ltb, Z.ltb_irrefl.
Qed.

(** With two entries or more the same question is answered. *)
Example archival_index_find_two_entries :
  H5FD_onion_archival_index_find
    (archival_index_of 9 [entry 5 100; entry 7 200]) 5 = Some (entry 5 100)
  /\ H5FD_onion_archival_index_find
       (archival_index_of 9 [entry 5 100; entry 7 200]) 7
     = Some (entry 7 200).
Proof. by_computation. Qed.

(** *** Merge *)

(** C2 (code defect).  The claim: after the merge every logical page
    appears exactly once, with the address of the revision index where the
    page is in it.  The code: a revision index holding the single page 0
    (at 1000) is merged into the valid archival index [(0, 500)]; the
    binary search over the one live entry misses it, so the dead entry is
    kept: the result has two entries for page 0 and is not a valid
    archival index. *)
Theorem merge_keeps_superseded_page :
  let rix := default fresh_index (insert_all fresh_index [entry 0 1000]) in
  let aix := archival_index_of 9 [entry 0 500] in
  let merged :=
    H5FD_onion_merge_revision_index_into_archival_index rix aix in
  H5FD_onion_archival_index_is_valid aix = true
  /\ nodes_of_page rix 0 = [entry 0 1000]
  /\ fst merged = SUCCEED
  /\ aix_n_entries (snd merged) = 2
  /\ logi_page <$> default [] (aix_list (snd merged)) = [0; 0]
  /\ H5FD_onion_archival_index_is_valid (snd merged) = false.
Proof. by_computation. Qed.

(** *** Revision index *)

(** C4 (code defect).  The claim: after any sequence of successful
    inserts, doublings included, every entry sits in the bucket of its page
    masked by the table size minus one, and no page is in more than one
    node.  The code: the 514 inserts of [session_pages] all succeed and the
    last one doubles the table; the resize pushes page 3072 onto bucket 0
    (its old bucket) although its key is 1024, find no longer sees it, and
    inserting the same entry again succeeds by adding a second node. *)
Theorem resize_leaves_entry_in_old_bucket :
  session_index = Some session_index_final
  /\ _hash_table_size session_index_final = 2048
  /\ bucket (_hash_table session_index_final) 0 = [entry 3072 552]
  /\ Z.land 3072 (_hash_table_size session_index_final - 1) = 1024
  /\ H5FD_onion_revision_index_find session_index_final 3072 = None
  /\ fst (H5FD_onion_revision_index_insert session_index_final
            (entry 3072 552)) = SUCCEED
  /\ nodes_of_page
       (snd (H5FD_onion_revision_index_insert session_index_final
               (entry 3072 552))) 3072
     = [entry 3072 552; entry 3072 552].
Proof. by_computation. Qed.

(** *** Read after write *)

(** C1 (code defect).  The claim: a read after writes returns the bytes
    last written at each position.  The code: in a new file with pages of
    512 bytes, page 1 is written in full with 0xAA; reading two bytes at
    512 returns them, but reading the four bytes at 510 returns zeroes for
    all four: the page count [(len + page_size - 1) >> log2] leaves the
    head gap out, so the whole range is served from page 0. *)
Theorem read_across_page_boundary_misses_written_bytes :
  fst (fst written_session) = SUCCEED
  /\ logi_eoa (snd (fst written_session)) = 2048
  /\ H5FD__onion_read (snd (fst written_session)) (snd written_session)
       512 2 = inr [170; 170]
  /\ H5FD__onion_read (snd (fst written_session)) (snd written_session)
       510 4 = inr [0; 0; 0; 0].
Proof. by_computation. Qed.

(** A second write into a page of the same session lays its bytes at the
    start of the page instead of at their offset: "hello" at 0 and then
    "WORLD" at 5 read back as "WORLD" followed by zeroes. *)
Example rewrite_in_place_overlays_at_page_start :
  fst (fst hello_world_session) = SUCCEED
  /\ H5FD__onion_read (snd (fst hello_world_session))
       (snd hello_world_session) 0 10
     = inr [87; 79; 82; 76; 68; 0; 0; 0; 0; 0].
Proof. by_computation. Qed.

(** *** History header *)

Section Codecs.

Variable cksum : list Z -> Z.

(** What decoding an encoded header yields: the flags modulo 2^24, and
    every other field modulo 2^32, the three 64-bit ones included. *)
Lemma header_decode_encode (h h0 : H5FD__onion_history_header) :
  hdr_version h = H5FD__ONION_HEADER_VERSION_CURR ->
  H5FD_onion_history_header_decode cksum
    (snd (fst (H5FD_onion_history_header_encode cksum h))) h0
  = (40,
     {| hdr_magic := hdr_magic h0;
        hdr_version := hdr_version h0;
        hdr_flags := hdr_flags h mod 2 ^ 24;
        hdr_page_size := hdr_page_size h mod 2 ^ 32;
        hdr_origin_eof := hdr_origin_eof h mod 2 ^ 32;
        hdr_whole_history_addr := hdr_whole_history_addr h mod 2 ^ 32;
        hdr_whole_history_size := hdr_whole_history_size h mod 2 ^ 32;
        hdr_checksum := snd (H5FD_onion_history_header_encode cksum h) |}).
Proof.
  intros Hv.
  unfold H5FD_onion_history_header_encode, H5FD_onion_history_header_decode.
  rewrite Hv.
  unfold UINT32ENCODE, UINT64ENCODE.
  rewrite (le_encode_take 4 3) by lia.
  explode_encode 3%nat (hdr_flags h).
  explode_encode 4%nat (hdr_page_size h).
  explode_encode 8%nat (hdr_origin_eof h).
  explode_encode 8%nat (hdr_whole_history_addr h).
  explode_encode 8%nat (hdr_whole_history_size h).
  unfold bytes_at, checksum, UINT32DECODE.
  assert (Hf : le_decode [z; z0; z1; 0] = hdr_flags h mod 2 ^ 24).
  { change [z; z0; z1; 0] with ([z; z0; z1] ++ [0]).
    by rewrite le_decode_snoc_0, E, le_decode_encode. }
  assert (Hp : le_decode [z2; z3; z4; z5] = hdr_page_size h mod 2 ^ 32)
    by (by rewrite E0, le_decode_encode).
  assert (Ho : le_decode [z6; z7; z8; z9] = hdr_origin_eof h mod 2 ^ 32).
  { change [z6; z7; z8; z9]
      with (take 4 [z6; z7; z8; z9; z10; z11; z12; z13]).
    by rewrite E1, (le_encode_take 8 4), le_decode_encode by lia. }
  assert (Ha : le_decode [z14; z15; z16; z17]
               = hdr_whole_history_addr h mod 2 ^ 32).
  { change [z14; z15; z16; z17]
      with (take 4 [z14; z15; z16; z17; z18; z19; z20; z21]).
    by rewrite E2, (le_encode_take 8 4), le_decode_encode by lia. }
  assert (Hs : le_decode [z22; z23; z24; z25]
               = hdr_whole_history_size h mod 2 ^ 32).
  { change [z22; z23; z24; z25]
      with (take 4 [z22; z23; z24; z25; z26; z27; z28; z29]).
    by rewrite E3, (le_encode_take 8 4), le_decode_encode by lia. }
  clear E E0 E1 E2 E3.
  remember le_decode as D eqn:ED.
  remember (le_encode 4) as E4 eqn:EE4.
  simpl.
  subst E4 D. rewrite take_0, drop_0, !(le_encode_take 4 4) by lia.
  match goal with
  | |- context [u32 (cksum ?l)] => set (sum := u32 (cksum l))
  end.
  rewrite Hf, Hp, Ho, Ha, Hs, le_decode_encode.
  change (256 ^ Z.of_nat 4) with (2 ^ 32).
  assert (Hsum : sum mod 2 ^ 32 = sum) by (apply Z.mod_mod; lia).
  by rewrite Hsum, Z.eqb_refl.
Qed.

(** C5 (code defect).  The claim: decoding an encoded header gives back
    every field, for arbitrary 64-bit [origin_eof], [whole_history_addr]
    and [whole_history_size].  The code: for the header of a canonical file
    of 4 GiB ([origin_eof] = 2^32) the decode passes the checksum comparison
    and returns 40, but the decoded [origin_eof] is 0: the three 64-bit
    fields are read with UINT32DECODE. *)
Theorem header_decode_truncates_origin_eof
  (h0 : H5FD__onion_history_header) :
  let buf :=
    snd (fst (H5FD_onion_history_header_encode cksum header_4GiB)) in
  hdr_origin_eof header_4GiB = 2 ^ 32
  /\ length buf = 40%nat
  /\ fst (H5FD_onion_history_header_decode cksum buf h0) = 40
  /\ hdr_origin_eof (snd (H5FD_onion_history_header_decode cksum buf h0))
     = 0.
Proof.
  intros buf. subst buf.
  rewrite header_decode_encode by reflexivity.
  split_conj; reflexivity.
Qed.

End Codecs.

(** *** Buffers of bytes *)

Lemma bytes_eqb_eq a b : bytes_eqb a b = true <-> a = b.
Proof.
  revert b; induction a as [|x a IH]; intros [|y b]; simpl; try done.
  rewrite andb_true_iff, Z.eqb_eq, IH. split.
  - by intros [-> ->].
  - by intros [= -> ->].
Qed.

Lemma bytes_at_is_byte buf off n :
  Forall is_byte buf -> Forall is_byte (bytes_at buf off n).
Proof. intros H. unfold bytes_at. by apply Forall_take, Forall_drop. Qed.

Lemma is_byte_check (l : list Z) :
  forallb (fun b => (0 <=? b) && (b <? 256)) l = true -> Forall is_byte l.
Proof.
  induction l as [|b l IH]; simpl; [constructor|].
  rewrite !andb_true_iff, Z.leb_le, Z.ltb_lt.
  intros [[H0 H1] Hl]. constructor; [split; assumption|auto].
Qed.

Lemma le_encode_is_byte n x : Forall is_byte (le_encode n x).
Proof.
  revert x; induction n as [|n IH]; intros x; simpl; constructor; [|apply IH].
  unfold is_byte, u8. apply Z.mod_pos_bound. lia.
Qed.

(** *** The whole-history decoder *)

(** C8, a defect of the code.  The claim: the whole-history decoder fails
    whenever the checksum field of a record pointer is not the Fletcher-32
    checksum of the 16 bytes before it (address and size), which is what
    H5FD__onion_commit_new_revision_record stores there.  The code:
    H5FD_onion_whole_history_decode copies the field out and compares it
    with nothing.  [bad_entry_buffer] is the encoding of a whole-history
    with one record pointer whose checksum field (bytes 32..35) is 0, which
    is not the checksum of bytes 16..31; the trailing checksum is right.
    Both passes of the decoder accept the buffer, returning its 40 bytes,
    and the second one hands the pointer out with the checksum 0. *)
Lemma whole_history_decode_ignores_entry_checksum :
  UINT32DECODE (bytes_at bad_entry_buffer 32 4)
  <> u32 (fletcher32 (bytes_at bad_entry_buffer 16 16))
  /\ fst (H5FD_onion_whole_history_decode fletcher32 bad_entry_buffer
            whs_blank) = 40
  /\ fst (H5FD_onion_whole_history_decode fletcher32 bad_entry_buffer
            second_pass_summary) = 40
  /\ whs_record_pointer_list
       (snd (H5FD_onion_whole_history_decode fletcher32 bad_entry_buffer
               second_pass_summary))
     = Some [{| rp_phys_addr := 552; rp_record_size := 100;
                rp_checksum := 0 |}].
Proof.
  split; [vm_compute; discriminate|].
  split_conj; vm_compute; reflexivity.
Qed.

(** *** Opening an existing onion file *)

Lemma has_flag_lor flags a b :
  has_flag flags (Z.lor a b) = false ->
  has_flag flags a = false /\ has_flag flags b = false.
Proof.
  unfold has_flag. rewrite !negb_false_iff, !Z.eqb_eq.
  rewrite Z.land_lor_distr_r. apply Z.lor_eq_0_iff.
Qed.

Ltac msimpl :=
  unfold mbind, M_mbind, mret, M_mret, M_bind;
  cbn [M_ret update get_file get_fs
       put_file put_fs or_fail fail_if HGOTO_ERROR reraise fst snd
       is_null is_fail
       set_fa set_backing_canon set_backing_onion set_backing_recov
       set_name_recov set_is_open_rw set_page_align_history set_header
       set_summary set_rev_record set_rev_index set_history_eof
       set_origin_eof set_logi_eoa set_logi_eof file_calloc
       fa backing_canon backing_onion backing_recov name_recov is_open_rw
       page_align_history header summary rev_record rev_index history_eof
       origin_eof logi_eoa logi_eof
       hdr_magic hdr_version hdr_flags hdr_page_size hdr_origin_eof
       hdr_whole_history_addr hdr_whole_history_size hdr_checksum
       hdr_set_flags hdr_set_origin_eof hdr_set_whole_history_addr
       hdr_set_whole_history_size hdr_set_checksum
       whs_magic whs_version whs_n_revisions whs_record_pointer_list
       whs_checksum whs_set_n_revisions whs_set_list whs_set_checksum
       rec_magic rec_version revision_id parent_revision_id time_of_creation
       rec_logi_eof user_id username_size comment_size archival_index
       username comment rec_checksum
       rec_set_ids rec_set_time_logi_eof rec_set_user_id rec_set_username
       rec_set_comment rec_set_archival_index rec_set_checksum
       aix_magic aix_version aix_page_size_log2 aix_n_entries aix_list
       aix_set_page_size_log2 aix_set_n_entries aix_set_list
       fd_name fd_eoa].

(** The recovery file never has the name of the onion file. *)
Lemma append_neq (n s : string) :
  s <> ""%string -> (n +:+ s)%string <> n.
Proof.
  intros Hs H.
  assert (String.length (n +:+ s) = String.length n) as Hl
    by (by rewrite H).
  revert Hl. clear H. induction n as [|a n IH]; simpl.
  - destruct s; [done|]. simpl. lia.
  - intros [= Hl]. auto.
Qed.

(** What the backend answers to the opens and writes of the driver. *)
Lemma open_backing_missing (name : string) (flags : Z) (f : H5FD_onion_t)
  (fs : filesystem) :
  fs !! name = None ->
  has_flag flags H5F_ACC_CREAT = false ->
  open_backing name flags (f, fs) = (inr None, (f, fs)).
Proof.
  intros Hfs Hc. unfold open_backing, H5FD_open. cbn [fst snd].
  by rewrite Hfs, Hc.
Qed.

Lemma open_backing_create (name : string) (flags : Z) (f : H5FD_onion_t)
  (fs : filesystem) :
  has_flag flags H5F_ACC_CREAT = true ->
  has_flag flags H5F_ACC_TRUNC = true ->
  open_backing name flags (f, fs)
  = (inr (Some {| fd_name := name; fd_eoa := 0 |}), (f, <[name := []]> fs)).
Proof.
  intros Hc Ht. unfold open_backing, H5FD_open. cbn [fst snd].
  rewrite Hc, Ht. by destruct (fs !! name).
Qed.

Lemma H5FDwrite_at (name : string) (eoa addr size : Z) (buf data : list Z)
  (fs : filesystem) :
  fs !! name = Some data ->
  0 < size -> addr + size <= eoa ->
  H5FDwrite {| fd_name := name; fd_eoa := eoa |} addr size buf fs
  = Some (<[name :=
              take (Z.to_nat addr) (data ++ replicate (Z.to_nat addr) 0)
              ++ take (Z.to_nat size) buf
              ++ drop (Z.to_nat (addr + size)) data]> fs).
Proof.
  intros Hfs Hs He. unfold H5FDwrite. cbn [fd_name fd_eoa].
  destruct (Z.eqb_spec size 0); [lia|].
  destruct (Z.gtb_spec (addr + size) eoa); [lia|].
  by rewrite Hfs.
Qed.

Lemma H5FDwrite_front (name : string) (eoa size : Z) (buf data : list Z)
  (fs : filesystem) :
  fs !! name = Some data ->
  0 < size -> size <= eoa -> Z.of_nat (length buf) = size ->
  H5FDwrite {| fd_name := name; fd_eoa := eoa |} 0 size buf fs
  = Some (<[name := buf ++ drop (Z.to_nat size) data]> fs).
Proof.
  intros Hfs Hs He Hl. rewrite (H5FDwrite_at _ _ _ _ _ _ _ Hfs) by lia.
  change (Z.to_nat 0) with 0%nat. rewrite take_0, app_nil_l.
  rewrite take_ge by lia. done.
Qed.

Lemma H5FDwrite_beyond (name : string) (eoa addr size : Z)
  (buf data : list Z) (fs : filesystem) :
  fs !! name = Some data ->
  0 < size -> addr + size <= eoa -> Z.of_nat (length buf) = size ->
  Z.of_nat (length data) <= addr ->
  H5FDwrite {| fd_name := name; fd_eoa := eoa |} addr size buf fs
  = Some (<[name :=
              data ++ replicate (Z.to_nat addr - length data) 0 ++ buf]> fs).
Proof.
  intros Hfs Hs He Hl Hd. rewrite (H5FDwrite_at _ _ _ _ _ _ _ Hfs) by lia.
  rewrite take_app_ge by lia. rewrite take_replicate.
  rewrite (take_ge buf) by lia. rewrite drop_ge by lia.
  rewrite app_nil_r, <- app_assoc.
  replace ((Z.to_nat addr - length data) `min` Z.to_nat addr)%nat
    with (Z.to_nat addr - length data)%nat by lia.
  done.
Qed.

Lemma has_flag_lor_l flags mask more :
  has_flag flags mask = true -> has_flag flags (Z.lor mask more) = true.
Proof.
  unfold has_flag. rewrite !negb_true_iff, !Z.eqb_neq.
  rewrite Z.land_lor_distr_r. intros Hm H.
  apply Z.lor_eq_0_iff in H. tauto.
Qed.

Lemma copy_comment_step (c : list Z) (s : open_state) :
  copy_comment c s
  = (inr tt,
     (set_rev_record (fst s)
        (rec_set_comment (rev_record (fst s))
           (match c with
            | [] => comment_size (rev_record (fst s))
            | _ => u32 (Z.of_nat (length c) + 1)
            end)
           (match c with
            | [] => comment (rev_record (fst s))
            | _ => Some (c ++ [0])
            end)),
      snd s)).
Proof.
  destruct s as [f fs]. destruct c; [|done].
  destruct f as [? ? ? ? ? ? ? ? ? r ? ? ? ? ?]. by destruct r.
Qed.

Lemma le_encode_mod n x :
  le_encode n (x mod 256 ^ Z.of_nat n) = le_encode n x.
Proof.
  revert x; induction n as [|n IH]; intros x; [done|].
  cbn [le_encode]. rewrite Nat2Z.inj_succ, Z.pow_succ_r by lia.
  assert (Hm : 0 < 256 ^ Z.of_nat n) by (apply Z.pow_pos_nonneg; lia).
  rewrite Z.rem_mul_r by lia.
  f_equal.
  - rewrite Z.mul_comm, Z_mod_plus_full. apply Z.mod_mod. lia.
  - rewrite Z.add_comm, Z.mul_comm, Z.div_add_l by lia.
    rewrite (Z.div_small (x mod 256)) by (apply Z.mod_pos_bound; lia).
    rewrite Z.add_0_r. apply IH.
Qed.

(** A revision index as H5FD_onion_revision_index_init returns it holds
    no page. *)
Lemma revision_index_find_fresh page_size rix page :
  H5FD_onion_revision_index_init page_size = Some rix ->
  H5FD_onion_revision_index_find rix page = None.
Proof.
  unfold H5FD_onion_revision_index_init.
  destruct (page_size =? 0); [done|].
  destruct (negb (POWER_OF_TWO page_size)); [done|].
  intros H.
  apply (f_equal (fun o => match o with
                           | Some r => _hash_table r
                           | None => []
                           end)) in H.
  cbn [_hash_table] in H.
  unfold H5FD_onion_revision_index_find, bucket. rewrite <- H.
  match goal with
  | |- context [replicate ?n ?x !! ?k] =>
      destruct (replicate n x !! k) as [b|] eqn:Hb; [|done]
  end.
  by apply lookup_replicate in Hb as [-> _].
Qed.

Lemma revision_index_init_is_Some page_size :
  POWER_OF_TWO page_size = true ->
  is_Some (H5FD_onion_revision_index_init page_size).
Proof.
  intros Hp. unfold H5FD_onion_revision_index_init. rewrite Hp.
  unfold POWER_OF_TWO in Hp. apply andb_true_iff in Hp as [_ Hnz].
  apply negb_true_iff in Hnz. rewrite Hnz. by eexists.
Qed.

Ltac msimpl2 :=
  msimpl; unfold alloc_empty_archival_list, H5FD_set_eoa; msimpl.

Lemma has_flag_lor_r flags more mask :
  has_flag more mask = true -> has_flag (Z.lor flags more) mask = true.
Proof.
  unfold has_flag. rewrite !negb_true_iff, !Z.eqb_neq.
  rewrite Z.land_lor_distr_l. intros Hm H.
  apply Z.lor_eq_0_iff in H. tauto.
Qed.

(** Powers of two and their logarithms; values that fit 64 bits. *)
Lemma POWER_OF_TWO_log2 ps :
  0 < ps -> POWER_OF_TWO ps = true -> ps = 2 ^ Z.log2 ps.
Proof.
  intros Hpos H. unfold POWER_OF_TWO in H.
  apply andb_true_iff in H as [H _]. apply Z.eqb_eq in H.
  destruct (Z.log2_spec ps Hpos) as [Hlo Hhi].
  pose proof (Z.log2_nonneg ps) as Hk.
  destruct (Z.eq_dec ps (2 ^ Z.log2 ps)) as [|Hne]; [assumption|exfalso].
  assert (Hl : Z.log2 (ps - 1) = Z.log2 ps)
    by (apply Z.log2_unique; [assumption | lia]).
  assert (Hb : Z.testbit (Z.land ps (ps - 1)) (Z.log2 ps) = true).
  { rewrite Z.land_spec, Z.bit_log2 by assumption.
    rewrite <- Hl. rewrite Z.bit_log2; [reflexivity|].
    assert (0 < 2 ^ Z.log2 ps) by (apply Z.pow_pos_nonneg; lia). lia. }
  rewrite H, Z.bits_0 in Hb. discriminate.
Qed.

Lemma page_size_cases k :
  0 <= k < 32 ->
  page_size_to_log2 (2 ^ k) = k /\ POWER_OF_TWO (2 ^ k) = true.
Proof.
  intros Hk.
  assert (H : forallb (fun k => (page_size_to_log2 (2 ^ k) =? k)
                                && POWER_OF_TWO (2 ^ k)) (seqZ 0 32) = true)
    by (vm_compute; reflexivity).
  rewrite forallb_forall in H. specialize (H k).
  rewrite <- list_elem_of_In, elem_of_seqZ in H.
  specialize (H ltac:(lia)). apply andb_true_iff in H as [H1 H2].
  apply Z.eqb_eq in H1. auto.
Qed.

Lemma log2_lt_32 ps : 0 < ps < 2 ^ 32 -> 0 <= Z.log2 ps < 32.
Proof.
  intros H. split; [apply Z.log2_nonneg|].
  apply Z.log2_lt_pow2; lia.
Qed.

Lemma u64_small x : 0 <= x < 2 ^ 64 -> u64 x = x.
Proof. intros H. unfold u64. apply Z.mod_small. exact H. Qed.

Section Opening.
Variable cksum : list Z -> Z.

Lemma header_decode_other buf h0 h1 ret hdr :
  H5FD_onion_history_header_decode cksum buf h0 = (ret, hdr) ->
  ret <> 0 ->
  H5FD_onion_history_header_decode cksum buf h1
  = (ret,
     {| hdr_magic := hdr_magic h1; hdr_version := hdr_version h1;
        hdr_flags := hdr_flags hdr; hdr_page_size := hdr_page_size hdr;
        hdr_origin_eof := hdr_origin_eof hdr;
        hdr_whole_history_addr := hdr_whole_history_addr hdr;
        hdr_whole_history_size := hdr_whole_history_size hdr;
        hdr_checksum := hdr_checksum hdr |}).
Proof.
  unfold H5FD_onion_history_header_decode.
  destruct (bytes_eqb _ _); cbn [negb]; [|by intros [= <- _] []].
  destruct (_ =? H5FD__ONION_HEADER_VERSION_CURR); cbn [negb];
    [|by intros [= <- _] []].
  match goal with |- context [negb ?c] => destruct c end; cbn [negb];
    [|by intros [= <- _] []].
  by intros [= <- <-] _.
Qed.

Lemma header_decode_magic buf h0 :
  hdr_magic (snd (H5FD_onion_history_header_decode cksum buf h0))
  = hdr_magic h0
  /\ hdr_version (snd (H5FD_onion_history_header_decode cksum buf h0))
     = hdr_version h0.
Proof.
  unfold H5FD_onion_history_header_decode.
  destruct (bytes_eqb _ _); cbn [negb]; [|done].
  destruct (_ =? H5FD__ONION_HEADER_VERSION_CURR); cbn [negb]; [|done].
  match goal with |- context [negb ?c] => destruct c end; done.
Qed.

Lemma header_decode_checksum buf h0 :
  fst (H5FD_onion_history_header_decode cksum buf h0) <> 0 ->
  hdr_checksum (snd (H5FD_onion_history_header_decode cksum buf h0))
  = checksum cksum buf 36.
Proof.
  unfold H5FD_onion_history_header_decode.
  destruct (bytes_eqb _ _); cbn [negb]; [|by intros []].
  destruct (_ =? H5FD__ONION_HEADER_VERSION_CURR); cbn [negb]; [|by intros []].
  match goal with |- context [negb (?a =? ?b)] => destruct (Z.eqb_spec a b) end;
    cbn [negb fst snd]; [|by intros []].
  intros _. simpl. done.
Qed.

Lemma injest_history_header_stored (name : string) (eoa : Z)
  (fs : filesystem) (data : list Z) h0 hdr :
  fs !! name = Some data ->
  hdr_magic h0 = H5FD__ONION_HEADER_MAGIC ->
  hdr_version h0 = H5FD__ONION_HEADER_VERSION_CURR ->
  stored_header cksum data = Some hdr ->
  H5FD__onion_injest_history_header cksum h0
    {| fd_name := name; fd_eoa := eoa |} 0 fs
  = (SUCCEED, hdr, {| fd_name := name; fd_eoa := 40 |}).
Proof.
  intros Hfs Hm Hv Hst. unfold stored_header in Hst.
  destruct (Z.of_nat (length data) <? H5FD__ONION_ENCODED_SIZE_HEADER)
    eqn:Hlen; [done|].
  apply Z.ltb_ge in Hlen. unfold H5FD__ONION_ENCODED_SIZE_HEADER in Hlen.
  destruct (H5FD_onion_history_header_decode cksum (take 40 data)
              header_blank) as [ret hdr'] eqn:Hdec.
  destruct (Z.eqb_spec ret 0) as [|Hret]; [done|]. injection Hst as ->.
  assert (Hdec0 : H5FD_onion_history_header_decode cksum (take 40 data) h0
                  = (ret, hdr)).
  { rewrite (header_decode_other _ _ h0 _ _ Hdec Hret). f_equal.
    destruct (header_decode_magic (take 40 data) header_blank) as [Hm' Hv'].
    rewrite Hdec in Hm', Hv'. cbn [snd] in Hm', Hv'.
    destruct hdr; simpl in *. congruence. }
  unfold H5FD__onion_injest_history_header, H5FD_get_eof, H5FDread,
    H5FD_set_eoa.
  cbn [fd_name fd_eoa]. rewrite Hfs. cbn [default from_option id].
  unfold H5FD__ONION_ENCODED_SIZE_HEADER.
  change (0 + 40) with 40. change (40 - 4) with 36.
  destruct (Z.of_nat (length data) <? 40) eqn:Hlt;
    [apply Z.ltb_lt in Hlt; lia|].
  change (40 =? 0) with false. change (40 >? 40) with false. cbn match.
  change (Z.to_nat 0) with 0%nat. change (Z.to_nat 40) with 40%nat.
  rewrite drop_0, take_app_le by lia.
  rewrite Hdec0.
  destruct (Z.eqb_spec ret 0) as [|_]; [done|].
  pose proof (header_decode_checksum (take 40 data) h0) as Hck.
  rewrite Hdec0 in Hck. cbn [fst snd] in Hck. rewrite (Hck Hret), Z.eqb_refl.
  done.
Qed.

Lemma open_backing_existing (name : string) (flags : Z) (f : H5FD_onion_t)
  (fs : filesystem) (data : list Z) :
  fs !! name = Some data ->
  has_flag flags H5F_ACC_TRUNC = false ->
  open_backing name flags (f, fs)
  = (inr (Some {| fd_name := name; fd_eoa := 0 |}), (f, fs)).
Proof.
  intros Hfs Ht. unfold open_backing, H5FD_open. cbn [fst snd].
  by rewrite Hfs, Ht.
Qed.

(** C10.  Opening (without the create or truncate flags, read-only or
    read-write) a canonical file whose onion file holds a decodable header
    with the write-lock flag set fails with (H5E_VFL, H5E_UNSUPPORTED), and
    the store of backing files is left as it was. *)
Theorem open_refuses_write_locked_file (env : environment) (filename : string)
  (flags : Z) (fa_ : H5FD_onion_fapl_info_t) (fs : filesystem)
  (canon_data onion_data : list Z) (hdr : H5FD__onion_history_header) :
  fa_magic fa_ = H5FD_ONION_FAPL_INFO_MAGIC ->
  store_target fa_ = H5FD_ONION_STORE_TARGET_ONION ->
  has_flag flags (Z.lor H5F_ACC_CREAT H5F_ACC_TRUNC) = false ->
  fs !! filename = Some canon_data ->
  fs !! (filename +:+ ".onion")%string = Some onion_data ->
  stored_header cksum onion_data = Some hdr ->
  has_flag (hdr_flags hdr) H5FD__ONION_HEADER_FLAG_WRITE_LOCK = true ->
  H5FD__onion_open cksum env filename flags (Some fa_) fs
  = (inl (H5E_VFL, H5E_UNSUPPORTED), fs).
Proof.
  intros Hmagic Htarget Hflags Hcanon Honion Hhdr Hlock.
  destruct (has_flag_lor _ _ _ Hflags) as [_ Htrunc].
  unfold H5FD__onion_open, H5Pget_fapl_onion.
  rewrite Hmagic, Z.eqb_refl. cbn [negb]. rewrite Htarget.
  unfold open_body. rewrite Hflags.
  unfold open_existing.
  msimpl.
  rewrite (open_backing_existing _ _ _ _ _ Hcanon Htrunc). msimpl.
  rewrite (open_backing_existing _ _ _ _ _ Honion Htrunc). msimpl.
  erewrite injest_history_header_stored
    by first [exact Honion | exact Hhdr | done].
  msimpl. rewrite Hlock. msimpl. reflexivity.
Qed.
(** **** Files without revisions *)

(** The entries skipped by a first decoding pass. *)
Lemma skip_entries_none buf ptr entry_size :
  skip_entries buf ptr entry_size 0 = ptr.
Proof.
  unfold skip_entries. rewrite Z.mul_0_r, Z.add_0_r.
  destruct (_ <=? _); [reflexivity|apply Z.add_0_r].
Qed.

Lemma skip_entries_inside buf ptr entry_size n :
  ptr + entry_size * n <= Z.of_nat (length buf) ->
  skip_entries buf ptr entry_size n = ptr + entry_size * n.
Proof.
  intros H. unfold skip_entries.
  destruct (Z.leb_spec (ptr + entry_size * n) (Z.of_nat (length buf)));
    [reflexivity|lia].
Qed.

(** The first decoding pass (revision count 0 in the summary passed in)
    decides as it does on [whs_blank]. *)
Lemma whole_history_decode_first_pass buf s :
  whs_n_revisions s = 0 ->
  H5FD_onion_whole_history_decode cksum buf s
  = (fst (H5FD_onion_whole_history_decode cksum buf whs_blank),
     if negb (bytes_eqb (bytes_at buf 0 4) H5FD__ONION_WHOLE_HISTORY_SIGNATURE)
        || negb (H5FD__ONION_WHOLE_HISTORY_VERSION_CURR
                 =? default 0 (buf !! 4%nat))
     then s
     else
       {| whs_magic := whs_magic s; whs_version := whs_version s;
          whs_n_revisions :=
            whs_n_revisions
              (snd (H5FD_onion_whole_history_decode cksum buf whs_blank));
          whs_record_pointer_list := whs_record_pointer_list s;
          whs_checksum :=
            whs_checksum
              (snd (H5FD_onion_whole_history_decode cksum buf whs_blank)) |}).
Proof.
  intros Hs. unfold H5FD_onion_whole_history_decode.
  destruct (bytes_eqb _ _); cbn [negb orb fst snd]; [|done].
  destruct (_ =? default 0 _); cbn [negb orb fst snd]; [|done].
  rewrite Hs. cbn [whs_n_revisions whs_blank]. change (0 =? 0) with true.
  cbn match. cbv zeta.
  destruct s as [m v n l c]. cbn [whs_set_n_revisions whs_set_checksum
    whs_checksum whs_n_revisions whs_magic whs_version
    whs_record_pointer_list whs_blank].
  match goal with |- context [negb ?c] => destruct c end; done.
Qed.

Lemma whole_history_decode_checksum buf :
  fst (H5FD_onion_whole_history_decode cksum buf whs_blank) <> 0 ->
  whs_checksum (snd (H5FD_onion_whole_history_decode cksum buf whs_blank))
  = checksum cksum buf
      (fst (H5FD_onion_whole_history_decode cksum buf whs_blank) - 4)
  /\ negb (bytes_eqb (bytes_at buf 0 4) H5FD__ONION_WHOLE_HISTORY_SIGNATURE)
     || negb (H5FD__ONION_WHOLE_HISTORY_VERSION_CURR
              =? default 0 (buf !! 4%nat)) = false
  /\ fst (H5FD_onion_whole_history_decode cksum buf whs_blank)
     = skip_entries buf 16 20
         (whs_n_revisions
            (snd (H5FD_onion_whole_history_decode cksum buf whs_blank)))
       + 4.
Proof.
  unfold H5FD_onion_whole_history_decode.
  destruct (bytes_eqb _ _); cbn [negb orb fst snd]; [|by intros []].
  destruct (_ =? default 0 _); cbn [negb orb fst snd]; [|by intros []].
  cbn [whs_n_revisions whs_blank]. change (0 =? 0) with true.
  cbn match. cbv zeta.
  cbn [whs_set_n_revisions whs_set_checksum whs_checksum whs_blank].
  match goal with |- context [negb (?a =? ?b)] => destruct (Z.eqb_spec a b) end;
    cbn [negb fst snd whs_checksum]; [|by intros []].
  intros _. split; [|split; [done|]].
  - rewrite <- e. f_equal. lia.
  - reflexivity.
Qed.

Lemma injest_whole_history_stored (name : string) (eoa addr size : Z)
  (fs : filesystem) (data : list Z) (s0 : H5FD__onion_whole_history) :
  fs !! name = Some data ->
  0 <= addr ->
  whs_n_revisions s0 = 0 ->
  stored_revision_count cksum data addr size = Some 0 ->
  H5FD__onion_injest_whole_history cksum s0
    {| fd_name := name; fd_eoa := eoa |} addr size fs
  = (SUCCEED,
     {| whs_magic := whs_magic s0; whs_version := whs_version s0;
        whs_n_revisions := 0;
        whs_record_pointer_list := Some [];
        whs_checksum :=
          checksum cksum (take (Z.to_nat size) (drop (Z.to_nat addr) data))
            (size - 4) |},
     {| fd_name := name; fd_eoa := addr + size |}).
Proof.
  intros Hfs Haddr Hs0 Hst. unfold stored_revision_count in Hst.
  destruct (Z.of_nat (length data) <? addr + size) eqn:Hlen; [done|].
  apply Z.ltb_ge in Hlen.
  set (buf := take (Z.to_nat size) (drop (Z.to_nat addr) data)) in *.
  cbv zeta in Hst.
  destruct (H5FD_onion_whole_history_decode cksum buf whs_blank)
    as [ret whs] eqn:Hdec.
  destruct (Z.eqb_spec ret 0) as [|Hret]; [done|].
  destruct (Z.eqb_spec ret size) as [->|]; [|done].
  cbn [orb negb] in Hst. injection Hst as Hn.
  pose proof (whole_history_decode_checksum buf) as Hck.
  rewrite Hdec in Hck. cbn [fst snd] in Hck.
  destruct (Hck Hret) as (Hsum & Hok & Hsize).
  rewrite Hn, skip_entries_none in Hsize.
  change (16 + 4) with 20 in Hsize.
  assert (Hread : H5FDread {| fd_name := name; fd_eoa := addr + size |}
                    addr size fs = Some buf).
  { unfold H5FDread. cbn [fd_name fd_eoa]. rewrite Hfs.
    destruct (Z.eqb_spec size 0); [done|].
    destruct (Z.gtb_spec (addr + size) (addr + size)); [lia|].
    f_equal. unfold buf.
    rewrite take_app_le; [done|]. rewrite length_drop. lia. }
  unfold H5FD__onion_injest_whole_history, H5FD_get_eof, H5FD_set_eoa.
  cbn [fd_name fd_eoa]. rewrite Hfs. cbn [default from_option id].
  destruct (Z.ltb_spec (Z.of_nat (length data)) (addr + size)); [lia|].
  rewrite Hread.
  rewrite (whole_history_decode_first_pass buf s0 Hs0), Hdec. cbn [fst snd].
  rewrite Hok, Z.eqb_refl. cbn [negb whs_checksum].
  rewrite Hsum, Z.eqb_refl. cbn [negb whs_set_list whs_n_revisions].
  rewrite Hn. change (Z.to_nat 0) with 0%nat. cbn [replicate].
  rewrite whole_history_decode_first_pass by done.
  rewrite Hdec. cbn [fst snd]. rewrite Hok, Z.eqb_refl. cbn [negb].
  cbn [whs_magic whs_version whs_record_pointer_list]. rewrite Hn, Hsum.
  reflexivity.
Qed.

(** Reads of a file in which no page has been written and that has no
    canonical content. *)
Lemma u64_nonneg x : 0 <= u64 x.
Proof. unfold u64. apply Z.mod_pos_bound. lia. Qed.

Lemma page_gap_head_range offset k i :
  0 <= k < 32 -> 0 <= page_gap_head offset k i < 2 ^ k.
Proof.
  intros Hk. assert (Hpos : 0 < 2 ^ k) by (apply Z.pow_pos_nonneg; lia).
  assert (Hp32 : 2 ^ k < 2 ^ 32) by (apply Z.pow_lt_mono_r; lia).
  unfold page_gap_head. destruct (i =? 0); [|lia].
  rewrite Z.shiftl_1_l. unfold u32.
  rewrite (Z.mod_small (2 ^ k)) by lia.
  rewrite (Z.mod_small (2 ^ k - 1)) by lia.
  replace (2 ^ k - 1) with (Z.ones k) by (rewrite Z.ones_equiv; lia).
  rewrite Z.land_ones by lia.
  apply Z.mod_pos_bound. exact Hpos.
Qed.

Lemma read_pages_step (count : nat) (file : H5FD_onion_t)
  (fs : filesystem)
  (offset n_pages page_size page_size_log2 page_0 i bytes_to_read : Z)
  (buf_out : list Z) :
  read_pages (S count) file fs offset n_pages page_size page_size_log2
    page_0 i bytes_to_read buf_out
  = match read_page file fs offset n_pages page_size page_size_log2
            page_0 i bytes_to_read with
    | inl e => inl e
    | inr (bytes, page_readsize) =>
        read_pages count file fs offset n_pages page_size page_size_log2
          page_0 (i + 1) (u64 (bytes_to_read - page_readsize))
          (buf_out ++ bytes)
    end.
Proof. reflexivity. Qed.

Lemma read_pages_unwritten_exact (file : H5FD_onion_t) (fs : filesystem)
  (offset n_pages k page_0 : Z) :
  (forall page, live_find file page = None) ->
  aix_n_entries (archival_index (rev_record file)) = 0 ->
  origin_eof file = 0 ->
  0 <= k < 32 ->
  n_pages < 2 ^ 64 ->
  forall (count : nat) (i bytes_to_read : Z) (buf_out : list Z),
    0 <= i -> i + Z.of_nat count + 1 = n_pages ->
    Z.of_nat count * 2 ^ k < bytes_to_read < 2 ^ 64 ->
    read_pages (S count) file fs offset n_pages (2 ^ k) k page_0 i
      bytes_to_read buf_out
    = inr (buf_out ++ replicate (Z.to_nat bytes_to_read) 0).
Proof.
  intros Hrw Hn Heof Hk Hmax.
  assert (Hpos : 0 < 2 ^ k) by (apply Z.pow_pos_nonneg; lia).
  assert (Hp32 : 2 ^ k < 2 ^ 32) by (apply Z.pow_lt_mono_r; lia).
  induction count as [|count IH]; intros i btr buf_out Hi Hlast Hbtr.
  all: rewrite read_pages_step; unfold read_page at 1, read_canonical;
    unfold H5FD_onion_archival_index_find;
    rewrite Hrw, Hn, Heof; change (0 =? 0) with true; cbn match; cbv zeta.
  all: pose proof (page_gap_head_range offset k i Hk) as Hgh.
  all: set (gh := page_gap_head offset k i) in *.
  all: set (addr := u64 (u64 (page_0 + i) * 2 ^ k + gh)).
  all: pose proof (u64_nonneg (u64 (page_0 + i) * 2 ^ k + gh)) as Ha;
    fold addr in Ha.
  - (* the last page takes all the bytes left *)
    unfold page_gap_tail.
    rewrite (u64_small (n_pages - 1)) by lia.
    destruct (Z.eqb_spec (n_pages - 1) i) as [_|]; [|lia].
    assert (Hrs : u64 (2 ^ k - gh - u64 (2 ^ k - btr - gh)) = btr).
    { unfold u64. rewrite Zminus_mod_idemp_r.
      replace (2 ^ k - gh - (2 ^ k - btr - gh)) with btr by lia.
      apply Z.mod_small. lia. }
    rewrite Hrs.
    assert (Hmin : Z.min (if addr >? 0 then 0 else 0 - addr) btr = 0).
    { destruct (Z.gtb_spec addr 0); lia. }
    rewrite Hmin. change (0 >? 0) with false. cbn match.
    rewrite Z.sub_0_r. reflexivity.
  - unfold page_gap_tail.
    rewrite (u64_small (n_pages - 1)) by lia.
    destruct (Z.eqb_spec (n_pages - 1) i) as [|_]; [lia|].
    rewrite Z.sub_0_r, (u64_small (2 ^ k - gh)) by lia.
    assert (Hmin : Z.min (if addr >? 0 then 0 else 0 - addr) (2 ^ k - gh)
                   = 0).
    { destruct (Z.gtb_spec addr 0); lia. }
    rewrite Hmin. change (0 >? 0) with false. cbn match.
    rewrite Z.sub_0_r.
    assert (Hleft : 2 ^ k <= btr - Z.of_nat count * 2 ^ k) by lia.
    rewrite (u64_small (btr - (2 ^ k - gh))) by lia.
    rewrite IH by lia.
    rewrite <- !(assoc_L (++)). cbn [app]. rewrite <- replicate_add.
    do 3 f_equal. lia.
Qed.

Lemma read_unwritten (file : H5FD_onion_t) (fs : filesystem)
  (k offset len : Z) :
  (forall page, live_find file page = None) ->
  aix_n_entries (archival_index (rev_record file)) = 0 ->
  origin_eof file = 0 ->
  0 <= k < 32 ->
  hdr_page_size (header file) = 2 ^ k ->
  aix_page_size_log2 (archival_index (rev_record file)) = k ->
  0 <= len -> len + 2 ^ k <= 2 ^ 64 ->
  u64 (offset + len) <= logi_eoa file ->
  H5FD__onion_read file fs offset len = inr (replicate (Z.to_nat len) 0).
Proof.
  intros Hrw Hn Heof Hk Hps Hlog Hlen Hmax Hin.
  assert (Hpos : 0 < 2 ^ k) by (apply Z.pow_pos_nonneg; lia).
  unfold H5FD__onion_read.
  destruct (Z.gtb_spec (u64 (offset + len)) (logi_eoa file)); [lia|].
  destruct (Z.eqb_spec len 0) as [->|Hne]; [reflexivity|].
  rewrite Hps, Hlog. cbv zeta.
  rewrite (u64_small (len + 2 ^ k - 1)) by lia.
  rewrite Z.shiftr_div_pow2 by lia.
  set (n_pages := (len + 2 ^ k - 1) / 2 ^ k).
  assert (Hn1 : 1 <= n_pages).
  { apply Z.div_le_lower_bound; lia. }
  pose proof (Z.mul_div_le (len + 2 ^ k - 1) (2 ^ k) Hpos) as Hlo.
  fold n_pages in Hlo.
  assert (Hnp : n_pages < 2 ^ 64).
  { assert (n_pages * 1 <= 2 ^ k * n_pages) by nia. lia. }
  replace (Z.to_nat n_pages) with (S (Z.to_nat (n_pages - 1))) by lia.
  rewrite (read_pages_unwritten_exact file fs offset n_pages k) by
    first [assumption | lia | nia].
  reflexivity.
Qed.


(** The encoders and what their output decodes to. *)
Lemma header_encode_size h :
  H5FD_onion_history_header_encode cksum h
  = (40, encoded_header cksum h,
     snd (H5FD_onion_history_header_encode cksum h))
  /\ length (encoded_header cksum h) = 40%nat.
Proof.
  assert (Hl : length (encoded_header cksum h) = 40%nat).
  { unfold encoded_header, H5FD_onion_history_header_encode.
    cbn [fst snd]. unfold UINT32ENCODE, UINT64ENCODE.
    rewrite !length_app, length_take, !le_encode_length. simpl. lia. }
  split; [|done].
  unfold encoded_header in *. unfold H5FD_onion_history_header_encode in *.
  cbn [fst snd] in *. by rewrite Hl.
Qed.

Lemma encoded_header_ext h h' :
  u8 (hdr_version h) = u8 (hdr_version h') ->
  le_encode 3 (hdr_flags h) = le_encode 3 (hdr_flags h') ->
  le_encode 4 (hdr_page_size h) = le_encode 4 (hdr_page_size h') ->
  le_encode 8 (hdr_origin_eof h) = le_encode 8 (hdr_origin_eof h') ->
  le_encode 8 (hdr_whole_history_addr h)
  = le_encode 8 (hdr_whole_history_addr h') ->
  le_encode 8 (hdr_whole_history_size h)
  = le_encode 8 (hdr_whole_history_size h') ->
  encoded_header cksum h = encoded_header cksum h'.
Proof.
  intros Hv Hf Hp Ho Ha Hs.
  unfold encoded_header, H5FD_onion_history_header_encode.
  cbn [fst snd]. unfold UINT32ENCODE, UINT64ENCODE.
  rewrite !(le_encode_take 4 3) by lia.
  by rewrite Hv, Hf, Hp, Ho, Ha, Hs.
Qed.

Lemma whole_history_encode_empty s :
  whs_n_revisions s = 0 ->
  H5FD_onion_whole_history_encode cksum s
  = (20, encoded_whole_history cksum s,
     snd (H5FD_onion_whole_history_encode cksum s))
  /\ length (encoded_whole_history cksum s) = 20%nat.
Proof.
  intros Hs.
  assert (Hl : length (encoded_whole_history cksum s) = 20%nat).
  { unfold encoded_whole_history, H5FD_onion_whole_history_encode.
    rewrite Hs. change (0 >? 0) with false. cbn match.
    cbn [fst snd]. unfold UINT32ENCODE, UINT64ENCODE.
    rewrite !length_app, !le_encode_length. simpl. lia. }
  split; [|done].
  unfold encoded_whole_history in *.
  unfold H5FD_onion_whole_history_encode in *.
  cbn [fst snd] in *. by rewrite Hl.
Qed.

Lemma whole_history_decode_encode_empty s :
  whs_version s = H5FD__ONION_WHOLE_HISTORY_VERSION_CURR ->
  whs_n_revisions s = 0 ->
  H5FD_onion_whole_history_decode cksum (encoded_whole_history cksum s)
    whs_blank
  = (20, {| whs_magic := H5FD__ONION_WHOLE_HISTORY_MAGIC;
            whs_version := H5FD__ONION_WHOLE_HISTORY_VERSION_CURR;
            whs_n_revisions := 0;
            whs_record_pointer_list := None;
            whs_checksum := snd (H5FD_onion_whole_history_encode cksum s) |}).
Proof.
  intros Hv Hn.
  unfold encoded_whole_history, H5FD_onion_whole_history_encode.
  rewrite Hv, Hn. change (0 >? 0) with false. cbn match. cbv zeta.
  cbn [fst snd].
  set (pre := H5FD__ONION_WHOLE_HISTORY_SIGNATURE
              ++ UINT32ENCODE (u32 H5FD__ONION_WHOLE_HISTORY_VERSION_CURR)
              ++ UINT64ENCODE 0 ++ []).
  set (c := checksum cksum pre (Z.of_nat (length pre))).
  assert (Hc : c mod 2 ^ 32 = c).
  { unfold c, checksum, u32. apply Z.mod_mod. lia. }
  let v := eval vm_compute in pre in assert (Hpre : pre = v) by reflexivity.
  assert (Hsum : c = u32 (cksum pre)).
  { unfold c, checksum. by rewrite Hpre. }
  clearbody c. clearbody pre. subst pre.
  unfold H5FD_onion_whole_history_decode, UINT32ENCODE.
  explode_encode 4%nat c.
  assert (Hd : le_decode [z; z0; z1; z2] = c).
  { rewrite E, le_decode_encode. exact Hc. }
  unfold bytes_at, checksum, UINT32DECODE, UINT64DECODE.
  remember le_decode as D eqn:ED.
  simpl.
  subst D. change (le_decode [0; 0; 0; 0; 0; 0; 0; 0]) with 0.
  rewrite skip_entries_none. change (Z.to_nat (8 + 8)) with 16%nat.
  cbn [take drop]. rewrite Hd, <- Hsum, Z.eqb_refl. cbn [negb].
  reflexivity.
Qed.

Lemma has_flag_fabricated cf :
  has_flag (header_flags_of_creation 0 cf mod 2 ^ 24)
    H5FD__ONION_HEADER_FLAG_WRITE_LOCK = false.
Proof.
  unfold header_flags_of_creation.
  by destruct (has_flag cf _), (has_flag cf _).
Qed.

Lemma encoded_whole_history_empty s :
  whs_version s = H5FD__ONION_WHOLE_HISTORY_VERSION_CURR ->
  whs_n_revisions s = 0 ->
  encoded_whole_history cksum s = encoded_whole_history cksum whs_blank.
Proof.
  intros Hv Hn. unfold encoded_whole_history, H5FD_onion_whole_history_encode.
  by rewrite Hv, Hn.
Qed.

(** H5FD__onion_open_rw on a file without revisions: the whole-history
    goes to the recovery file and the header is written back with the
    write-lock flag. *)
Lemma open_rw_unwritten (flags : Z) (f : H5FD_onion_t) (fs : filesystem)
  (name_recovery : string) (onion : H5FD_t) (data : list Z) :
  has_flag (hdr_flags (header f)) H5FD__ONION_HEADER_FLAG_WRITE_LOCK = false ->
  name_recov f = Some name_recovery ->
  whs_version (summary f) = H5FD__ONION_WHOLE_HISTORY_VERSION_CURR ->
  whs_n_revisions (summary f) = 0 ->
  hdr_whole_history_size (header f) = 20 ->
  backing_onion f = Some onion ->
  fs !! fd_name onion = Some data ->
  name_recovery <> fd_name onion ->
  40 <= fd_eoa onion ->
  POWER_OF_TWO (fa_page_size (fa f)) = true ->
  H5FD__onion_open_rw cksum flags (f, fs)
  = (inr tt,
     (set_is_open_rw
        (set_rev_record
           (set_rev_index
              (set_header
                 (set_backing_recov f
                    (Some {| fd_name := name_recovery; fd_eoa := 20 |}))
                 (write_locked (header f)))
              (H5FD_onion_revision_index_init (fa_page_size (fa f))))
           (rec_set_ids (rev_record f)
              (u64 (revision_id (rev_record f) + 1))
              (revision_id (rev_record f))))
        true,
      <[fd_name onion :=
          encoded_header cksum (write_locked (header f))
          ++ drop 40 data]>
        (<[name_recovery := encoded_whole_history cksum whs_blank]> fs))).
Proof.
  intros Hlock Hname Hv Hn Hsize Honion Hdata Hne Heoa Hps.
  destruct f as [fa_ bc bo br nr rw pa hdr sm rr ri he oe la le].
  destruct hdr as [hm hv hf hp ho ha hs hc].
  cbn [header name_recov summary backing_onion fa rev_record hdr_flags
       hdr_whole_history_size] in *.
  subst nr bo hs.
  unfold H5FD__onion_open_rw, open_rw_body, write_locked. msimpl2.
  rewrite Hlock. msimpl2.
  rewrite open_backing_create by (by apply has_flag_lor_r).
  msimpl2.
  unfold H5FD__onion_whole_history_write.
  destruct (whole_history_encode_empty sm Hn) as [-> Hwlen].
  rewrite (encoded_whole_history_empty sm Hv Hn) in *.
  set (wbuf := encoded_whole_history cksum whs_blank) in *.
  change (20 =? 0) with false. change (20 + 0 >? 0) with true. cbn match.
  msimpl2.
  rewrite (H5FDwrite_front _ _ _ _ []) by (try apply lookup_insert_eq; lia).
  rewrite drop_nil, app_nil_r, insert_insert_eq. msimpl2.
  change (20 =? 0) with false. msimpl2.
  change (negb (20 =? 20)) with false. msimpl2.
  match goal with
  | |- context [H5FD_onion_history_header_encode cksum ?h] =>
      destruct (header_encode_size h) as [-> Hhlen]
  end.
  msimpl2. change (40 =? 0) with false. msimpl2.
  unfold write_backing. msimpl2.
  destruct onion as [name_onion eoa]. cbn [fd_name fd_eoa] in *.
  rewrite (H5FDwrite_front _ _ _ _ data)
    by (try (by rewrite lookup_insert_ne); lia).
  msimpl2. unfold init_rev_index. msimpl2.
  destruct (revision_index_init_is_Some _ Hps) as [rix Hrix].
  rewrite Hrix. msimpl2.
  reflexivity.
Qed.

(** C7 (amended).  Opening, without the create or truncate flag, a
    canonical file that has no onion file next to it.  Read-only, the open
    fails with (H5E_VFL, H5E_CANTOPENFILE) and the backing store is left as
    it was.  With the read/write flag, the onion file and the recovery file
    are created and a header followed by an empty whole-history is written
    to the onion file; the open then goes on as for an existing file with
    no revision: for the revision LATEST it succeeds in read/write mode
    (the header now write-locked, the whole-history copied to the recovery
    file), for any other revision it fails with (H5E_ARGS, H5E_BADVALUE)
    and the files written stay behind. *)
Theorem open_without_onion_file (env : environment) (filename : string)
  (flags : Z) (fa_ : H5FD_onion_fapl_info_t) (fs : filesystem)
  (canon_data pw_name : list Z) :
  fa_magic fa_ = H5FD_ONION_FAPL_INFO_MAGIC ->
  store_target fa_ = H5FD_ONION_STORE_TARGET_ONION ->
  has_flag flags (Z.lor H5F_ACC_CREAT H5F_ACC_TRUNC) = false ->
  fs !! filename = Some canon_data ->
  fs !! (filename +:+ ".onion")%string = None ->
  env_pw_name env = Some pw_name ->
  get_legit_fapl_id (backing_fapl_id fa_) <> None ->
  POWER_OF_TWO (fa_page_size fa_) = true ->
  0 <= fa_revision_id fa_ ->
  let name_onion := (filename +:+ ".onion")%string in
  let name_recovery := (name_onion +:+ ".recovery")%string in
  let r := H5FD__onion_open cksum env filename flags (Some fa_) fs in
  if has_flag flags H5F_ACC_RDWR then
    if fa_revision_id fa_ =? H5FD_ONION_FAPL_INFO_REVISION_ID_LATEST then
      (exists file, fst r = inr file /\ is_open_rw file = true)
      /\ snd r
         = <[name_onion :=
               encoded_header cksum (write_locked (fabricated_header fa_))
               ++ [0] ++ encoded_whole_history cksum whs_blank]>
             (<[name_recovery := encoded_whole_history cksum whs_blank]> fs)
    else
      r = (inl (H5E_ARGS, H5E_BADVALUE),
           <[name_onion :=
               encoded_header cksum (fabricated_header fa_) ++ [0]
               ++ encoded_whole_history cksum whs_blank]>
             (<[name_recovery := []]> fs))
  else r = (inl (H5E_VFL, H5E_CANTOPENFILE), fs).
Proof.
  intros Hmagic Htarget Hflags Hcanon Honion Hpw Hfapl Hps Hrev
    name_onion name_recovery r.
  assert (Hne : name_recovery <> name_onion) by (by apply append_neq).
  destruct (has_flag_lor _ _ _ Hflags) as [Hcreat Htrunc].
  (* the encoded header and whole-history, and what they decode to *)
  remember (encoded_header cksum (fabricated_header fa_)) as hbuf eqn:Hhbuf.
  remember (encoded_whole_history cksum whs_blank) as wbuf eqn:Hwbuf.
  destruct (header_encode_size (fabricated_header fa_)) as [Henc Hhlen].
  destruct (whole_history_encode_empty whs_blank eq_refl) as [Hwenc Hwlen].
  pose proof (header_decode_encode cksum (fabricated_header fa_) header_blank
                eq_refl) as Hhdec.
  pose proof (whole_history_decode_encode_empty whs_blank eq_refl eq_refl)
    as Hwdec.
  fold (encoded_header cksum (fabricated_header fa_)) in Hhdec.
  rewrite <- Hhbuf in Henc, Hhlen, Hhdec.
  rewrite <- Hwbuf in Hwenc, Hwlen, Hwdec.
  remember (snd (H5FD_onion_history_header_encode cksum
                   (fabricated_header fa_))) as hsum eqn:Hhsum.
  remember (snd (H5FD_onion_whole_history_encode cksum whs_blank))
    as wsum eqn:Hwsum.
  clear Hhsum Hwsum.
  set (data := hbuf ++ [0] ++ wbuf).
  assert (Hstored : stored_header cksum data
                    = Some (snd (H5FD_onion_history_header_decode cksum hbuf
                                   header_blank))).
  { unfold stored_header, data. rewrite !length_app, Hhlen, Hwlen.
    cbn [length]. rewrite take_app_length' by done.
    rewrite Hhdec. reflexivity. }
  rewrite Hhdec in Hstored. cbn [snd] in Hstored.
  assert (Hcount : stored_revision_count cksum data 41 20 = Some 0).
  { unfold stored_revision_count, data. rewrite !length_app, Hhlen, Hwlen.
    cbn [length].
    change (Z.of_nat (40 + (1 + 20)) <? 41 + 20) with false. cbn match.
    rewrite (app_assoc hbuf [0] wbuf).
    rewrite drop_app_length' by (rewrite length_app, Hhlen; done).
    rewrite take_ge by (rewrite Hwlen; done).
    rewrite Hwdec. reflexivity. }
  destruct (revision_index_init_is_Some _ Hps) as [rix Hrix].
  destruct (get_legit_fapl_id (backing_fapl_id fa_)) as [id|] eqn:Hid;
    [clear Hfapl|done].
  set (fs1 := <[name_recovery := []]> (<[name_onion := []]> fs)).
  assert (Hfs1 : fs1 !! name_onion = Some []).
  { unfold fs1. by rewrite lookup_insert_ne, lookup_insert_eq. }
  (* the open, step by step *)
  eassert (Hr : r = if has_flag flags H5F_ACC_RDWR
                    then if fa_revision_id fa_
                            =? H5FD_ONION_FAPL_INFO_REVISION_ID_LATEST
                         then (inr _, _)
                         else (inl (H5E_ARGS, H5E_BADVALUE),
                               <[name_onion := data]> fs1)
                    else (inl (H5E_VFL, H5E_CANTOPENFILE), fs)).
  { subst r. unfold H5FD__onion_open, H5Pget_fapl_onion.
    rewrite Hmagic, Z.eqb_refl. cbn [negb]. rewrite Htarget.
    unfold open_body. rewrite Hflags.
    unfold open_existing.
    msimpl.
    rewrite (open_backing_existing _ _ _ _ _ Hcanon Htrunc). msimpl.
    rewrite (open_backing_missing _ _ _ _ Honion Hcreat). msimpl.
    destruct (has_flag flags H5F_ACC_RDWR) eqn:Hrdwr; [|reflexivity].
    unfold open_missing_onion_rw. msimpl.
    unfold set_userinfo, H5FD__onion_set_userinfo_in_record. msimpl.
    rewrite Hpw. msimpl. rewrite Hid. msimpl.
    rewrite open_backing_create by reflexivity. msimpl.
    rewrite open_backing_create by reflexivity. msimpl.
    change (Build_H5FD__onion_history_header _ _ _ _ _ _ _ _)
      with (fabricated_header fa_).
    rewrite Henc. unfold fabricated_header. msimpl2.
    change (negb (H5FD__ONION_ENCODED_SIZE_HEADER =? 40)) with false.
    msimpl2.
    change (Build_H5FD__onion_whole_history _ _ _ _ _) with whs_blank.
    rewrite Hwenc. unfold whs_blank. msimpl2.
    change (negb (H5FD__ONION_ENCODED_SIZE_WHOLE_HISTORY =? 20)) with false.
    msimpl2.
    unfold write_backing at 1. msimpl2.
    rewrite (H5FDwrite_front _ _ _ _ _ _ Hfs1) by lia.
    rewrite drop_nil, app_nil_r. msimpl2.
    unfold init_rev_index at 1. msimpl2.
    rewrite Hrix. msimpl2.
    unfold write_backing at 1. msimpl2.
    rewrite (H5FDwrite_beyond _ _ _ _ _ hbuf) by
      (try apply lookup_insert_eq; lia).
    rewrite insert_insert_eq.
    replace (Z.to_nat (40 + 1) - length hbuf)%nat with 1%nat by lia.
    cbn [replicate]. fold data. msimpl2.
    erewrite injest_history_header_stored
      by first [apply lookup_insert_eq | exact Hstored | done].
    msimpl2.
    unfold fabricated_header. msimpl2.
    rewrite has_flag_fabricated. msimpl2.
    change ((H5FD__ONION_ENCODED_SIZE_HEADER + 1) mod 2 ^ 32) with 41.
    change (H5FD__ONION_ENCODED_SIZE_WHOLE_HISTORY mod 2 ^ 32) with 20.
    erewrite injest_whole_history_stored
      by first [apply lookup_insert_eq | exact Hcount | done].
    msimpl2.
    destruct (Z.geb_spec (fa_revision_id fa_) 0) as [_|]; [|lia].
    cbn [andb].
    destruct (fa_revision_id fa_ =? H5FD_ONION_FAPL_INFO_REVISION_ID_LATEST);
      cbn [negb]; msimpl2; [|reflexivity].
    change (0 >? 0) with false. cbn match. msimpl2.
    unfold reraise.
    erewrite (open_rw_unwritten flags _ _ name_recovery
                {| fd_name := name_onion; fd_eoa := 41 + 20 |} data)
      by first [ apply has_flag_fabricated | apply lookup_insert_eq
               | exact Hne | exact Hps | reflexivity
               | cbn [fd_eoa]; lia ].
    msimpl2.
    rewrite (has_flag_lor_l _ _ _ Hrdwr). rewrite copy_comment_step.
    msimpl2.
    reflexivity. }
  clearbody r. rewrite Hr. clear Hr.
  destruct (has_flag flags H5F_ACC_RDWR); [|reflexivity].
  destruct (fa_revision_id fa_ =? H5FD_ONION_FAPL_INFO_REVISION_ID_LATEST);
    cbn [fst snd].
  - split.
    + eexists. split; [reflexivity|].
      by destruct (has_flag _ H5FD__ONION_HEADER_FLAG_PAGE_ALIGNMENT).
    + unfold data at 1. rewrite drop_app_length' by done.
      rewrite (encoded_header_ext _ (write_locked (fabricated_header fa_))).
      * apply map_eq. intros k. unfold fs1.
        clearbody name_recovery. clearbody name_onion.
        destruct (decide (k = name_onion)) as [->|].
        { by rewrite !lookup_insert_eq. }
        rewrite !(lookup_insert_ne _ name_onion) by congruence.
        rewrite <- Hwbuf.
        destruct (decide (k = name_recovery)) as [->|];
          [by rewrite !lookup_insert_eq|].
        by repeat (rewrite lookup_insert_ne by congruence).
      * reflexivity.
      * unfold write_locked, fabricated_header, header_flags_of_creation.
        cbn [hdr_set_flags hdr_flags].
        by destruct (has_flag (creation_flags fa_) _),
             (has_flag (creation_flags fa_) _).
      * apply (le_encode_mod 4).
      * reflexivity.
      * reflexivity.
      * reflexivity.
  - unfold fs1.
    rewrite (insert_insert_ne fs name_recovery name_onion) by done.
    by rewrite insert_insert_eq.
Qed.

Lemma stored_revision_count_size data addr size :
  stored_revision_count cksum data addr size = Some 0 -> size = 20.
Proof.
  unfold stored_revision_count. destruct (_ <? _); [done|]. cbv zeta.
  pose proof (whole_history_decode_checksum
                (take (Z.to_nat size) (drop (Z.to_nat addr) data))) as H.
  destruct (H5FD_onion_whole_history_decode cksum _ whs_blank) as [ret whs].
  cbn [fst snd] in H.
  destruct (Z.eqb_spec ret 0) as [|Hret]; [done|].
  destruct (Z.eqb_spec ret size) as [->|]; [|done].
  cbn [orb negb]. intros [= Hn]. destruct (H Hret) as (_ & _ & ->).
  rewrite Hn, skip_entries_none. reflexivity.
Qed.

(** C6 (amended).  Opening, without the create or truncate flag, an onion
    file whose header is not write-locked and whose whole-history holds no
    revision.  For the revision LATEST the open succeeds (in read/write
    mode it write-locks the header and copies the whole-history to the
    recovery file) and the file presented has [logi_eof] 0, no revision,
    an empty archival index and no page in the revision index.  When the
    header's [origin_eof] is 0 and the page size of the header is the one
    of the FAPL information (a 32-bit power of two), every read inside the
    addressable range returns as many bytes as were asked for, all of them
    zero; the length of the read plus one page has to fit 64 bits, as the
    page count is computed from that sum.  For any other revision, 0
    included, the open fails with (H5E_ARGS, H5E_BADVALUE) and leaves the
    backing store as it was. *)
Theorem open_unwritten_file (env : environment) (filename : string)
  (flags : Z) (fa_ : H5FD_onion_fapl_info_t) (fs : filesystem)
  (canon_data onion_data : list Z) (hdr : H5FD__onion_history_header) :
  fa_magic fa_ = H5FD_ONION_FAPL_INFO_MAGIC ->
  store_target fa_ = H5FD_ONION_STORE_TARGET_ONION ->
  POWER_OF_TWO (fa_page_size fa_) = true ->
  0 <= fa_revision_id fa_ ->
  has_flag flags (Z.lor H5F_ACC_CREAT H5F_ACC_TRUNC) = false ->
  fs !! filename = Some canon_data ->
  fs !! (filename +:+ ".onion")%string = Some onion_data ->
  stored_header cksum onion_data = Some hdr ->
  has_flag (hdr_flags hdr) H5FD__ONION_HEADER_FLAG_WRITE_LOCK = false ->
  40 <= hdr_whole_history_addr hdr ->
  stored_revision_count cksum onion_data (hdr_whole_history_addr hdr)
    (hdr_whole_history_size hdr) = Some 0 ->
  let name_onion := (filename +:+ ".onion")%string in
  let name_recovery := (name_onion +:+ ".recovery")%string in
  let r := H5FD__onion_open cksum env filename flags (Some fa_) fs in
  if fa_revision_id fa_ =? H5FD_ONION_FAPL_INFO_REVISION_ID_LATEST then
    exists file,
      fst r = inr file
      /\ snd r
         = (if has_flag flags H5F_ACC_RDWR
            then <[name_onion :=
                     encoded_header cksum (write_locked hdr)
                     ++ drop 40 onion_data]>
                   (<[name_recovery :=
                        encoded_whole_history cksum whs_blank]> fs)
            else fs)
      /\ is_open_rw file = has_flag flags H5F_ACC_RDWR
      /\ logi_eof file = 0
      /\ origin_eof file = hdr_origin_eof hdr
      /\ whs_n_revisions (summary file) = 0
      /\ aix_n_entries (archival_index (rev_record file)) = 0
      /\ (forall page, live_find file page = None)
      /\ (hdr_origin_eof hdr = 0 ->
          hdr_page_size hdr = fa_page_size fa_ ->
          0 < fa_page_size fa_ < 2 ^ 32 ->
          forall eoa offset len,
            0 <= len -> len + fa_page_size fa_ <= 2 ^ 64 ->
            u64 (offset + len) <= eoa ->
            H5FD__onion_read (H5FD__onion_set_eoa file eoa) (snd r)
              offset len = inr (replicate (Z.to_nat len) 0))
  else r = (inl (H5E_ARGS, H5E_BADVALUE), fs).
Proof.
  intros Hmagic Htarget Hps Hrev Hflags Hcanon Honion Hhdr Hlock Haddr Hwhs
    name_onion name_recovery r.
  assert (Hne : name_recovery <> name_onion) by (by apply append_neq).
  destruct (has_flag_lor _ _ _ Hflags) as [Hcreat Htrunc].
  pose proof (stored_revision_count_size _ _ _ Hwhs) as Hsize.
  destruct (revision_index_init_is_Some _ Hps) as [rix Hrix].
  eassert (Hr : r = if fa_revision_id fa_
                       =? H5FD_ONION_FAPL_INFO_REVISION_ID_LATEST
                    then (inr (if has_flag flags H5F_ACC_RDWR then _ else _),
                          if has_flag flags H5F_ACC_RDWR
                          then <[name_onion :=
                                   encoded_header cksum (write_locked hdr)
                                   ++ drop 40 onion_data]>
                                 (<[name_recovery :=
                                      encoded_whole_history cksum whs_blank]>
                                    fs)
                          else fs)
                    else (inl (H5E_ARGS, H5E_BADVALUE), fs)).
  { subst r. unfold H5FD__onion_open, H5Pget_fapl_onion.
    rewrite Hmagic, Z.eqb_refl. cbn [negb]. rewrite Htarget.
    unfold open_body. rewrite Hflags.
    unfold open_existing.
    msimpl.
    rewrite (open_backing_existing _ _ _ _ _ Hcanon Htrunc). msimpl.
    rewrite (open_backing_existing _ _ _ _ _ Honion Htrunc). msimpl.
    erewrite injest_history_header_stored
      by first [exact Honion | exact Hhdr | done].
    msimpl. rewrite Hlock. msimpl.
    erewrite injest_whole_history_stored
      by first [exact Honion | exact Hwhs | done | lia].
    msimpl.
    destruct (Z.geb_spec (fa_revision_id fa_) 0) as [_|]; [|lia].
    cbn [andb].
    destruct (fa_revision_id fa_ =? H5FD_ONION_FAPL_INFO_REVISION_ID_LATEST);
      cbn [negb]; msimpl; [|reflexivity].
    change (0 >? 0) with false. cbn match. msimpl.
    destruct (has_flag flags H5F_ACC_RDWR) eqn:Hrdwr.
    - unfold reraise.
      erewrite (open_rw_unwritten flags _ _ name_recovery
                  {| fd_name := name_onion;
                     fd_eoa := hdr_whole_history_addr hdr
                               + hdr_whole_history_size hdr |} onion_data)
        by first [ exact Hlock | exact Honion | exact Hne | exact Hps
                 | exact Hsize | reflexivity | cbn [fd_eoa]; lia ].
      msimpl2.
      rewrite (has_flag_lor_l _ _ _ Hrdwr). rewrite copy_comment_step.
      msimpl2. rewrite Hrix. reflexivity.
    - msimpl. 
      assert (Hall : has_flag flags
                (Z.lor H5F_ACC_RDWR (Z.lor H5F_ACC_CREAT H5F_ACC_TRUNC))
              = false).
      { revert Hrdwr Hflags. unfold has_flag.
        rewrite !negb_false_iff, !Z.eqb_eq,
          (Z.land_lor_distr_r flags H5F_ACC_RDWR).
        intros -> ->. reflexivity. }
      rewrite Hall. msimpl. reflexivity. }
  clearbody r. rewrite Hr. clear Hr.
  destruct (fa_revision_id fa_ =? H5FD_ONION_FAPL_INFO_REVISION_ID_LATEST);
    [|reflexivity].
  cbn [fst snd]. eexists. split; [reflexivity|]. split; [reflexivity|].
  match goal with |- is_open_rw ?f = _ /\ _ => set (file := f) end.
  assert (Hfile : is_open_rw file = has_flag flags H5F_ACC_RDWR
                  /\ logi_eof file = 0
                  /\ origin_eof file = hdr_origin_eof hdr
                  /\ whs_n_revisions (summary file) = 0
                  /\ aix_n_entries (archival_index (rev_record file)) = 0
                  /\ rev_index file
                     = (if has_flag flags H5F_ACC_RDWR then Some rix
                        else None)
                  /\ hdr_page_size (header file) = hdr_page_size hdr
                  /\ aix_page_size_log2 (archival_index (rev_record file))
                     = page_size_to_log2 (fa_page_size fa_)).
  { unfold file.
    destruct (has_flag flags H5F_ACC_RDWR),
      (has_flag (hdr_flags hdr) H5FD__ONION_HEADER_FLAG_PAGE_ALIGNMENT);
      split_conj; try reflexivity; by destruct hdr. }
  clearbody file.
  destruct Hfile as (Hrw & Hl & Ho & Hwn & Hn & Hri & Hfps & Hflog).
  assert (Hlive : forall page, live_find file page = None).
  { intros page. unfold live_find. rewrite Hrw, Hri.
    destruct (has_flag flags H5F_ACC_RDWR); [|done].
    by apply (revision_index_find_fresh (fa_page_size fa_)). }
  split_conj; try done.
  intros Hzero Hsame Hrange eoa offset len Hlen Hmax Hin.
  pose proof (POWER_OF_TWO_log2 (fa_page_size fa_) ltac:(lia) Hps) as Hpow.
  pose proof (log2_lt_32 _ Hrange) as Hk.
  destruct (page_size_cases _ Hk) as [Hlog _].
  rewrite <- Hpow in Hlog.
  unfold H5FD__onion_set_eoa.
  apply (read_unwritten _ _ (Z.log2 (fa_page_size fa_))).
  - intros page. rewrite <- (Hlive page). by destruct file.
  - rewrite <- Hn. by destruct file.
  - rewrite <- Hzero, <- Ho. by destruct file.
  - exact Hk.
  - rewrite <- Hpow, <- Hsame, <- Hfps. by destruct file.
  - rewrite <- Hlog, <- Hflog. by destruct file.
  - exact Hlen.
  - rewrite <- Hpow. exact Hmax.
  - by destruct file.
Qed.

End Opening.

Lemma open_refuses_write_locked_file_witness :
  H5FD__onion_open fletcher32 sample_env "f.h5" H5F_ACC_RDWR
    (Some (sample_fapl 0)) created_store
  = (inl (H5E_VFL, H5E_UNSUPPORTED), created_store).
Proof.
  apply (open_refuses_write_locked_file fletcher32 sample_env "f.h5"
           H5F_ACC_RDWR (sample_fapl 0) created_store
           (default [] (created_store !! "f.h5"%string))
           (default [] (created_store !! "f.h5.onion"%string))
           (default header_blank
              (stored_header fletcher32
                 (default [] (created_store !! "f.h5.onion"%string)))));
    vm_compute; reflexivity.
Defined.

(** *** Writing a page *)

(** Reads and writes below the end-of-addressable mark are served. *)
Lemma H5FDread_inside (h : H5FD_t) (addr size : Z) (fs : filesystem) data :
  fs !! fd_name h = Some data -> addr + size <= fd_eoa h ->
  is_Some (H5FDread h addr size fs).
Proof.
  intros Hfs He. unfold H5FDread.
  destruct (size =? 0); [done|].
  destruct (Z.gtb_spec (addr + size) (fd_eoa h)); [lia|].
  by rewrite Hfs.
Qed.

Lemma H5FDwrite_inside (h : H5FD_t) (addr size : Z) buf (fs : filesystem) data :
  fs !! fd_name h = Some data -> addr + size <= fd_eoa h ->
  is_Some (H5FDwrite h addr size buf fs).
Proof.
  intros Hfs He. unfold H5FDwrite.
  destruct (size =? 0); [done|].
  destruct (Z.gtb_spec (addr + size) (fd_eoa h)); [lia|].
  by rewrite Hfs.
Qed.

(** One turn of the page loop of H5FD__onion_write, given the answer of
    the lookup in the revision index.  When the lookup finds the page, the
    revision index, the end of the onion file's allocation and
    [history_eof] are left as they were, and the page image is written at
    the [phys_addr] of the entry found.  When it does not, a successful
    turn writes the page image at the old [history_eof], inserts the entry
    (page, old [history_eof]) and advances [history_eof] by one page.  In
    both cases the turn does succeed when the backing store can serve
    it. *)
Lemma write_page_slot_discipline
  (offset n_pages page_size page_size_log2 page_0 i : Z) (st : write_state)
  (rix : H5FD__onion_revision_index_t) (onion : H5FD_t) :
  rev_index (w_file st) = Some rix ->
  backing_onion (w_file st) = Some onion ->
  let page_i := u64 (page_0 + i) in
  let eof := history_eof (w_file st) in
  let gap_head := page_gap_head offset page_size_log2 i in
  let gap_tail :=
    page_gap_tail n_pages page_size (w_bytes_to_write st) gap_head i in
  let ret :=
    fst (write_page offset n_pages page_size page_size_log2 page_0 i st) in
  let st' :=
    snd (write_page offset n_pages page_size page_size_log2 page_0 i st) in
  match H5FD_onion_revision_index_find rix page_i with
  | Some e =>
      history_eof (w_file st') = eof
      /\ rev_index (w_file st') = Some rix
      /\ backing_onion (w_file st') = Some onion
      /\ (ret = SUCCEED ->
          exists write_buf,
            H5FDwrite onion (phys_addr e) page_size write_buf (w_fs st)
            = Some (w_fs st'))
      /\ (is_Some (w_fs st !! fd_name onion) ->
          phys_addr e + page_size <= fd_eoa onion ->
          ret = SUCCEED)
  | None =>
      let new_entry := {| logi_page := page_i; phys_addr := eof |} in
      let onion' := H5FD_set_eoa onion (u64 (eof + page_size)) in
      (ret = SUCCEED ->
       history_eof (w_file st') = u64 (eof + page_size)
       /\ (exists rix',
             H5FD_onion_revision_index_insert rix new_entry = (SUCCEED, rix')
             /\ rev_index (w_file st') = Some rix')
       /\ backing_onion (w_file st') = Some onion'
       /\ exists write_buf,
            H5FDwrite onion' eof page_size write_buf (w_fs st)
            = Some (w_fs st'))
      /\ (gap_head = 0 -> gap_tail = 0 ->
          is_Some (w_fs st !! fd_name onion) ->
          0 <= eof + page_size < 2 ^ 64 ->
          fst (H5FD_onion_revision_index_insert rix new_entry) = SUCCEED ->
          ret = SUCCEED)
  end.
Proof.
  intros Hrix Honion page_i eof gh gt ret st'.
  subst ret st'. unfold write_page. fold page_i gh gt.
  set (n_used := u64 (page_size - gh - gt)).
  destruct st as [file fs buf bytes_to_write page_buf].
  destruct file as [fa_ bc bo br nr rw pa hdr sm rr ri he oe la le].
  cbn [w_file w_fs w_buf w_page_buf w_bytes_to_write rev_index
       backing_onion history_eof] in *.
  subst ri bo. subst eof.
  destruct (H5FD_onion_revision_index_find rix page_i) as [e|] eqn:Hfind.
  - (* the page is in the revision index: rewritten where it is *)
    set (file := Build_H5FD_onion_t _ _ _ _ _ _ _ _ _ _ _ _ _ _ _).
    assert (Hio : is_Some (fs !! fd_name onion) ->
                  phys_addr e + page_size <= fd_eoa onion ->
                  (exists bytes,
                     read_onion file fs (phys_addr e) page_size = inr bytes)
                  /\ forall b,
                       is_Some (H5FDwrite onion (phys_addr e) page_size b fs)).
    { intros [data Hdata] Hin. split.
      - unfold read_onion. cbn [file backing_onion].
        destruct (H5FDread_inside onion (phys_addr e) page_size _ _
                    Hdata Hin) as [b ->].
        by exists b.
      - intros b. by eapply H5FDwrite_inside. }
    destruct (negb (Z.lor gh gt =? 0)).
    + destruct (read_onion file fs (phys_addr e) page_size)
        as [err|bytes] eqn:Hread.
      * cbn [fst snd w_file w_fs]. split_conj; try done.
        intros Hfs Hin. destruct (Hio Hfs Hin) as [[b Hb] _]. congruence.
      * destruct (H5FDwrite onion (phys_addr e) page_size _ fs)
          as [fs'|] eqn:Hw;
          cbn [fst snd w_file w_fs]; split_conj; try done.
        -- intros _. eexists. exact Hw.
        -- intros Hfs Hin. destruct (Hio Hfs Hin) as [_ Hwr].
           destruct (Hwr (memcpy_at (memcpy_at page_buf 0 bytes page_size)
                            0 buf n_used)) as [x Hx].
           congruence.
    + destruct (H5FDwrite onion (phys_addr e) page_size _ fs)
        as [fs'|] eqn:Hw;
        cbn [fst snd w_file w_fs]; split_conj; try done.
      * intros _. eexists. exact Hw.
      * intros Hfs Hin. destruct (Hio Hfs Hin) as [_ Hwr].
        destruct (Hwr buf) as [x Hx]. congruence.
  - (* the page is not in the revision index: a new slot at history_eof *)
    cbn [set_backing_onion set_rev_index set_history_eof history_eof].
    cbv zeta.
    set (new_entry := {| logi_page := page_i; phys_addr := he |}).
    set (onion' := H5FD_set_eoa onion (u64 (he + page_size))).
    destruct (H5FD_onion_revision_index_insert rix new_entry)
      as [r rix'] eqn:Hins.
    split.
    + destruct (negb (gh =? 0) || negb (gt =? 0)).
      * destruct (seed_page_buf _ fs page_i page_size gh gt page_buf)
          as [err|seeded]; [done|].
        destruct (H5FDwrite onion' he page_size _ fs) as [fs'|] eqn:Hw;
          [|done].
        destruct r; cbn [is_fail fst snd w_file w_fs history_eof rev_index
                         backing_onion]; [|done].
        intros _. split_conj; try done; eauto.
      * destruct (H5FDwrite onion' he page_size _ fs) as [fs'|] eqn:Hw;
          [|done].
        destruct r; cbn [is_fail fst snd w_file w_fs history_eof rev_index
                         backing_onion]; [|done].
        intros _. split_conj; try done; eauto.
    + intros -> -> [data Hdata] Hrange Hr. cbn [fst] in Hr. subst r.
      change (negb (0 =? 0) || negb (0 =? 0)) with false. cbn match.
      destruct (H5FDwrite_inside onion' he page_size buf fs data) as [fs' ->].
      * done.
      * unfold onion', H5FD_set_eoa, u64. cbn [fd_eoa].
        rewrite Z.mod_small by lia. lia.
      * done.
Qed.

Example write_page_slot_discipline_on_rewrite :
  let st := rewrite_state in
  let st' := snd (write_page 512 1 512 9 1 0 st) in
  fst (write_page 512 1 512 9 1 0 st) = SUCCEED
  /\ history_eof (w_file st') = history_eof (w_file st)
  /\ rev_index (w_file st') = Some rewrite_index
  /\ backing_onion (w_file st') = Some rewrite_onion.
Proof.
  cbv zeta.
  assert (Hrix : rev_index (w_file rewrite_state) = Some rewrite_index)
    by (vm_compute; reflexivity).
  assert (Honion : backing_onion (w_file rewrite_state) = Some rewrite_onion)
    by (vm_compute; reflexivity).
  assert (Hfind : H5FD_onion_revision_index_find rewrite_index (u64 (1 + 0))
                  = Some {| logi_page := 1; phys_addr := 40 |})
    by (vm_compute; reflexivity).
  pose proof (write_page_slot_discipline 512 1 512 9 1 0 rewrite_state
                rewrite_index rewrite_onion Hrix Honion) as H.
  cbv zeta in H. rewrite Hfind in H.
  destruct H as (H1 & H2 & H3 & _ & H5).
  split; [|split; [exact H1|split; [exact H2|exact H3]]].
  apply H5; [eexists; vm_compute; reflexivity|vm_compute; discriminate].
Defined.

(** C9 (code defect).  The claim: a write to a page that is already in the
    session's revision index rewrites the page where it is and allocates
    no new slot.  The code: in [crowded_session] page 3072 has been written
    once, to the slot at 42, and [history_eof] stands at 1068; the doubling
    of the hash table has left its entry in a bucket where the lookup does
    not look (the defect shown for C4), so writing page 3072 again
    allocates a second slot at 1068, moves [history_eof] to 1070 and leaves
    two entries for the page in the index.  Page 1024, whose entry the
    doubling did move, is rewritten in place. *)
Theorem rewrite_after_resize_allocates_new_slot :
  let again := write_page_in_full crowded_session 3072 in
  let in_place := write_page_in_full crowded_session 1024 in
  fst (fst crowded_session) = SUCCEED
  /\ history_eof (snd (fst crowded_session)) = 1068
  /\ nodes_of_page (session_rev_index crowded_session) 3072
     = [entry 3072 42]
  /\ fst (fst again) = SUCCEED
  /\ history_eof (snd (fst again)) = 1070
  /\ nodes_of_page (session_rev_index again) 3072
     = [entry 3072 42; entry 3072 1068]
  /\ fst (fst in_place) = SUCCEED
  /\ history_eof (snd (fst in_place)) = 1068
  /\ nodes_of_page (session_rev_index in_place) 1024 = [entry 1024 40].
Proof. by_computation. Qed.

(** *** The two open theorems on concrete stores *)

(** C6, the claim as stated fails.  [unwritten_store] holds an onion file
    with a header that is not write-locked and a whole-history of zero
    revisions; opening it at revision 0 fails. *)
Lemma open_unwritten_file_at_revision_0_fails :
  stored_revision_count fletcher32 unwritten_onion_file
    (hdr_whole_history_addr unwritten_header)
    (hdr_whole_history_size unwritten_header) = Some 0
  /\ H5FD__onion_open fletcher32 sample_env "f.h5" H5F_ACC_RDONLY
       (Some (sample_fapl 0)) unwritten_store
     = (inl (H5E_ARGS, H5E_BADVALUE), unwritten_store).
Proof. split; vm_compute; reflexivity. Qed.

Lemma open_unwritten_file_witness :
  exists file,
    fst (H5FD__onion_open fletcher32 sample_env "f.h5" H5F_ACC_RDONLY
           (Some latest_fapl) unwritten_store) = inr file
    /\ logi_eof file = 0
    /\ forall eoa offset len,
         0 <= len -> len + 512 <= 2 ^ 64 ->
         u64 (offset + len) <= eoa ->
         H5FD__onion_read (H5FD__onion_set_eoa file eoa) unwritten_store
           offset len = inr (replicate (Z.to_nat len) 0).
Proof.
  pose proof (open_unwritten_file fletcher32 sample_env "f.h5"
                H5F_ACC_RDONLY latest_fapl unwritten_store [1; 2; 3]
                unwritten_onion_file unwritten_header
                eq_refl eq_refl eq_refl
                ltac:(vm_compute; discriminate)
                eq_refl eq_refl eq_refl
                ltac:(vm_compute; reflexivity)
                ltac:(vm_compute; reflexivity)
                ltac:(vm_compute; discriminate)
                ltac:(vm_compute; reflexivity)) as H.
  cbv zeta in H.
  change (fa_revision_id latest_fapl
          =? H5FD_ONION_FAPL_INFO_REVISION_ID_LATEST) with true in H.
  change (has_flag H5F_ACC_RDONLY H5F_ACC_RDWR) with false in H.
  cbv iota in H.
  destruct H as (file & Hfile & Hstore & _ & Heof & _ & _ & _ & _ & Hread).
  exists file. split; [exact Hfile|]. split; [exact Heof|].
  rewrite Hstore in Hread. intros eoa offset len Hlen Hmax Hin.
  apply Hread.
  - vm_compute. reflexivity.
  - vm_compute. reflexivity.
  - change (fa_page_size latest_fapl) with 512. lia.
  - exact Hlen.
  - exact Hmax.
  - exact Hin.
Defined.

(** Why the two page sizes have to agree: with no revision record read,
    H5FD__onion_read takes the page size from the header and its logarithm
    from the FAPL information.  Opened with pages of 4096 bytes, the file
    of [unwritten_store] (pages of 512 bytes) answers a read of 4 bytes
    with no byte at all: the page count (4 + 511) >> 12 is 0. *)
Lemma read_with_two_page_sizes_returns_nothing :
  match H5FD__onion_open fletcher32 sample_env "f.h5" H5F_ACC_RDONLY
          (Some large_page_fapl) unwritten_store with
  | (inr file, fs) =>
      hdr_page_size (header file) = 512
      /\ aix_page_size_log2 (archival_index (rev_record file)) = 12
      /\ H5FD__onion_read (H5FD__onion_set_eoa file 8192) fs 0 4 = inr []
  | (inl _, _) => False
  end.
Proof. vm_compute. split_conj; reflexivity. Qed.

(** C7, the claim as stated fails.  On a store with the canonical file
    "f.h5" and no "f.h5.onion", opening in read/write mode without the
    create or truncate flag succeeds for the revision LATEST, and fails
    with (H5E_ARGS, H5E_BADVALUE) for revision 0; both times the store
    holds afterwards an onion file whose first 40 bytes decode as a
    history header. *)
Lemma open_rw_fabricates_onion_file :
  canonical_only !! "f.h5.onion"%string = None
  /\ has_flag H5F_ACC_RDWR (Z.lor H5F_ACC_CREAT H5F_ACC_TRUNC) = false
  /\ match H5FD__onion_open fletcher32 sample_env "f.h5" H5F_ACC_RDWR
             (Some latest_fapl) canonical_only with
     | (inr file, fs) =>
         is_open_rw file = true
         /\ is_Some (stored_header fletcher32
                       (default [] (fs !! "f.h5.onion"%string)))
     | (inl _, _) => False
     end
  /\ match H5FD__onion_open fletcher32 sample_env "f.h5" H5F_ACC_RDWR
             (Some (sample_fapl 0)) canonical_only with
     | (inl e, fs) =>
         e = (H5E_ARGS, H5E_BADVALUE)
         /\ is_Some (stored_header fletcher32
                       (default [] (fs !! "f.h5.onion"%string)))
     | (inr _, _) => False
     end.
Proof.
  split_conj; try (vm_compute; reflexivity).
  - vm_compute. split; [reflexivity|]. by eexists.
  - vm_compute. split; [reflexivity|]. by eexists.
Qed.

Lemma open_without_onion_file_witness :
  H5FD__onion_open fletcher32 sample_env "f.h5" H5F_ACC_RDWR
    (Some (sample_fapl 0)) canonical_only
  = (inl (H5E_ARGS, H5E_BADVALUE),
     <["f.h5.onion"%string := unwritten_onion_file]>
       (<["f.h5.onion.recovery"%string := []]> canonical_only)).
Proof.
  exact (open_without_onion_file fletcher32 sample_env "f.h5" H5F_ACC_RDWR
           (sample_fapl 0) canonical_only [1; 2; 3] [117; 115; 101; 114]
           eq_refl eq_refl eq_refl eq_refl eq_refl eq_refl
           ltac:(discriminate) eq_refl
           ltac:(vm_compute; discriminate)).
Defined.

(** *** Page sizes *)

(** X1.  For every page size that the driver accepts (a nonzero
    32-bit power of two), the loop that computes the base-2 logarithm, used
    by H5FD_onion_revision_index_init, H5FD__onion_open and the record
    decoder, stops below 32 with the exact logarithm: two to that power is
    the page size again. *)
Theorem page_size_to_log2_exact (page_size : Z) :
  0 < page_size < 2 ^ 32 ->
  POWER_OF_TWO page_size = true ->
  0 <= page_size_to_log2 page_size < 32 /\
  2 ^ page_size_to_log2 page_size = page_size.
Proof.
  intros Hr Hp. pose proof (POWER_OF_TWO_log2 page_size ltac:(lia) Hp) as He.
  pose proof (log2_lt_32 _ Hr) as Hk.
  destruct (page_size_cases _ Hk) as [Hl _].
  rewrite He, Hl. rewrite <- He. auto.
Qed.

Lemma page_size_to_log2_exact_witness :
  0 <= page_size_to_log2 4096 < 32 /\ 2 ^ page_size_to_log2 4096 = 4096.
Proof. apply page_size_to_log2_exact; [lia | reflexivity]. Defined.

Lemma u32_land_r a b : 0 <= b < 2 ^ 32 -> Z.land a b = (Z.land a b) mod 2 ^ 32.
Proof.
  intros Hb. rewrite <- Z.land_ones by lia. rewrite <- Z.land_assoc.
  rewrite (Z.land_ones b) by lia. rewrite (Z.mod_small b) by lia. reflexivity.
Qed.

(** X2.  The rounding of the history end to a page boundary never
    yields 4 GiB or more, whatever the history end and the page size: the
    mask [~(page_size - 1)] is computed on 32 bits and then widened with
    zeroes, so the upper 32 bits of the 64-bit history end are cleared. *)
Theorem page_align_below_4GiB (eof page_size : Z) :
  0 <= page_align eof page_size < 2 ^ 32.
Proof.
  unfold page_align. rewrite u32_land_r by (unfold u32; apply Z.mod_pos_bound; lia).
  apply Z.mod_pos_bound. lia.
Qed.

Lemma page_align_pow2 eof k :
  0 <= k < 32 -> 0 <= eof -> eof + 2 ^ k <= 2 ^ 32 ->
  page_align eof (2 ^ k) = (eof + 2 ^ k - 1) / 2 ^ k * 2 ^ k.
Proof.
  intros Hk Heof Hle. unfold page_align.
  assert (Hp : 0 < 2 ^ k) by (apply Z.pow_pos_nonneg; lia).
  assert (Hp32 : 2 ^ k < 2 ^ 32) by (apply Z.pow_lt_mono_r; lia).
  assert (H1 : u32 (2 ^ k - 1) = Z.ones k).
  { unfold u32. rewrite Z.mod_small by lia. rewrite Z.ones_equiv. lia. }
  rewrite H1. unfold u32 at 1.
  rewrite <- (Z.land_ones (Z.lnot _)) by lia.
  rewrite Z.land_assoc, <- Z.ldiff_land, Z.ldiff_ones_r by lia.
  rewrite Z.land_ones by lia.
  rewrite Z.shiftr_div_pow2, Z.shiftl_mul_pow2 by lia.
  assert (Hx : u64 (eof + Z.ones k) = eof + 2 ^ k - 1).
  { unfold u64. rewrite Z.ones_equiv. rewrite Z.mod_small; lia. }
  rewrite Hx.
  apply Z.mod_small.
  pose proof (Z.mul_div_le (eof + 2 ^ k - 1) (2 ^ k) Hp).
  assert (0 <= (eof + 2 ^ k - 1) / 2 ^ k) by (apply Z.div_pos; lia).
  nia.
Qed.

(** X3.  Below 4 GiB the rounding is the intended one: for a
    page size that is a power of two and a history end with
    [eof + page_size <= 2^32], the result is the least multiple of the page
    size that is not below [eof]. *)
Theorem page_align_rounds_up (eof page_size : Z) :
  0 < page_size < 2 ^ 32 ->
  POWER_OF_TWO page_size = true ->
  0 <= eof -> eof + page_size <= 2 ^ 32 ->
  (page_align eof page_size) mod page_size = 0 /\
  eof <= page_align eof page_size < eof + page_size.
Proof.
  intros Hr Hp Heof Hle.
  pose proof (POWER_OF_TWO_log2 page_size ltac:(lia) Hp) as He.
  pose proof (log2_lt_32 _ Hr) as Hk.
  rewrite He in Hle |- *. rewrite page_align_pow2 by lia.
  set (p := 2 ^ Z.log2 page_size) in *.
  assert (Hpos : 0 < p) by lia.
  split; [apply Z.mod_mul; lia|].
  pose proof (Z.mul_div_le (eof + p - 1) p Hpos).
  pose proof (Z.mul_succ_div_gt (eof + p - 1) p Hpos).
  lia.
Qed.

Lemma page_align_rounds_up_witness :
  (page_align 40 512) mod 512 = 0 /\ 40 <= page_align 40 512 < 40 + 512.
Proof. apply page_align_rounds_up; [lia | reflexivity | lia | lia]. Defined.

(** *** Archival index *)

Lemma strictly_ascending_spec prev l :
  strictly_ascending prev l = true <->
  (forall (i : nat) e, l !! i = Some e -> prev < logi_page e) /\
  pages_ascending l.
Proof.
  revert prev. induction l as [|x l IH]; intros prev; simpl.
  - split; [intros _|reflexivity].
    split; [intros i e H | intros i j e1 e2 _ H]; discriminate.
  - rewrite andb_true_iff, Z.ltb_lt, IH. split.
    + intros (Hx & Hl & Ha). split.
      * intros [|i] e H; simpl in H; [congruence|].
        specialize (Hl _ _ H). lia.
      * intros [|i] [|j] e1 e2 Hij H1 H2; simpl in *; try lia.
        -- inversion H1; subst. eauto.
        -- eapply (Ha i j); eauto; lia.
    + intros (Hp & Ha). split_and!.
      * apply (Hp 0%nat). reflexivity.
      * intros i e H. apply (Ha 0%nat (S i)); [lia|reflexivity|exact H].
      * intros i j e1 e2 Hij H1 H2. apply (Ha (S i) (S j)); [lia|exact H1|exact H2].
Qed.

Lemma pages_ascending_cons x l :
  pages_ascending (x :: l) <-> strictly_ascending (logi_page x) l = true.
Proof.
  rewrite strictly_ascending_spec. split.
  - intros Ha. split.
    + intros i e H. apply (Ha 0%nat (S i)); [lia|reflexivity|exact H].
    + intros i j e1 e2 Hij H1 H2. apply (Ha (S i) (S j)); [lia|exact H1|exact H2].
  - intros (Hp & Ha) [|i] [|j] e1 e2 Hij H1 H2; simpl in *; try lia.
    + inversion H1; subst. eauto.
    + eapply (Ha i j); eauto; lia.
Qed.

Lemma archival_index_is_valid_spec (aix : H5FD__onion_archival_index) :
  H5FD_onion_archival_index_is_valid aix = true <->
  aix_magic aix = H5FD__ONION_ARCHIVAL_INDEX_MAGIC /\
  aix_version aix = H5FD__ONION_ARCHIVAL_INDEX_VERSION_CURR /\
  exists l, aix_list aix = Some l /\
            pages_ascending (take (Z.to_nat (aix_n_entries aix)) l).
Proof.
  unfold H5FD_onion_archival_index_is_valid.
  destruct (Z.eqb_spec (aix_magic aix) H5FD__ONION_ARCHIVAL_INDEX_MAGIC);
    simpl; [|split; [discriminate | tauto]].
  destruct (Z.eqb_spec (aix_version aix)
              H5FD__ONION_ARCHIVAL_INDEX_VERSION_CURR);
    simpl; [|split; [discriminate | tauto]].
  destruct (aix_list aix) as [l|].
  2:{ split; [discriminate|]. intros (_ & _ & l & H & _). discriminate. }
  destruct (take _ l) as [|x l'] eqn:Ht.
  - split; [|reflexivity]. intros _. split_and!; try assumption.
    exists l. split; [reflexivity|]. rewrite Ht.
    intros i j e1 e2 _ H. discriminate.
  - rewrite <- pages_ascending_cons. split.
    + intros H. split_and!; try assumption. exists l. rewrite Ht. auto.
    + intros (_ & _ & l0 & [= <-] & H). rewrite Ht in H. exact H.
Qed.

(** X4.  H5FD_onion_archival_index_is_valid accepts an index exactly when
    the magic and the version are the expected ones, the list is allocated
    and the page numbers of its first [n_entries] entries are strictly
    ascending.  Nothing else is looked at: neither the page size nor the
    addresses. *)
Theorem archival_index_is_valid_iff (aix : H5FD__onion_archival_index) :
  H5FD_onion_archival_index_is_valid aix = true <->
  aix_magic aix = H5FD__ONION_ARCHIVAL_INDEX_MAGIC /\
  aix_version aix = H5FD__ONION_ARCHIVAL_INDEX_VERSION_CURR /\
  exists l, aix_list aix = Some l /\
            pages_ascending (take (Z.to_nat (aix_n_entries aix)) l).
Proof. apply archival_index_is_valid_spec. Qed.

Section ArchivalFind.

Variable aix : H5FD__onion_archival_index.
Variable l : list H5FD__onion_index_entry.
Hypothesis Hlist : aix_list aix = Some l.
Hypothesis Hlen : aix_n_entries aix <= Z.of_nat (length l).
Hypothesis Hmax : 0 <= aix_n_entries aix < 2 ^ 64.

Lemma aix_at_lookup i :
  0 <= i < aix_n_entries aix ->
  take (Z.to_nat (aix_n_entries aix)) l !! Z.to_nat i = Some (aix_at aix i).
Proof.
  intros Hi. unfold aix_at. rewrite Hlist. simpl.
  rewrite lookup_take_lt by lia.
  destruct (lookup_lt_is_Some_2 l (Z.to_nat i) ltac:(lia)) as [e He].
  rewrite He. reflexivity.
Qed.

Lemma archival_find_loop_sound fuel logi low high n range :
  0 <= low <= high -> high < aix_n_entries aix -> range = high - low ->
  match archival_find_loop fuel aix logi low high n range with
  | inl x =>
      exists i, low <= i <= high /\ x = aix_at aix i /\ logi_page x = logi
  | inr (low', high', _) => low <= low' <= high' /\ high' <= high
  end.
Proof.
  revert low high n range.
  induction fuel as [|fuel IH]; intros low high n range Hlh Hh Hr; simpl.
  - destruct (range >? 0); lia.
  - destruct (Z.gtb_spec range 0) as [Hpos|]; [|lia].
    assert (Hn : u64 (low + range / 2) = low + range / 2).
    { unfold u64. apply Z.mod_small.
      pose proof (Z.div_pos range 2). pose proof (Z.div_lt range 2). lia. }
    rewrite Hn. set (m := low + range / 2).
    assert (Hm : low <= m < high).
    { unfold m. pose proof (Z.div_pos range 2).
      pose proof (Z.div_lt range 2). lia. }
    destruct (Z.eqb_spec (logi_page (aix_at aix m)) logi) as [He|Hne].
    + exists m. split_and!; auto; lia.
    + destruct (logi_page (aix_at aix m) <? logi).
      * destruct (Z.eqb_spec m high); [lia|].
        assert (Hu : u64 (m + 1) = m + 1)
          by (unfold u64; apply Z.mod_small; lia).
        rewrite Hu, (u64_small (high - (m + 1))) by lia.
        specialize (IH (m + 1) high m (high - (m + 1))
                      ltac:(lia) ltac:(lia) eq_refl).
        destruct archival_find_loop as [x|[[low' high'] n']].
        -- destruct IH as (i & Hi & Hx). exists i. split; [lia|exact Hx].
        -- lia.
      * destruct (Z.eqb_spec m low) as [->|Hml].
        -- rewrite Z.sub_diag. change (u64 0) with 0.
           specialize (IH low low low 0 ltac:(lia) ltac:(lia) ltac:(lia)).
           destruct archival_find_loop as [x|[[low' high'] n']].
           ++ destruct IH as (i & Hi & Hx). exists i. split; [lia|exact Hx].
           ++ lia.
        -- assert (Hu : u64 (m - 1) = m - 1)
             by (unfold u64; apply Z.mod_small; lia).
           rewrite Hu, (u64_small (m - 1 - low)) by lia.
           specialize (IH low (m - 1) m (m - 1 - low)
                         ltac:(lia) ltac:(lia) eq_refl).
           destruct archival_find_loop as [x|[[low' high'] n']].
           ++ destruct IH as (i & Hi & Hx). exists i. split; [lia|exact Hx].
           ++ lia.
Qed.

Lemma aix_at_elem i :
  0 <= i < aix_n_entries aix ->
  aix_at aix i ∈ take (Z.to_nat (aix_n_entries aix)) l.
Proof. intros Hi. eapply list_elem_of_lookup_2, aix_at_lookup, Hi. Qed.

Lemma archival_index_find_sound_aux logi e :
  H5FD_onion_archival_index_find aix logi = Some e ->
  logi_page e = logi /\ e ∈ take (Z.to_nat (aix_n_entries aix)) l.
Proof.
  unfold H5FD_onion_archival_index_find.
  destruct (Z.eqb_spec (aix_n_entries aix) 0) as [|Hn0]; [discriminate|].
  pose proof (Zle_0_nat (length l)).
  assert (Hh : u64 (aix_n_entries aix - 1) = aix_n_entries aix - 1)
    by (unfold u64; apply Z.mod_small; lia).
  rewrite Hh.
  destruct (_ >? _); [discriminate|]. destruct (_ <? _); [discriminate|].
  pose proof (archival_find_loop_sound
                (Z.to_nat (aix_n_entries aix - 1)) logi 0
                (aix_n_entries aix - 1) 0 (aix_n_entries aix - 1)
                ltac:(lia) ltac:(lia) ltac:(lia)) as Hloop.
  destruct archival_find_loop as [x|[[low' high'] n']].
  - destruct Hloop as (i & Hi & -> & Hp). intros [= <-].
    split; [exact Hp|]. apply aix_at_elem. lia.
  - destruct (_ && _) eqn:Hc; [|discriminate]. intros [= <-].
    apply andb_true_iff in Hc as [_ Hc]. apply Z.eqb_eq in Hc.
    split; [exact Hc|]. apply aix_at_elem. lia.
Qed.

Hypothesis Hasc : pages_ascending (take (Z.to_nat (aix_n_entries aix)) l).

Lemma aix_at_lt i j :
  0 <= i -> i < j -> j < aix_n_entries aix ->
  logi_page (aix_at aix i) < logi_page (aix_at aix j).
Proof.
  intros Hi Hij Hj.
  apply (Hasc (Z.to_nat i) (Z.to_nat j)); [lia| |]; apply aix_at_lookup; lia.
Qed.

Lemma aix_at_page_inj i j :
  0 <= i < aix_n_entries aix -> 0 <= j < aix_n_entries aix ->
  logi_page (aix_at aix i) = logi_page (aix_at aix j) -> i = j.
Proof.
  intros Hi Hj He.
  destruct (Z.lt_trichotomy i j) as [H|[H|H]]; [|exact H|].
  - pose proof (aix_at_lt i j ltac:(lia) H ltac:(lia)). lia.
  - pose proof (aix_at_lt j i ltac:(lia) H ltac:(lia)). lia.
Qed.

Lemma archival_find_loop_complete fuel low high n range t :
  0 <= low <= t -> t <= high -> high < aix_n_entries aix ->
  range = high - low -> (Z.to_nat range <= fuel)%nat ->
  (range = 0 -> n <> low) ->
  match archival_find_loop fuel aix (logi_page (aix_at aix t))
          low high n range with
  | inl x => x = aix_at aix t
  | inr (low', high', n') => low' = t /\ high' = t /\ n' <> t
  end.
Proof.
  revert low high n range.
  induction fuel as [|fuel IH]; intros low high n range Hlt Hth Hh Hr Hf Hn;
    simpl.
  - destruct (Z.gtb_spec range 0); lia.
  - destruct (Z.gtb_spec range 0) as [Hpos|]; [|lia].
    assert (Hm : low <= low + range / 2 < high).
    { pose proof (Z.div_pos range 2). pose proof (Z.div_lt range 2). lia. }
    rewrite (u64_small (low + range / 2)) by lia.
    set (m := low + range / 2) in *.
    destruct (Z.eqb_spec (logi_page (aix_at aix m))
                (logi_page (aix_at aix t))) as [He|Hne].
    + f_equal. apply aix_at_page_inj; [lia|lia|exact He].
    + destruct (Z.ltb_spec (logi_page (aix_at aix m))
                  (logi_page (aix_at aix t))) as [Hlt'|Hge].
      * assert (m < t).
        { destruct (Z_lt_le_dec m t) as [|Hle]; [assumption|exfalso].
          destruct (Z.eq_dec m t) as [->|]; [lia|].
          pose proof (aix_at_lt t m ltac:(lia) ltac:(lia) ltac:(lia)). lia. }
        destruct (Z.eqb_spec m high); [lia|].
        rewrite (u64_small (m + 1)), (u64_small (high - (m + 1))) by lia.
        apply IH; lia.
      * assert (t < m).
        { destruct (Z_lt_le_dec t m) as [|Hle]; [assumption|exfalso].
          destruct (Z.eq_dec m t) as [->|]; [lia|].
          pose proof (aix_at_lt m t ltac:(lia) ltac:(lia) ltac:(lia)). lia. }
        destruct (Z.eqb_spec m low); [lia|].
        rewrite (u64_small (m - 1)), (u64_small (m - 1 - low)) by lia.
        apply IH; lia.
Qed.

Lemma archival_index_find_complete_aux e :
  2 <= aix_n_entries aix ->
  e ∈ take (Z.to_nat (aix_n_entries aix)) l ->
  H5FD_onion_archival_index_find aix (logi_page e) = Some e.
Proof.
  intros Hn He. apply list_elem_of_lookup_1 in He as [i Hi].
  pose proof (lookup_lt_Some _ _ _ Hi) as Hlt. rewrite length_take in Hlt.
  assert (Hi' : e = aix_at aix (Z.of_nat i)).
  { rewrite <- (Nat2Z.id i), aix_at_lookup in Hi by lia. congruence. }
  set (t := Z.of_nat i) in *. rewrite Hi'. clear Hi'.
  unfold H5FD_onion_archival_index_find.
  destruct (Z.eqb_spec (aix_n_entries aix) 0) as [|_]; [lia|].
  rewrite (u64_small (aix_n_entries aix - 1)) by lia.
  set (h := aix_n_entries aix - 1).
  assert (Ht : 0 <= t <= h) by (unfold t, h; lia).
  destruct (Z.gtb_spec (logi_page (aix_at aix t)) (logi_page (aix_at aix h))).
  { destruct (Z.eq_dec t h) as [->|]; [lia|].
    pose proof (aix_at_lt t h ltac:(lia) ltac:(lia) ltac:(unfold h; lia)).
    lia. }
  destruct (Z.ltb_spec (logi_page (aix_at aix t)) (logi_page (aix_at aix 0))).
  { destruct (Z.eq_dec t 0) as [->|]; [lia|].
    pose proof (aix_at_lt 0 t ltac:(lia) ltac:(lia) ltac:(unfold h in *; lia)).
    lia. }
  pose proof (archival_find_loop_complete (Z.to_nat h) 0 h 0 h t
                ltac:(lia) ltac:(lia) ltac:(unfold h; lia) ltac:(lia)
                ltac:(lia) ltac:(unfold h; lia)) as Hloop.
  destruct archival_find_loop as [x|[[low' high'] n']].
  - congruence.
  - destruct Hloop as (-> & -> & Hn').
    destruct (Z.eqb_spec n' t); [contradiction|]. simpl.
    rewrite Z.eqb_refl. reflexivity.
Qed.

End ArchivalFind.

(** X5.  H5FD_onion_archival_index_find never invents an entry:
    on an index whose list holds at least [n_entries] entries, whatever
    their order, an entry returned for a page is one of the first
    [n_entries] entries of the list and carries the page asked for. *)
Theorem archival_index_find_sound (aix : H5FD__onion_archival_index)
  (l : list H5FD__onion_index_entry) (logi : Z)
  (e : H5FD__onion_index_entry) :
  aix_list aix = Some l ->
  aix_n_entries aix <= Z.of_nat (length l) ->
  0 <= aix_n_entries aix < 2 ^ 64 ->
  H5FD_onion_archival_index_find aix logi = Some e ->
  logi_page e = logi /\ e ∈ take (Z.to_nat (aix_n_entries aix)) l.
Proof. intros. eapply archival_index_find_sound_aux; eassumption. Qed.

(** X6.  On a valid archival index of two or more entries
    H5FD_onion_archival_index_find finds every entry of the list when asked
    for its page. *)
Theorem archival_index_find_complete (aix : H5FD__onion_archival_index)
  (l : list H5FD__onion_index_entry) (e : H5FD__onion_index_entry) :
  H5FD_onion_archival_index_is_valid aix = true ->
  aix_list aix = Some l ->
  aix_n_entries aix <= Z.of_nat (length l) ->
  2 <= aix_n_entries aix < 2 ^ 64 ->
  e ∈ take (Z.to_nat (aix_n_entries aix)) l ->
  H5FD_onion_archival_index_find aix (logi_page e) = Some e.
Proof.
  intros Hv Hl Hlen Hn He.
  apply archival_index_is_valid_spec in Hv as (_ & _ & l0 & Hl0 & Hasc).
  assert (l0 = l) as -> by congruence.
  eapply archival_index_find_complete_aux; eauto; lia.
Qed.

(** *** Revision index *)

Lemma U64_EXP2_pow k : 0 <= k < 64 -> U64_EXP2 k = 2 ^ k.
Proof.
  intros Hk. unfold U64_EXP2. rewrite Z.shiftl_1_l. apply u64_small.
  split; [apply Z.pow_nonneg; lia | apply Z.pow_lt_mono_r; lia].
Qed.

Lemma pow2_bounds k : 0 <= k < 64 -> 0 < 2 ^ k < 2 ^ 64.
Proof.
  intros Hk. split; [apply Z.pow_pos_nonneg; lia | apply Z.pow_lt_mono_r; lia].
Qed.

(** The bucket of a page in a table of [2 ^ k] buckets. *)
Lemma hash_key k logi :
  0 <= k < 64 ->
  Z.land logi (u64 (2 ^ k - 1)) = logi mod 2 ^ k.
Proof.
  intros Hk. pose proof (pow2_bounds k Hk).
  rewrite u64_small by lia.
  replace (2 ^ k - 1) with (Z.ones k) by (rewrite Z.ones_equiv; lia).
  apply Z.land_ones. lia.
Qed.

Lemma hash_key_range k logi :
  0 <= k < 64 -> (Z.to_nat (logi mod 2 ^ k) < Z.to_nat (2 ^ k))%nat.
Proof.
  intros Hk. pose proof (pow2_bounds k Hk).
  pose proof (Z.mod_pos_bound logi (2 ^ k)). lia.
Qed.

Lemma revision_index_init_ok page_size rix :
  H5FD_onion_revision_index_init page_size = Some rix ->
  revision_index_ok rix /\ _hash_table rix = replicate 1024 [] /\
  _hash_table_size_log2 rix = 10 /\ rix_n_entries rix = 0 /\
  rix_page_size_log2 rix = page_size_to_log2 page_size.
Proof.
  unfold H5FD_onion_revision_index_init.
  destruct (page_size =? 0); [discriminate|].
  destruct (negb _); [discriminate|]. intros H.
  apply (inj Some) in H. subst rix.
  split_and!; try reflexivity.
  unfold revision_index_ok.
  cbn [_hash_table_size_log2 _hash_table_size _hash_table].
  rewrite length_replicate. split_and!; try reflexivity.
  all: unfold H5FD__ONION_REVISION_INDEX_STARTING_SIZE_LOG2; lia.
Qed.

Lemma insert_chain_find e chain chain' b :
  insert_chain e chain = inr (chain', b) ->
  List.find (fun node => logi_page e =? logi_page node) chain' = Some e.
Proof.
  revert chain' b. induction chain as [|node rest IH]; intros chain' b; simpl.
  - intros [= <- <-]. simpl. rewrite Z.eqb_refl. reflexivity.
  - destruct (Z.eqb_spec (logi_page e) (logi_page node)) as [He|Hne].
    + destruct (negb _); [discriminate|]. intros [= <- <-]. simpl.
      rewrite Z.eqb_refl. reflexivity.
    + destruct (insert_chain e rest) as [|[rest' b']]; [discriminate|].
      intros [= <- <-]. simpl.
      destruct (Z.eqb_spec (logi_page e) (logi_page node)); [contradiction|].
      eapply IH. reflexivity.
Qed.

Lemma insert_chain_find_other e chain chain' b page :
  insert_chain e chain = inr (chain', b) ->
  page <> logi_page e ->
  List.find (fun node => page =? logi_page node) chain'
  = List.find (fun node => page =? logi_page node) chain.
Proof.
  intros H Hp. revert chain' b H.
  induction chain as [|node rest IH]; intros chain' b; simpl.
  - intros [= <- <-]. simpl.
    destruct (Z.eqb_spec page (logi_page e)); [contradiction|reflexivity].
  - destruct (Z.eqb_spec (logi_page e) (logi_page node)) as [He|Hne].
    + destruct (negb _); [discriminate|]. intros [= <- <-]. simpl.
      destruct (Z.eqb_spec page (logi_page e)); [contradiction|].
      destruct (Z.eqb_spec page (logi_page node)); [congruence|reflexivity].
    + destruct (insert_chain e rest) as [|[rest' b']]; [discriminate|].
      intros [= <- <-]. simpl.
      destruct (page =? logi_page node); [reflexivity|].
      eapply IH. reflexivity.
Qed.

Lemma insert_chain_perm e chain chain' b :
  insert_chain e chain = inr (chain', b) ->
  length chain' = (if b then S (length chain) else length chain).
Proof.
  revert chain' b. induction chain as [|node rest IH]; intros chain' b; simpl.
  - intros [= <- <-]. reflexivity.
  - destruct (logi_page e =? logi_page node).
    + destruct (negb _); [discriminate|]. intros [= <- <-]. reflexivity.
    + destruct (insert_chain e rest) as [|[rest' b']]; [discriminate|].
      intros [= <- <-]. simpl. rewrite (IH _ _ eq_refl).
      destruct b'; reflexivity.
Qed.

(** Resizing *)

Lemma concat_insert_cons {A} (t : list (list A)) (i : nat) (x : A) b :
  t !! i = Some b ->
  concat (<[i := x :: b]> t) ≡ₚ x :: concat t.
Proof.
  revert i. induction t as [|c t IH]; intros [|i] H; simpl in *;
    try discriminate.
  - inversion H; subst. reflexivity.
  - rewrite (IH _ H). symmetry. apply Permutation_middle.
Qed.

Lemma bucket_lookup (t : list (list H5FD__onion_index_entry)) (i : Z) :
  (Z.to_nat i < length t)%nat -> t !! Z.to_nat i = Some (bucket t i).
Proof.
  intros H. unfold bucket.
  destruct (lookup_lt_is_Some_2 t (Z.to_nat i) H) as [b ->]. reflexivity.
Qed.

Lemma resize_rehash_node_spec k i acc node :
  0 <= k < 64 -> 0 <= i -> (Z.to_nat i < length acc.1)%nat ->
  length acc.1 = Z.to_nat (2 ^ k) ->
  let r := resize_rehash_node (2 ^ k) i acc node in
  length r.1 = length acc.1 /\ concat r.1 ≡ₚ node :: concat acc.1.
Proof.
  intros Hk Hi Hlt Hlen. destruct acc as [t n]. simpl in *.
  unfold resize_rehash_node.
  replace (2 ^ k - 1) with (Z.ones k) by (rewrite Z.ones_equiv; lia).
  rewrite Z.land_ones by lia.
  pose proof (hash_key_range k (logi_page node) Hk) as Hkey.
  rewrite <- Hlen in Hkey.
  destruct (bucket t (logi_page node mod 2 ^ k)) as [|x b] eqn:Hb; simpl.
  - rewrite length_insert. split; [reflexivity|].
    apply concat_insert_cons. rewrite bucket_lookup by assumption.
    rewrite Hb. reflexivity.
  - rewrite length_insert. split; [reflexivity|].
    apply concat_insert_cons. apply bucket_lookup. assumption.
Qed.

Lemma resize_rehash_chain_spec k i chain acc :
  0 <= k < 64 -> 0 <= i -> (Z.to_nat i < length acc.1)%nat ->
  length acc.1 = Z.to_nat (2 ^ k) ->
  let r := foldl (resize_rehash_node (2 ^ k) i) acc chain in
  length r.1 = length acc.1 /\ concat r.1 ≡ₚ chain ++ concat acc.1.
Proof.
  intros Hk Hi. revert acc. induction chain as [|node chain IH];
    intros acc Hlt Hlen; simpl.
  - split; reflexivity.
  - destruct (resize_rehash_node_spec k i acc node Hk Hi Hlt Hlen)
      as [Hl Hp].
    destruct (IH (resize_rehash_node (2 ^ k) i acc node)
                ltac:(rewrite Hl; exact Hlt) ltac:(rewrite Hl; exact Hlen))
      as [Hl' Hp'].
    split; [congruence|]. rewrite Hp', Hp. symmetry. apply Permutation_middle.
Qed.

Lemma resize_rehash_table_spec k i old acc :
  0 <= k < 64 -> 0 <= i ->
  (Z.to_nat i + length old <= length acc.1)%nat ->
  length acc.1 = Z.to_nat (2 ^ k) ->
  let r := resize_rehash_table (2 ^ k) i old acc in
  length r.1 = length acc.1 /\ concat r.1 ≡ₚ concat old ++ concat acc.1.
Proof.
  intros Hk. revert i acc. induction old as [|chain old IH];
    intros i acc Hi Hlt Hlen; simpl.
  - split; reflexivity.
  - simpl in Hlt.
    destruct (resize_rehash_chain_spec k i chain acc Hk Hi
                ltac:(lia) Hlen) as [Hl Hp].
    destruct (IH (i + 1) (foldl (resize_rehash_node (2 ^ k) i) acc chain)
                ltac:(lia) ltac:(rewrite Hl; lia)
                ltac:(rewrite Hl; exact Hlen)) as [Hl' Hp'].
    split; [congruence|]. rewrite Hp', Hp.
    rewrite <- !(assoc_L (++)). rewrite (assoc_L (++) (concat old)).
    rewrite (Permutation_app_comm (concat old) chain).
    rewrite <- (assoc_L (++)). reflexivity.
Qed.

Lemma resize_spec rix :
  revision_index_ok rix -> _hash_table_size_log2 rix < 63 ->
  let rix' := H5FD__onion_revision_index_resize rix in
  revision_index_ok rix' /\
  _hash_table_size_log2 rix' = _hash_table_size_log2 rix + 1 /\
  _hash_table_size rix' = 2 * _hash_table_size rix /\
  rix_n_entries rix' = rix_n_entries rix /\
  rix_magic rix' = rix_magic rix /\ rix_version rix' = rix_version rix /\
  rix_page_size_log2 rix' = rix_page_size_log2 rix /\
  concat (_hash_table rix') ≡ₚ concat (_hash_table rix).
Proof.
  intros (Hk & Hs & Hl) Hk63. unfold H5FD__onion_revision_index_resize.
  set (k := _hash_table_size_log2 rix) in *.
  rewrite (u64_small (k + 1)) by lia.
  rewrite (U64_EXP2_pow (k + 1)) by lia.
  pose proof (pow2_bounds k ltac:(lia)) as Hb.
  pose proof (pow2_bounds (k + 1) ltac:(lia)) as Hb'.
  assert (Hdbl : 2 ^ (k + 1) = 2 * 2 ^ k) by (rewrite Z.pow_add_r; lia).
  rewrite take_ge by lia.
  destruct (resize_rehash_table_spec (k + 1) 0 (_hash_table rix)
              (replicate (Z.to_nat (2 ^ (k + 1))) [], 0) ltac:(lia) ltac:(lia))
    as [Hl' Hp']; simpl.
  { rewrite length_replicate. lia. }
  { apply length_replicate. }
  destruct resize_rehash_table as [new_table n]. simpl in *.
  rewrite length_replicate in Hl'.
  unfold revision_index_ok. simpl. split_and!; try reflexivity; try lia.
  rewrite Hp'.
  assert (Hc : forall n, concat (replicate n ([] : list H5FD__onion_index_entry)) = [])
    by (induction n0; simpl; auto).
  rewrite Hc, app_nil_r. reflexivity.
Qed.

Lemma find_bucket_set k (rix : H5FD__onion_revision_index_t) n m t page :
  _hash_table_size rix = 2 ^ k -> 0 <= k < 64 ->
  H5FD_onion_revision_index_find (rix_set_table rix n m t) page
  = List.find (fun node => page =? logi_page node) (bucket t (page mod 2 ^ k)).
Proof.
  intros Hs Hk. unfold H5FD_onion_revision_index_find.
  cbn [rix_set_table _hash_table_size _hash_table].
  rewrite Hs, hash_key by assumption. reflexivity.
Qed.

Lemma find_bucket k (rix : H5FD__onion_revision_index_t) page :
  _hash_table_size rix = 2 ^ k -> 0 <= k < 64 ->
  H5FD_onion_revision_index_find rix page
  = List.find (fun node => page =? logi_page node)
      (bucket (_hash_table rix) (page mod 2 ^ k)).
Proof.
  intros Hs Hk. unfold H5FD_onion_revision_index_find.
  rewrite Hs, hash_key by assumption. reflexivity.
Qed.

Lemma bucket_insert_eq (t : list (list H5FD__onion_index_entry)) i c :
  (Z.to_nat i < length t)%nat -> bucket (<[Z.to_nat i := c]> t) i = c.
Proof.
  intros H. unfold bucket. rewrite list_lookup_insert_eq by assumption.
  reflexivity.
Qed.

Lemma bucket_insert_ne (t : list (list H5FD__onion_index_entry)) i j c :
  0 <= i -> 0 <= j -> i <> j -> bucket (<[Z.to_nat i := c]> t) j = bucket t j.
Proof.
  intros Hi Hj H. unfold bucket. rewrite list_lookup_insert_ne by lia.
  reflexivity.
Qed.

(** The index on which an insert works: the given one, or the resized one
    when the table is crowded. *)
Lemma insert_spec rix e rix' :
  revision_index_ok rix -> _hash_table_size_log2 rix < 63 ->
  H5FD_onion_revision_index_insert rix e = (SUCCEED, rix') ->
  let rix1 :=
    if (rix_n_entries rix >=? u64 (_hash_table_size rix * 2))
       || (_hash_table_n_keys_populated rix >=? _hash_table_size rix / 2)
    then H5FD__onion_revision_index_resize rix else rix in
  revision_index_ok rix' /\
  _hash_table_size_log2 rix' = _hash_table_size_log2 rix1 /\
  H5FD_onion_revision_index_find rix' (logi_page e) = Some e /\
  forall page, page <> logi_page e ->
    H5FD_onion_revision_index_find rix' page
    = H5FD_onion_revision_index_find rix1 page.
Proof.
  intros Hok0 Hk63 Hins.
  unfold H5FD_onion_revision_index_insert in Hins.
  destruct (negb (rix_magic rix =? _)); [discriminate|].
  destruct (negb (rix_version rix =? _)); [discriminate|].
  cbv zeta in Hins |- *.
  match goal with
  | |- context [if ?c then H5FD__onion_revision_index_resize rix else rix] =>
      set (rix1 := if c then H5FD__onion_revision_index_resize rix else rix)
        in *
  end.
  assert (Hok : revision_index_ok rix1).
  { unfold rix1. destruct (_ || _); [|exact Hok0].
    apply resize_spec; assumption. }
  clearbody rix1. clear Hok0 Hk63. pose proof Hok as (Hk & Hs & Hl).
  set (k := _hash_table_size_log2 rix1) in *.
  rewrite Hs, hash_key in Hins by assumption.
  assert (Hkey : (Z.to_nat (logi_page e mod 2 ^ k)
                  < length (_hash_table rix1))%nat).
  { rewrite Hl, Hs. apply hash_key_range, Hk. }
  pose proof (Z.mod_pos_bound (logi_page e) (2 ^ k)
                ltac:(pose proof (pow2_bounds k Hk); lia)) as Hkb.
  assert (Hother : forall c page, page <> logi_page e ->
            (page mod 2 ^ k = logi_page e mod 2 ^ k ->
             List.find (fun node => page =? logi_page node) c
             = List.find (fun node => page =? logi_page node)
                 (bucket (_hash_table rix1) (logi_page e mod 2 ^ k))) ->
            List.find (fun node => page =? logi_page node)
              (bucket (<[Z.to_nat (logi_page e mod 2 ^ k) := c]>
                         (_hash_table rix1)) (page mod 2 ^ k))
            = H5FD_onion_revision_index_find rix1 page).
  { intros c page Hp Hc. rewrite (find_bucket k rix1 page Hs Hk).
    destruct (Z.eq_dec (page mod 2 ^ k) (logi_page e mod 2 ^ k)) as [He|Hne].
    - rewrite He, bucket_insert_eq by assumption. auto.
    - rewrite bucket_insert_ne; [reflexivity|lia| |congruence].
      apply Z.mod_pos_bound. lia. }
  destruct (bucket (_hash_table rix1) (logi_page e mod 2 ^ k))
    as [|x c] eqn:Hb.
  - inversion Hins; subst rix'; clear Hins.
    split_and!.
    + unfold revision_index_ok. cbn [rix_set_table _hash_table_size_log2
        _hash_table_size _hash_table]. rewrite length_insert. auto.
    + reflexivity.
    + rewrite (find_bucket_set k) by assumption.
      rewrite bucket_insert_eq by assumption. simpl.
      rewrite Z.eqb_refl. reflexivity.
    + intros page Hp. rewrite (find_bucket_set k) by assumption.
      apply Hother; [assumption|]. intros _. simpl.
      destruct (Z.eqb_spec page (logi_page e)); [contradiction|reflexivity].
  - destruct (insert_chain e (x :: c)) as [|[chain' b]] eqn:Hc;
      [discriminate|].
    inversion Hins; subst rix'; clear Hins.
    split_and!.
    + unfold revision_index_ok. cbn [rix_set_table _hash_table_size_log2
        _hash_table_size _hash_table]. rewrite length_insert. auto.
    + reflexivity.
    + rewrite (find_bucket_set k) by assumption.
      rewrite bucket_insert_eq by assumption.
      eapply insert_chain_find, Hc.
    + intros page Hp. rewrite (find_bucket_set k) by assumption.
      apply Hother; [assumption|]. intros _.
      eapply insert_chain_find_other; eassumption.
Qed.

(** X7.  A successful H5FD_onion_revision_index_insert is seen
    by H5FD_onion_revision_index_find: asking the resulting index for the
    page of the inserted entry returns that entry, whether or not the
    insert resized the table; the index keeps its shape. *)
Theorem revision_index_insert_then_find
  (rix rix' : H5FD__onion_revision_index_t) (e : H5FD__onion_index_entry) :
  revision_index_ok rix -> _hash_table_size_log2 rix < 63 ->
  H5FD_onion_revision_index_insert rix e = (SUCCEED, rix') ->
  H5FD_onion_revision_index_find rix' (logi_page e) = Some e /\
  revision_index_ok rix'.
Proof.
  intros Hok Hk Hins.
  destruct (insert_spec rix e rix' Hok Hk Hins) as (H1 & _ & H2 & _). auto.
Qed.

(** X8.  An insert that does not resize the table (fewer than
    twice as many entries as buckets, fewer than half of the buckets
    populated) changes the answer of find for no page other than the one
    inserted. *)
Theorem revision_index_insert_keeps_other_pages
  (rix rix' : H5FD__onion_revision_index_t) (e : H5FD__onion_index_entry)
  (page : Z) :
  revision_index_ok rix -> _hash_table_size_log2 rix < 63 ->
  rix_n_entries rix < u64 (_hash_table_size rix * 2) ->
  _hash_table_n_keys_populated rix < _hash_table_size rix / 2 ->
  H5FD_onion_revision_index_insert rix e = (SUCCEED, rix') ->
  page <> logi_page e ->
  H5FD_onion_revision_index_find rix' page
  = H5FD_onion_revision_index_find rix page.
Proof.
  intros Hok Hk Hn Hp Hins Hne.
  destruct (insert_spec rix e rix' Hok Hk Hins) as (_ & _ & _ & H).
  rewrite (H page Hne).
  destruct (Z.geb_spec (rix_n_entries rix) (u64 (_hash_table_size rix * 2)));
    [lia|].
  destruct (Z.geb_spec (_hash_table_n_keys_populated rix)
              (_hash_table_size rix / 2)); [lia|]. reflexivity.
Qed.

(** X9.  H5FD__onion_revision_index_resize neither drops nor
    duplicates a node: the nodes of the new table are a permutation of the
    nodes of the old one, in a table of twice the size; the entry count is
    unchanged. *)
Theorem revision_index_resize_keeps_every_node
  (rix : H5FD__onion_revision_index_t) :
  revision_index_ok rix -> _hash_table_size_log2 rix < 63 ->
  concat (_hash_table (H5FD__onion_revision_index_resize rix))
    ≡ₚ concat (_hash_table rix) /\
  _hash_table_size (H5FD__onion_revision_index_resize rix)
    = 2 * _hash_table_size rix /\
  length (_hash_table (H5FD__onion_revision_index_resize rix))
    = Z.to_nat (2 * _hash_table_size rix) /\
  rix_n_entries (H5FD__onion_revision_index_resize rix) = rix_n_entries rix.
Proof.
  intros Hok Hk.
  destruct (resize_spec rix Hok Hk)
    as ((_ & _ & Hl) & _ & Hs & Hn & _ & _ & _ & Hp).
  rewrite Hs in Hl. auto.
Qed.

(** X10.  H5FD_onion_revision_index_init returns an index only for a
    page size that is a power of two.  For a 32-bit page size the index
    returned has a table of 2^10 buckets, all of them empty, with its size
    and the logarithm of its size recorded as 1024 and 10 and no bucket
    counted as populated; it holds no entry, records the exact base-2
    logarithm of the page size and finds no page. *)
Theorem revision_index_init_fresh (page_size : Z)
  (rix : H5FD__onion_revision_index_t) (page : Z) :
  0 < page_size < 2 ^ 32 ->
  H5FD_onion_revision_index_init page_size = Some rix ->
  POWER_OF_TWO page_size = true /\
  revision_index_ok rix /\
  _hash_table rix = replicate 1024 [] /\
  _hash_table_size rix = 2 ^ 10 /\
  _hash_table_size_log2 rix = 10 /\
  _hash_table_n_keys_populated rix = 0 /\
  rix_n_entries rix = 0 /\
  2 ^ rix_page_size_log2 rix = page_size /\
  H5FD_onion_revision_index_find rix page = None.
Proof.
  intros Hr H.
  assert (Hp : POWER_OF_TWO page_size = true).
  { unfold H5FD_onion_revision_index_init in H.
    destruct (page_size =? 0); [discriminate|].
    destruct (POWER_OF_TWO page_size); [reflexivity|discriminate]. }
  assert (Hkeys : _hash_table_n_keys_populated rix = 0).
  { unfold H5FD_onion_revision_index_init in H.
    destruct (page_size =? 0); [discriminate|].
    destruct (negb _); [discriminate|].
    apply (inj Some) in H. subst rix. reflexivity. }
  destruct (revision_index_init_ok _ _ H) as (Hok & Ht & Hk & Hn & Hl).
  split_and!; try assumption.
  - destruct Hok as (_ & Hs & _). rewrite Hs, Hk. reflexivity.
  - rewrite Hl. pose proof (POWER_OF_TWO_log2 page_size ltac:(lia) Hp) as He.
    destruct (page_size_cases _ (log2_lt_32 _ Hr)) as [Hlog _].
    rewrite He, Hlog. reflexivity.
  - destruct Hok as (Hk' & Hs & _).
    rewrite (find_bucket _ rix page Hs Hk'), Ht. unfold bucket.
    destruct (replicate 1024 [] !! _) as [c|] eqn:Hc; [|reflexivity].
    apply lookup_replicate in Hc as [-> _]. reflexivity.
Qed.

Lemma insert_success_unfold rix e rix' :
  H5FD_onion_revision_index_insert rix e = (SUCCEED, rix') ->
  let rix1 :=
    if (rix_n_entries rix >=? u64 (_hash_table_size rix * 2))
       || (_hash_table_n_keys_populated rix >=? _hash_table_size rix / 2)
    then H5FD__onion_revision_index_resize rix else rix in
  exists n m t, rix' = rix_set_table rix1 n m t.
Proof.
  unfold H5FD_onion_revision_index_insert.
  destruct (negb (rix_magic rix =? _)); [discriminate|].
  destruct (negb (rix_version rix =? _)); [discriminate|].
  cbv zeta. destruct (bucket _ _).
  - intros [= <-]. eauto.
  - destruct insert_chain as [|[chain' b]]; [discriminate|].
    intros [= <-]. eauto.
Qed.

Lemma pages_nondecreasing_cons x l :
  pages_nondecreasing (x :: l) <->
  (forall y, y ∈ l -> logi_page x <= logi_page y) /\ pages_nondecreasing l.
Proof.
  split.
  - intros H. split.
    + intros y Hy. apply list_elem_of_lookup_1 in Hy as [i Hi].
      apply (H 0%nat (S i)); [lia|reflexivity|exact Hi].
    + intros i j e1 e2 Hij H1 H2.
      apply (H (S i) (S j)); [lia|exact H1|exact H2].
  - intros [Hx Hl] [|i] [|j] e1 e2 Hij H1 H2; simpl in *; try lia.
    + assert (e1 = e2) by congruence. subst. lia.
    + inversion H1; subst. apply Hx. eapply list_elem_of_lookup_2, H2.
    + apply (Hl i j); [lia|exact H1|exact H2].
Qed.

Lemma sort_insert_perm e l : sort_insert e l ≡ₚ e :: l.
Proof.
  induction l as [|x l IH]; simpl; [reflexivity|].
  destruct (logi_page x <? logi_page e); [|reflexivity].
  rewrite IH. apply perm_swap.
Qed.

Lemma HDqsort_perm l : HDqsort l ≡ₚ l.
Proof.
  unfold HDqsort. induction l as [|x l IH]; simpl; [reflexivity|].
  rewrite sort_insert_perm, IH. reflexivity.
Qed.

Lemma sort_insert_sorted e l :
  pages_nondecreasing l -> pages_nondecreasing (sort_insert e l).
Proof.
  induction l as [|x l IH]; intros Hl; simpl.
  - intros [|i] [|j] e1 e2 Hij H1 H2; simpl in *; try discriminate.
    assert (e1 = e2) by congruence. subst. lia.
  - destruct (Z.ltb_spec (logi_page x) (logi_page e)) as [Hle|Hgt].
    + apply pages_nondecreasing_cons in Hl as [Hx Hl].
      apply pages_nondecreasing_cons. split; [|auto].
      intros y Hy. rewrite sort_insert_perm in Hy.
      apply elem_of_cons in Hy as [->|Hy]; [lia|auto].
    + apply pages_nondecreasing_cons. split; [|exact Hl].
      apply pages_nondecreasing_cons in Hl as [Hx Hl].
      intros y Hy. apply elem_of_cons in Hy as [->|Hy]; [lia|].
      specialize (Hx y Hy). lia.
Qed.

Lemma HDqsort_sorted l : pages_nondecreasing (HDqsort l).
Proof.
  unfold HDqsort. induction l as [|x l IH]; simpl.
  - intros i j e1 e2 _ H. discriminate.
  - apply sort_insert_sorted, IH.
Qed.

Lemma merge_result_spec
  (rix : H5FD__onion_revision_index_t)
  (aix aix' : H5FD__onion_archival_index)
  (old_list : list H5FD__onion_index_entry) :
  aix_list aix = Some old_list ->
  rix_n_entries rix <> 0 ->
  H5FD_onion_merge_revision_index_into_archival_index rix aix
  = (SUCCEED, aix') ->
  exists merged,
    aix_list aix' = Some merged /\
    aix_n_entries aix' = Z.of_nat (length merged) /\
    aix_page_size_log2 aix' = rix_page_size_log2 rix /\
    pages_nondecreasing merged /\
    (forall e,
       e ∈ concat (take (Z.to_nat (_hash_table_size rix)) (_hash_table rix))
       -> e ∈ merged) /\
    (forall e, e ∈ merged ->
       e ∈ concat (take (Z.to_nat (_hash_table_size rix)) (_hash_table rix))
       \/ e ∈ take (Z.to_nat (aix_n_entries aix)) old_list).
Proof.
  intros Hl Hn. unfold H5FD_onion_merge_revision_index_into_archival_index.
  rewrite Hl.
  destruct (negb (rix_magic rix =? _)); [discriminate|].
  destruct (negb (aix_magic aix =? _)); [discriminate|].
  destruct (negb (rix_version rix =? _)); [discriminate|].
  destruct (negb (aix_version aix =? _)); [discriminate|].
  destruct (Z.eqb_spec (aix_page_size_log2 aix) (rix_page_size_log2 rix))
    as [Hps|]; [|discriminate]. simpl.
  destruct (Z.eqb_spec (rix_n_entries rix) 0); [contradiction|].
  cbv zeta.
  set (live := HDqsort (concat _)).
  set (kept := List.filter _ _).
  intros H. inversion H; subst aix'; clear H.
  cbn [aix_list aix_n_entries aix_page_size_log2].
  eexists. split; [reflexivity|].
  assert (Hlive : forall e, e ∈ live <->
            e ∈ concat (take (Z.to_nat (_hash_table_size rix))
                          (_hash_table rix))).
  { intros e. unfold live. rewrite HDqsort_perm. reflexivity. }
  clearbody live. split_and!.
  - rewrite (Permutation_length (HDqsort_perm _)), length_app. reflexivity.
  - exact Hps.
  - apply HDqsort_sorted.
  - intros e He. rewrite HDqsort_perm, elem_of_app, Hlive. auto.
  - intros e He. rewrite HDqsort_perm, elem_of_app, Hlive in He.
    destruct He as [He|He]; [auto|right]. unfold kept in He.
    apply list_elem_of_In, filter_In in He as [He _].
    apply list_elem_of_In. exact He.
Qed.

(** X11.  A merge that has entries to add leaves an archival
    index whose [n_entries] is the length of its list, whose list is in
    ascending order of page numbers (equal pages may follow each other),
    which holds every node of the revision index and nothing but nodes of
    the revision index and entries of the old list. *)
Theorem merge_result_is_sorted_and_keeps_live_entries
  (rix : H5FD__onion_revision_index_t)
  (aix aix' : H5FD__onion_archival_index)
  (old_list : list H5FD__onion_index_entry) :
  aix_list aix = Some old_list ->
  rix_n_entries rix <> 0 ->
  H5FD_onion_merge_revision_index_into_archival_index rix aix
  = (SUCCEED, aix') ->
  exists merged,
    aix_list aix' = Some merged /\
    aix_n_entries aix' = Z.of_nat (length merged) /\
    aix_page_size_log2 aix' = rix_page_size_log2 rix /\
    pages_nondecreasing merged /\
    (forall e,
       e ∈ concat (take (Z.to_nat (_hash_table_size rix)) (_hash_table rix))
       -> e ∈ merged) /\
    (forall e, e ∈ merged ->
       e ∈ concat (take (Z.to_nat (_hash_table_size rix)) (_hash_table rix))
       \/ e ∈ take (Z.to_nat (aix_n_entries aix)) old_list).
Proof. exact (merge_result_spec rix aix aix' old_list). Qed.

Lemma pages_ascending_cons_iff x l :
  pages_ascending (x :: l) <->
  (forall y, y ∈ l -> logi_page x < logi_page y) /\ pages_ascending l.
Proof.
  split.
  - intros H. split.
    + intros y Hy. apply list_elem_of_lookup_1 in Hy as [i Hi].
      apply (H 0%nat (S i)); [lia|reflexivity|exact Hi].
    + intros i j e1 e2 Hij H1 H2.
      apply (H (S i) (S j)); [lia|exact H1|exact H2].
  - intros [Hx Hl] [|i] [|j] e1 e2 Hij H1 H2; simpl in *; try lia.
    + inversion H1; subst. apply Hx. eapply list_elem_of_lookup_2, H2.
    + apply (Hl i j); [lia|exact H1|exact H2].
Qed.

Lemma pages_ascending_NoDup l :
  pages_ascending l -> NoDup (logi_page <$> l).
Proof.
  induction l as [|x l IH]; intros H; simpl; [constructor|].
  apply pages_ascending_cons_iff in H as [Hx Hl].
  constructor; [|auto].
  intros Hin. apply list_elem_of_fmap in Hin as (y & Hy & Hin).
  specialize (Hx y Hin). lia.
Qed.

Lemma pages_ascending_filter f l :
  pages_ascending l -> pages_ascending (List.filter f l).
Proof.
  induction l as [|x l IH]; intros H; simpl; [exact H|].
  apply pages_ascending_cons_iff in H as [Hx Hl].
  destruct (f x); [|auto].
  apply pages_ascending_cons_iff. split; [|auto].
  intros y Hy. apply Hx.
  apply list_elem_of_In, filter_In in Hy as [Hy _].
  apply list_elem_of_In, Hy.
Qed.

Lemma nondecreasing_NoDup_ascending l :
  pages_nondecreasing l -> NoDup (logi_page <$> l) -> pages_ascending l.
Proof.
  induction l as [|x l IH]; intros Hs Hn.
  - intros i j e1 e2 _ H. discriminate.
  - apply pages_nondecreasing_cons in Hs as [Hx Hs].
    simpl in Hn. apply NoDup_cons in Hn as [Hnx Hn].
    apply pages_ascending_cons_iff. split; [|auto].
    intros y Hy. specialize (Hx y Hy).
    destruct (Z.eq_dec (logi_page x) (logi_page y)) as [He|]; [|lia].
    exfalso. apply Hnx. rewrite He. apply list_elem_of_fmap. eauto.
Qed.

Lemma archival_index_of_valid k l :
  pages_ascending l ->
  H5FD_onion_archival_index_is_valid
    {| aix_magic := H5FD__ONION_ARCHIVAL_INDEX_MAGIC;
       aix_version := H5FD__ONION_ARCHIVAL_INDEX_VERSION_CURR;
       aix_page_size_log2 := k;
       aix_n_entries := Z.of_nat (length l);
       aix_list := Some l |} = true.
Proof.
  intros H. apply archival_index_is_valid_spec. simpl.
  split_and!; try reflexivity. exists l. split; [reflexivity|].
  rewrite Nat2Z.id, firstn_all. exact H.
Qed.

Lemma merge_valid_spec
  (rix : H5FD__onion_revision_index_t)
  (aix aix' : H5FD__onion_archival_index)
  (old_list : list H5FD__onion_index_entry) :
  let nodes :=
    concat (take (Z.to_nat (_hash_table_size rix)) (_hash_table rix)) in
  H5FD_onion_archival_index_is_valid aix = true ->
  aix_list aix = Some old_list ->
  0 <= aix_n_entries aix <= Z.of_nat (length old_list) ->
  NoDup (logi_page <$> nodes) ->
  (2 <= length nodes)%nat ->
  Z.of_nat (length nodes + length old_list) < 2 ^ 64 ->
  rix_n_entries rix <> 0 ->
  H5FD_onion_merge_revision_index_into_archival_index rix aix
  = (SUCCEED, aix') ->
  H5FD_onion_archival_index_is_valid aix' = true /\
  (forall e, e ∈ nodes ->
     H5FD_onion_archival_index_find aix' (logi_page e) = Some e) /\
  (forall e, e ∈ take (Z.to_nat (aix_n_entries aix)) old_list ->
     logi_page e ∉ logi_page <$> nodes ->
     H5FD_onion_archival_index_find aix' (logi_page e) = Some e).
Proof.
  intros nodes Hv Hl Hlen Hnd H2 Hmax Hn.
  pose proof Hv as Hv'.
  apply archival_index_is_valid_spec in Hv' as (Hm & Hver & l0 & Hl0 & Hasc).
  assert (l0 = old_list) as -> by congruence. clear Hl0.
  unfold H5FD_onion_merge_revision_index_into_archival_index.
  rewrite Hl, Hm, Hver.
  destruct (negb (rix_magic rix =? _)); [discriminate|].
  destruct (negb (rix_version rix =? _)); [discriminate|].
  cbn [negb Z.eqb].
  change (negb (H5FD__ONION_ARCHIVAL_INDEX_MAGIC
                =? H5FD__ONION_ARCHIVAL_INDEX_MAGIC)) with false.
  change (negb (H5FD__ONION_ARCHIVAL_INDEX_VERSION_CURR
                =? H5FD__ONION_ARCHIVAL_INDEX_VERSION_CURR)) with false.
  cbv iota.
  destruct (Z.eqb_spec (aix_page_size_log2 aix) (rix_page_size_log2 rix))
    as [Hps|]; [|discriminate]. cbn [negb].
  destruct (Z.eqb_spec (rix_n_entries rix) 0); [contradiction|].
  cbv zeta. fold nodes.
  set (live := HDqsort nodes).
  assert (Hlp : live ≡ₚ nodes) by apply HDqsort_perm.
  assert (Hla : pages_ascending live).
  { apply nondecreasing_NoDup_ascending; [apply HDqsort_sorted|].
    rewrite Hlp. exact Hnd. }
  assert (Hll : length live = length nodes) by (rewrite Hlp; reflexivity).
  clearbody live.
  set (new_aix := Build_H5FD__onion_archival_index _ _ _ _ (Some live)).
  assert (Hnew : forall e, e ∈ live ->
            H5FD_onion_archival_index_find new_aix (logi_page e) = Some e).
  { intros e He.
    apply (archival_index_find_complete_aux new_aix live).
    - reflexivity.
    - cbn [new_aix aix_n_entries]. lia.
    - cbn [new_aix aix_n_entries]. lia.
    - cbn [new_aix aix_n_entries]. rewrite Nat2Z.id, firstn_all. exact Hla.
    - cbn [new_aix aix_n_entries]. lia.
    - cbn [new_aix aix_n_entries]. rewrite Nat2Z.id, firstn_all. exact He. }
  assert (Hnew_sound : forall p x,
            H5FD_onion_archival_index_find new_aix p = Some x ->
            p ∈ logi_page <$> live).
  { intros p x Hf.
    assert (Hb1 : aix_n_entries new_aix <= Z.of_nat (length live))
      by (cbn [new_aix aix_n_entries]; lia).
    assert (Hb2 : 0 <= aix_n_entries new_aix < 2 ^ 64)
      by (cbn [new_aix aix_n_entries]; lia).
    destruct (archival_index_find_sound_aux new_aix live eq_refl Hb1 Hb2
                p x Hf) as [Hp Hx].
    cbn [new_aix aix_n_entries] in Hx. rewrite Nat2Z.id, firstn_all in Hx.
    apply list_elem_of_fmap. eauto. }
  set (old := take (Z.to_nat (aix_n_entries aix)) old_list) in *.
  set (kept := List.filter _ old).
  assert (Hka : pages_ascending kept) by apply pages_ascending_filter, Hasc.
  assert (Hkl : forall e, e ∈ kept -> logi_page e ∉ logi_page <$> live).
  { intros e He Hin. apply list_elem_of_In, filter_In in He as [_ He].
    apply list_elem_of_fmap in Hin as (e' & Hpe & He').
    rewrite Hpe, (Hnew e' He') in He. discriminate. }
  assert (Hko : forall e, e ∈ old -> logi_page e ∉ logi_page <$> live ->
                          e ∈ kept).
  { intros e He Hnin. apply list_elem_of_In, filter_In.
    split; [apply list_elem_of_In, He|].
    destruct (H5FD_onion_archival_index_find new_aix (logi_page e))
      as [x|] eqn:Hf; [|reflexivity].
    exfalso. apply Hnin. eapply Hnew_sound, Hf. }
  assert (Hkn : (length kept <= length old_list)%nat).
  { unfold kept. etrans; [apply List.filter_length_le|].
    unfold old. rewrite length_take. lia. }
  clearbody kept. clear new_aix Hnew Hnew_sound.
  set (merged := HDqsort (live ++ kept)).
  assert (Hmp : merged ≡ₚ live ++ kept) by apply HDqsort_perm.
  assert (Hma : pages_ascending merged).
  { apply nondecreasing_NoDup_ascending; [apply HDqsort_sorted|].
    rewrite Hmp, fmap_app. apply NoDup_app. split_and!.
    - apply pages_ascending_NoDup, Hla.
    - intros p Hp Hk. apply list_elem_of_fmap in Hk as (e & -> & He).
      exact (Hkl e He Hp).
    - apply pages_ascending_NoDup, Hka. }
  assert (Hml : length merged = (length live + length kept)%nat)
    by (rewrite Hmp, length_app; reflexivity).
  clearbody merged.
  intros H. inversion H; subst aix'; clear H.
  rewrite <- Hml.
  match goal with
  | |- H5FD_onion_archival_index_is_valid ?r = true /\ _ => set (res := r)
  end.
  assert (Hvalid : H5FD_onion_archival_index_is_valid res = true)
    by apply archival_index_of_valid, Hma.
  assert (Hfind : forall e, e ∈ merged ->
            H5FD_onion_archival_index_find res (logi_page e) = Some e).
  { intros e He.
    apply (archival_index_find_complete_aux res merged).
    - reflexivity.
    - cbn [res aix_n_entries]. lia.
    - cbn [res aix_n_entries]. lia.
    - cbn [res aix_n_entries]. rewrite Nat2Z.id, firstn_all. exact Hma.
    - cbn [res aix_n_entries]. lia.
    - cbn [res aix_n_entries]. rewrite Nat2Z.id, firstn_all. exact He. }
  clearbody res.
  split_and!.
  - exact Hvalid.
  - intros e He. apply Hfind. rewrite Hmp, elem_of_app, Hlp. auto.
  - intros e He Hnin. apply Hfind. rewrite Hmp, elem_of_app. right.
    apply Hko; [exact He|]. rewrite Hlp. exact Hnin.
Qed.

(** X12.  When the revision index holds two or more nodes, all
    of different pages, merging it into a valid archival index gives a
    valid archival index in which find returns the node of the revision
    index for each of its pages, and the old entry for every archived page
    that the revision index does not hold. *)
Theorem merge_of_several_pages_is_valid
  (rix : H5FD__onion_revision_index_t)
  (aix aix' : H5FD__onion_archival_index)
  (old_list : list H5FD__onion_index_entry) :
  let nodes :=
    concat (take (Z.to_nat (_hash_table_size rix)) (_hash_table rix)) in
  H5FD_onion_archival_index_is_valid aix = true ->
  aix_list aix = Some old_list ->
  0 <= aix_n_entries aix <= Z.of_nat (length old_list) ->
  NoDup (logi_page <$> nodes) ->
  (2 <= length nodes)%nat ->
  Z.of_nat (length nodes + length old_list) < 2 ^ 64 ->
  rix_n_entries rix <> 0 ->
  H5FD_onion_merge_revision_index_into_archival_index rix aix
  = (SUCCEED, aix') ->
  H5FD_onion_archival_index_is_valid aix' = true /\
  (forall e, e ∈ nodes ->
     H5FD_onion_archival_index_find aix' (logi_page e) = Some e) /\
  (forall e, e ∈ take (Z.to_nat (aix_n_entries aix)) old_list ->
     logi_page e ∉ logi_page <$> nodes ->
     H5FD_onion_archival_index_find aix' (logi_page e) = Some e).
Proof. exact (merge_valid_spec rix aix aix' old_list). Qed.

(** *** Buffers *)

Lemma bytes_at_app_here a b c off n :
  off = Z.of_nat (length a) -> n = length b ->
  bytes_at (a ++ b ++ c) off n = b.
Proof.
  intros -> ->. unfold bytes_at.
  rewrite Nat2Z.id, drop_app_length, take_app_length. reflexivity.
Qed.

Lemma encode_record_pointer_length rp :
  length (encode_record_pointer rp) = 20%nat.
Proof.
  unfold encode_record_pointer, UINT64ENCODE, UINT32ENCODE.
  rewrite !length_app, !le_encode_length. reflexivity.
Qed.

Lemma concat_encode_length {A} (enc : A -> list Z) (k : nat) l :
  (forall x, length (enc x) = k) ->
  length (concat (map enc l)) = (k * length l)%nat.
Proof.
  intros H. induction l as [|x l IH]; simpl; [lia|].
  rewrite length_app, H, IH. lia.
Qed.

Section WholeHistoryRoundTrip.
Variable cksum : list Z -> Z.

Lemma map_whs_at s l :
  whs_record_pointer_list s = Some l ->
  map (fun i => encode_record_pointer (whs_at s i))
    (seqZ 0 (Z.of_nat (length l)))
  = map encode_record_pointer l.
Proof.
  intros Hl. apply list_eq. intros i.
  rewrite !list_lookup_fmap.
  destruct (decide (i < length l)%nat) as [Hi|Hi].
  - rewrite lookup_seqZ_lt by lia. simpl.
    destruct (lookup_lt_is_Some_2 l i Hi) as [x Hx]. rewrite Hx. simpl.
    unfold whs_at. rewrite Hl. simpl.
    rewrite Z.add_0_l, Nat2Z.id, Hx. reflexivity.
  - rewrite lookup_seqZ_ge by lia. simpl.
    rewrite lookup_ge_None_2 by lia. reflexivity.
Qed.

Lemma decode_one_record_pointer a x tail ptr :
  ptr = Z.of_nat (length a) -> record_pointer_in_range x ->
  {| rp_phys_addr :=
       UINT64DECODE (bytes_at (a ++ encode_record_pointer x ++ tail) ptr 8);
     rp_record_size :=
       UINT64DECODE
         (bytes_at (a ++ encode_record_pointer x ++ tail) (ptr + 8) 8);
     rp_checksum :=
       u32 (UINT64DECODE
              (bytes_at (a ++ encode_record_pointer x ++ tail)
                 (ptr + 16) 4)) |} = x.
Proof.
  intros Hptr (Ha & Hs & Hc). unfold encode_record_pointer.
  rewrite <- !(assoc_L (++)).
  rewrite bytes_at_app_here;
    [|exact Hptr|unfold UINT64ENCODE; rewrite le_encode_length; done].
  rewrite (assoc_L (++) a).
  rewrite bytes_at_app_here;
    [| rewrite length_app; unfold UINT64ENCODE;
       rewrite le_encode_length; lia
     | unfold UINT64ENCODE; rewrite le_encode_length; done].
  rewrite <- (assoc_L (++) a).
  rewrite (assoc_L (++) a), (assoc_L (++) (a ++ _)).
  rewrite bytes_at_app_here;
    [| rewrite !length_app; unfold UINT64ENCODE;
       rewrite !le_encode_length; lia
     | unfold UINT32ENCODE; rewrite le_encode_length; done].
  unfold UINT64DECODE, UINT64ENCODE, UINT32ENCODE.
  rewrite !le_encode_take by lia.
  rewrite take_ge by (rewrite le_encode_length; lia).
  rewrite !le_decode_encode. unfold u32.
  change (256 ^ Z.of_nat 4) with (2 ^ 32).
  change (256 ^ Z.of_nat 8) with (2 ^ 64).
  rewrite Z.mod_mod by lia. rewrite !Z.mod_small by assumption.
  destruct x; reflexivity.
Qed.

Lemma decode_record_pointers_encoded l : forall a c done rest,
  (length l <= length rest)%nat ->
  Forall record_pointer_in_range l ->
  decode_record_pointers (length l) (Z.of_nat (length done))
    (a ++ concat (map encode_record_pointer l) ++ c)
    (Z.of_nat (length a)) (done ++ rest)
  = (done ++ l ++ drop (length l) rest,
     Z.of_nat (length a) + 20 * Z.of_nat (length l)).
Proof.
  induction l as [|x l IH]; intros a c done rest Hlen Hr.
  - simpl. rewrite drop_0. f_equal. lia.
  - destruct rest as [|r rest]; [simpl in Hlen; lia|].
    apply Forall_cons in Hr as [Hx Hr].
    cbn [length decode_record_pointers map concat].
    rewrite <- !(assoc_L (++)).
    rewrite (decode_one_record_pointer a x _ _ eq_refl Hx).
    rewrite Nat2Z.id.
    rewrite insert_app_r_alt, Nat.sub_diag by lia. cbn [insert list_insert].
    specialize (IH (a ++ encode_record_pointer x) c (done ++ [x]) rest
                  ltac:(simpl in Hlen; lia) Hr).
    rewrite !length_app, encode_record_pointer_length in IH.
    cbn [length] in IH.
    replace (Z.of_nat (length done) + 1) with (Z.of_nat (length done + 1))
      by lia.
    replace (Z.of_nat (length a) + 20) with (Z.of_nat (length a + 20)) by lia.
    rewrite <- !(assoc_L (++)) in IH.
    change (done ++ x :: rest) with (done ++ [x] ++ rest).
    rewrite IH. cbn [drop app]. f_equal. lia.
Qed.

Lemma whole_history_encode_shape s l :
  whs_version s = H5FD__ONION_WHOLE_HISTORY_VERSION_CURR ->
  whs_record_pointer_list s = Some l ->
  whs_n_revisions s = Z.of_nat (length l) ->
  let n8 := UINT64ENCODE (Z.of_nat (length l)) in
  let body := concat (map encode_record_pointer l) in
  let sum :=
    u32 (cksum (H5FD__ONION_WHOLE_HISTORY_SIGNATURE ++ [1; 0; 0; 0] ++ n8
                ++ body)) in
  H5FD_onion_whole_history_encode cksum s
  = (20 + 20 * Z.of_nat (length l), whs_bytes n8 body sum, sum).
Proof.
  intros Hv Hl Hn n8 body sum.
  unfold H5FD_onion_whole_history_encode. rewrite Hv, Hn.
  change (UINT32ENCODE (u32 H5FD__ONION_WHOLE_HISTORY_VERSION_CURR))
    with [1; 0; 0; 0].
  assert (Hb : (if Z.of_nat (length l) >? 0
                then concat (map (fun i => encode_record_pointer (whs_at s i))
                               (seqZ 0 (Z.of_nat (length l))))
                else []) = body).
  { rewrite (map_whs_at s l Hl). fold body.
    destruct (Z.gtb_spec (Z.of_nat (length l)) 0); [reflexivity|].
    destruct l; [reflexivity|simpl in *; lia]. }
  rewrite Hb. fold n8. cbv zeta.
  set (pre := H5FD__ONION_WHOLE_HISTORY_SIGNATURE ++ [1; 0; 0; 0] ++ n8
              ++ body).
  assert (Hsum : checksum cksum pre (Z.of_nat (length pre)) = sum).
  { unfold checksum. rewrite Nat2Z.id, firstn_all. reflexivity. }
  rewrite Hsum. f_equal. f_equal.
  - unfold pre, n8, body, UINT64ENCODE, UINT32ENCODE.
    rewrite !length_app, !le_encode_length.
    rewrite (concat_encode_length _ 20) by apply encode_record_pointer_length.
    simpl. lia.
Qed.

Lemma whole_history_decode_shape (n : Z) n8 body sum :
  length n8 = 8%nat -> le_decode n8 = n -> 0 <= n ->
  length body = Z.to_nat (20 * n) ->
  sum = u32 (cksum (H5FD__ONION_WHOLE_HISTORY_SIGNATURE ++ [1; 0; 0; 0]
                    ++ n8 ++ body)) ->
  let buf := whs_bytes n8 body sum in
  bytes_eqb (bytes_at buf 0 4) H5FD__ONION_WHOLE_HISTORY_SIGNATURE = true /\
  default 0 (buf !! 4%nat) = 1 /\
  UINT64DECODE (bytes_at buf 8 8) = n /\
  checksum cksum buf (8 + 8 + 20 * n) = sum /\
  UINT32DECODE (bytes_at buf (8 + 8 + 20 * n) 4) = sum.
Proof.
  intros Hl8 Hn8 Hn Hlb Hsum buf.
  assert (Hs32 : sum mod 2 ^ 32 = sum).
  { rewrite Hsum. unfold u32. apply Z.mod_mod. lia. }
  split_and!.
  - reflexivity.
  - reflexivity.
  - unfold buf, whs_bytes.
    rewrite (assoc_L (++) H5FD__ONION_WHOLE_HISTORY_SIGNATURE).
    rewrite bytes_at_app_here; [|reflexivity|auto].
    unfold UINT64DECODE. rewrite take_ge by lia. exact Hn8.
  - unfold checksum, buf, whs_bytes.
    rewrite !(assoc_L (++)). rewrite take_app_length'.
    + rewrite <- !(assoc_L (++)). symmetry. exact Hsum.
    + rewrite !length_app, Hl8, Hlb. simpl. lia.
  - unfold buf, whs_bytes. rewrite !(assoc_L (++)).
    rewrite <- (app_nil_r (UINT32ENCODE sum)).
    rewrite bytes_at_app_here.
    + unfold UINT32DECODE, UINT32ENCODE.
      rewrite take_ge by (rewrite le_encode_length; lia).
      rewrite le_decode_encode. exact Hs32.
    + rewrite !length_app, Hl8, Hlb. simpl. lia.
    + unfold UINT32ENCODE. rewrite le_encode_length. reflexivity.
Qed.

(** Both decoding passes over an encoded whole-history. *)
Lemma whole_history_decode_encode_passes s l s0 rpl0 :
  whs_version s = H5FD__ONION_WHOLE_HISTORY_VERSION_CURR ->
  whs_record_pointer_list s = Some l ->
  whs_n_revisions s = Z.of_nat (length l) ->
  Z.of_nat (length l) < 2 ^ 64 ->
  Forall record_pointer_in_range l ->
  let buf := encoded_whole_history cksum s in
  let size := 20 + 20 * Z.of_nat (length l) in
  let sum := snd (H5FD_onion_whole_history_encode cksum s) in
  H5FD_onion_whole_history_encode cksum s = (size, buf, sum) /\
  length buf = Z.to_nat size /\
  (whs_n_revisions s0 = 0 ->
   H5FD_onion_whole_history_decode cksum buf s0
   = (size,
      whs_set_checksum (whs_set_n_revisions s0 (Z.of_nat (length l))) sum)) /\
  (whs_n_revisions s0 = Z.of_nat (length l) ->
   whs_record_pointer_list s0 = Some rpl0 ->
   length rpl0 = length l ->
   H5FD_onion_whole_history_decode cksum buf s0
   = (size, whs_set_checksum (whs_set_list s0 (Some l)) sum)).
Proof.
  intros Hv Hl Hn Hmax Hr buf size sum.
  pose proof (whole_history_encode_shape s l Hv Hl Hn) as Henc.
  cbv zeta in Henc.
  unfold buf, sum, encoded_whole_history. rewrite Henc. cbn [fst snd].
  set (n := Z.of_nat (length l)) in *.
  set (n8 := UINT64ENCODE n) in *.
  set (body := concat (map encode_record_pointer l)) in *.
  set (sm := u32 (cksum _)) in *.
  assert (Hl8 : length n8 = 8%nat) by apply le_encode_length.
  assert (Hn8 : le_decode n8 = n).
  { unfold n8, UINT64ENCODE. rewrite le_decode_encode.
    apply Z.mod_small. change (256 ^ Z.of_nat 8) with (2 ^ 64). lia. }
  assert (Hlb : length body = Z.to_nat (20 * n)).
  { unfold body.
    rewrite (concat_encode_length _ 20) by apply encode_record_pointer_length.
    lia. }
  destruct (whole_history_decode_shape n n8 body sm Hl8 Hn8 ltac:(lia) Hlb
              eq_refl) as (Hsig & Hver & Hcount & Hck & Hst).
  assert (Hlenb : length (whs_bytes n8 body sm) = Z.to_nat (20 + 20 * n)).
  { unfold whs_bytes, UINT32ENCODE.
    rewrite !length_app, Hl8, Hlb, le_encode_length. simpl. lia. }
  assert (Hskip : skip_entries (whs_bytes n8 body sm) (8 + 8)
                    H5FD__ONION_ENCODED_SIZE_RECORD_POINTER n
                  = 8 + 8 + 20 * n).
  { apply skip_entries_inside. rewrite Hlenb.
    unfold H5FD__ONION_ENCODED_SIZE_RECORD_POINTER. lia. }
  split; [reflexivity|]. split; [exact Hlenb|].
  split.
  - intros Hs0. unfold H5FD_onion_whole_history_decode.
    rewrite Hsig, Hver. cbn [negb]. change (1 =? 1) with true. cbn [negb].
    cbv zeta. rewrite Hs0. change (0 =? 0) with true. cbv iota.
    rewrite Hcount, Hskip.
    rewrite Hck. destruct s0 as [m v n0 rl c].
    cbn [whs_set_n_revisions whs_set_checksum whs_checksum].
    rewrite Hst, (Z.eqb_refl sm). cbn [negb]. f_equal. unfold size. lia.
  - intros Hs0 Hrl Hlen. unfold H5FD_onion_whole_history_decode.
    rewrite Hsig, Hver. cbn [negb]. change (1 =? 1) with true. cbn [negb].
    cbv zeta. rewrite Hs0, Hcount.
    destruct (Z.eqb_spec n 0) as [Hn0|Hn0].
    + (* no revisions: the second pass is a first pass *)
      assert (l = []) as -> by (destruct l; [done|simpl in *; lia]).
      assert (rpl0 = []) as -> by (destruct rpl0; [done|simpl in *; lia]).
      rewrite Hskip. rewrite Hn0 in *.
      rewrite Hck. destruct s0 as [m v n0 rl c].
      cbn [whs_set_n_revisions whs_set_checksum whs_checksum whs_set_list
           whs_record_pointer_list whs_n_revisions] in *.
      rewrite Hst, (Z.eqb_refl sm). cbn [negb]. subst. reflexivity.
    + rewrite (Z.eqb_refl n). cbn [negb]. rewrite Hrl.
      pose proof (decode_record_pointers_encoded l
                    (H5FD__ONION_WHOLE_HISTORY_SIGNATURE ++ [1; 0; 0; 0] ++ n8)
                    (UINT32ENCODE sm) [] rpl0
                    ltac:(rewrite Hlen; apply Nat.le_refl) Hr) as Hdec.
      rewrite <- !(assoc_L (++)) in Hdec. fold body in Hdec.
      fold (whs_bytes n8 body sm) in Hdec.
      rewrite !length_app, Hl8 in Hdec. cbn [length app] in Hdec.
      change (Z.of_nat 0) with 0 in Hdec.
      change (Z.of_nat (length H5FD__ONION_WHOLE_HISTORY_SIGNATURE + (4 + 8)))
        with (8 + 8) in Hdec.
      replace (Z.to_nat n) with (length l) by lia.
      rewrite Hdec. rewrite drop_ge, app_nil_r by lia.
      fold n. rewrite Hck. destruct s0 as [m v n0 rl c].
      cbn [whs_set_n_revisions whs_set_checksum whs_checksum whs_set_list].
      rewrite Hst, (Z.eqb_refl sm). cbn [negb]. f_equal. unfold size. lia.
Qed.

Lemma injest_whole_history_encoded (name : string) (eoa addr : Z)
  (fs : filesystem) (data : list Z) (s s0 : H5FD__onion_whole_history)
  (l : list H5FD__onion_record_pointer) :
  let size := 20 + 20 * Z.of_nat (length l) in
  whs_version s = H5FD__ONION_WHOLE_HISTORY_VERSION_CURR ->
  whs_record_pointer_list s = Some l ->
  whs_n_revisions s = Z.of_nat (length l) ->
  Z.of_nat (length l) < 2 ^ 64 ->
  Forall record_pointer_in_range l ->
  fs !! name = Some data ->
  0 <= addr ->
  take (Z.to_nat size) (drop (Z.to_nat addr) data)
  = encoded_whole_history cksum s ->
  whs_n_revisions s0 = 0 ->
  H5FD__onion_injest_whole_history cksum s0
    {| fd_name := name; fd_eoa := eoa |} addr size fs
  = (SUCCEED,
     {| whs_magic := whs_magic s0; whs_version := whs_version s0;
        whs_n_revisions := Z.of_nat (length l);
        whs_record_pointer_list := Some l;
        whs_checksum := snd (H5FD_onion_whole_history_encode cksum s) |},
     {| fd_name := name; fd_eoa := addr + size |}).
Proof.
  intros size Hv Hl Hn Hmax Hr Hfs Haddr Hdata Hs0.
  set (buf := encoded_whole_history cksum s) in *.
  set (sum := snd (H5FD_onion_whole_history_encode cksum s)).
  destruct (whole_history_decode_encode_passes s l s0
              (replicate (length l) record_pointer_zero) Hv Hl Hn Hmax Hr)
    as (Henc & Hlen & Hp1 & _). fold buf sum size in Henc, Hlen, Hp1.
  specialize (Hp1 Hs0).
  destruct (whole_history_decode_encode_passes s l
              (whs_set_list
                 (whs_set_checksum
                    (whs_set_n_revisions s0 (Z.of_nat (length l))) sum)
                 (Some (replicate (length l) record_pointer_zero)))
              (replicate (length l) record_pointer_zero) Hv Hl Hn Hmax Hr)
    as (_ & _ & _ & Hp2). fold buf sum size in Hp2.
  assert (Hsum : checksum cksum buf (size - 4) = sum).
  { unfold buf, sum, encoded_whole_history.
    rewrite (whole_history_encode_shape s l Hv Hl Hn). cbn [fst snd].
    unfold checksum, whs_bytes. rewrite !(assoc_L (++)).
    rewrite take_app_length'.
    - rewrite <- !(assoc_L (++)). reflexivity.
    - rewrite !length_app.
      rewrite (concat_encode_length _ 20)
        by apply encode_record_pointer_length.
      unfold UINT64ENCODE. rewrite le_encode_length. unfold size. simpl. lia. }
  assert (Hdl : addr + size <= Z.of_nat (length data)).
  { apply (f_equal length) in Hdata.
    rewrite length_take, length_drop, Hlen in Hdata. unfold size in *. lia. }
  assert (Hread : H5FDread {| fd_name := name; fd_eoa := addr + size |}
                    addr size fs = Some buf).
  { unfold H5FDread. cbn [fd_name fd_eoa]. rewrite Hfs.
    destruct (Z.eqb_spec size 0); [unfold size in *; lia|].
    destruct (Z.gtb_spec (addr + size) (addr + size)); [lia|].
    f_equal. rewrite <- Hdata.
    rewrite take_app_le; [done|]. rewrite length_drop. lia. }
  unfold H5FD__onion_injest_whole_history, H5FD_get_eof, H5FD_set_eoa.
  cbn [fd_name fd_eoa]. rewrite Hfs. cbn [default from_option id].
  destruct (Z.ltb_spec (Z.of_nat (length data)) (addr + size)); [lia|].
  rewrite Hread, Hp1. rewrite Z.eqb_refl. cbn [negb].
  destruct s0 as [m v n0 rl c].
  cbn [whs_set_n_revisions whs_set_checksum whs_checksum whs_set_list
       whs_n_revisions whs_magic whs_version] in *.
  rewrite Hsum, (Z.eqb_refl sum). cbn [negb].
  rewrite Nat2Z.id, Hp2 by (try reflexivity; apply length_replicate).
  rewrite (Z.eqb_refl size). cbn [negb]. reflexivity.
Qed.

(** X13.  H5FD__onion_injest_whole_history reads back what
    H5FD_onion_whole_history_encode has written: when the [size] bytes at
    [addr] of the file are the encoding of a whole-history with the record
    pointers [l], the ingest succeeds with the revision count, the record
    pointers [l] and the checksum of the encoding, and leaves the
    end-of-addressable mark of the handle at [addr + size]. *)
Theorem injest_whole_history_round_trip (name : string) (eoa addr : Z)
  (fs : filesystem) (data : list Z) (s s0 : H5FD__onion_whole_history)
  (l : list H5FD__onion_record_pointer) :
  let size := 20 + 20 * Z.of_nat (length l) in
  whs_version s = H5FD__ONION_WHOLE_HISTORY_VERSION_CURR ->
  whs_record_pointer_list s = Some l ->
  whs_n_revisions s = Z.of_nat (length l) ->
  Z.of_nat (length l) < 2 ^ 64 ->
  Forall record_pointer_in_range l ->
  fs !! name = Some data ->
  0 <= addr ->
  take (Z.to_nat size) (drop (Z.to_nat addr) data)
  = encoded_whole_history cksum s ->
  whs_n_revisions s0 = 0 ->
  H5FD__onion_injest_whole_history cksum s0
    {| fd_name := name; fd_eoa := eoa |} addr size fs
  = (SUCCEED,
     {| whs_magic := whs_magic s0; whs_version := whs_version s0;
        whs_n_revisions := Z.of_nat (length l);
        whs_record_pointer_list := Some l;
        whs_checksum := snd (H5FD_onion_whole_history_encode cksum s) |},
     {| fd_name := name; fd_eoa := addr + size |}).
Proof. exact (injest_whole_history_encoded name eoa addr fs data s s0 l). Qed.

End WholeHistoryRoundTrip.


Lemma bytes_at_skip a b off n :
  Z.of_nat (length a) <= off ->
  bytes_at (a ++ b) off n = bytes_at b (off - Z.of_nat (length a)) n.
Proof.
  intros H. unfold bytes_at. rewrite drop_app_ge by lia.
  do 2 f_equal. lia.
Qed.

Lemma bytes_at_head b c off n :
  off = 0 -> n = length b -> bytes_at (b ++ c) off n = b.
Proof. intros -> ->. unfold bytes_at. simpl. apply take_app_length. Qed.

Lemma drop_skip (a b : list Z) (off : Z) :
  Z.of_nat (length a) <= off ->
  drop (Z.to_nat off) (a ++ b) = drop (Z.to_nat (off - Z.of_nat (length a))) b.
Proof. intros H. rewrite drop_app_ge by lia. f_equal. lia. Qed.

Section RecordRoundTrip.
Variable cksum : list Z -> Z.

Lemma encode_index_entry_length k e :
  length (encode_index_entry cksum k e) = 20%nat.
Proof.
  unfold encode_index_entry, UINT64ENCODE, UINT32ENCODE.
  rewrite !length_app, !le_encode_length. reflexivity.
Qed.

Lemma map_aix_at aix l k :
  aix_list aix = Some l ->
  map (fun i => encode_index_entry cksum k (aix_at aix i))
    (seqZ 0 (Z.of_nat (length l)))
  = map (encode_index_entry cksum k) l.
Proof.
  intros Hl. apply list_eq. intros i.
  rewrite !list_lookup_fmap.
  destruct (decide (i < length l)%nat) as [Hi|Hi].
  - rewrite lookup_seqZ_lt by lia. simpl.
    destruct (lookup_lt_is_Some_2 l i Hi) as [x Hx]. rewrite Hx. simpl.
    unfold aix_at. rewrite Hl. simpl.
    rewrite Z.add_0_l, Nat2Z.id, Hx. reflexivity.
  - rewrite lookup_seqZ_ge by lia. simpl.
    rewrite lookup_ge_None_2 by lia. reflexivity.
Qed.

Lemma decode_one_index_entry a x tail ptr k :
  ptr = Z.of_nat (length a) -> 0 <= k < 32 -> index_entry_in_range k x ->
  let buf := a ++ encode_index_entry cksum k x ++ tail in
  UINT64DECODE (bytes_at buf ptr 8) = logi_page x * 2 ^ k /\
  UINT64DECODE (bytes_at buf (ptr + 8) 8) = phys_addr x /\
  UINT32DECODE (bytes_at buf (ptr + 16) 4)
  = checksum cksum (drop (Z.to_nat ptr) buf) 16.
Proof.
  intros Hptr Hk (Hp0 & Hp & Ha) buf. unfold buf.
  assert (H2k : 0 < 2 ^ k) by (apply Z.pow_pos_nonneg; lia).
  assert (Hshift : u64 (Z.shiftl (logi_page x) k) = logi_page x * 2 ^ k).
  { rewrite Z.shiftl_mul_pow2 by lia. unfold u64. apply Z.mod_small. nia. }
  unfold encode_index_entry. rewrite Hshift.
  set (la := UINT64ENCODE (logi_page x * 2 ^ k)).
  set (pa := UINT64ENCODE (phys_addr x)).
  set (sm := checksum cksum (la ++ pa) 16).
  assert (Hla : length la = 8%nat) by apply le_encode_length.
  assert (Hpa : length pa = 8%nat) by apply le_encode_length.
  rewrite <- !(assoc_L (++)).
  assert (Hs32 : sm mod 2 ^ 32 = sm).
  { unfold sm, checksum, u32. apply Z.mod_mod. lia. }
  split_and!.
  - rewrite bytes_at_app_here; [|exact Hptr|auto].
    unfold UINT64DECODE, la, UINT64ENCODE.
    rewrite le_encode_take, le_decode_encode by lia.
    apply Z.mod_small. change (256 ^ Z.of_nat 8) with (2 ^ 64). nia.
  - rewrite (assoc_L (++) a).
    rewrite bytes_at_app_here; [|rewrite length_app, Hla; lia|auto].
    unfold UINT64DECODE, pa, UINT64ENCODE.
    rewrite le_encode_take, le_decode_encode by lia.
    apply Z.mod_small. exact Ha.
  - rewrite Hptr at 2. rewrite Nat2Z.id, drop_app_length.
    rewrite (assoc_L (++) a), (assoc_L (++) (a ++ _)).
    rewrite bytes_at_app_here;
      [|rewrite !length_app, Hla, Hpa; lia
       |unfold UINT32ENCODE; rewrite le_encode_length; done].
    unfold UINT32DECODE, UINT32ENCODE.
    rewrite le_encode_take, le_decode_encode by lia.
    change (256 ^ Z.of_nat 4) with (2 ^ 32). rewrite Hs32.
    unfold sm, checksum.
    rewrite (assoc_L (++) la pa (_ ++ tail)).
    rewrite (take_app_le (la ++ pa) (_ ++ tail))
      by (rewrite length_app, Hla, Hpa; simpl; lia).
    reflexivity.
Qed.

(** The entry loop of the second decoding pass over encoded entries. *)
Lemma decode_index_entries_encoded k l : forall a c done rest,
  0 <= k < 32 ->
  (length l <= length rest)%nat ->
  Forall (index_entry_in_range k) l ->
  decode_index_entries cksum (length l) (Z.of_nat (length done))
    (a ++ concat (map (encode_index_entry cksum k) l) ++ c)
    (Z.of_nat (length a)) (2 ^ k) k (done ++ rest)
  = (true, done ++ l ++ drop (length l) rest,
     Z.of_nat (length a) + 20 * Z.of_nat (length l)).
Proof.
  induction l as [|x l IH]; intros a c done rest Hk Hlen Hr.
  - simpl. rewrite drop_0. do 2 f_equal. lia.
  - destruct rest as [|r rest]; [simpl in Hlen; lia|].
    apply Forall_cons in Hr as [Hx Hr].
    pose proof Hx as (Hp0 & Hp & Ha).
    cbn [length decode_index_entries map concat]. cbv zeta.
    rewrite <- !(assoc_L (++)).
    set (ptr := Z.of_nat (length a)).
    set (tail := concat (map (encode_index_entry cksum k) l) ++ c).
    destruct (decode_one_index_entry a x tail ptr k eq_refl Hk Hx)
      as (H1 & H2 & H3).
    rewrite H1, H2, H3.
    assert (H2k : 0 < 2 ^ k) by (apply Z.pow_pos_nonneg; lia).
    assert (Hal : Z.land (logi_page x * 2 ^ k) (2 ^ k - 1) = 0).
    { replace (2 ^ k - 1) with (Z.ones k) by (rewrite Z.ones_equiv; lia).
      rewrite Z.land_ones by lia. apply Z.mod_mul. lia. }
    rewrite Hal. change (negb (0 =? 0)) with false. cbv iota.
    assert (Hsr : Z.shiftr (logi_page x * 2 ^ k) k = logi_page x).
    { rewrite Z.shiftr_div_pow2 by lia. apply Z.div_mul. lia. }
    rewrite Hsr, Z.eqb_refl. cbn [negb].
    assert (Hxx : {| logi_page := logi_page x; phys_addr := phys_addr x |} = x)
      by (destruct x; done).
    rewrite Hxx, Nat2Z.id.
    rewrite insert_app_r_alt, Nat.sub_diag by lia. cbn [insert list_insert].
    specialize (IH (a ++ encode_index_entry cksum k x) c (done ++ [x]) rest
                  Hk ltac:(simpl in Hlen; lia) Hr).
    rewrite !length_app, encode_index_entry_length in IH.
    cbn [length] in IH.
    replace (Z.of_nat (length done) + 1) with (Z.of_nat (length done + 1))
      by lia.
    replace (ptr + 20) with (Z.of_nat (length a + 20)) by (unfold ptr; lia).
    rewrite <- !(assoc_L (++)) in IH. fold tail in IH.
    change (done ++ x :: rest) with (done ++ [x] ++ rest).
    rewrite IH. cbn [drop].
    f_equal. unfold ptr. lia.
Qed.

Lemma UINT64_round x : 0 <= x < 2 ^ 64 -> UINT64DECODE (UINT64ENCODE x) = x.
Proof.
  intros H. unfold UINT64DECODE, UINT64ENCODE.
  rewrite le_encode_take, le_decode_encode by lia. apply Z.mod_small, H.
Qed.

Lemma UINT32_round x : 0 <= x < 2 ^ 32 -> UINT32DECODE (UINT32ENCODE x) = x.
Proof.
  intros H. unfold UINT32DECODE, UINT32ENCODE.
  rewrite le_encode_take, le_decode_encode by lia. apply Z.mod_small, H.
Qed.

Ltac solve_len :=
  unfold UINT64ENCODE, UINT32ENCODE;
  rewrite ?length_app, ?le_encode_length, ?length_take;
  change (length H5FD__ONION_REVISION_RECORD_SIGNATURE) with 4%nat;
  lia.

Ltac skip_to_field :=
  repeat (rewrite bytes_at_skip by solve_len);
  apply bytes_at_head; solve_len.

Lemma record_fixed_part_length r :
  length (time_of_creation r) = 16%nat ->
  length (record_fixed_part r) = 72%nat.
Proof.
  intros Ht. unfold record_fixed_part, UINT64ENCODE, UINT32ENCODE.
  rewrite !length_app, !le_encode_length, length_take, Ht. reflexivity.
Qed.

(** What the decoder reads in the fixed part. *)
Lemma record_fixed_part_fields r l u rest :
  revision_record_in_range r l u ->
  let buf := record_fixed_part r ++ rest in
  bytes_eqb (bytes_at buf 0 4) H5FD__ONION_REVISION_RECORD_SIGNATURE = true /\
  default 0 (buf !! 4%nat) = 1 /\
  UINT64DECODE (bytes_at buf 8 8) = revision_id r /\
  UINT64DECODE (bytes_at buf 16 8) = parent_revision_id r /\
  bytes_at buf 24 16 = time_of_creation r /\
  UINT64DECODE (bytes_at buf 40 8) = rec_logi_eof r /\
  UINT32DECODE (bytes_at buf 48 4)
  = 2 ^ aix_page_size_log2 (archival_index r) /\
  UINT32DECODE (bytes_at buf 52 4) = user_id r /\
  UINT64DECODE (bytes_at buf 56 8) = Z.of_nat (length l) /\
  UINT32DECODE (bytes_at buf 64 4) = username_size r /\
  UINT32DECODE (bytes_at buf 68 4) = comment_size r.
Proof.
  intros (Hv & Hid & Hpar & Ht & Heof & Huid & Hk & Hl & Hn & Hmax & Hr
          & Hu & Hus & Husl & Hcs & Hcsl & Hc0) buf.
  unfold buf, record_fixed_part. rewrite Hv, Hn.
  change (UINT32ENCODE (u32 H5FD__ONION_REVISION_RECORD_VERSION_CURR))
    with [1; 0; 0; 0].
  rewrite <- !(assoc_L (++)).
  assert (Hps : u32 (Z.shiftl 1 (aix_page_size_log2 (archival_index r)))
                = 2 ^ aix_page_size_log2 (archival_index r)).
  { rewrite Z.shiftl_1_l. unfold u32. apply Z.mod_small.
    split; [apply Z.pow_nonneg; lia|apply Z.pow_lt_mono_r; lia]. }
  rewrite Hps.
  assert (Hps32 : 0 <= 2 ^ aix_page_size_log2 (archival_index r) < 2 ^ 32).
  { split; [apply Z.pow_nonneg; lia|apply Z.pow_lt_mono_r; lia]. }
  split; [reflexivity|]. split; [reflexivity|].
  set (v4 := [1; 0; 0; 0]).
  assert (Hv4 : length v4 = 4%nat) by reflexivity. clearbody v4.
  assert (Htk : take 16 (time_of_creation r) = time_of_creation r)
    by (apply take_ge; lia).
  rewrite Htk.
  split_and!.
  - rewrite <- (UINT64_round (revision_id r)) at 2 by assumption. f_equal.
    skip_to_field.
  - rewrite <- (UINT64_round (parent_revision_id r)) at 2 by assumption.
    f_equal. skip_to_field.
  - skip_to_field.
  - rewrite <- (UINT64_round (rec_logi_eof r)) at 2 by assumption. f_equal.
    skip_to_field.
  - rewrite <- (UINT32_round (2 ^ _)) at 2 by assumption. f_equal.
    skip_to_field.
  - rewrite <- (UINT32_round (user_id r)) at 2 by assumption. f_equal.
    skip_to_field.
  - rewrite <- (UINT64_round (Z.of_nat (length l))) at 2 by lia. f_equal.
    skip_to_field.
  - rewrite <- (UINT32_round (username_size r)) at 2 by lia. f_equal.
    skip_to_field.
  - rewrite <- (UINT32_round (comment_size r)) at 2 by lia. f_equal.
    skip_to_field.
Qed.

Lemma record_encode_shape r l u :
  revision_record_in_range r l u ->
  let entries :=
    concat (map (encode_index_entry cksum
                   (aix_page_size_log2 (archival_index r))) l) in
  let cmt := default [] (comment r) in
  let sum := u32 (cksum (record_fixed_part r ++ entries ++ u ++ cmt)) in
  H5FD_onion_revision_record_encode cksum r
  = (76 + 20 * Z.of_nat (length l) + username_size r + comment_size r,
     record_fixed_part r ++ entries ++ u ++ cmt ++ UINT32ENCODE sum, sum).
Proof.
  intros (Hv & Hid & Hpar & Ht & Heof & Huid & Hk & Hl & Hn & Hmax & Hr
          & Hu & Hus & Husl & Hcs & Hcsl & Hc0) entries cmt sum.
  unfold H5FD_onion_revision_record_encode.
  assert (He : (if aix_n_entries (archival_index r) >? 0
                then concat
                       (map (fun i =>
                               encode_index_entry cksum
                                 (aix_page_size_log2 (archival_index r))
                                 (aix_at (archival_index r) i))
                          (seqZ 0 (aix_n_entries (archival_index r))))
                else []) = entries).
  { rewrite Hn, (map_aix_at _ l _ Hl). fold entries.
    destruct (Z.gtb_spec (Z.of_nat (length l)) 0); [reflexivity|].
    destruct l; [reflexivity|simpl in *; lia]. }
  assert (Hun : (if username_size r >? 0
                 then take (Z.to_nat (username_size r))
                        (default [] (username r))
                 else []) = u).
  { destruct (Z.gtb_spec (username_size r) 0); [|lia].
    rewrite Hu. simpl. apply take_ge. lia. }
  assert (Hcm : (if comment_size r >? 0
                 then take (Z.to_nat (comment_size r))
                        (default [] (comment r))
                 else []) = cmt).
  { unfold cmt. destruct (Z.gtb_spec (comment_size r) 0).
    - apply take_ge. lia.
    - rewrite Hc0 by lia. reflexivity. }
  rewrite He, Hun, Hcm. cbv zeta.
  match goal with
  | |- context [checksum cksum ?b _] =>
      assert (Hb : b = record_fixed_part r ++ entries ++ u ++ cmt)
        by (unfold record_fixed_part; rewrite <- !(assoc_L (++)); reflexivity)
  end.
  rewrite Hb.
  assert (Hsum : checksum cksum (record_fixed_part r ++ entries ++ u ++ cmt)
                   (Z.of_nat (length (record_fixed_part r ++ entries ++ u
                                      ++ cmt))) = sum).
  { unfold checksum. rewrite Nat2Z.id, firstn_all. reflexivity. }
  rewrite Hsum. f_equal. f_equal.
  - rewrite !length_app, (record_fixed_part_length r Ht).
    unfold entries.
    rewrite (concat_encode_length _ 20) by apply encode_index_entry_length.
    unfold UINT32ENCODE. rewrite le_encode_length.
    unfold cmt. lia.
  - rewrite <- !(assoc_L (++)). reflexivity.
Qed.

Lemma record_tail_fields r l u :
  revision_record_in_range r l u ->
  let k := aix_page_size_log2 (archival_index r) in
  let entries := concat (map (encode_index_entry cksum k) l) in
  let cmt := default [] (comment r) in
  let sum := u32 (cksum (record_fixed_part r ++ entries ++ u ++ cmt)) in
  let buf :=
    record_fixed_part r ++ entries ++ u ++ cmt ++ UINT32ENCODE sum in
  let n := Z.of_nat (length l) in
  let us := username_size r in
  let cs := comment_size r in
  take (Z.to_nat us) (drop (Z.to_nat (72 + 20 * n)) buf) = u /\
  take (Z.to_nat cs) (drop (Z.to_nat (72 + 20 * n + us)) buf) = cmt /\
  checksum cksum buf (72 + 20 * n + us + cs) = sum /\
  UINT32DECODE (bytes_at buf (72 + 20 * n + us + cs) 4) = sum.
Proof.
  intros Hin k entries cmt sum buf n us cs.
  pose proof Hin as (Hv & Hid & Hpar & Ht & Heof & Huid & Hk & Hl & Hn & Hmax
                     & Hr & Hu & Hus & Husl & Hcs & Hcsl & Hc0).
  pose proof (record_fixed_part_length r Ht) as Hf.
  assert (He : length entries = Z.to_nat (20 * n)).
  { unfold entries.
    rewrite (concat_encode_length _ 20) by apply encode_index_entry_length.
    unfold n. lia. }
  assert (Hs32 : sum mod 2 ^ 32 = sum).
  { unfold sum, u32. apply Z.mod_mod. lia. }
  fold cmt in Hcsl. fold us in Husl. fold cs in Hcsl.
  unfold buf. split_and!.
  - rewrite (assoc_L (++) (record_fixed_part r)).
    rewrite drop_app_length' by (rewrite length_app, Hf, He; lia).
    apply take_app_length'. lia.
  - rewrite (assoc_L (++) (record_fixed_part r)), (assoc_L (++) (_ ++ _) u).
    rewrite drop_app_length' by (rewrite !length_app, Hf, He; lia).
    apply take_app_length'. lia.
  - unfold checksum. rewrite !(assoc_L (++)).
    rewrite take_app_length' by (rewrite !length_app, Hf, He; lia).
    rewrite <- !(assoc_L (++)). reflexivity.
  - rewrite !(assoc_L (++)).
    rewrite <- (app_nil_r (UINT32ENCODE sum)).
    rewrite bytes_at_app_here.
    + unfold UINT32DECODE, UINT32ENCODE.
      rewrite le_encode_take, le_decode_encode by lia. exact Hs32.
    + rewrite !length_app, Hf, He. lia.
    + unfold UINT32ENCODE. rewrite le_encode_length. reflexivity.
Qed.

Ltac rec_cbn :=
  cbn [rec_set_ids rec_set_time_logi_eof rec_set_user_id rec_set_username
       rec_set_comment rec_set_archival_index rec_set_checksum
       aix_set_page_size_log2 aix_set_n_entries aix_set_list
       rec_magic rec_version revision_id parent_revision_id time_of_creation
       rec_logi_eof user_id username_size comment_size archival_index
       username comment rec_checksum
       aix_magic aix_version aix_page_size_log2 aix_n_entries aix_list
       negb].

(** The first decoding pass over an encoded record. *)
Lemma record_decode_first_pass r l u r0 :
  revision_record_in_range r l u ->
  aix_n_entries (archival_index r0) = 0 ->
  username_size r0 = 0 -> username r0 = None ->
  comment_size r0 = 0 -> comment r0 = None ->
  H5FD_onion_revision_record_decode cksum (encoded_revision_record cksum r) r0
  = (76 + 20 * Z.of_nat (length l) + username_size r + comment_size r,
     {| rec_magic := rec_magic r0;
        rec_version := rec_version r0;
        revision_id := revision_id r;
        parent_revision_id := parent_revision_id r;
        time_of_creation := time_of_creation r;
        rec_logi_eof := rec_logi_eof r;
        user_id := user_id r;
        username_size := username_size r;
        comment_size := comment_size r;
        archival_index :=
          {| aix_magic := aix_magic (archival_index r0);
             aix_version := aix_version (archival_index r0);
             aix_page_size_log2 := aix_page_size_log2 (archival_index r);
             aix_n_entries := Z.of_nat (length l);
             aix_list := aix_list (archival_index r0) |};
        username := None;
        comment := None;
        rec_checksum := snd (H5FD_onion_revision_record_encode cksum r) |}).
Proof.
  intros Hin Hn0 Hus0 Hu0 Hcs0 Hc0.
  unfold encoded_revision_record.
  rewrite (record_encode_shape r l u Hin). cbn [fst snd].
  set (k := aix_page_size_log2 (archival_index r)).
  set (entries := concat (map (encode_index_entry cksum k) l)).
  set (cmt := default [] (comment r)).
  set (sum := u32 (cksum _)).
  destruct (record_fixed_part_fields r l u
              (entries ++ u ++ cmt ++ UINT32ENCODE sum) Hin)
    as (Hsig & Hver & Hid & Hpar & Htime & Heof & Hps & Huid & Hn & Hus & Hcs).
  destruct (record_tail_fields r l u Hin) as (Hun & Hcm & Hck & Hst).
  fold k entries cmt sum in Hun, Hcm, Hck, Hst, Hps.
  set (buf := record_fixed_part r ++ entries ++ u ++ cmt ++ UINT32ENCODE sum)
    in *.
  assert (Hk : 0 <= k < 32) by (unfold k; destruct Hin; lia).
  destruct (page_size_cases k Hk) as [Hlog Hpow].
  assert (Hnz : (2 ^ k =? 0) = false).
  { apply Z.eqb_neq. assert (0 < 2 ^ k) by (apply Z.pow_pos_nonneg; lia). lia. }
  unfold H5FD_onion_revision_record_decode.
  rewrite Hsig, Hver. cbn [negb]. change (1 =? 1) with true. cbn [negb].
  cbv zeta.
  rewrite Hid, Hpar, Htime, Heof, Hps, Huid, Hn, Hus, Hcs.
  rewrite Hnz, Hpow, Hlog. cbn [negb].
  destruct r0 as [m v i p t le ui us0 cs0 [am av ak an al] un0 cm0 c0].
  cbn [aix_n_entries archival_index username_size username comment_size
       comment] in Hn0, Hus0, Hu0, Hcs0, Hc0.
  subst an us0 un0 cs0 cm0.
  assert (Hskip : skip_entries buf 72 H5FD__ONION_ENCODED_SIZE_INDEX_ENTRY
                    (Z.of_nat (length l))
                  = 72 + 20 * Z.of_nat (length l)).
  { apply skip_entries_inside. unfold buf, entries.
    rewrite !length_app, (record_fixed_part_length r)
      by (destruct Hin; tauto).
    rewrite (concat_encode_length _ 20) by apply encode_index_entry_length.
    unfold H5FD__ONION_ENCODED_SIZE_INDEX_ENTRY. lia. }
  rec_cbn. change (0 =? 0) with true. cbv iota. rec_cbn.
  change (0 =? 0) with true. cbv iota. rec_cbn.
  rewrite Hskip.
  rewrite Hck, Hst, (Z.eqb_refl sum). cbn [negb].
  f_equal. lia.
Qed.

(** The second decoding pass: the lists and buffers are allocated with the
    sizes that the first pass has found. *)
Lemma record_decode_second_pass r l u r1 la ua :
  revision_record_in_range r l u ->
  aix_n_entries (archival_index r1) = Z.of_nat (length l) ->
  aix_list (archival_index r1) = Some la -> length la = length l ->
  username_size r1 = username_size r ->
  username r1 = Some ua -> length ua = length u ->
  comment_size r1 = comment_size r ->
  (comment_size r = 0 -> comment r1 = None) ->
  (comment_size r <> 0 ->
   exists ca, comment r1 = Some ca
              /\ length ca = length (default [] (comment r))) ->
  H5FD_onion_revision_record_decode cksum (encoded_revision_record cksum r) r1
  = (76 + 20 * Z.of_nat (length l) + username_size r + comment_size r,
     {| rec_magic := rec_magic r1;
        rec_version := rec_version r1;
        revision_id := revision_id r;
        parent_revision_id := parent_revision_id r;
        time_of_creation := time_of_creation r;
        rec_logi_eof := rec_logi_eof r;
        user_id := user_id r;
        username_size := username_size r;
        comment_size := comment_size r;
        archival_index :=
          {| aix_magic := aix_magic (archival_index r1);
             aix_version := aix_version (archival_index r1);
             aix_page_size_log2 := aix_page_size_log2 (archival_index r);
             aix_n_entries := Z.of_nat (length l);
             aix_list := Some l |};
        username := Some u;
        comment := comment r;
        rec_checksum := snd (H5FD_onion_revision_record_encode cksum r) |}).
Proof.
  intros Hin Hn1 Hl1 Hla Hus1 Hu1 Hua Hcs1 Hc10 Hc1.
  unfold encoded_revision_record.
  rewrite (record_encode_shape r l u Hin). cbn [fst snd].
  set (k := aix_page_size_log2 (archival_index r)).
  set (entries := concat (map (encode_index_entry cksum k) l)).
  set (cmt := default [] (comment r)).
  set (sum := u32 (cksum _)).
  destruct (record_fixed_part_fields r l u
              (entries ++ u ++ cmt ++ UINT32ENCODE sum) Hin)
    as (Hsig & Hver & Hid & Hpar & Htime & Heof & Hps & Huid & Hn & Hus & Hcs).
  destruct (record_tail_fields r l u Hin) as (Hun & Hcm & Hck & Hst).
  fold k entries cmt sum in Hun, Hcm, Hck, Hst, Hps.
  pose proof (decode_index_entries_encoded k l (record_fixed_part r)
                (u ++ cmt ++ UINT32ENCODE sum) [] la) as Hent.
  fold entries in Hent.
  set (buf := record_fixed_part r ++ entries ++ u ++ cmt ++ UINT32ENCODE sum)
    in *.
  pose proof Hin as (Hv & _ & _ & Ht & _ & _ & Hk' & Hl & Hnn & Hmax & Hr
                     & Hu & Husr & Husl & Hcsr & Hcsl & Hc0).
  fold k in Hk', Hr. fold cmt in Hcsl.
  assert (Hk : 0 <= k < 32) by lia.
  specialize (Hent Hk ltac:(lia) Hr).
  rewrite (record_fixed_part_length r Ht) in Hent.
  cbn [length app] in Hent. change (Z.of_nat 0) with 0 in Hent.
  change (Z.of_nat 72) with 72 in Hent.
  rewrite drop_ge, app_nil_r in Hent by lia.
  destruct (page_size_cases k Hk) as [Hlog Hpow].
  assert (Hnz : (2 ^ k =? 0) = false).
  { apply Z.eqb_neq. assert (0 < 2 ^ k) by (apply Z.pow_pos_nonneg; lia). lia. }
  unfold H5FD_onion_revision_record_decode.
  rewrite Hsig, Hver. cbn [negb]. change (1 =? 1) with true. cbn [negb].
  cbv zeta.
  rewrite Hid, Hpar, Htime, Heof, Hps, Huid, Hn, Hus, Hcs.
  rewrite Hnz, Hpow, Hlog. cbn [negb].
  destruct r1 as [m v i p t le ui us1 cs1 [am av ak an al] un1 cm1 c1].
  cbn [aix_n_entries aix_list archival_index username_size username
       comment_size comment] in Hn1, Hl1, Hus1, Hu1, Hcs1, Hc10, Hc1.
  subst an al us1 un1 cs1.
  rec_cbn.
  unfold H5FD__ONION_ENCODED_SIZE_INDEX_ENTRY.
  assert (Hmu : memcpy_into ua
                  (drop (Z.to_nat (72 + 20 * Z.of_nat (length l))) buf)
                  (username_size r) = u).
  { unfold memcpy_into. rewrite Hun, drop_ge, app_nil_r by lia. reflexivity. }
  assert (Hmc : forall ca, length ca = length cmt ->
            memcpy_into ca
              (drop (Z.to_nat (72 + 20 * Z.of_nat (length l)
                               + username_size r)) buf)
              (comment_size r) = cmt).
  { intros ca Hca. unfold memcpy_into.
    rewrite Hcm, drop_ge, app_nil_r by lia. reflexivity. }
  assert (Hskip : skip_entries buf 72 20 (Z.of_nat (length l))
                  = 72 + 20 * Z.of_nat (length l)).
  { apply skip_entries_inside. unfold buf, entries.
    rewrite !length_app, (record_fixed_part_length r Ht).
    rewrite (concat_encode_length _ 20) by apply encode_index_entry_length.
    lia. }
  destruct (Z.eqb_spec (username_size r) 0) as [|_]; [lia|].
  destruct (Z.eqb_spec (Z.of_nat (length l)) 0) as [Hn0|Hn0].
  - (* no entries: the list is left as it is *)
    rewrite Hskip.
    assert (l = []) as -> by (destruct l; [done|simpl in *; lia]).
    assert (la = []) as -> by (destruct la; [done|simpl in *; lia]).
    rec_cbn.
    destruct (Z.eqb_spec (username_size r) 0) as [|_]; [lia|].
    rec_cbn. rewrite Hmu.
    destruct (Z.eqb_spec (comment_size r) 0) as [Hc|Hc].
    + rewrite (Hc10 Hc), (Hc0 Hc). rec_cbn.
      rewrite Hck, Hst, (Z.eqb_refl sum). cbn [negb]. f_equal. simpl. lia.
    + destruct (Hc1 Hc) as (ca & -> & Hca). rec_cbn.
      rewrite (Hmc ca Hca), Hck, Hst, (Z.eqb_refl sum). cbn [negb].
      f_equal; [simpl; lia|]. f_equal. unfold cmt in *.
      destruct (comment r); [reflexivity|simpl in *; lia].
  - rewrite (Z.eqb_refl (Z.of_nat (length l))). cbn [negb].
    rewrite Nat2Z.id, Hent. rec_cbn.
    destruct (Z.eqb_spec (username_size r) 0) as [|_]; [lia|].
    rec_cbn. rewrite Hmu.
    destruct (Z.eqb_spec (comment_size r) 0) as [Hc|Hc].
    + rewrite (Hc10 Hc), (Hc0 Hc). rec_cbn.
      rewrite Hck, Hst, (Z.eqb_refl sum). cbn [negb]. f_equal. lia.
    + destruct (Hc1 Hc) as (ca & -> & Hca). rec_cbn.
      rewrite (Hmc ca Hca), Hck, Hst, (Z.eqb_refl sum). cbn [negb].
      f_equal; [lia|]. f_equal. unfold cmt in *.
      destruct (comment r); [reflexivity|simpl in *; lia].
Qed.

End RecordRoundTrip.


Section CodecRoundTrips.
Variable cksum : list Z -> Z.

(** X14.  The header encoder writes 40 bytes, and the decoder
    gives back every field of a header whose flags fit three bytes and
    whose other fields fit four bytes. *)
Theorem header_round_trip (h h0 : H5FD__onion_history_header) :
  header_in_range h ->
  H5FD_onion_history_header_encode cksum h
  = (40, encoded_header cksum h,
     snd (H5FD_onion_history_header_encode cksum h)) /\
  length (encoded_header cksum h) = 40%nat /\
  H5FD_onion_history_header_decode cksum (encoded_header cksum h) h0
  = (40,
     {| hdr_magic := hdr_magic h0;
        hdr_version := hdr_version h0;
        hdr_flags := hdr_flags h;
        hdr_page_size := hdr_page_size h;
        hdr_origin_eof := hdr_origin_eof h;
        hdr_whole_history_addr := hdr_whole_history_addr h;
        hdr_whole_history_size := hdr_whole_history_size h;
        hdr_checksum := snd (H5FD_onion_history_header_encode cksum h) |}).
Proof.
  intros (Hv & Hf & Hp & Ho & Ha & Hs).
  destruct (header_encode_size cksum h) as [He Hl].
  split; [exact He|]. split; [exact Hl|].
  unfold encoded_header. rewrite (header_decode_encode cksum h h0 Hv).
  rewrite !Z.mod_small by assumption. reflexivity.
Qed.

(** The two decoding passes on an encoded record. *)
Lemma record_decode_two_passes (r r0 : H5FD__onion_revision_record)
  (l : list H5FD__onion_index_entry) (u : list Z) :
  revision_record_in_range r l u ->
  aix_n_entries (archival_index r0) = 0 ->
  username_size r0 = 0 -> username r0 = None ->
  comment_size r0 = 0 -> comment r0 = None ->
  let buf := encoded_revision_record cksum r in
  let size :=
    76 + 20 * Z.of_nat (length l) + username_size r + comment_size r in
  let first_pass := H5FD_onion_revision_record_decode cksum buf r0 in
  fst (fst (H5FD_onion_revision_record_encode cksum r)) = size /\
  Z.of_nat (length buf) = size /\
  fst first_pass = size /\
  H5FD_onion_revision_record_decode cksum buf
    (alloc_for_second_pass (snd first_pass))
  = (size,
     {| rec_magic := rec_magic r0;
        rec_version := rec_version r0;
        revision_id := revision_id r;
        parent_revision_id := parent_revision_id r;
        time_of_creation := time_of_creation r;
        rec_logi_eof := rec_logi_eof r;
        user_id := user_id r;
        username_size := username_size r;
        comment_size := comment_size r;
        archival_index :=
          {| aix_magic := aix_magic (archival_index r0);
             aix_version := aix_version (archival_index r0);
             aix_page_size_log2 := aix_page_size_log2 (archival_index r);
             aix_n_entries := Z.of_nat (length l);
             aix_list := Some l |};
        username := Some u;
        comment := comment r;
        rec_checksum := snd (H5FD_onion_revision_record_encode cksum r) |}).
Proof.
  intros Hin Hn0 Hus0 Hu0 Hcs0 Hc0 buf size first_pass.
  pose proof (record_encode_shape cksum r l u Hin) as Henc.
  cbv zeta in Henc.
  pose proof (record_decode_first_pass cksum r l u r0 Hin Hn0 Hus0 Hu0 Hcs0
                Hc0) as Hp1.
  fold buf size in Hp1.
  pose proof Hin as (Hv & _ & _ & Ht & _ & _ & Hk & Hl & Hnn & Hmax & Hr
                     & Hu & Husr & Husl & Hcsr & Hcsl & Hc00).
  split; [rewrite Henc; reflexivity|]. split.
  { unfold buf, encoded_revision_record. rewrite Henc. cbn [fst snd].
    rewrite !length_app, (record_fixed_part_length r Ht).
    rewrite (concat_encode_length _ 20)
      by apply (encode_index_entry_length cksum).
    unfold UINT32ENCODE. rewrite le_encode_length. unfold size. lia. }
  unfold first_pass. rewrite Hp1. cbn [fst snd]. split; [reflexivity|].
  unfold alloc_for_second_pass.
  cbn [username_size comment_size archival_index aix_n_entries
       rec_set_username rec_set_comment].
  set (r1 := rec_set_archival_index _ _).
  unfold buf, size.
  rewrite (record_decode_second_pass cksum r l u r1
             (replicate (length l) entry_zero)
             (replicate (length u) 0) Hin).
  - unfold r1. destruct (comment_size r >? 0); reflexivity.
  - unfold r1. destruct (comment_size r >? 0); reflexivity.
  - unfold r1. destruct (comment_size r >? 0);
      cbn [rec_set_archival_index archival_index aix_set_list aix_list
           aix_n_entries];
      rewrite Nat2Z.id; reflexivity.
  - apply length_replicate.
  - unfold r1. destruct (comment_size r >? 0); reflexivity.
  - unfold r1. rewrite Husl, Nat2Z.id.
    destruct (comment_size r >? 0); reflexivity.
  - apply length_replicate.
  - unfold r1. destruct (comment_size r >? 0); reflexivity.
  - intros Hc. unfold r1. rewrite Hc. reflexivity.
  - intros Hc. unfold r1.
    destruct (Z.gtb_spec (comment_size r) 0); [|lia].
    eexists. split; [reflexivity|]. rewrite length_replicate. lia.
Qed.

(** X15.  H5FD_onion_revision_record_decode reads back what
    H5FD_onion_revision_record_encode has written, in the two passes of
    H5FD__onion_injest_revision_record: the first pass, on a record
    structure without buffers, returns the encoded size,
    [76 + 20 * n_entries + username_size + comment_size]; the second pass,
    after the allocations, returns the same size and the record with the
    index entries, the user name and the comment of the encoded one. *)
Theorem revision_record_round_trip (r r0 : H5FD__onion_revision_record)
  (l : list H5FD__onion_index_entry) (u : list Z) :
  revision_record_in_range r l u ->
  aix_n_entries (archival_index r0) = 0 ->
  username_size r0 = 0 -> username r0 = None ->
  comment_size r0 = 0 -> comment r0 = None ->
  let buf := encoded_revision_record cksum r in
  let size :=
    76 + 20 * Z.of_nat (length l) + username_size r + comment_size r in
  let first_pass := H5FD_onion_revision_record_decode cksum buf r0 in
  fst (fst (H5FD_onion_revision_record_encode cksum r)) = size /\
  Z.of_nat (length buf) = size /\
  fst first_pass = size /\
  H5FD_onion_revision_record_decode cksum buf
    (alloc_for_second_pass (snd first_pass))
  = (size,
     {| rec_magic := rec_magic r0;
        rec_version := rec_version r0;
        revision_id := revision_id r;
        parent_revision_id := parent_revision_id r;
        time_of_creation := time_of_creation r;
        rec_logi_eof := rec_logi_eof r;
        user_id := user_id r;
        username_size := username_size r;
        comment_size := comment_size r;
        archival_index :=
          {| aix_magic := aix_magic (archival_index r0);
             aix_version := aix_version (archival_index r0);
             aix_page_size_log2 := aix_page_size_log2 (archival_index r);
             aix_n_entries := Z.of_nat (length l);
             aix_list := Some l |};
        username := Some u;
        comment := comment r;
        rec_checksum := snd (H5FD_onion_revision_record_encode cksum r) |}).
Proof. exact (record_decode_two_passes r r0 l u). Qed.

End CodecRoundTrips.

Lemma header_round_trip_witness :
  length (encoded_header fletcher32 (fabricated_header (sample_fapl 0)))
  = 40%nat.
Proof.
  apply (header_round_trip fletcher32 (fabricated_header (sample_fapl 0))
           header_blank).
  unfold header_in_range.
  split_and!; try reflexivity;
    (apply Z.leb_le || apply Z.ltb_lt); vm_compute; reflexivity.
Defined.

Lemma sample_record_in_range :
  revision_record_in_range sample_record [entry 1 40; entry 2 552]
    [117; 115; 101; 114; 0].
Proof.
  unfold revision_record_in_range.
  split_and!; try reflexivity;
    try ((apply Z.leb_le || apply Z.ltb_lt); vm_compute; reflexivity).
  repeat constructor;
    (apply Z.leb_le || apply Z.ltb_lt); vm_compute; reflexivity.
Defined.

Lemma revision_record_round_trip_witness :
  Z.of_nat (length (encoded_revision_record fletcher32 sample_record))
  = 76 + 20 * Z.of_nat 2 + 5 + 0.
Proof.
  apply (revision_record_round_trip fletcher32 sample_record
           (rev_record file_calloc) [entry 1 40; entry 2 552]
           [117; 115; 101; 114; 0] sample_record_in_range);
    reflexivity.
Defined.


Lemma archival_index_find_sound_witness :
  logi_page (entry 5 1576) = 5
  /\ entry 5 1576 ∈ take (Z.to_nat (aix_n_entries three_page_archive))
                      [entry 2 1064; entry 5 1576; entry 9 2088].
Proof.
  apply (archival_index_find_sound three_page_archive
           [entry 2 1064; entry 5 1576; entry 9 2088] 5 (entry 5 1576));
    [reflexivity | vm_compute; discriminate | vm_compute; split; [discriminate|reflexivity]
    | vm_compute; reflexivity].
Defined.

Lemma archival_index_find_complete_witness :
  H5FD_onion_archival_index_find three_page_archive (logi_page (entry 9 2088))
  = Some (entry 9 2088).
Proof.
  apply (archival_index_find_complete three_page_archive
           [entry 2 1064; entry 5 1576; entry 9 2088] (entry 9 2088));
    [vm_compute; reflexivity | reflexivity | vm_compute; discriminate
    | vm_compute; split; [discriminate|reflexivity]
    | vm_compute; repeat constructor].
Defined.

Lemma fresh_index_ok : revision_index_ok fresh_index.
Proof.
  unfold revision_index_ok.
  split_and!; vm_compute; first [reflexivity | discriminate].
Defined.

Lemma revision_index_insert_then_find_witness :
  H5FD_onion_revision_index_find
    (snd (H5FD_onion_revision_index_insert fresh_index (entry 1 40)))
    (logi_page (entry 1 40)) = Some (entry 1 40)
  /\ revision_index_ok
       (snd (H5FD_onion_revision_index_insert fresh_index (entry 1 40))).
Proof.
  apply (revision_index_insert_then_find fresh_index _ (entry 1 40)
           fresh_index_ok); vm_compute; reflexivity.
Defined.

Lemma revision_index_insert_keeps_other_pages_witness :
  H5FD_onion_revision_index_find
    (snd (H5FD_onion_revision_index_insert two_page_index (entry 1025 1064)))
    1
  = H5FD_onion_revision_index_find two_page_index 1.
Proof.
  apply (revision_index_insert_keeps_other_pages two_page_index _
           (entry 1025 1064) 1).
  - unfold revision_index_ok.
    split_and!; vm_compute; first [reflexivity | discriminate].
  - vm_compute; reflexivity.
  - vm_compute; reflexivity.
  - vm_compute; reflexivity.
  - vm_compute; reflexivity.
  - vm_compute; discriminate.
Defined.

Lemma revision_index_resize_keeps_every_node_witness :
  concat (_hash_table (H5FD__onion_revision_index_resize two_page_index))
    ≡ₚ concat (_hash_table two_page_index)
  /\ _hash_table_size (H5FD__onion_revision_index_resize two_page_index)
     = 2 * _hash_table_size two_page_index
  /\ length (_hash_table (H5FD__onion_revision_index_resize two_page_index))
     = Z.to_nat (2 * _hash_table_size two_page_index)
  /\ rix_n_entries (H5FD__onion_revision_index_resize two_page_index)
     = rix_n_entries two_page_index.
Proof.
  apply (revision_index_resize_keeps_every_node two_page_index).
  - unfold revision_index_ok.
    split_and!; vm_compute; first [reflexivity | discriminate].
  - vm_compute; reflexivity.
Defined.

Lemma revision_index_init_fresh_witness :
  POWER_OF_TWO 512 = true
  /\ revision_index_ok fresh_index
  /\ _hash_table fresh_index = replicate 1024 []
  /\ _hash_table_size fresh_index = 2 ^ 10
  /\ _hash_table_size_log2 fresh_index = 10
  /\ _hash_table_n_keys_populated fresh_index = 0
  /\ rix_n_entries fresh_index = 0
  /\ 2 ^ rix_page_size_log2 fresh_index = 512
  /\ H5FD_onion_revision_index_find fresh_index 7 = None.
Proof.
  apply (revision_index_init_fresh 512 fresh_index 7);
    vm_compute; first [reflexivity | split; reflexivity].
Defined.

Lemma merge_result_is_sorted_and_keeps_live_entries_witness :
  exists merged,
    aix_list (snd (H5FD_onion_merge_revision_index_into_archival_index
                     two_page_index three_page_archive)) = Some merged
    /\ pages_nondecreasing merged.
Proof.
  destruct (merge_result_is_sorted_and_keeps_live_entries two_page_index
              three_page_archive
              (snd (H5FD_onion_merge_revision_index_into_archival_index
                      two_page_index three_page_archive))
              [entry 2 1064; entry 5 1576; entry 9 2088]
              eq_refl ltac:(vm_compute; discriminate)
              ltac:(vm_compute; reflexivity))
    as (merged & Hl & _ & _ & Hs & _).
  exists merged. split; assumption.
Defined.

Lemma merge_of_several_pages_is_valid_witness :
  H5FD_onion_archival_index_is_valid
    (snd (H5FD_onion_merge_revision_index_into_archival_index
            two_page_index three_page_archive)) = true.
Proof.
  apply (merge_of_several_pages_is_valid two_page_index three_page_archive
           _ [entry 2 1064; entry 5 1576; entry 9 2088]).
  - vm_compute; reflexivity.
  - reflexivity.
  - vm_compute. split; discriminate.
  - change (NoDup [1; 2]). apply (bool_decide_unpack _). vm_compute. exact I.
  - vm_compute. repeat constructor.
  - vm_compute. reflexivity.
  - vm_compute. discriminate.
  - vm_compute. reflexivity.
Defined.

Lemma injest_whole_history_round_trip_witness :
  H5FD__onion_injest_whole_history fletcher32 whs_blank
    {| fd_name := "f.h5.onion"; fd_eoa := 0 |} 40
    (20 + 20 * Z.of_nat 1) history_at_40
  = (SUCCEED,
     {| whs_magic := whs_magic whs_blank; whs_version := whs_version whs_blank;
        whs_n_revisions := Z.of_nat 1;
        whs_record_pointer_list :=
          Some [{| rp_phys_addr := 552; rp_record_size := 100;
                   rp_checksum := 0 |}];
        whs_checksum :=
          snd (H5FD_onion_whole_history_encode fletcher32
                 whole_history_bad_entry) |},
     {| fd_name := "f.h5.onion"; fd_eoa := 40 + (20 + 20 * Z.of_nat 1) |}).
Proof.
  apply (injest_whole_history_round_trip fletcher32 "f.h5.onion" 0 40
           history_at_40 (replicate 40 0 ++ bad_entry_buffer)
           whole_history_bad_entry whs_blank
           [{| rp_phys_addr := 552; rp_record_size := 100;
               rp_checksum := 0 |}]).
  - reflexivity.
  - reflexivity.
  - reflexivity.
  - vm_compute; reflexivity.
  - repeat constructor; vm_compute; try reflexivity; discriminate.
  - reflexivity.
  - discriminate.
  - vm_compute; reflexivity.
  - reflexivity.
Defined.

(** *** Opening without write access *)

Lemma keeps_store_bind {A B} (c : M A) (k : A -> M B) :
  keeps_store c -> (forall a, keeps_store (k a)) -> keeps_store (M_bind c k).
Proof.
  intros Hc Hk s. unfold M_bind. specialize (Hc s).
  destruct (c s) as [[e|a] s']; [exact Hc|].
  rewrite Hk. exact Hc.
Qed.

Lemma keeps_store_ret {A} (a : A) : keeps_store (M_ret a).
Proof. intros s. reflexivity. Qed.

Lemma keeps_store_error {A} maj min : keeps_store (@HGOTO_ERROR A maj min).
Proof. intros s. reflexivity. Qed.

Lemma keeps_store_update g : keeps_store (update g).
Proof. intros s. reflexivity. Qed.

Lemma keeps_store_get_file : keeps_store get_file.
Proof. intros s. reflexivity. Qed.

Lemma keeps_store_get_fs : keeps_store get_fs.
Proof. intros s. reflexivity. Qed.

Lemma keeps_store_fail_if c maj min : keeps_store (fail_if c maj min).
Proof. intros s. destruct c; reflexivity. Qed.

Lemma keeps_store_or_fail {A} (o : option A) maj min :
  keeps_store (or_fail o maj min).
Proof. intros s. destruct o; reflexivity. Qed.

Lemma keeps_store_open_backing name flags :
  has_flag flags H5F_ACC_CREAT = false ->
  has_flag flags H5F_ACC_TRUNC = false ->
  keeps_store (open_backing name flags).
Proof.
  intros Hc Ht s. unfold open_backing, H5FD_open. rewrite Hc, Ht.
  destruct (snd s !! name); reflexivity.
Qed.

Lemma has_flag_lor_false flags a b :
  has_flag flags a = false -> has_flag flags b = false ->
  has_flag flags (Z.lor a b) = false.
Proof.
  unfold has_flag. rewrite !negb_false_iff, !Z.eqb_eq.
  rewrite Z.land_lor_distr_r. intros -> ->. reflexivity.
Qed.

Ltac keeps_store_step :=
  first
    [ apply keeps_store_bind; [|intros]
    | apply keeps_store_ret
    | apply keeps_store_error
    | apply keeps_store_update
    | apply keeps_store_get_file
    | apply keeps_store_get_fs
    | apply keeps_store_fail_if
    | apply keeps_store_or_fail
    | apply keeps_store_open_backing; assumption
    | match goal with
      | |- keeps_store (match ?e with _ => _ end) => destruct e
      end ].

Section ReadOnlyOpen.
Variable cksum : list Z -> Z.

Lemma open_existing_keeps_store env filename name_onion name_recovery flags :
  has_flag flags H5F_ACC_RDWR = false ->
  has_flag flags H5F_ACC_CREAT = false ->
  has_flag flags H5F_ACC_TRUNC = false ->
  keeps_store
    (open_existing cksum env filename name_onion name_recovery flags).
Proof.
  intros Hrw Hc Ht. unfold open_existing.
  unfold mbind, M_mbind, mret, M_mret. rewrite Hrw. cbv iota.
  repeat keeps_store_step.
Qed.

(** X16.  An open without write access never changes the backing
    store: when the flags hold neither H5F_ACC_RDWR nor H5F_ACC_CREAT and
    H5F_ACC_TRUNC, H5FD__onion_open leaves every file as it is, whether the
    open succeeds or fails and whatever the files hold. *)
Theorem read_only_open_keeps_store (env : environment) (filename : string)
  (flags : Z) (fapl : option H5FD_onion_fapl_info_t) (fs : filesystem) :
  has_flag flags H5F_ACC_RDWR = false ->
  has_flag flags (Z.lor H5F_ACC_CREAT H5F_ACC_TRUNC) = false ->
  snd (H5FD__onion_open cksum env filename flags fapl fs) = fs.
Proof.
  intros Hrw Hct. pose proof (has_flag_lor _ _ _ Hct) as [Hc Ht].
  unfold H5FD__onion_open.
  destruct (H5Pget_fapl_onion fapl) as [fa_|]; [|reflexivity].
  destruct (store_target fa_); try reflexivity.
  assert (Hk : keeps_store (open_body cksum env filename flags fa_)).
  { unfold open_body. unfold mbind, M_mbind, mret, M_mret.
    rewrite Hct, (has_flag_lor_false _ _ _ Hrw Hct). cbv iota.
    repeat first [ apply open_existing_keeps_store; assumption
                 | keeps_store_step ]. }
  specialize (Hk (file_calloc, fs)).
  destruct (open_body cksum env filename flags fa_ (file_calloc, fs))
    as [[e|[]] [f fs']]; exact Hk.
Qed.

End ReadOnlyOpen.

Lemma read_only_open_keeps_store_witness :
  snd (H5FD__onion_open fletcher32 sample_env "f.h5" H5F_ACC_RDONLY
         (Some latest_fapl) unwritten_store) = unwritten_store.
Proof.
  apply (read_only_open_keeps_store fletcher32 sample_env "f.h5"
           H5F_ACC_RDONLY (Some latest_fapl) unwritten_store);
    reflexivity.
Defined.

(** *** Creating a file *)

Lemma string_length_app (a b : string) :
  String.length (a +:+ b) = (String.length a + String.length b)%nat.
Proof. induction a as [|c a IH]; simpl; [reflexivity|]. rewrite IH. reflexivity. Qed.

Lemma backing_names_differ (filename : string) :
  let name_onion := (filename +:+ ".onion")%string in
  let name_recovery := (name_onion +:+ ".recovery")%string in
  name_onion <> filename /\ name_recovery <> filename
  /\ name_recovery <> name_onion.
Proof.
  intros name_onion name_recovery. split_and!.
  - apply append_neq. discriminate.
  - intros H. apply (f_equal String.length) in H.
    unfold name_recovery, name_onion in H.
    rewrite !string_length_app in H. simpl in H. lia.
  - apply append_neq. discriminate.
Qed.

Lemma has_flag_lor_mask_r flags more mask :
  has_flag flags mask = true -> has_flag flags (Z.lor more mask) = true.
Proof.
  unfold has_flag. rewrite !negb_true_iff, !Z.eqb_neq.
  rewrite Z.land_lor_distr_r. intros Hm H.
  apply Z.lor_eq_0_iff in H. tauto.
Qed.

Section Creating.
Variable cksum : list Z -> Z.

Lemma create_exact (env : environment) (filename : string)
  (flags : Z) (fa_ : H5FD_onion_fapl_info_t) (fs : filesystem)
  (pw_name : list Z) (rix : H5FD__onion_revision_index_t) :
  fa_magic fa_ = H5FD_ONION_FAPL_INFO_MAGIC ->
  store_target fa_ = H5FD_ONION_STORE_TARGET_ONION ->
  H5FD_onion_revision_index_init (fa_page_size fa_) = Some rix ->
  env_pw_name env = Some pw_name ->
  get_legit_fapl_id (backing_fapl_id fa_) <> None ->
  has_flag flags H5F_ACC_CREAT = true ->
  has_flag flags H5F_ACC_TRUNC = true ->
  let name_onion := (filename +:+ ".onion")%string in
  let name_recovery := (name_onion +:+ ".recovery")%string in
  H5FD__onion_open cksum env filename flags (Some fa_) fs
  = (inr (created_handle env filename fa_ pw_name
            (snd (H5FD_onion_history_header_encode cksum (created_header fa_)))
            (snd (H5FD_onion_whole_history_encode cksum whs_blank)) rix),
     <[name_onion := encoded_header cksum (created_header fa_)]>
       (<[name_recovery := encoded_whole_history cksum whs_blank]>
          (<[filename := ONIONEOF]> fs))).
Proof.
  intros Hmagic Htarget Hrix Hpw Hfapl Hcreat Htrunc name_onion name_recovery.
  destruct (backing_names_differ filename) as (Hof & Hrf & Hro).
  fold name_onion name_recovery in Hof, Hrf, Hro.
  remember (encoded_header cksum (created_header fa_)) as hbuf eqn:Hhbuf.
  remember (encoded_whole_history cksum whs_blank) as wbuf eqn:Hwbuf.
  destruct (header_encode_size cksum (created_header fa_)) as [Henc Hhlen].
  destruct (whole_history_encode_empty cksum whs_blank eq_refl)
    as [Hwenc Hwlen].
  rewrite <- Hhbuf in Henc, Hhlen. rewrite <- Hwbuf in Hwenc, Hwlen.
  remember (snd (H5FD_onion_history_header_encode cksum
                   (created_header fa_))) as hsum eqn:Hhsum.
  remember (snd (H5FD_onion_whole_history_encode cksum whs_blank))
    as wsum eqn:Hwsum.
  destruct (get_legit_fapl_id (backing_fapl_id fa_)) as [id|] eqn:Hid;
    [clear Hfapl|done].
  pose proof (has_flag_lor_l flags _ H5F_ACC_TRUNC Hcreat) as Hct.
  pose proof (has_flag_lor_mask_r flags H5F_ACC_RDWR _ Hct) as Hall0.
  assert (Hstore :
    <[name_onion := hbuf]>
      (<[name_recovery := wbuf]>
         (<[filename := ONIONEOF]>
            (<[name_recovery := []]>
               (<[name_onion := []]> (<[filename := []]> fs)))))
    = <[name_onion := hbuf]>
        (<[name_recovery := wbuf]> (<[filename := ONIONEOF]> fs))).
  { apply map_eq. intros k.
    clearbody name_recovery. clearbody name_onion.
    destruct (decide (k = name_onion)) as [->|];
      [by rewrite !lookup_insert_eq|].
    destruct (decide (k = name_recovery)) as [->|];
      [by repeat first [ rewrite lookup_insert_eq
                       | rewrite lookup_insert_ne by congruence ]|].
    destruct (decide (k = filename)) as [->|];
      by repeat first [ rewrite lookup_insert_eq
                      | rewrite lookup_insert_ne by congruence ]. }
  unfold created_handle.
  destruct (has_flag (creation_flags fa_)
              H5FD_ONION_FAPL_INFO_CREATE_FLAG_ENABLE_PAGE_ALIGNMENT)
    eqn:Hpa.
  all: unfold H5FD__onion_open, H5Pget_fapl_onion;
    rewrite Hmagic, Z.eqb_refl; cbn [negb]; rewrite Htarget;
    unfold open_body; rewrite Hct, Hall0, Hpa;
    msimpl;
    unfold reraise, H5FD__onion_create_truncate_onion, create_truncate_body;
    msimpl;
    unfold set_userinfo, H5FD__onion_set_userinfo_in_record; msimpl;
    rewrite Hpw; msimpl; rewrite Hid; msimpl;
    rewrite open_backing_create by assumption; msimpl;
    rewrite open_backing_create by assumption; msimpl;
    rewrite open_backing_create by assumption; msimpl2;
    fold name_onion name_recovery;
    unfold write_backing at 1; msimpl2;
    rewrite (H5FDwrite_front filename 8 8 ONIONEOF [])
      by first [ by rewrite !lookup_insert_ne, lookup_insert_eq by done
               | reflexivity | lia ];
    rewrite drop_nil, app_nil_r; msimpl2;
    change (Build_H5FD__onion_whole_history _ _ _ _ _) with whs_blank;
    rewrite Hwenc; unfold whs_blank; msimpl2;
    change (negb (H5FD__ONION_ENCODED_SIZE_WHOLE_HISTORY =? 20)) with false;
    msimpl2;
    unfold write_backing at 1; msimpl2;
    rewrite (H5FDwrite_front name_recovery 20 20 wbuf [])
      by first [ by rewrite lookup_insert_ne, lookup_insert_eq by done
               | lia ];
    rewrite drop_nil, app_nil_r; msimpl2;
    change (Build_H5FD__onion_history_header _ _ _ _ _ _ _ _)
      with (created_header fa_);
    rewrite Henc; unfold created_header; msimpl2;
    change (negb (H5FD__ONION_ENCODED_SIZE_HEADER =? 40)) with false;
    msimpl2;
    unfold write_backing at 1; msimpl2;
    rewrite (H5FDwrite_front name_onion 40 40 hbuf [])
      by first [ by rewrite !lookup_insert_ne, lookup_insert_eq by done
               | lia ];
    rewrite drop_nil, app_nil_r; msimpl2;
    unfold init_rev_index at 1; msimpl2;
    rewrite Hrix; msimpl2;
    rewrite copy_comment_step; msimpl2;
    rewrite Hstore; subst hsum wsum; destruct (fa_comment fa_);
    reflexivity.
Qed.

(** X17.  Creating a file: with both H5F_ACC_CREAT and H5F_ACC_TRUNC
    in the flags, a valid FAPL (onion target, power-of-two page size) and
    a known user, H5FD__onion_open succeeds whatever the store held under
    the three names.  Afterwards the canonical file holds the eight bytes
    "ONIONEOF", the recovery file the encoding of a whole-history without
    revisions, and the onion file the 40 bytes of a write-locked header
    that records the page size and the creation flags; the handle is open
    for writing on an empty logical file, with the history ending after
    the header (at the next page boundary when page alignment is asked
    for). *)
Theorem create_writes_three_files (env : environment) (filename : string)
  (flags : Z) (fa_ : H5FD_onion_fapl_info_t) (fs : filesystem)
  (pw_name : list Z) :
  fa_magic fa_ = H5FD_ONION_FAPL_INFO_MAGIC ->
  store_target fa_ = H5FD_ONION_STORE_TARGET_ONION ->
  POWER_OF_TWO (fa_page_size fa_) = true ->
  env_pw_name env = Some pw_name ->
  get_legit_fapl_id (backing_fapl_id fa_) <> None ->
  has_flag flags H5F_ACC_CREAT = true ->
  has_flag flags H5F_ACC_TRUNC = true ->
  let name_onion := (filename +:+ ".onion")%string in
  let name_recovery := (name_onion +:+ ".recovery")%string in
  exists file,
    H5FD__onion_open cksum env filename flags (Some fa_) fs
    = (inr file,
       <[name_onion := encoded_header cksum (created_header fa_)]>
         (<[name_recovery := encoded_whole_history cksum whs_blank]>
            (<[filename := ONIONEOF]> fs)))
    /\ is_open_rw file = true
    /\ logi_eof file = 0 /\ logi_eoa file = 0 /\ origin_eof file = 0
    /\ history_eof file
       = (if has_flag (creation_flags fa_)
               H5FD_ONION_FAPL_INFO_CREATE_FLAG_ENABLE_PAGE_ALIGNMENT
          then page_align 40 (fa_page_size fa_) else 40)
    /\ whs_n_revisions (summary file) = 0
    /\ aix_n_entries (archival_index (rev_record file)) = 0
    /\ rev_index file = H5FD_onion_revision_index_init (fa_page_size fa_)
    /\ hdr_flags (header file)
       = header_flags_of_creation H5FD__ONION_HEADER_FLAG_WRITE_LOCK
           (creation_flags fa_).
Proof.
  intros Hmagic Htarget Hps Hpw Hfapl Hcreat Htrunc name_onion name_recovery.
  destruct (revision_index_init_is_Some _ Hps) as [rix Hrix].
  eexists. split.
  { apply (create_exact env filename flags fa_ fs pw_name rix); assumption. }
  unfold created_handle.
  cbn [is_open_rw logi_eof logi_eoa origin_eof history_eof summary
       rev_record archival_index aix_n_entries rev_index header].
  split_conj; try reflexivity; try (symmetry; exact Hrix).
Qed.

End Creating.

Lemma create_writes_three_files_witness :
  exists file,
    H5FD__onion_open fletcher32 sample_env "f.h5"
      (Z.lor H5F_ACC_RDWR (Z.lor H5F_ACC_CREAT H5F_ACC_TRUNC))
      (Some latest_fapl) unwritten_store
    = (inr file,
       <[("f.h5" +:+ ".onion")%string :=
           encoded_header fletcher32 (created_header latest_fapl)]>
         (<[(("f.h5" +:+ ".onion") +:+ ".recovery")%string :=
              encoded_whole_history fletcher32 whs_blank]>
            (<["f.h5" := ONIONEOF]> unwritten_store)))
    /\ is_open_rw file = true
    /\ logi_eof file = 0 /\ logi_eoa file = 0 /\ origin_eof file = 0
    /\ history_eof file
       = (if has_flag (creation_flags latest_fapl)
               H5FD_ONION_FAPL_INFO_CREATE_FLAG_ENABLE_PAGE_ALIGNMENT
          then page_align 40 (fa_page_size latest_fapl) else 40)
    /\ whs_n_revisions (summary file) = 0
    /\ aix_n_entries (archival_index (rev_record file)) = 0
    /\ rev_index file
       = H5FD_onion_revision_index_init (fa_page_size latest_fapl)
    /\ hdr_flags (header file)
       = header_flags_of_creation H5FD__ONION_HEADER_FLAG_WRITE_LOCK
           (creation_flags latest_fapl).
Proof.
  apply (create_writes_three_files fletcher32 sample_env "f.h5"
           (Z.lor H5F_ACC_RDWR (Z.lor H5F_ACC_CREAT H5F_ACC_TRUNC))
           latest_fapl unwritten_store [117; 115; 101; 114]);
    first [ reflexivity | discriminate ].
Defined.

(** *** Writing a page and reading it back *)

Lemma insert_chain_fresh e chain :
  Forall (fun node => logi_page node <> logi_page e) chain ->
  exists chain', insert_chain e chain = inr (chain', true).
Proof.
  induction chain as [|node rest IH]; intros H.
  - eexists. reflexivity.
  - apply Forall_cons in H as [Hn Hr]. simpl.
    destruct (Z.eqb_spec (logi_page e) (logi_page node)); [congruence|].
    destruct (IH Hr) as [c' ->]. eexists. reflexivity.
Qed.

Lemma bucket_in_table (t : list (list H5FD__onion_index_entry)) key e :
  e ∈ bucket t key -> e ∈ concat t.
Proof.
  unfold bucket. destruct (t !! Z.to_nat key) as [c|] eqn:Hc; simpl.
  - intros He. apply list_elem_of_In, in_concat. exists c.
    split; apply list_elem_of_In; [|exact He].
    eapply list_elem_of_lookup_2; exact Hc.
  - intros He. by apply not_elem_of_nil in He.
Qed.

Lemma insert_fresh_succeeds rix e :
  revision_index_ok rix -> _hash_table_size_log2 rix < 63 ->
  rix_magic rix = H5FD__ONION_REVISION_INDEX_MAGIC ->
  rix_version rix = H5FD__ONION_REVISION_INDEX_VERSION_CURR ->
  (forall node, node ∈ concat (_hash_table rix) ->
                logi_page node <> logi_page e) ->
  exists rix', H5FD_onion_revision_index_insert rix e = (SUCCEED, rix').
Proof.
  intros Hok Hk Hm Hv Hfresh.
  unfold H5FD_onion_revision_index_insert.
  rewrite Hm, Hv, !Z.eqb_refl. cbn [negb]. cbv zeta.
  match goal with
  | |- context [if ?c then H5FD__onion_revision_index_resize rix else rix] =>
      set (rix1 := if c then H5FD__onion_revision_index_resize rix else rix)
  end.
  assert (Hfresh1 : forall node, node ∈ concat (_hash_table rix1) ->
                                 logi_page node <> logi_page e).
  { unfold rix1. destruct (_ || _); [|exact Hfresh].
    destruct (resize_spec rix Hok Hk) as (_ & _ & _ & _ & _ & _ & _ & Hp).
    intros node Hn. apply Hfresh. by rewrite <- Hp. }
  clearbody rix1.
  set (key := Z.land _ _).
  assert (Hb : Forall (fun node => logi_page node <> logi_page e)
                 (bucket (_hash_table rix1) key)).
  { apply Forall_forall. intros node Hn. apply Hfresh1.
    eapply bucket_in_table; exact Hn. }
  destruct (bucket (_hash_table rix1) key) as [|n0 c] eqn:Hbk;
    [eexists; reflexivity|].
  destruct (insert_chain_fresh e _ Hb) as [c' ->]. eexists. reflexivity.
Qed.

Lemma H5FD_write_then_read (h : H5FD_t) (addr size : Z) (buf data : list Z)
  (fs : filesystem) :
  fs !! fd_name h = Some data ->
  0 < size -> 0 <= addr -> addr + size <= fd_eoa h ->
  Z.of_nat (length buf) = size ->
  exists fs',
    H5FDwrite h addr size buf fs = Some fs'
    /\ H5FDread h addr size fs' = Some buf
    /\ is_Some (fs' !! fd_name h).
Proof.
  intros Hfs Hsize Haddr Heoa Hlen.
  unfold H5FDwrite, H5FDread. rewrite Hfs.
  destruct (Z.eqb_spec size 0); [lia|].
  destruct (Z.gtb_spec (addr + size) (fd_eoa h)); [lia|].
  eexists. split; [reflexivity|]. rewrite lookup_insert_eq.
  split; [|eexists; reflexivity]. f_equal.
  rewrite drop_app_length'
    by (rewrite length_take, length_app, length_replicate; lia).
  rewrite (take_ge buf) by lia.
  rewrite <- (assoc_L (++)). rewrite take_app_length' by lia. reflexivity.
Qed.

Lemma whole_page_geometry k p :
  0 <= k < 32 -> 0 <= p -> (p + 1) * 2 ^ k < 2 ^ 64 ->
  Z.shiftr (p * 2 ^ k) k = p
  /\ Z.shiftr (u64 (2 ^ k + 2 ^ k - 1)) k = 1
  /\ page_gap_head (p * 2 ^ k) k 0 = 0
  /\ page_gap_tail 1 (2 ^ k) (2 ^ k) 0 0 = 0
  /\ u64 (p + 0) = p
  /\ u64 (2 ^ k - 0 - 0) = 2 ^ k
  /\ u64 (p * 2 ^ k + 2 ^ k) = (p + 1) * 2 ^ k.
Proof.
  intros Hk Hp Hmax.
  assert (Hpos : 0 < 2 ^ k) by (apply Z.pow_pos_nonneg; lia).
  assert (Hp32 : 2 ^ k < 2 ^ 32) by (apply Z.pow_lt_mono_r; lia).
  split_and!.
  - rewrite Z.shiftr_div_pow2 by lia. apply Z.div_mul. lia.
  - rewrite u64_small by lia. rewrite Z.shiftr_div_pow2 by lia.
    symmetry. apply Z.div_unique with (r := 2 ^ k - 1); lia.
  - unfold page_gap_head. cbn [Z.eqb]. rewrite Z.shiftl_1_l.
    unfold u32. rewrite (Z.mod_small (2 ^ k)) by lia.
    rewrite Z.mod_small by lia.
    replace (2 ^ k - 1) with (Z.ones k) by (rewrite Z.ones_equiv; lia).
    rewrite Z.land_ones by lia. apply Z.mod_mul. lia.
  - unfold page_gap_tail. change (u64 (1 - 1) =? 0) with true. cbv iota.
    replace (2 ^ k - 2 ^ k - 0) with 0 by lia. reflexivity.
  - rewrite Z.add_0_r. apply u64_small. nia.
  - rewrite !Z.sub_0_r. apply u64_small. lia.
  - rewrite u64_small by nia. lia.
Qed.

Lemma read_live_page (file : H5FD_onion_t) (fs : filesystem)
  (rix : H5FD__onion_revision_index_t) (onion : H5FD_t)
  (e : H5FD__onion_index_entry) (buf : list Z) (k p : Z) :
  is_open_rw file = true ->
  0 <= k < 32 ->
  hdr_page_size (header file) = 2 ^ k ->
  aix_page_size_log2 (archival_index (rev_record file)) = k ->
  rev_index file = Some rix ->
  backing_onion file = Some onion ->
  0 <= p -> (p + 1) * 2 ^ k < 2 ^ 64 ->
  (p + 1) * 2 ^ k <= logi_eoa file ->
  H5FD_onion_revision_index_find rix p = Some e ->
  0 <= phys_addr e < 2 ^ 64 ->
  H5FDread onion (phys_addr e) (2 ^ k) fs = Some buf ->
  H5FD__onion_read file fs (p * 2 ^ k) (2 ^ k) = inr buf.
Proof.
  intros Hrw Hk Hps Hlog Hrix Honion Hp Hmax Heoa Hfind Haddr Hread.
  assert (Hpos : 0 < 2 ^ k) by (apply Z.pow_pos_nonneg; lia).
  destruct (whole_page_geometry k p Hk Hp Hmax)
    as (Hg1 & Hg2 & Hg3 & Hg4 & Hg5 & Hg6 & Hg7).
  unfold H5FD__onion_read. rewrite Hg7.
  destruct (Z.gtb_spec ((p + 1) * 2 ^ k) (logi_eoa file)); [lia|].
  destruct (Z.eqb_spec (2 ^ k) 0); [lia|].
  rewrite Hps, Hlog, Hg1, Hg2. cbv zeta.
  change (Z.to_nat 1) with 1%nat. cbn [read_pages].
  unfold read_page. rewrite Hg3, Hg4, Hg5, Hg6. cbv zeta.
  unfold live_find. rewrite Hrw, Hrix, Hfind.
  unfold read_onion. rewrite Honion, Z.add_0_r, u64_small by lia.
  rewrite Hread. reflexivity.
Qed.

(** X18.  Write then read of a whole page, in one session: in a
    file open for writing, H5FD__onion_write of one page-aligned page
    succeeds and H5FD__onion_read of the same page then returns the bytes
    written, and the logical end of file covers the page.  This holds when
    the page is written for the first time (no node of the revision index
    carries it: the page image goes to the end of the history) and when
    the revision index finds it (the image is rewritten in its slot, which
    has to lie within the addressable part of the onion file). *)
Theorem write_whole_page_then_read (file : H5FD_onion_t) (fs : filesystem)
  (rix : H5FD__onion_revision_index_t) (onion : H5FD_t) (data buf : list Z)
  (k p : Z) :
  is_open_rw file = true ->
  0 <= k < 32 ->
  hdr_page_size (header file) = 2 ^ k ->
  aix_page_size_log2 (archival_index (rev_record file)) = k ->
  rev_index file = Some rix ->
  revision_index_ok rix -> _hash_table_size_log2 rix < 63 ->
  rix_magic rix = H5FD__ONION_REVISION_INDEX_MAGIC ->
  rix_version rix = H5FD__ONION_REVISION_INDEX_VERSION_CURR ->
  backing_onion file = Some onion ->
  fs !! fd_name onion = Some data ->
  0 <= history_eof file -> history_eof file + 2 ^ k < 2 ^ 64 ->
  0 <= p -> (p + 1) * 2 ^ k < 2 ^ 64 ->
  (p + 1) * 2 ^ k <= logi_eoa file ->
  Z.of_nat (length buf) = 2 ^ k ->
  match H5FD_onion_revision_index_find rix p with
  | Some e => 0 <= phys_addr e /\ phys_addr e + 2 ^ k <= fd_eoa onion
              /\ phys_addr e < 2 ^ 64
  | None => forall node, node ∈ concat (_hash_table rix) -> logi_page node <> p
  end ->
  exists file' fs',
    H5FD__onion_write file fs (p * 2 ^ k) (2 ^ k) buf = (SUCCEED, file', fs')
    /\ H5FD__onion_read file' fs' (p * 2 ^ k) (2 ^ k) = inr buf
    /\ logi_eof file' = Z.max (logi_eof file) ((p + 1) * 2 ^ k).
Proof.
  intros Hrw Hk Hps Hlog Hrix Hok Hk63 Hm Hv Honion Hfs Heof0 Heof Hp Hmax
    Heoa Hlen Hslot.
  assert (Hpos : 0 < 2 ^ k) by (apply Z.pow_pos_nonneg; lia).
  destruct (whole_page_geometry k p Hk Hp Hmax)
    as (Hg1 & Hg2 & Hg3 & Hg4 & Hg5 & Hg6 & Hg7).
  unfold H5FD__onion_write. rewrite Hrw. cbn [negb].
  destruct (Z.eqb_spec (2 ^ k) 0); [lia|].
  rewrite Hps, Hlog, Hg1, Hg2. cbv zeta.
  change (Z.to_nat 1) with 1%nat. cbn [write_pages].
  unfold write_page. cbn [w_file w_fs w_buf w_bytes_to_write w_page_buf].
  rewrite Hrix, Honion, Hg3, Hg4, Hg5, Hg6. cbv zeta.
  change (Z.lor 0 0 =? 0) with true. change (0 =? 0) with true.
  cbn [negb orb].
  destruct file as [fa0 canon0 onion0 recov0 nrecov0 rw0 pah0 hdr0 whs0 rec0
                    rix0 heof0 oeof0 eoa0 eof0].
  cbn [is_open_rw header rev_record rev_index backing_onion history_eof
       logi_eoa logi_eof] in *.
  destruct (H5FD_onion_revision_index_find rix p) as [e|] eqn:Hfind.
  - destruct Hslot as (He0 & He1 & He2).
    destruct (H5FD_write_then_read onion (phys_addr e) (2 ^ k) buf data fs
                Hfs Hpos He0 He1 Hlen) as (fs' & Hw & Hr & _).
    rewrite Hw. eexists _, fs'. split; [reflexivity|].
    cbn [w_file]. rewrite Hg7. split; [|reflexivity].
    eapply (read_live_page _ fs' rix onion e buf k p); try eassumption;
      try lia.
  - msimpl.
    set (onion' := H5FD_set_eoa onion (u64 (heof0 + 2 ^ k))).
    destruct (H5FD_write_then_read onion' heof0 (2 ^ k) buf data
                fs) as (fs' & Hw & Hr & _); try assumption.
    { cbn [onion' H5FD_set_eoa fd_eoa]. rewrite u64_small by lia. lia. }
    rewrite Hw.
    destruct (insert_fresh_succeeds rix
                {| logi_page := p; phys_addr := heof0 |})
      as [rix' Hins]; try assumption.
    rewrite Hins. cbn [is_fail].
    eexists _, fs'. split; [reflexivity|].
    cbn [w_file]. rewrite Hg7. split; [|reflexivity].
    destruct (insert_spec rix _ rix' Hok Hk63 Hins) as (_ & _ & Hf & _).
    cbn [logi_page] in Hf.
    eapply (read_live_page _ fs' rix' onion' _ buf k p); try eassumption;
      try reflexivity; try (cbn [phys_addr]; lia).
Qed.


Lemma write_whole_page_then_read_witness :
  exists file' fs',
    H5FD__onion_write created_file created_store (1 * 2 ^ 9) (2 ^ 9)
      (replicate 512 170)
    = (SUCCEED, file', fs')
    /\ H5FD__onion_read file' fs' (1 * 2 ^ 9) (2 ^ 9) = inr (replicate 512 170)
    /\ logi_eof file' = Z.max (logi_eof created_file) ((1 + 1) * 2 ^ 9).
Proof.
  apply (write_whole_page_then_read created_file created_store
           (default fresh_index (rev_index created_file))
           (default {| fd_name := ""; fd_eoa := 0 |}
              (backing_onion created_file))
           (default [] (created_store !! "f.h5.onion"%string))
           (replicate 512 170) 9 1);
    try (vm_compute; first [reflexivity | discriminate
                           | split; discriminate
                           | split_and!; first [reflexivity | discriminate]]).
  vm_compute. intros node H. inversion H.
Defined.

Section Ingest.
Variable cksum : list Z -> Z.

Lemma encoded_revision_record_length r l u :
  revision_record_in_range r l u ->
  Z.of_nat (length (encoded_revision_record cksum r))
  = 76 + 20 * Z.of_nat (length l) + username_size r + comment_size r.
Proof.
  intros Hin.
  pose proof (record_encode_shape cksum r l u Hin) as Henc. cbv zeta in Henc.
  destruct Hin as (_ & _ & _ & Ht & _ & _ & _ & _ & _ & _ & _ & _ & _ & Husl
                   & _ & Hcsl & _).
  unfold encoded_revision_record. rewrite Henc. cbn [fst snd].
  rewrite !length_app, (record_fixed_part_length r Ht).
  rewrite (concat_encode_length _ 20)
    by apply (encode_index_entry_length cksum).
  unfold UINT32ENCODE. rewrite le_encode_length. lia.
Qed.

Lemma injest_read_record_stored r0 raw_file whs fs pointers i rp r l u :
  whs_record_pointer_list whs = Some pointers ->
  pointers !! Z.to_nat i = Some rp ->
  revision_record_in_range r l u ->
  rp_record_size rp = Z.of_nat (length (encoded_revision_record cksum r)) ->
  H5FDread raw_file (rp_phys_addr rp) (rp_record_size rp) fs
  = Some (encoded_revision_record cksum r) ->
  record_unfilled r0 ->
  injest_read_record cksum r0 raw_file whs i fs
  = inr (encoded_revision_record cksum r, rp_record_size rp,
         first_pass_of cksum r0 r (Z.of_nat (length l))).
Proof.
  intros Hl Hi Hin Hsize Hread (Hn0 & Hus0 & Hu0 & Hcs0 & Hc0).
  unfold injest_read_record, whs_at. rewrite Hl. cbn [from_option id].
  rewrite Hi. cbn [from_option id]. rewrite Hread.
  rewrite (record_decode_first_pass cksum r l u r0 Hin Hn0 Hus0 Hu0 Hcs0 Hc0).
  fold (first_pass_of cksum r0 r (Z.of_nat (length l))).
  pose proof (record_encode_shape cksum r l u Hin) as Henc. cbv zeta in Henc.
  destruct (record_tail_fields cksum r l u Hin) as (_ & _ & Hck & _).
  rewrite Hsize, (encoded_revision_record_length r l u Hin), Z.eqb_refl.
  cbn [negb].
  unfold encoded_revision_record at 1. rewrite Henc. cbn [fst snd].
  replace (76 + 20 * Z.of_nat (length l) + username_size r + comment_size r
           - 4)
    with (72 + 20 * Z.of_nat (length l) + username_size r + comment_size r)
    by lia.
  rewrite Hck. cbn [first_pass_of rec_checksum]. rewrite Henc. cbn [snd].
  rewrite Z.eqb_refl. cbn [negb]. reflexivity.
Qed.

(** The structure between two probes of the search: the sizes are put
    back to zero. *)
Lemma reset_unfilled r0 r n :
  record_unfilled
    (rec_set_comment
       (rec_set_username
          (rec_set_archival_index (first_pass_of cksum r0 r n)
             (aix_set_n_entries
                (archival_index (first_pass_of cksum r0 r n)) 0))
          0 (username (first_pass_of cksum r0 r n)))
       0 (comment (first_pass_of cksum r0 r n))).
Proof. repeat split. Qed.

Lemma reset_same_tags r0 r n :
  same_tags r0
    (rec_set_comment
       (rec_set_username
          (rec_set_archival_index (first_pass_of cksum r0 r n)
             (aix_set_n_entries
                (archival_index (first_pass_of cksum r0 r n)) 0))
          0 (username (first_pass_of cksum r0 r n)))
       0 (comment (first_pass_of cksum r0 r n))).
Proof. repeat split. Qed.

Lemma same_tags_trans r0 r1 r2 :
  same_tags r0 r1 -> same_tags r1 r2 -> same_tags r0 r2.
Proof.
  intros (H1 & H2 & H3 & H4) (K1 & K2 & K3 & K4).
  repeat split; congruence.
Qed.

Section Search.
Variable raw_file : H5FD_t.
Variable whs : H5FD__onion_whole_history.
Variable fs : filesystem.
Variable pointers : list H5FD__onion_record_pointer.
Variable recs : list H5FD__onion_revision_record.
Hypothesis Hl : whs_record_pointer_list whs = Some pointers.
Hypothesis Hstored : Forall2 (record_stored cksum raw_file fs) pointers recs.
Hypothesis Hsorted : forall i j ri rj,
  recs !! i = Some ri -> recs !! j = Some rj -> (i < j)%nat ->
  revision_id ri < revision_id rj.
Hypothesis Hmax : Z.of_nat (length pointers) < 2 ^ 64.
Variable t : nat.
Variable rt : H5FD__onion_revision_record.
Variable rpt : H5FD__onion_record_pointer.
Variable lt : list H5FD__onion_index_entry.
Variable ut : list Z.
Hypothesis Ht : recs !! t = Some rt.
Hypothesis Hpt : pointers !! t = Some rpt.
Hypothesis Hint : revision_record_in_range rt lt ut.

Lemma stored_at i :
  0 <= i < Z.of_nat (length pointers) ->
  exists rp r l u,
    pointers !! Z.to_nat i = Some rp /\ recs !! Z.to_nat i = Some r
    /\ revision_record_in_range r l u
    /\ rp_record_size rp = Z.of_nat (length (encoded_revision_record cksum r))
    /\ H5FDread raw_file (rp_phys_addr rp) (rp_record_size rp) fs
       = Some (encoded_revision_record cksum r).
Proof.
  intros Hi.
  destruct (lookup_lt_is_Some_2 pointers (Z.to_nat i) ltac:(lia)) as [rp Hrp].
  destruct (Forall2_lookup_l _ _ _ _ _ Hstored Hrp)
    as (r & Hr & (l & u & Hin) & Hsize & Hread).
  exists rp, r, l, u. auto.
Qed.

Lemma injest_search_loop_finds fuel : forall lo hi r_out,
  0 <= lo <= Z.of_nat t -> Z.of_nat t <= hi < Z.of_nat (length pointers) ->
  (Z.to_nat (hi - lo) <= fuel)%nat ->
  record_unfilled r_out ->
  exists r1,
    same_tags r_out r1 /\ record_unfilled r1 /\
    ((exists lo' range',
        injest_search_loop cksum fuel r_out raw_file whs (revision_id rt) fs
          lo hi (hi - lo)
        = inr (Some (encoded_revision_record cksum rt, rp_record_size rpt),
               first_pass_of cksum r1 rt (Z.of_nat (length lt)), lo', range')
        /\ 0 < range')
     \/ injest_search_loop cksum fuel r_out raw_file whs (revision_id rt) fs
          lo hi (hi - lo)
        = inr (None, r1, Z.of_nat t, 0)).
Proof.
  induction fuel as [|fuel IH]; intros lo hi r_out Hlo Hhi Hfuel Hun.
  - assert (hi - lo = 0) as -> by lia. assert (lo = Z.of_nat t) as -> by lia.
    exists r_out. split; [done|]. split; [done|]. right. reflexivity.
  - cbn [injest_search_loop].
    destruct (Z.gtb_spec (hi - lo) 0) as [Hr|Hr].
    2:{ assert (lo = Z.of_nat t) as -> by lia.
        exists r_out. split; [done|]. split; [done|]. right.
        f_equal. f_equal. lia. }
    set (mid := (hi - lo) / 2 + lo).
    assert (Hmid : lo <= mid < hi).
    { unfold mid. pose proof (Z.div_pos (hi - lo) 2 ltac:(lia) ltac:(lia)).
      pose proof (Z.div_lt (hi - lo) 2 ltac:(lia) ltac:(lia)). lia. }
    rewrite (u64_small mid) by lia.
    destruct (stored_at mid ltac:(lia))
      as (rpm & rm & lm & um & Hpm & Hrm & Hinm & Hsizem & Hreadm).
    rewrite (injest_read_record_stored r_out raw_file whs fs pointers mid
               rpm rm lm um Hl Hpm Hinm Hsizem Hreadm Hun).
    set (fp := first_pass_of cksum r_out rm (Z.of_nat (length lm))).
    set (r' := rec_set_comment _ 0 _).
    change (revision_id r') with (revision_id rm).
    change (revision_id fp) with (revision_id rm).
    assert (Hun' : record_unfilled r') by apply reset_unfilled.
    assert (Htag' : same_tags r_out r') by apply reset_same_tags.
    clearbody r'.
    destruct (Z.eqb_spec (revision_id rt) (revision_id rm)) as [Heq|Hne].
    { (* the probe is the record looked for *)
      assert (Z.to_nat mid = t) as Hmt.
      { destruct (Nat.lt_trichotomy (Z.to_nat mid) t) as [H|[H|H]]; [|done|].
        * pose proof (Hsorted _ _ _ _ Hrm Ht H). lia.
        * pose proof (Hsorted _ _ _ _ Ht Hrm H). lia. }
      rewrite Hmt in Hpm, Hrm.
      assert (rm = rt) as -> by congruence.
      assert (rpm = rpt) as -> by congruence.
      assert (lm = lt) as ->.
      { destruct Hinm as (_ & _ & _ & _ & _ & _ & _ & Ha & _).
        destruct Hint as (_ & _ & _ & _ & _ & _ & _ & Hb & _). congruence. }
      exists r_out. split; [done|]. split; [done|]. left.
      exists lo, (hi - lo). split; [reflexivity|lia]. }
    destruct (Z.ltb_spec (revision_id rm) (revision_id rt)) as [Hlt|Hge].
    + (* the record is further up *)
      assert (Z.to_nat mid < t)%nat as Hmt.
      { destruct (Nat.lt_trichotomy (Z.to_nat mid) t) as [H|[H|H]]; [done| |].
        * rewrite H in Hrm. assert (rm = rt) by congruence. subst. lia.
        * pose proof (Hsorted _ _ _ _ Ht Hrm H). lia. }
      destruct (Z.eqb_spec mid hi); [lia|].
      rewrite (u64_small (mid + 1)), (u64_small (hi - (mid + 1))) by lia.
      destruct (IH (mid + 1) hi r' ltac:(lia) ltac:(lia) ltac:(lia) Hun')
        as (r1 & Htag & Hun1 & Hres).
      exists r1. split; [eapply same_tags_trans; eassumption|].
      split; [done|]. exact Hres.
    + (* the record is further down *)
      assert (t < Z.to_nat mid)%nat as Hmt.
      { destruct (Nat.lt_trichotomy (Z.to_nat mid) t) as [H|[H|H]]; [| |done].
        * pose proof (Hsorted _ _ _ _ Hrm Ht H). lia.
        * rewrite H in Hrm. assert (rm = rt) by congruence. subst. lia. }
      destruct (Z.eqb_spec mid lo); [lia|].
      rewrite (u64_small (mid - 1)), (u64_small (mid - 1 - lo)) by lia.
      destruct (IH lo (mid - 1) r' ltac:(lia) ltac:(lia) ltac:(lia) Hun')
        as (r1 & Htag & Hun1 & Hres).
      exists r1. split; [eapply same_tags_trans; eassumption|].
      split; [done|]. exact Hres.
Qed.

End Search.

Lemma injest_second_pass r1 rt lt ut :
  revision_record_in_range rt lt ut ->
  record_unfilled r1 -> same_tags rt r1 ->
  H5FD_onion_revision_record_decode cksum (encoded_revision_record cksum rt)
    (alloc_for_second_pass
       (first_pass_of cksum r1 rt (Z.of_nat (length lt))))
  = (Z.of_nat (length (encoded_revision_record cksum rt)),
     rec_set_checksum rt
       (snd (H5FD_onion_revision_record_encode cksum rt))).
Proof.
  intros Hin (Hn0 & Hus0 & Hu0 & Hcs0 & Hc0) (Hm & Hv & Ham & Hav).
  destruct (record_decode_two_passes cksum rt r1 lt ut Hin Hn0 Hus0 Hu0 Hcs0
              Hc0) as (_ & Hlen & _ & H2).
  rewrite (record_decode_first_pass cksum rt lt ut r1 Hin Hn0 Hus0 Hu0 Hcs0
             Hc0) in H2.
  cbn [snd] in H2. fold (first_pass_of cksum r1 rt (Z.of_nat (length lt))) in H2.
  rewrite H2, Hlen. f_equal.
  destruct Hin as (_ & _ & _ & _ & _ & _ & _ & Hl & Hn & _ & _ & Hu & _).
  rewrite Hm, Hv, Ham, Hav, <- Hn, <- Hl, <- Hu.
  destruct rt as [? ? ? ? ? ? ? ? ? [] ? ? ?]. reflexivity.
Qed.

Lemma injest_revision_record_stored
  (r0 : H5FD__onion_revision_record) (raw_file : H5FD_t)
  (whs : H5FD__onion_whole_history) (fs : filesystem)
  (pointers : list H5FD__onion_record_pointer)
  (recs : list H5FD__onion_revision_record)
  (t : nat) (rt : H5FD__onion_revision_record)
  (rp_last : H5FD__onion_record_pointer) :
  whs_record_pointer_list whs = Some pointers ->
  whs_n_revisions whs = Z.of_nat (length pointers) ->
  Z.of_nat (length pointers) < 2 ^ 64 ->
  Forall2 (record_stored cksum raw_file fs) pointers recs ->
  (forall i j ri rj,
     recs !! i = Some ri -> recs !! j = Some rj -> (i < j)%nat ->
     revision_id ri < revision_id rj) ->
  last pointers = Some rp_last ->
  rp_phys_addr rp_last + rp_record_size rp_last <= H5FD_get_eof raw_file fs ->
  recs !! t = Some rt ->
  record_unfilled r0 -> same_tags rt r0 ->
  H5FD__onion_injest_revision_record cksum r0 raw_file whs (revision_id rt) fs
  = (SUCCEED,
     rec_set_checksum rt (snd (H5FD_onion_revision_record_encode cksum rt))).
Proof.
  intros Hl Hn Hmax Hstored Hsorted Hlast Heof Ht Hun Htag.
  pose proof (Forall2_length _ _ _ Hstored) as Hlen.
  pose proof (lookup_lt_Some _ _ _ Ht) as Htlt.
  destruct (lookup_lt_is_Some_2 pointers t ltac:(lia)) as [rpt Hpt].
  destruct (Forall2_lookup_lr _ _ _ _ _ _ Hstored Hpt Ht)
    as ((lt & ut & Hint) & Hsize & Hread).
  unfold H5FD__onion_injest_revision_record.
  rewrite Hn. set (n := Z.of_nat (length pointers)) in *.
  rewrite (u64_small (n - 1)) by lia. cbv zeta.
  assert (Hat : whs_at whs (n - 1) = rp_last).
  { unfold whs_at. rewrite Hl. cbn [from_option id].
    rewrite last_lookup in Hlast.
    replace (Z.to_nat (n - 1)) with (Nat.pred (length pointers)) by lia.
    rewrite Hlast. reflexivity. }
  rewrite Hat.
  destruct (Z.ltb_spec (H5FD_get_eof raw_file fs)
              (rp_phys_addr rp_last + rp_record_size rp_last)); [lia|].
  destruct (injest_search_loop_finds raw_file whs fs pointers recs Hl Hstored
              Hsorted Hmax t rt rpt lt ut Ht Hpt Hint (Z.to_nat (n - 1)) 0
              (n - 1) r0 ltac:(lia) ltac:(lia) ltac:(lia) Hun)
    as (r1 & Htag1 & Hun1 & [(lo' & range' & Hloop & Hrange)|Hloop]).
  all: rewrite Z.sub_0_r in Hloop; rewrite Hloop.
  - destruct (Z.eqb_spec range' 0); [lia|]. cbn [from_option id].
    fold (alloc_for_second_pass
            (first_pass_of cksum r1 rt (Z.of_nat (length lt)))).
    rewrite (injest_second_pass r1 rt lt ut Hint Hun1)
      by (eapply same_tags_trans; eassumption).
    rewrite Hsize, Z.eqb_refl. reflexivity.
  - change (0 =? 0) with true. cbv iota.
    rewrite (injest_read_record_stored r1 raw_file whs fs pointers
               (Z.of_nat t) rpt rt lt ut Hl) by (rewrite ?Nat2Z.id; assumption).
    change (revision_id (first_pass_of cksum r1 rt (Z.of_nat (length lt))))
      with (revision_id rt).
    rewrite Z.eqb_refl. cbn [negb from_option id].
    fold (alloc_for_second_pass
            (first_pass_of cksum r1 rt (Z.of_nat (length lt)))).
    rewrite (injest_second_pass r1 rt lt ut Hint Hun1)
      by (eapply same_tags_trans; eassumption).
    rewrite Hsize, Z.eqb_refl. reflexivity.
Qed.

(** X19.  H5FD__onion_injest_revision_record finds every record of
    the history: when each record pointer of the whole-history leads to
    the encoding of a record (fields within their C widths), the revision
    ids ascend along the list and the last record lies within the file,
    the binary search for the id of any of these records succeeds, and the
    two decoding passes return that record, with the checksum of its
    encoding. *)
Theorem injest_revision_record_finds
  (r0 : H5FD__onion_revision_record) (raw_file : H5FD_t)
  (whs : H5FD__onion_whole_history) (fs : filesystem)
  (pointers : list H5FD__onion_record_pointer)
  (recs : list H5FD__onion_revision_record)
  (t : nat) (rt : H5FD__onion_revision_record)
  (rp_last : H5FD__onion_record_pointer) :
  whs_record_pointer_list whs = Some pointers ->
  whs_n_revisions whs = Z.of_nat (length pointers) ->
  Z.of_nat (length pointers) < 2 ^ 64 ->
  Forall2 (record_stored cksum raw_file fs) pointers recs ->
  (forall i j ri rj,
     recs !! i = Some ri -> recs !! j = Some rj -> (i < j)%nat ->
     revision_id ri < revision_id rj) ->
  last pointers = Some rp_last ->
  rp_phys_addr rp_last + rp_record_size rp_last <= H5FD_get_eof raw_file fs ->
  recs !! t = Some rt ->
  record_unfilled r0 -> same_tags rt r0 ->
  H5FD__onion_injest_revision_record cksum r0 raw_file whs (revision_id rt) fs
  = (SUCCEED,
     rec_set_checksum rt (snd (H5FD_onion_revision_record_encode cksum rt))).
Proof. exact (injest_revision_record_stored r0 raw_file whs fs pointers recs t rt rp_last). Qed.

End Ingest.


Lemma second_record_in_range :
  revision_record_in_range second_record [entry 1 40; entry 2 552]
    [117; 115; 101; 114; 0].
Proof.
  unfold revision_record_in_range.
  split_and!; try reflexivity;
    try ((apply Z.leb_le || apply Z.ltb_lt); vm_compute; reflexivity).
  repeat constructor;
    (apply Z.leb_le || apply Z.ltb_lt); vm_compute; reflexivity.
Defined.

Lemma injest_revision_record_finds_witness :
  H5FD__onion_injest_revision_record fletcher32 record_blank
    {| fd_name := "f.h5.onion"; fd_eoa := 282 |} two_record_history
    (revision_id second_record) two_record_store
  = (SUCCEED,
     rec_set_checksum second_record
       (snd (H5FD_onion_revision_record_encode fletcher32 second_record))).
Proof.
  apply (injest_revision_record_finds fletcher32 record_blank
           {| fd_name := "f.h5.onion"; fd_eoa := 282 |} two_record_history
           two_record_store two_record_pointers
           [sample_record; second_record] 1 second_record
           {| rp_phys_addr := 161; rp_record_size := 121; rp_checksum := 0 |}).
  - reflexivity.
  - reflexivity.
  - vm_compute. reflexivity.
  - constructor; [|constructor; [|constructor]].
    + split; [eexists _, _; exact sample_record_in_range|].
      split; vm_compute; reflexivity.
    + split; [eexists _, _; exact second_record_in_range|].
      split; vm_compute; reflexivity.
  - intros [|[|i]] [|[|j]] ri rj Hi Hj Hij;
      try discriminate Hi; try discriminate Hj; try lia.
    injection Hi as <-. injection Hj as <-. reflexivity.
  - reflexivity.
  - vm_compute. discriminate.
  - reflexivity.
  - repeat split.
  - repeat split.
Defined.

(** *** Closing a file *)





Section Closing.
Variable cksum : list Z -> Z.

End Closing.



(** *** Opening a revision *)

Section Reopening.
Variable cksum : list Z -> Z.

(** X21.  Opening a revision for reading: on an onion file that
    holds a header without write lock, the whole-history the header points
    to and, behind each record pointer, the record of the revision with
    that position as its id, a read-only H5FD__onion_open asked for
    revision [t], or for the latest revision, succeeds without changing the
    store.  The handle carries the stored header and the record of that
    revision exactly as it was encoded (archival index, user name and
    comment included); the logical end of file is the one of the record,
    and no revision index is set up. *)
Theorem open_revision_read_only (env : environment) (filename : string)
  (flags : Z) (fa_ : H5FD_onion_fapl_info_t) (fs : filesystem)
  (canon_data data : list Z) (hdr : H5FD__onion_history_header)
  (pointers : list H5FD__onion_record_pointer)
  (recs : list H5FD__onion_revision_record)
  (t : nat) (rt : H5FD__onion_revision_record) :
  let name_onion := (filename +:+ ".onion")%string in
  fa_magic fa_ = H5FD_ONION_FAPL_INFO_MAGIC ->
  store_target fa_ = H5FD_ONION_STORE_TARGET_ONION ->
  has_flag flags H5F_ACC_RDWR = false ->
  has_flag flags (Z.lor H5F_ACC_CREAT H5F_ACC_TRUNC) = false ->
  fs !! filename = Some canon_data ->
  onion_file_holds cksum name_onion fs data hdr pointers recs ->
  has_flag (hdr_flags hdr) H5FD__ONION_HEADER_FLAG_WRITE_LOCK = false ->
  recs !! t = Some rt ->
  fa_revision_id fa_ = Z.of_nat t
  \/ (fa_revision_id fa_ = H5FD_ONION_FAPL_INFO_REVISION_ID_LATEST
      /\ S t = length recs) ->
  exists file,
    H5FD__onion_open cksum env filename flags (Some fa_) fs = (inr file, fs)
    /\ is_open_rw file = false
    /\ rev_index file = None
    /\ header file = hdr
    /\ rev_record file
       = rec_set_checksum rt
           (snd (H5FD_onion_revision_record_encode cksum rt))
    /\ logi_eof file = rec_logi_eof rt
    /\ logi_eoa file = 0
    /\ origin_eof file = hdr_origin_eof hdr
    /\ backing_canon file = Some {| fd_name := filename; fd_eoa := 0 |}
    /\ backing_onion file
       = Some {| fd_name := name_onion;
                 fd_eoa := hdr_whole_history_addr hdr
                           + hdr_whole_history_size hdr |}.
Proof.
  intros name_onion Hmagic Htarget Hrdwr Hflags Hcanon
    (Honion & Hhdr & Haddr & Hsize & Hmax & Hrange & Hwhs & Hstored & Hids
     & Hlast) Hlock Ht Hrev.
  destruct (has_flag_lor _ _ _ Hflags) as [Hcreat Htrunc].
  pose proof (Forall2_length _ _ _ Hstored) as Hlen.
  pose proof (lookup_lt_Some _ _ _ Ht) as Htlt.
  assert (Hall : has_flag flags
            (Z.lor H5F_ACC_RDWR (Z.lor H5F_ACC_CREAT H5F_ACC_TRUNC)) = false).
  { revert Hrdwr Hflags. unfold has_flag.
    rewrite !negb_false_iff, !Z.eqb_eq,
      (Z.land_lor_distr_r flags H5F_ACC_RDWR).
    intros -> ->. reflexivity. }
  eassert (Hr : H5FD__onion_open cksum env filename flags (Some fa_) fs
                = (inr _, fs)).
  { unfold H5FD__onion_open, H5Pget_fapl_onion.
    rewrite Hmagic, Z.eqb_refl. cbn [negb]. rewrite Htarget.
    unfold open_body. rewrite Hflags, Hall.
    unfold open_existing. rewrite Hrdwr.
    msimpl.
    rewrite (open_backing_existing _ _ _ _ _ Hcanon Htrunc). msimpl.
    rewrite (open_backing_existing _ _ _ _ _ Honion Htrunc). msimpl.
    erewrite injest_history_header_stored
      by first [exact Honion | exact Hhdr | done].
    msimpl. rewrite Hlock. msimpl.
    rewrite Hsize.
    rewrite (injest_whole_history_encoded cksum name_onion 40
               (hdr_whole_history_addr hdr) fs data
               (whole_history_of pointers) _ pointers)
      by first [ reflexivity | assumption | rewrite <- Hsize; exact Hwhs ].
    msimpl. set (n := Z.of_nat (length pointers)) in *.
    assert (Hrevn : (fa_revision_id fa_ >=? n)
                    && negb (fa_revision_id fa_
                             =? H5FD_ONION_FAPL_INFO_REVISION_ID_LATEST)
                    = false).
    { destruct Hrev as [->|[-> _]].
      - destruct (Z.geb_spec (Z.of_nat t) n); [lia|reflexivity].
      - rewrite Z.eqb_refl. apply andb_false_r. }
    rewrite Hrevn. msimpl.
    destruct (Z.gtb_spec n 0) as [_|]; [|lia].
    assert (Hmin : Z.min (fa_revision_id fa_) (u64 (n - 1)) = revision_id rt).
    { destruct (Hids _ _ Ht) as [-> _]. rewrite u64_small by lia.
      destruct Hrev as [->|[-> Hlast']]; [lia|].
      unfold H5FD_ONION_FAPL_INFO_REVISION_ID_LATEST. lia. }
    rewrite Hmin.
    destruct (last pointers) as [rp_last|] eqn:Hlp.
    2:{ apply last_None in Hlp. subst pointers. cbn [length] in Hlen. lia. }
    rewrite (injest_revision_record_stored cksum _ _ _ fs pointers recs t rt
               rp_last); first last.
    { destruct (Hids _ _ Ht) as [_ (H1 & H2 & H3 & H4)]. repeat split; done. }
    { repeat split. }
    { exact Ht. }
    { unfold H5FD_get_eof. cbn [fd_name]. rewrite Honion. cbn [from_option id].
      apply Hlast. reflexivity. }
    { exact Hlp. }
    { intros i j ri rj Hi Hj Hij.
      destruct (Hids _ _ Hi) as [-> _]. destruct (Hids _ _ Hj) as [-> _]. lia. }
    { rewrite <- Hsize. exact Hstored. }
    { exact Hmax. }
    { reflexivity. }
    { reflexivity. }
    msimpl. reflexivity. }
  eexists. split; [exact Hr|].
  rewrite Hsize.
  destruct (has_flag (hdr_flags hdr) H5FD__ONION_HEADER_FLAG_PAGE_ALIGNMENT);
    cbn [is_open_rw rev_index header rev_record logi_eof logi_eoa origin_eof
         backing_canon backing_onion];
    split_conj; try reflexivity; by destruct rt.
Qed.

End Reopening.


Lemma closed_record_in_range :
  revision_record_in_range closed_record [entry 1 40] [117; 115; 101; 114; 0].
Proof.
  unfold revision_record_in_range. split_conj.
  all: first
    [ (apply Z.leb_le || apply Z.ltb_lt); vm_compute; reflexivity
    | repeat constructor;
      (apply Z.leb_le || apply Z.ltb_lt); vm_compute; reflexivity
    | vm_compute; reflexivity
    | vm_compute; discriminate ].
Defined.

Lemma closed_store_holds :
  onion_file_holds fletcher32 "f.h5.onion" closed_store closed_onion_file
    closed_header closed_pointers [closed_record].
Proof.
  unfold onion_file_holds. split_conj.
  - vm_compute. reflexivity.
  - vm_compute. reflexivity.
  - apply Z.leb_le. vm_compute. reflexivity.
  - vm_compute. reflexivity.
  - apply Z.ltb_lt. vm_compute. reflexivity.
  - constructor; [|constructor]. unfold record_pointer_in_range. split_conj.
    all: (apply Z.leb_le || apply Z.ltb_lt); vm_compute; reflexivity.
  - vm_compute. reflexivity.
  - constructor; [|constructor]. split; [|split].
    + eexists _, _. exact closed_record_in_range.
    + vm_compute. reflexivity.
    + vm_compute. reflexivity.
  - intros [|i] r Hr; [|discriminate Hr]. change (Some closed_record = Some r) in Hr.
    apply (inj Some) in Hr. subst r.
    split; [vm_compute; reflexivity|].
    unfold same_tags. split_conj; vm_compute; reflexivity.
  - intros rp Hrp. change (Some (committed_pointer fletcher32 written_file
                    (Z.of_nat (length (encoded_revision_record fletcher32
                                         closed_record)))) = Some rp) in Hrp.
    apply (inj Some) in Hrp. subst rp. apply Z.leb_le. vm_compute.
    reflexivity.
Defined.

Lemma open_revision_read_only_witness :
  exists file,
    H5FD__onion_open fletcher32 sample_env "f.h5" H5F_ACC_RDONLY
      (Some (sample_fapl 0)) closed_store = (inr file, closed_store)
    /\ is_open_rw file = false
    /\ rev_index file = None
    /\ header file = closed_header
    /\ rev_record file
       = rec_set_checksum closed_record
           (snd (H5FD_onion_revision_record_encode fletcher32 closed_record))
    /\ logi_eof file = rec_logi_eof closed_record
    /\ logi_eoa file = 0
    /\ origin_eof file = hdr_origin_eof closed_header
    /\ backing_canon file = Some {| fd_name := "f.h5"; fd_eoa := 0 |}
    /\ backing_onion file
       = Some {| fd_name := ("f.h5" +:+ ".onion")%string;
                 fd_eoa := hdr_whole_history_addr closed_header
                           + hdr_whole_history_size closed_header |}.
Proof.
  apply (open_revision_read_only fletcher32 sample_env "f.h5" H5F_ACC_RDONLY
           (sample_fapl 0) closed_store ONIONEOF closed_onion_file
           closed_header closed_pointers [closed_record] 0%nat closed_record).
  - reflexivity.
  - reflexivity.
  - reflexivity.
  - reflexivity.
  - vm_compute. reflexivity.
  - exact closed_store_holds.
  - vm_compute. reflexivity.
  - reflexivity.
  - left. reflexivity.
Defined.
